(** * GATT client procedure engine of the NimBLE host (ble_gattc.c)

    A shallow embedding of
    [components/bt/host/nimble/nimble/nimble/host/src/ble_gattc.c]
    together with the properties its specification states about it.

    Conventions of the embedding.

    - C integers are [Z]; every narrowing the C code performs (an
      [uint16_t] field, an [uint8_t] counter, the [int32_t] tick
      difference) is written out with [u8], [u16], [u32] and [s32].
    - A procedure record lives in a pool block.  Blocks are addressed by
      [addr]; the heap [mem] maps the address of every allocated block to
      its contents, and a freed block is absent from it.  The intrusive
      [STAILQ] links are the [next] field of the cells: lists are walked
      and relinked through the heap exactly as the queue macros do, so
      that what a traversal sees after a record has been relinked or freed
      is the heap's answer and not an assumption.
    - The code outside ble_gattc.c is taken as given: constants of the
      host headers and read-only queries are fields of a [platform];
      calls with an outcome the engine reacts to (ATT transmits,
      application callbacks, packet buffer allocation) take their result
      from a script carried by the state and leave an [event] in [trace].
    - An application callback is opaque: it is recorded with its arguments
      and hands back the next scripted return value.  Callbacks that call
      back into the engine are outside this model, and so is whatever
      ble_gap_terminate, ble_gap_notify_tx_event and
      ble_gatts_send_next_indicate do beyond being called.
    - The modelled build has the GATT client and server compiled in and
      every BLE_GATT_* procedure enabled (the [#if !MYNEWT_VAL(...)]
      stubs returning BLE_HS_ENOTSUP are not taken, and
      BLE_INCL_SVC_DISCOVERY is on), BLE_GATT_CACHING,
      BLE_GATTC_PROC_PREEMPTION_PROTECT and BLE_HS_DEBUG off (assertions
      and the list walk of ble_gattc_dbg_assert_proc_not_inserted compile
      to nothing).  BLE_GATTC_AUTO_PAIR is a switch of the platform since
      it changes the code of ble_gattc_rx_err, ble_gattc_write and
      ble_gattc_proc_free.  Statistics counters and log output are not
      modelled; the reads that compute the arguments of a log call
      are. *)

From Stdlib Require Import ZArith Lia List Bool Sorted.
From stdpp Require Import base option list gmap.

Local Open Scope Z_scope.

(** ** Machine integers *)

Definition u8 (x : Z) : Z := x mod 2 ^ 8.
Definition u16 (x : Z) : Z := x mod 2 ^ 16.
Definition u32 (x : Z) : Z := x mod 2 ^ 32.

(** Conversion of a 32-bit pattern to [int32_t]. *)
Definition s32 (x : Z) : Z :=
  let y := x mod 2 ^ 32 in if y <? 2 ^ 31 then y else y - 2 ^ 32.

(** ** Data carried by the engine *)

(** An mbuf chain is the sequence of its payload bytes;
    [OS_MBUF_PKTLEN] is its length. *)
Definition os_mbuf := list Z.

Definition OS_MBUF_PKTLEN (om : os_mbuf) : Z := Z.of_nat (length om).

(** A function pointer or a [void *]: [None] is NULL. *)
Definition fnptr := option Z.

Inductive ble_uuid_any_t :=
| uuid16 (value : Z)
| uuid32 (value : Z)
| uuid128 (value : list Z).

(** [struct ble_gatt_error], as handed to the application. *)
Record ble_gatt_error := { status : Z; att_handle : Z }.

(** [struct ble_gatt_attr]. *)
Record ble_gatt_attr := { handle : Z; offset : Z; om : option os_mbuf }.

(** [struct ble_gatt_svc].  The handlers pass the address of a local that
    they fill step by step; a field that was not assigned yet is [None]. *)
Record ble_gatt_svc :=
  { start_handle : option Z; end_handle : option Z;
    uuid : option ble_uuid_any_t }.

(** [struct ble_att_read_group_type_adata]: one attribute-data entry of a
    Read By Group Type response. *)
Record ble_att_read_group_type_adata :=
  { adata_att_handle : Z; adata_end_group_handle : Z;
    adata_value_len : Z; adata_value : list Z }.

(** [struct ble_att_find_type_value_hinfo]: one handles-information
    entry of a Find By Type Value response. *)
Record ble_att_find_type_value_hinfo :=
  { hinfo_attr_handle : Z; hinfo_group_end_handle : Z }.

(** [struct ble_gatt_notif]: one (handle, value) tuple of a multiple
    notification. *)
Record ble_gatt_notif := { notif_handle : Z; notif_value : option os_mbuf }.

(** [struct ble_gap_conn_desc], the part ble_gattc.c reads. *)
Record ble_gap_conn_desc := { sec_state_encrypted : Z; peer_id_addr : Z }.

(** [struct ble_store_value_sec], the part ble_gattc.c reads. *)
Record ble_store_value_sec :=
  { csrk_present : Z; csrk : list Z; sign_counter : Z }.

(** ** The platform: headers and collaborators outside ble_gattc.c *)

Record platform := {
  (* host/ble_hs.h *)
  BLE_HS_EINVAL : Z;
  BLE_HS_ENOMEM : Z;
  BLE_HS_ENOTCONN : Z;
  BLE_HS_EBADDATA : Z;
  BLE_HS_ETIMEOUT : Z;
  BLE_HS_EDONE : Z;
  BLE_HS_EAPP : Z;
  BLE_HS_EAUTHEN : Z;
  BLE_HS_EENCRYPT : Z;
  BLE_HS_ERR_ATT_BASE : Z;
  BLE_HS_FOREVER : Z;
  BLE_HS_CONN_HANDLE_NONE : Z;
  (* errno.h *)
  ENOTCONN : Z;
  (* host/ble_att.h, nimble/ble.h, ble_l2cap.h *)
  BLE_ATT_ERR_INSUFFICIENT_AUTHEN : Z;
  BLE_ATT_ERR_INVALID_OFFSET : Z;
  BLE_ATT_ERR_ATTR_NOT_FOUND : Z;
  BLE_ATT_ERR_INSUFFICIENT_ENC : Z;
  BLE_ATT_UUID_PRIMARY_SERVICE : Z;
  BLE_ATT_UUID_INCLUDE : Z;
  BLE_ATT_UUID_CHARACTERISTIC : Z;
  BLE_ATT_PREP_WRITE_CMD_BASE_SZ : Z;
  BLE_ATT_EXEC_WRITE_F_CANCEL : Z;
  BLE_ATT_EXEC_WRITE_F_EXECUTE : Z;
  BLE_ERR_REM_USER_CONN_TERM : Z;
  BLE_L2CAP_CID_ATT : Z;
  (* syscfg *)
  BLE_GATT_RESUME_RATE : Z;
  BLE_GATT_READ_MAX_ATTRS : Z;
  BLE_GATT_WRITE_MAX_ATTRS : Z;
  BLE_GATT_MAX_PROCS : nat;
  BLE_GATTC_AUTO_PAIR : bool;
  (* BLE_EATT_CHAN_NUM > 0 && ble_hs_cfg.eatt *)
  eatt_enabled : bool;
  (* read-only collaborators *)
  ble_npl_time_ms_to_ticks32 : Z -> Z;
  ble_att_mtu : Z -> Z;
  ble_att_mtu_by_cid : Z -> Z -> Z;
  (* ble_att_conn_chan_find: return code and chan->my_mtu *)
  ble_att_conn_chan_find : Z -> Z -> Z * Z;
  ble_eatt_get_available_chan_cid : Z -> Z -> Z;
  (* ble_uuid_init_from_att_buf: [None] stands for a non-zero return *)
  ble_uuid_init_from_att_buf : list Z -> Z -> option ble_uuid_any_t;
  ble_uuid_init_from_att_mbuf : option os_mbuf -> Z -> Z ->
                                option ble_uuid_any_t;
  ble_uuid_flat : ble_uuid_any_t -> list Z;
  (* the out-parameter of the next three is meaningful when the return
     code, the first component, is 0 *)
  ble_gap_conn_find : Z -> Z * ble_gap_conn_desc;
  ble_store_read_our_sec : Z -> Z * ble_store_value_sec;
  ble_att_svr_read_local : Z -> Z * os_mbuf;
  ble_att_svr_read_handle : Z -> Z -> Z * os_mbuf;
  ble_gap_security_initiate : Z -> Z;
  ble_gatts_rx_indicate_ack : Z -> Z -> Z;
}.

(** [BLE_HS_ATT_ERR(x)] of host/ble_hs.h. *)
Definition BLE_HS_ATT_ERR (P : platform) (x : Z) : Z :=
  if x =? 0 then 0 else BLE_HS_ERR_ATT_BASE P + x.

(** The GATT operation codes, defined at the top of ble_gattc.c. *)
Definition BLE_GATT_OP_NONE : Z := 255.
Definition BLE_GATT_OP_MTU : Z := 0.
Definition BLE_GATT_OP_DISC_ALL_SVCS : Z := 1.
Definition BLE_GATT_OP_DISC_SVC_UUID : Z := 2.
Definition BLE_GATT_OP_FIND_INC_SVCS : Z := 3.
Definition BLE_GATT_OP_DISC_ALL_CHRS : Z := 4.
Definition BLE_GATT_OP_DISC_CHR_UUID : Z := 5.
Definition BLE_GATT_OP_DISC_ALL_DSCS : Z := 6.
Definition BLE_GATT_OP_READ : Z := 7.
Definition BLE_GATT_OP_READ_UUID : Z := 8.
Definition BLE_GATT_OP_READ_LONG : Z := 9.
Definition BLE_GATT_OP_READ_MULT : Z := 10.
Definition BLE_GATT_OP_READ_MULT_VAR : Z := 11.
Definition BLE_GATT_OP_WRITE : Z := 12.
Definition BLE_GATT_OP_WRITE_LONG : Z := 13.
Definition BLE_GATT_OP_WRITE_RELIABLE : Z := 14.
Definition BLE_GATT_OP_INDICATE : Z := 15.
Definition BLE_GATT_OP_CNT : Z := 16.

Definition BLE_GATTC_UNRESPONSIVE_TIMEOUT_MS : Z := 30000.

(** Procedure stalled due to resource exhaustion. *)
Definition BLE_GATTC_PROC_F_STALLED : Z := 1.

(** ** The procedure record

    [struct ble_gattc_proc] is a header followed by an anonymous union
    with one member per kind of procedure.  Each member is a record in a
    module of the member's name; [proc_union] is the union, and reading
    a member other than the stored one is reported as a fault of the
    model instead of reinterpreting bytes. *)

Module mtu.
Record t := { cb : fnptr; cb_arg : Z }.
End mtu.

Module disc_all_svcs.
Record t := { prev_handle : Z; cb : fnptr; cb_arg : Z }.
End disc_all_svcs.

Module disc_svc_uuid.
Record t :=
  { service_uuid : ble_uuid_any_t; prev_handle : Z; cb : fnptr; cb_arg : Z }.
End disc_svc_uuid.

Module find_inc_svcs.
Record t :=
  { prev_handle : Z; end_handle : Z; cur_start : Z; cur_end : Z;
    cb : fnptr; cb_arg : Z }.
End find_inc_svcs.

Module disc_all_chrs.
Record t := { prev_handle : Z; end_handle : Z; cb : fnptr; cb_arg : Z }.
End disc_all_chrs.

Module disc_chr_uuid.
Record t :=
  { chr_uuid : ble_uuid_any_t; prev_handle : Z; end_handle : Z;
    cb : fnptr; cb_arg : Z }.
End disc_chr_uuid.

Module disc_all_dscs.
Record t :=
  { chr_val_handle : Z; prev_handle : Z; end_handle : Z;
    cb : fnptr; cb_arg : Z }.
End disc_all_dscs.

Module read.
Record t := { handle : Z; cb : fnptr; cb_arg : Z }.
End read.

Module read_uuid.
Record t :=
  { chr_uuid : ble_uuid_any_t; start_handle : Z; end_handle : Z;
    cb : fnptr; cb_arg : Z }.
End read_uuid.

Module read_long.
Record t := { handle : Z; offset : Z; cb : fnptr; cb_arg : Z }.
End read_long.

Module read_mult.
Record t :=
  { handles : list Z; num_handles : Z; variable : bool;
    cb : fnptr; cb_mult : fnptr; cb_arg : Z }.
End read_mult.

Module write.
Record t := { att_handle : Z; cb : fnptr; cb_arg : Z; om : option os_mbuf }.
End write.

Module write_long.
Record t := { attr : ble_gatt_attr; length : Z; cb : fnptr; cb_arg : Z }.
End write_long.

Module write_reliable.
Record t :=
  { attrs : list ble_gatt_attr; num_attrs : Z; cur_attr : Z; length : Z;
    cb : fnptr; cb_arg : Z }.
End write_reliable.

Module indicate.
Record t := { chr_val_handle : Z }.
End indicate.

Inductive proc_union :=
| U_mtu (s : mtu.t)
| U_disc_all_svcs (s : disc_all_svcs.t)
| U_disc_svc_uuid (s : disc_svc_uuid.t)
| U_find_inc_svcs (s : find_inc_svcs.t)
| U_disc_all_chrs (s : disc_all_chrs.t)
| U_disc_chr_uuid (s : disc_chr_uuid.t)
| U_disc_all_dscs (s : disc_all_dscs.t)
| U_read (s : read.t)
| U_read_uuid (s : read_uuid.t)
| U_read_long (s : read_long.t)
| U_read_mult (s : read_mult.t)
| U_write (s : write.t)
| U_write_long (s : write_long.t)
| U_write_reliable (s : write_reliable.t)
| U_indicate (s : indicate.t).

(** The header of [struct ble_gattc_proc] without the list link, which
    is kept beside it in the heap cell (see [cell] below). *)
Record ble_gattc_proc := {
  error : ble_gatt_error;
  exp_os_ticks : Z;
  conn_handle : Z;
  cid : Z;
  op : Z;
  flags : Z;
  un : proc_union;
}.

Definition set_error (e : ble_gatt_error) (p : ble_gattc_proc) :=
  {| error := e; exp_os_ticks := exp_os_ticks p;
     conn_handle := conn_handle p; cid := cid p; op := op p;
     flags := flags p; un := un p |}.

Definition set_exp_os_ticks (t : Z) (p : ble_gattc_proc) :=
  {| error := error p; exp_os_ticks := t;
     conn_handle := conn_handle p; cid := cid p; op := op p;
     flags := flags p; un := un p |}.

Definition set_flags (f : Z) (p : ble_gattc_proc) :=
  {| error := error p; exp_os_ticks := exp_os_ticks p;
     conn_handle := conn_handle p; cid := cid p; op := op p;
     flags := f; un := un p |}.

Definition set_un (x : proc_union) (p : ble_gattc_proc) :=
  {| error := error p; exp_os_ticks := exp_os_ticks p;
     conn_handle := conn_handle p; cid := cid p; op := op p;
     flags := flags p; un := x |}.

(** The member of the union that each operation code selects
    (invariant 2 of the data model: one variant for the life of a
    record). *)
Definition op_of_union (x : proc_union) : Z :=
  match x with
  | U_mtu _ => BLE_GATT_OP_MTU
  | U_disc_all_svcs _ => BLE_GATT_OP_DISC_ALL_SVCS
  | U_disc_svc_uuid _ => BLE_GATT_OP_DISC_SVC_UUID
  | U_find_inc_svcs _ => BLE_GATT_OP_FIND_INC_SVCS
  | U_disc_all_chrs _ => BLE_GATT_OP_DISC_ALL_CHRS
  | U_disc_chr_uuid _ => BLE_GATT_OP_DISC_CHR_UUID
  | U_disc_all_dscs _ => BLE_GATT_OP_DISC_ALL_DSCS
  | U_read _ => BLE_GATT_OP_READ
  | U_read_uuid _ => BLE_GATT_OP_READ_UUID
  | U_read_long _ => BLE_GATT_OP_READ_LONG
  | U_read_mult s =>
      if read_mult.variable s then BLE_GATT_OP_READ_MULT_VAR
      else BLE_GATT_OP_READ_MULT
  | U_write _ => BLE_GATT_OP_WRITE
  | U_write_long _ => BLE_GATT_OP_WRITE_LONG
  | U_write_reliable _ => BLE_GATT_OP_WRITE_RELIABLE
  | U_indicate _ => BLE_GATT_OP_INDICATE
  end.

Definition proc_tagged (p : ble_gattc_proc) : Prop := op p = op_of_union (un p).

(** ** What the engine does to the outside: requests, callbacks, events *)

(** The [ble_att_clt_tx_*] requests, with their arguments. *)
Inductive att_req :=
| tx_mtu (conn mtu_val : Z)
| tx_read_group_type (conn chan start_h end_h : Z) (type : ble_uuid_any_t)
| tx_find_type_value (conn chan start_h end_h type : Z) (value : list Z)
| tx_read_type (conn chan start_h end_h : Z) (type : ble_uuid_any_t)
| tx_find_info (conn chan start_h end_h : Z)
| tx_read (conn chan h : Z)
| tx_read_blob (conn chan h off : Z)
| tx_read_mult (conn chan : Z) (hs : list Z) (num : Z) (var : bool)
| tx_write_req (conn chan h : Z) (data : option os_mbuf)
| tx_signed_write_cmd (conn chan h : Z) (key : list Z) (counter : Z)
    (data : option os_mbuf)
| tx_prep_write (conn chan h off : Z) (data : os_mbuf)
| tx_exec_write (conn chan exec_flags : Z)
| tx_notify (conn h : Z) (data : option os_mbuf)
| tx_notify_mult (conn : Z) (data : os_mbuf)
| tx_indicate (conn chan h : Z) (data : option os_mbuf).

(** A call of an application callback, one constructor per callback
    type of host/ble_gatt.h. *)
Inductive app_call :=
| call_mtu_fn (fn conn : Z) (err : ble_gatt_error) (mtu_val : Z) (arg : Z)
| call_disc_svc_fn (fn conn : Z) (err : ble_gatt_error)
    (service : option ble_gatt_svc) (arg : Z)
| call_chr_fn (fn conn : Z) (err : ble_gatt_error) (arg : Z)
| call_dsc_fn (fn conn : Z) (err : ble_gatt_error) (chr_val_h : Z) (arg : Z)
| call_attr_fn (fn conn : Z) (err : ble_gatt_error)
    (attr_p : option ble_gatt_attr) (arg : Z)
| call_attr_mult_fn (fn conn : Z) (err : ble_gatt_error)
    (attr_v : list ble_gatt_attr) (num : Z) (arg : Z)
| call_reliable_attr_fn (fn conn : Z) (err : ble_gatt_error)
    (attr_v : list ble_gatt_attr) (num : Z) (arg : Z).

Definition addr := nat.

Inductive event :=
| ev_tx (req : att_req) (rc : Z)
| ev_cb (c : app_call) (rc : Z)
| ev_gap_notify_tx (st conn h is_indication : Z)
| ev_gap_terminate (conn reason : Z)
| ev_gap_security_initiate (conn rc : Z)
| ev_gatts_rx_indicate_ack (conn h rc : Z)
| ev_gatts_send_next_indicate (conn : Z)
| ev_hs_timer_resched
| ev_eatt_release_chan (conn opcode : Z)
| ev_mbuf_free (data : os_mbuf)
| ev_memblock_put (a : addr).

(** ** State of the host that the handlers touch *)

(** [struct ble_hs_conn], the part ble_gattc.c touches: the queue of
    pending ATT transmissions, the first octet of the peer's client
    supported features and the handle of the indication in flight. *)
Record ble_hs_conn :=
  { att_tx_q : list os_mbuf; peer_cl_sup_feat_0 : Z;
    indicate_val_handle : Z }.

Record genv := {
  (* ble_npl_time_get() *)
  now : Z;
  (* static ble_npl_time_t ble_gattc_resume_at *)
  ble_gattc_resume_at : Z;
  trace : list event;
  (* return codes of the coming ble_att_clt_tx_* calls; 0 when empty *)
  tx_rcs : list Z;
  (* return values of the coming application callbacks; 0 when empty *)
  cb_rcs : list Z;
  (* outcome of the coming mbuf allocations; success when empty *)
  mbuf_rcs : list bool;
  (* the connections ble_hs_conn_find knows, by handle *)
  hs_conns : gmap Z ble_hs_conn;
}.

Definition set_resume_at (t : Z) (g : genv) : genv :=
  {| now := now g; ble_gattc_resume_at := t; trace := trace g;
     tx_rcs := tx_rcs g; cb_rcs := cb_rcs g; mbuf_rcs := mbuf_rcs g;
     hs_conns := hs_conns g |}.

Definition set_trace (t : list event) (g : genv) : genv :=
  {| now := now g; ble_gattc_resume_at := ble_gattc_resume_at g; trace := t;
     tx_rcs := tx_rcs g; cb_rcs := cb_rcs g; mbuf_rcs := mbuf_rcs g;
     hs_conns := hs_conns g |}.

Definition set_tx_rcs (l : list Z) (g : genv) : genv :=
  {| now := now g; ble_gattc_resume_at := ble_gattc_resume_at g;
     trace := trace g; tx_rcs := l; cb_rcs := cb_rcs g;
     mbuf_rcs := mbuf_rcs g; hs_conns := hs_conns g |}.

Definition set_cb_rcs (l : list Z) (g : genv) : genv :=
  {| now := now g; ble_gattc_resume_at := ble_gattc_resume_at g;
     trace := trace g; tx_rcs := tx_rcs g; cb_rcs := l;
     mbuf_rcs := mbuf_rcs g; hs_conns := hs_conns g |}.

Definition set_mbuf_rcs (l : list bool) (g : genv) : genv :=
  {| now := now g; ble_gattc_resume_at := ble_gattc_resume_at g;
     trace := trace g; tx_rcs := tx_rcs g; cb_rcs := cb_rcs g;
     mbuf_rcs := l; hs_conns := hs_conns g |}.

Definition set_hs_conns (m : gmap Z ble_hs_conn) (g : genv) : genv :=
  {| now := now g; ble_gattc_resume_at := ble_gattc_resume_at g;
     trace := trace g; tx_rcs := tx_rcs g; cb_rcs := cb_rcs g;
     mbuf_rcs := mbuf_rcs g; hs_conns := m |}.

(** ** A state monad with faults *)

Inductive fault :=
| NullDeref          (* access through a NULL pointer *)
| UseAfterFree       (* access to a block that was returned to the pool *)
| OutOfBounds (i : Z) (* array element [i] read past the end *)
| UnionMember        (* union member read that is not the stored one *)
| Uninitialized      (* read of a local that was never assigned *)
| ListCorrupt.       (* a list walk longer than the number of blocks *)

Inductive outcome (A : Type) :=
| Ok (a : A)
| Fault (f : fault).
Arguments Ok {A} a.
Arguments Fault {A} f.

Definition St (S A : Type) : Type := S -> outcome (A * S).

Definition ret {S A} (a : A) : St S A := fun s => Ok (a, s).

Definition bind {S A B} (m : St S A) (k : A -> St S B) : St S B :=
  fun s => match m s with
           | Ok (a, s') => k a s'
           | Fault f => Fault f
           end.

Definition crash {S A} (f : fault) : St S A := fun _ => Fault f.

Definition get {S} : St S S := fun s => Ok (s, s).

Definition modify {S} (f : S -> S) : St S unit := fun s => Ok (tt, f s).

Declare Scope st_scope.
Delimit Scope st_scope with st.
Notation "x <- m ;; k" := (bind m (fun x => k))
  (at level 20, m at level 99, k at level 200, only parsing) : st_scope.
Notation "' pat <- m ;; k" := (bind m (fun x => match x with pat => k end))
  (at level 20, pat pattern, m at level 99, k at level 200, only parsing)
  : st_scope.
Notation "m ;; k" := (bind m (fun _ => k))
  (at level 100, k at level 200, only parsing, right associativity)
  : st_scope.
Local Open Scope st_scope.

Definition G := St genv.

Definition emit (e : event) : G unit :=
  modify (fun g => set_trace (trace g ++ [e]) g).

(** A [ble_att_clt_tx_*] call: the transport answers with the next
    scripted return code. *)
Definition att_tx (req : att_req) : G Z :=
  g <- get ;;
  let rc := hd 0 (tx_rcs g) in
  modify (set_tx_rcs (tl (tx_rcs g))) ;;
  emit (ev_tx req rc) ;;
  ret rc.

(** A call through an application callback pointer. *)
Definition app_cb (c : app_call) : G Z :=
  g <- get ;;
  let rc := hd 0 (cb_rcs g) in
  modify (set_cb_rcs (tl (cb_rcs g))) ;;
  emit (ev_cb c rc) ;;
  ret rc.

(** [ble_hs_mbuf_att_pkt]: a fresh empty packet buffer, or NULL. *)
Definition ble_hs_mbuf_att_pkt : G (option os_mbuf) :=
  g <- get ;;
  let ok := hd true (mbuf_rcs g) in
  modify (set_mbuf_rcs (tl (mbuf_rcs g))) ;;
  ret (if ok then Some [] else None).

(** [os_mbuf_free_chain]: a no-op on NULL. *)
Definition os_mbuf_free_chain (m : option os_mbuf) : G unit :=
  match m with
  | None => ret tt
  | Some data => emit (ev_mbuf_free data)
  end.

(** [OS_MBUF_PKTLEN(om)] on a pointer: it reads the packet header. *)
Definition mbuf_pktlen (m : option os_mbuf) : G Z :=
  match m with
  | None => crash NullDeref
  | Some data => ret (OS_MBUF_PKTLEN data)
  end.

(** ** Procedure handlers

    A handler receives the record by value and hands it back: while a
    handler runs the record is in no list ("procedure objects are only
    modified while they are not in the list"), so the list links are
    out of its reach by construction. *)

Section Handlers.

Context (P : platform).

Definition as_mtu (p : ble_gattc_proc) : G mtu.t :=
  match un p with U_mtu s => ret s | _ => crash UnionMember end.
Definition as_disc_all_svcs (p : ble_gattc_proc) : G disc_all_svcs.t :=
  match un p with U_disc_all_svcs s => ret s | _ => crash UnionMember end.
Definition as_disc_svc_uuid (p : ble_gattc_proc) : G disc_svc_uuid.t :=
  match un p with U_disc_svc_uuid s => ret s | _ => crash UnionMember end.
Definition as_find_inc_svcs (p : ble_gattc_proc) : G find_inc_svcs.t :=
  match un p with U_find_inc_svcs s => ret s | _ => crash UnionMember end.
Definition as_disc_all_chrs (p : ble_gattc_proc) : G disc_all_chrs.t :=
  match un p with U_disc_all_chrs s => ret s | _ => crash UnionMember end.
Definition as_disc_chr_uuid (p : ble_gattc_proc) : G disc_chr_uuid.t :=
  match un p with U_disc_chr_uuid s => ret s | _ => crash UnionMember end.
Definition as_disc_all_dscs (p : ble_gattc_proc) : G disc_all_dscs.t :=
  match un p with U_disc_all_dscs s => ret s | _ => crash UnionMember end.
Definition as_read (p : ble_gattc_proc) : G read.t :=
  match un p with U_read s => ret s | _ => crash UnionMember end.
Definition as_read_uuid (p : ble_gattc_proc) : G read_uuid.t :=
  match un p with U_read_uuid s => ret s | _ => crash UnionMember end.
Definition as_read_long (p : ble_gattc_proc) : G read_long.t :=
  match un p with U_read_long s => ret s | _ => crash UnionMember end.
Definition as_read_mult (p : ble_gattc_proc) : G read_mult.t :=
  match un p with U_read_mult s => ret s | _ => crash UnionMember end.
Definition as_write (p : ble_gattc_proc) : G write.t :=
  match un p with U_write s => ret s | _ => crash UnionMember end.
Definition as_write_long (p : ble_gattc_proc) : G write_long.t :=
  match un p with U_write_long s => ret s | _ => crash UnionMember end.
Definition as_write_reliable (p : ble_gattc_proc) : G write_reliable.t :=
  match un p with U_write_reliable s => ret s | _ => crash UnionMember end.
Definition as_indicate (p : ble_gattc_proc) : G indicate.t :=
  match un p with U_indicate s => ret s | _ => crash UnionMember end.

(** [ble_gattc_proc_set_exp_timer] *)
Definition ble_gattc_proc_set_exp_timer (proc : ble_gattc_proc)
  : G ble_gattc_proc :=
  g <- get ;;
  ret (set_exp_os_ticks
         (u32 (now g + ble_npl_time_ms_to_ticks32 P
                         BLE_GATTC_UNRESPONSIVE_TIMEOUT_MS)) proc).

(** [ble_gattc_proc_set_resume_timer] *)
Definition ble_gattc_proc_set_resume_timer (proc : ble_gattc_proc)
  : G ble_gattc_proc :=
  let proc := set_flags (Z.lor (flags proc) BLE_GATTC_PROC_F_STALLED) proc in
  g <- get ;;
  (* Don't overwrite resume time if it is already set; piggyback on it
     instead. *)
  (if ble_gattc_resume_at g =? 0 then
     let t := u32 (now g + ble_npl_time_ms_to_ticks32 P
                             (BLE_GATT_RESUME_RATE P)) in
     (* A value of 0 indicates the timer is unset.  Disambiguate this. *)
     modify (set_resume_at (if t =? 0 then t + 1 else t))
   else ret tt) ;;
  ret proc.

(** [ble_gattc_process_resume_status] *)
Definition ble_gattc_process_resume_status (proc : ble_gattc_proc)
    (st : Z) : G (Z * ble_gattc_proc) :=
  if st =? 0 then ret (0, proc)
  else if st =? BLE_HS_ENOMEM P then
    proc <- ble_gattc_proc_set_resume_timer proc ;;
    ret (0, proc)
  else ret (st, proc).

(** [ble_gattc_error] *)
Definition ble_gattc_error (st att_h : Z) : ble_gatt_error :=
  (* For consistency, always indicate a handle of 0 on success. *)
  {| status := st;
     att_handle := if (st =? 0) || (st =? BLE_HS_EDONE P) then 0 else att_h |}.

(** *** MTU exchange *)

Definition ble_gattc_mtu_cb (proc : ble_gattc_proc) (st att_h mtu_val : Z)
  : G Z :=
  s <- as_mtu proc ;;
  match mtu.cb s with
  | None => ret 0
  | Some fn =>
      app_cb (call_mtu_fn fn (conn_handle proc) (ble_gattc_error st att_h)
                mtu_val (mtu.cb_arg s))
  end.

Definition ble_gattc_mtu_tmo (proc : ble_gattc_proc) : G unit :=
  _ <- ble_gattc_mtu_cb proc (BLE_HS_ETIMEOUT P) 0 0 ;; ret tt.

Definition ble_gattc_mtu_err (proc : ble_gattc_proc) (st att_h : Z)
  : G unit :=
  _ <- ble_gattc_mtu_cb proc st att_h 0 ;; ret tt.

Definition ble_gattc_mtu_tx (proc : ble_gattc_proc) : G Z :=
  let '(rc, my_mtu) :=
    ble_att_conn_chan_find P (conn_handle proc) (cid proc) in
  if rc =? 0 then att_tx (tx_mtu (conn_handle proc) my_mtu) else ret rc.

(** *** Discover all primary services *)

Definition ble_gattc_disc_all_svcs_cb (proc : ble_gattc_proc)
    (st att_h : Z) (service : option ble_gatt_svc) : G Z :=
  (* the parameter is declared uint16_t status *)
  let st := u16 st in
  s <- as_disc_all_svcs proc ;;
  match disc_all_svcs.cb s with
  | None => ret 0
  | Some fn =>
      app_cb (call_disc_svc_fn fn (conn_handle proc)
                (ble_gattc_error st att_h) service (disc_all_svcs.cb_arg s))
  end.

Definition ble_gattc_disc_all_svcs_tmo (proc : ble_gattc_proc) : G unit :=
  _ <- ble_gattc_disc_all_svcs_cb proc (BLE_HS_ETIMEOUT P) 0 None ;; ret tt.

Definition ble_gattc_disc_all_svcs_tx (proc : ble_gattc_proc) : G Z :=
  s <- as_disc_all_svcs proc ;;
  att_tx (tx_read_group_type (conn_handle proc) (cid proc)
            (u16 (disc_all_svcs.prev_handle s + 1)) 65535
            (uuid16 (BLE_ATT_UUID_PRIMARY_SERVICE P))).

Definition ble_gattc_disc_all_svcs_resume (proc : ble_gattc_proc)
  : G (Z * ble_gattc_proc) :=
  st <- ble_gattc_disc_all_svcs_tx proc ;;
  '(rc, proc) <- ble_gattc_process_resume_status proc st ;;
  if negb (rc =? 0) then
    _ <- ble_gattc_disc_all_svcs_cb proc rc 0 None ;;
    ret (rc, proc)
  else ret (0, proc).

Definition ble_gattc_disc_all_svcs_err (proc : ble_gattc_proc)
    (st att_h : Z) : G unit :=
  let st :=
    if st =? BLE_HS_ATT_ERR P (BLE_ATT_ERR_ATTR_NOT_FOUND P)
    then BLE_HS_EDONE P (* Discovery is complete. *)
    else st in
  _ <- ble_gattc_disc_all_svcs_cb proc st att_h None ;; ret tt.

Definition set_disc_all_svcs_prev_handle (h : Z) (s : disc_all_svcs.t) :=
  {| disc_all_svcs.prev_handle := h;
     disc_all_svcs.cb := disc_all_svcs.cb s;
     disc_all_svcs.cb_arg := disc_all_svcs.cb_arg s |}.

(** [ble_gattc_disc_all_svcs_rx_adata]: the part before the label
    [done] computes [rc], the record and the local [service]. *)
Definition ble_gattc_disc_all_svcs_rx_adata (proc : ble_gattc_proc)
    (adata : ble_att_read_group_type_adata) : G (Z * ble_gattc_proc) :=
  s <- as_disc_all_svcs proc ;;
  let unset := {| start_handle := None; end_handle := None; uuid := None |} in
  let '(rc, proc, service) :=
    if (adata_value_len adata =? 2) || (adata_value_len adata =? 16) then
      match ble_uuid_init_from_att_buf P (adata_value adata)
              (adata_value_len adata) with
      | None => (BLE_HS_EBADDATA P, proc, unset)
      | Some id =>
          if adata_end_group_handle adata <=? disc_all_svcs.prev_handle s
          then
            (* Peer sent services out of order; terminate procedure. *)
            (BLE_HS_EBADDATA P, proc,
             {| start_handle := None; end_handle := None; uuid := Some id |})
          else
            (0,
             set_un (U_disc_all_svcs
                       (set_disc_all_svcs_prev_handle
                          (adata_end_group_handle adata) s)) proc,
             {| start_handle := Some (adata_att_handle adata);
                end_handle := Some (adata_end_group_handle adata);
                uuid := Some id |})
      end
    else (BLE_HS_EBADDATA P, proc, unset) in
  cbrc <- ble_gattc_disc_all_svcs_cb proc rc 0 (Some service) ;;
  if negb (rc =? 0) || negb (cbrc =? 0) then ret (BLE_HS_EDONE P, proc)
  else ret (0, proc).

Definition ble_gattc_disc_all_svcs_rx_complete (proc : ble_gattc_proc)
    (st : Z) : G (Z * ble_gattc_proc) :=
  if negb (st =? 0) then
    _ <- ble_gattc_disc_all_svcs_cb proc st 0 None ;;
    ret (BLE_HS_EDONE P, proc)
  else
    s <- as_disc_all_svcs proc ;;
    if disc_all_svcs.prev_handle s =? 65535 then
      (* Service discovery complete. *)
      _ <- ble_gattc_disc_all_svcs_cb proc (BLE_HS_EDONE P) 0 None ;;
      ret (BLE_HS_EDONE P, proc)
    else
      (* Send follow-up request. *)
      '(rc, proc) <- ble_gattc_disc_all_svcs_resume proc ;;
      if negb (rc =? 0) then ret (BLE_HS_EDONE P, proc) else ret (0, proc).

(** *** Discover service by UUID *)

Definition ble_gattc_disc_svc_uuid_cb (proc : ble_gattc_proc)
    (st att_h : Z) (service : option ble_gatt_svc) : G Z :=
  s <- as_disc_svc_uuid proc ;;
  match disc_svc_uuid.cb s with
  | None => ret 0
  | Some fn =>
      app_cb (call_disc_svc_fn fn (conn_handle proc)
                (ble_gattc_error st att_h) service (disc_svc_uuid.cb_arg s))
  end.

Definition ble_gattc_disc_svc_uuid_tmo (proc : ble_gattc_proc) : G unit :=
  _ <- ble_gattc_disc_svc_uuid_cb proc (BLE_HS_ETIMEOUT P) 0 None ;; ret tt.

Definition ble_gattc_disc_svc_uuid_tx (proc : ble_gattc_proc) : G Z :=
  s <- as_disc_svc_uuid proc ;;
  att_tx (tx_find_type_value (conn_handle proc) (cid proc)
            (u16 (disc_svc_uuid.prev_handle s + 1)) 65535
            (BLE_ATT_UUID_PRIMARY_SERVICE P)
            (ble_uuid_flat P (disc_svc_uuid.service_uuid s))).

Definition ble_gattc_disc_svc_uuid_resume (proc : ble_gattc_proc)
  : G (Z * ble_gattc_proc) :=
  st <- ble_gattc_disc_svc_uuid_tx proc ;;
  '(rc, proc) <- ble_gattc_process_resume_status proc st ;;
  if negb (rc =? 0) then
    _ <- ble_gattc_disc_svc_uuid_cb proc rc 0 None ;;
    ret (rc, proc)
  else ret (0, proc).

Definition ble_gattc_disc_svc_uuid_err (proc : ble_gattc_proc)
    (st att_h : Z) : G unit :=
  let st :=
    if st =? BLE_HS_ATT_ERR P (BLE_ATT_ERR_ATTR_NOT_FOUND P)
    then BLE_HS_EDONE P else st in
  _ <- ble_gattc_disc_svc_uuid_cb proc st att_h None ;; ret tt.

Definition set_disc_svc_uuid_prev_handle (h : Z) (s : disc_svc_uuid.t) :=
  {| disc_svc_uuid.service_uuid := disc_svc_uuid.service_uuid s;
     disc_svc_uuid.prev_handle := h;
     disc_svc_uuid.cb := disc_svc_uuid.cb s;
     disc_svc_uuid.cb_arg := disc_svc_uuid.cb_arg s |}.

(** [ble_gattc_disc_svc_uuid_rx_hinfo]: the part before the label
    [done] computes [rc], the record and the local [service]. *)
Definition ble_gattc_disc_svc_uuid_rx_hinfo (proc : ble_gattc_proc)
    (hinfo : ble_att_find_type_value_hinfo) : G (Z * ble_gattc_proc) :=
  s <- as_disc_svc_uuid proc ;;
  let '(rc, proc, service) :=
    if hinfo_group_end_handle hinfo <=? disc_svc_uuid.prev_handle s then
      (* Peer sent services out of order; terminate procedure. *)
      (BLE_HS_EBADDATA P, proc,
       {| start_handle := None; end_handle := None; uuid := None |})
    else
      (0,
       set_un (U_disc_svc_uuid
                 (set_disc_svc_uuid_prev_handle
                    (hinfo_group_end_handle hinfo) s)) proc,
       {| start_handle := Some (hinfo_attr_handle hinfo);
          end_handle := Some (hinfo_group_end_handle hinfo);
          uuid := Some (disc_svc_uuid.service_uuid s) |}) in
  cbrc <- ble_gattc_disc_svc_uuid_cb proc rc 0 (Some service) ;;
  if negb (rc =? 0) || negb (cbrc =? 0) then ret (BLE_HS_EDONE P, proc)
  else ret (0, proc).

Definition ble_gattc_disc_svc_uuid_rx_complete (proc : ble_gattc_proc)
    (st : Z) : G (Z * ble_gattc_proc) :=
  if negb (st =? 0) then
    _ <- ble_gattc_disc_svc_uuid_cb proc st 0 None ;;
    ret (BLE_HS_EDONE P, proc)
  else
    s <- as_disc_svc_uuid proc ;;
    if disc_svc_uuid.prev_handle s =? 65535 then
      (* Service discovery complete. *)
      _ <- ble_gattc_disc_svc_uuid_cb proc (BLE_HS_EDONE P) 0 None ;;
      ret (BLE_HS_EDONE P, proc)
    else
      (* Send follow-up request. *)
      '(rc, proc) <- ble_gattc_disc_svc_uuid_resume proc ;;
      if negb (rc =? 0) then ret (BLE_HS_EDONE P, proc) else ret (0, proc).

(** *** Find included services *)

Definition ble_gattc_find_inc_svcs_cb (proc : ble_gattc_proc)
    (st att_h : Z) (incl_svc : option ble_gatt_svc) : G Z :=
  s <- as_find_inc_svcs proc ;;
  match find_inc_svcs.cb s with
  | None => ret 0
  | Some fn =>
      app_cb (call_disc_svc_fn fn (conn_handle proc)
                (ble_gattc_error st att_h) incl_svc (find_inc_svcs.cb_arg s))
  end.

Definition ble_gattc_find_inc_svcs_tmo (proc : ble_gattc_proc) : G unit :=
  _ <- ble_gattc_find_inc_svcs_cb proc (BLE_HS_ETIMEOUT P) 0 None ;; ret tt.

Definition ble_gattc_find_inc_svcs_tx (proc : ble_gattc_proc) : G Z :=
  s <- as_find_inc_svcs proc ;;
  if find_inc_svcs.cur_start s =? 0 then
    (* Find the next included service. *)
    att_tx (tx_read_type (conn_handle proc) (cid proc)
              (u16 (find_inc_svcs.prev_handle s + 1))
              (find_inc_svcs.end_handle s)
              (uuid16 (BLE_ATT_UUID_INCLUDE P)))
  else
    (* Read the UUID of the previously found service. *)
    att_tx (tx_read (conn_handle proc) (cid proc) (find_inc_svcs.cur_start s)).

Definition ble_gattc_find_inc_svcs_resume (proc : ble_gattc_proc)
  : G (Z * ble_gattc_proc) :=
  st <- ble_gattc_find_inc_svcs_tx proc ;;
  '(rc, proc) <- ble_gattc_process_resume_status proc st ;;
  if negb (rc =? 0) then
    _ <- ble_gattc_find_inc_svcs_cb proc rc 0 None ;;
    ret (rc, proc)
  else ret (0, proc).

Definition ble_gattc_find_inc_svcs_err (proc : ble_gattc_proc)
    (st att_h : Z) : G unit :=
  s <- as_find_inc_svcs proc ;;
  let st :=
    if (find_inc_svcs.cur_start s =? 0) &&
       (st =? BLE_HS_ATT_ERR P (BLE_ATT_ERR_ATTR_NOT_FOUND P))
    then BLE_HS_EDONE P else st in
  _ <- ble_gattc_find_inc_svcs_cb proc st att_h None ;; ret tt.

Definition set_find_inc_svcs_cur (cs ce : Z) (s : find_inc_svcs.t)
  : find_inc_svcs.t :=
  {| find_inc_svcs.prev_handle := find_inc_svcs.prev_handle s;
     find_inc_svcs.end_handle := find_inc_svcs.end_handle s;
     find_inc_svcs.cur_start := cs; find_inc_svcs.cur_end := ce;
     find_inc_svcs.cb := find_inc_svcs.cb s;
     find_inc_svcs.cb_arg := find_inc_svcs.cb_arg s |}.

(** [ble_gattc_find_inc_svcs_rx_read_rsp]; the first component of the
    inner result tells whether control reached the label [err]. *)
Definition ble_gattc_find_inc_svcs_rx_read_rsp (proc : ble_gattc_proc)
    (st : Z) (rxom : os_mbuf) : G (Z * ble_gattc_proc) :=
  let id := ble_uuid_init_from_att_mbuf P (Some rxom) 0 16 in
  os_mbuf_free_chain (Some rxom) ;;
  s <- as_find_inc_svcs proc ;;
  '(at_err, rc, proc) <-
    match id with
    | None =>
        (* Invalid UUID. *)
        ret (true, BLE_HS_EBADDATA P, proc)
    | Some id =>
        if find_inc_svcs.cur_start s =? 0 then
          (* Unexpected read response; terminate procedure. *)
          ret (true, BLE_HS_EBADDATA P, proc)
        else if negb (st =? 0) then ret (true, st, proc)
        else
          (* Report discovered service to application. *)
          rc <- ble_gattc_find_inc_svcs_cb proc 0 0
                  (Some {| start_handle := Some (find_inc_svcs.cur_start s);
                           end_handle := Some (find_inc_svcs.cur_end s);
                           uuid := Some id |}) ;;
          if negb (rc =? 0) then
            (* Application has indicated that the procedure should be
               aborted. *)
            ret (false, BLE_HS_EDONE P, proc)
          else
            (* Proceed to the next service. *)
            let proc :=
              set_un (U_find_inc_svcs (set_find_inc_svcs_cur 0 0 s)) proc in
            '(rc, proc) <- ble_gattc_find_inc_svcs_resume proc ;;
            if negb (rc =? 0) then ret (true, rc, proc)
            else ret (false, 0, proc)
    end ;;
  if at_err : bool then
    _ <- ble_gattc_find_inc_svcs_cb proc rc 0 None ;;
    ret (BLE_HS_EDONE P, proc)
  else ret (rc, proc).

Definition ble_gattc_find_inc_svcs_rx_complete (proc : ble_gattc_proc)
    (st : Z) : G (Z * ble_gattc_proc) :=
  if negb (st =? 0) then
    _ <- ble_gattc_find_inc_svcs_cb proc st 0 None ;;
    ret (BLE_HS_EDONE P, proc)
  else
    s <- as_find_inc_svcs proc ;;
    if find_inc_svcs.prev_handle s =? 65535 then
      (* Procedure complete. *)
      _ <- ble_gattc_find_inc_svcs_cb proc (BLE_HS_EDONE P) 0 None ;;
      ret (BLE_HS_EDONE P, proc)
    else
      (* Send follow-up request. *)
      '(rc, proc) <- ble_gattc_find_inc_svcs_resume proc ;;
      if negb (rc =? 0) then ret (BLE_HS_EDONE P, proc) else ret (0, proc).

(** *** Discover all characteristics of a service *)

Definition ble_gattc_disc_all_chrs_cb (proc : ble_gattc_proc)
    (st att_h : Z) : G Z :=
  s <- as_disc_all_chrs proc ;;
  match disc_all_chrs.cb s with
  | None => ret 0
  | Some fn =>
      app_cb (call_chr_fn fn (conn_handle proc) (ble_gattc_error st att_h)
                (disc_all_chrs.cb_arg s))
  end.

Definition ble_gattc_disc_all_chrs_tmo (proc : ble_gattc_proc) : G unit :=
  _ <- ble_gattc_disc_all_chrs_cb proc (BLE_HS_ETIMEOUT P) 0 ;; ret tt.

Definition ble_gattc_disc_all_chrs_tx (proc : ble_gattc_proc) : G Z :=
  s <- as_disc_all_chrs proc ;;
  att_tx (tx_read_type (conn_handle proc) (cid proc)
            (u16 (disc_all_chrs.prev_handle s + 1))
            (disc_all_chrs.end_handle s)
            (uuid16 (BLE_ATT_UUID_CHARACTERISTIC P))).

Definition ble_gattc_disc_all_chrs_resume (proc : ble_gattc_proc)
  : G (Z * ble_gattc_proc) :=
  st <- ble_gattc_disc_all_chrs_tx proc ;;
  '(rc, proc) <- ble_gattc_process_resume_status proc st ;;
  if negb (rc =? 0) then
    _ <- ble_gattc_disc_all_chrs_cb proc rc 0 ;;
    ret (rc, proc)
  else ret (0, proc).

Definition ble_gattc_disc_all_chrs_err (proc : ble_gattc_proc)
    (st att_h : Z) : G unit :=
  let st :=
    if st =? BLE_HS_ATT_ERR P (BLE_ATT_ERR_ATTR_NOT_FOUND P)
    then BLE_HS_EDONE P else st in
  _ <- ble_gattc_disc_all_chrs_cb proc st att_h ;; ret tt.

Definition ble_gattc_disc_all_chrs_rx_complete (proc : ble_gattc_proc)
    (st : Z) : G (Z * ble_gattc_proc) :=
  if negb (st =? 0) then
    _ <- ble_gattc_disc_all_chrs_cb proc st 0 ;;
    ret (BLE_HS_EDONE P, proc)
  else
    s <- as_disc_all_chrs proc ;;
    if disc_all_chrs.prev_handle s =? disc_all_chrs.end_handle s then
      (* Characteristic discovery complete. *)
      _ <- ble_gattc_disc_all_chrs_cb proc (BLE_HS_EDONE P) 0 ;;
      ret (BLE_HS_EDONE P, proc)
    else
      (* Send follow-up request. *)
      '(rc, proc) <- ble_gattc_disc_all_chrs_resume proc ;;
      if negb (rc =? 0) then ret (BLE_HS_EDONE P, proc) else ret (0, proc).

(** *** Discover characteristics by UUID *)

Definition ble_gattc_disc_chr_uuid_cb (proc : ble_gattc_proc)
    (st att_h : Z) : G Z :=
  s <- as_disc_chr_uuid proc ;;
  match disc_chr_uuid.cb s with
  | None => ret 0
  | Some fn =>
      app_cb (call_chr_fn fn (conn_handle proc) (ble_gattc_error st att_h)
                (disc_chr_uuid.cb_arg s))
  end.

Definition ble_gattc_disc_chr_uuid_tmo (proc : ble_gattc_proc) : G unit :=
  _ <- ble_gattc_disc_chr_uuid_cb proc (BLE_HS_ETIMEOUT P) 0 ;; ret tt.

Definition ble_gattc_disc_chr_uuid_tx (proc : ble_gattc_proc) : G Z :=
  s <- as_disc_chr_uuid proc ;;
  att_tx (tx_read_type (conn_handle proc) (cid proc)
            (u16 (disc_chr_uuid.prev_handle s + 1))
            (disc_chr_uuid.end_handle s)
            (uuid16 (BLE_ATT_UUID_CHARACTERISTIC P))).

Definition ble_gattc_disc_chr_uuid_resume (proc : ble_gattc_proc)
  : G (Z * ble_gattc_proc) :=
  st <- ble_gattc_disc_chr_uuid_tx proc ;;
  '(rc, proc) <- ble_gattc_process_resume_status proc st ;;
  if negb (rc =? 0) then
    _ <- ble_gattc_disc_chr_uuid_cb proc rc 0 ;;
    ret (rc, proc)
  else ret (0, proc).

Definition ble_gattc_disc_chr_uuid_err (proc : ble_gattc_proc)
    (st att_h : Z) : G unit :=
  let st :=
    if st =? BLE_HS_ATT_ERR P (BLE_ATT_ERR_ATTR_NOT_FOUND P)
    then BLE_HS_EDONE P else st in
  _ <- ble_gattc_disc_chr_uuid_cb proc st att_h ;; ret tt.

Definition ble_gattc_disc_chr_uuid_rx_complete (proc : ble_gattc_proc)
    (st : Z) : G (Z * ble_gattc_proc) :=
  if negb (st =? 0) then
    _ <- ble_gattc_disc_chr_uuid_cb proc st 0 ;;
    ret (BLE_HS_EDONE P, proc)
  else
    s <- as_disc_chr_uuid proc ;;
    if disc_chr_uuid.prev_handle s =? disc_chr_uuid.end_handle s then
      (* Characteristic discovery complete. *)
      _ <- ble_gattc_disc_chr_uuid_cb proc (BLE_HS_EDONE P) 0 ;;
      ret (BLE_HS_EDONE P, proc)
    else
      (* Send follow-up request. *)
      '(rc, proc) <- ble_gattc_disc_chr_uuid_resume proc ;;
      if negb (rc =? 0) then ret (BLE_HS_EDONE P, proc) else ret (0, proc).

(** *** Discover all descriptors of a characteristic *)

Definition ble_gattc_disc_all_dscs_cb (proc : ble_gattc_proc)
    (st att_h : Z) : G Z :=
  s <- as_disc_all_dscs proc ;;
  match disc_all_dscs.cb s with
  | None => ret 0
  | Some fn =>
      app_cb (call_dsc_fn fn (conn_handle proc) (ble_gattc_error st att_h)
                (disc_all_dscs.chr_val_handle s) (disc_all_dscs.cb_arg s))
  end.

Definition ble_gattc_disc_all_dscs_tmo (proc : ble_gattc_proc) : G unit :=
  _ <- ble_gattc_disc_all_dscs_cb proc (BLE_HS_ETIMEOUT P) 0 ;; ret tt.

Definition ble_gattc_disc_all_dscs_tx (proc : ble_gattc_proc) : G Z :=
  s <- as_disc_all_dscs proc ;;
  att_tx (tx_find_info (conn_handle proc) (cid proc)
            (u16 (disc_all_dscs.prev_handle s + 1))
            (disc_all_dscs.end_handle s)).

Definition ble_gattc_disc_all_dscs_resume (proc : ble_gattc_proc)
  : G (Z * ble_gattc_proc) :=
  st <- ble_gattc_disc_all_dscs_tx proc ;;
  '(rc, proc) <- ble_gattc_process_resume_status proc st ;;
  if negb (rc =? 0) then
    _ <- ble_gattc_disc_all_dscs_cb proc rc 0 ;;
    ret (rc, proc)
  else ret (0, proc).

Definition ble_gattc_disc_all_dscs_err (proc : ble_gattc_proc)
    (st att_h : Z) : G unit :=
  let st :=
    if st =? BLE_HS_ATT_ERR P (BLE_ATT_ERR_ATTR_NOT_FOUND P)
    then BLE_HS_EDONE P else st in
  _ <- ble_gattc_disc_all_dscs_cb proc st att_h ;; ret tt.

Definition ble_gattc_disc_all_dscs_rx_complete (proc : ble_gattc_proc)
    (st : Z) : G (Z * ble_gattc_proc) :=
  if negb (st =? 0) then
    _ <- ble_gattc_disc_all_dscs_cb proc st 0 ;;
    ret (BLE_HS_EDONE P, proc)
  else
    s <- as_disc_all_dscs proc ;;
    if disc_all_dscs.prev_handle s =? disc_all_dscs.end_handle s then
      (* All descriptors discovered. *)
      _ <- ble_gattc_disc_all_dscs_cb proc (BLE_HS_EDONE P) 0 ;;
      ret (BLE_HS_EDONE P, proc)
    else
      (* Send follow-up request. *)
      '(rc, proc) <- ble_gattc_disc_all_dscs_resume proc ;;
      if negb (rc =? 0) then ret (BLE_HS_EDONE P, proc) else ret (0, proc).

(** *** Read *)

Definition ble_gattc_read_cb (proc : ble_gattc_proc) (st att_h : Z)
    (attr_p : option ble_gatt_attr) : G Z :=
  s <- as_read proc ;;
  match read.cb s with
  | None => ret 0
  | Some fn =>
      app_cb (call_attr_fn fn (conn_handle proc) (ble_gattc_error st att_h)
                attr_p (read.cb_arg s))
  end.

Definition ble_gattc_read_tmo (proc : ble_gattc_proc) : G unit :=
  _ <- ble_gattc_read_cb proc (BLE_HS_ETIMEOUT P) 0 None ;; ret tt.

Definition ble_gattc_read_err (proc : ble_gattc_proc) (st att_h : Z)
  : G unit :=
  _ <- ble_gattc_read_cb proc st att_h None ;; ret tt.

Definition ble_gattc_read_rx_read_rsp (proc : ble_gattc_proc) (st : Z)
    (rxom : os_mbuf) : G (Z * ble_gattc_proc) :=
  s <- as_read proc ;;
  _ <- ble_gattc_read_cb proc st 0
         (Some {| handle := read.handle s; offset := 0; om := Some rxom |}) ;;
  (* The read operation only has a single request / response exchange. *)
  ret (BLE_HS_EDONE P, proc).

Definition ble_gattc_read_tx (proc : ble_gattc_proc) : G Z :=
  s <- as_read proc ;;
  att_tx (tx_read (conn_handle proc) (cid proc) (read.handle s)).

(** *** Read by UUID *)

Definition ble_gattc_read_uuid_cb (proc : ble_gattc_proc) (st att_h : Z)
    (attr_p : option ble_gatt_attr) : G Z :=
  s <- as_read_uuid proc ;;
  match read_uuid.cb s with
  | None => ret 0
  | Some fn =>
      app_cb (call_attr_fn fn (conn_handle proc) (ble_gattc_error st att_h)
                attr_p (read_uuid.cb_arg s))
  end.

Definition ble_gattc_read_uuid_tmo (proc : ble_gattc_proc) : G unit :=
  _ <- ble_gattc_read_uuid_cb proc (BLE_HS_ETIMEOUT P) 0 None ;; ret tt.

Definition ble_gattc_read_uuid_err (proc : ble_gattc_proc) (st att_h : Z)
  : G unit :=
  _ <- ble_gattc_read_uuid_cb proc st att_h None ;; ret tt.

Definition ble_gattc_read_uuid_tx (proc : ble_gattc_proc) : G Z :=
  s <- as_read_uuid proc ;;
  att_tx (tx_read_type (conn_handle proc) (cid proc)
            (read_uuid.start_handle s) (read_uuid.end_handle s)
            (read_uuid.chr_uuid s)).

Definition ble_gattc_read_uuid_rx_complete (proc : ble_gattc_proc)
    (st : Z) : G (Z * ble_gattc_proc) :=
  if negb (st =? 0) then
    _ <- ble_gattc_read_uuid_cb proc st 0 None ;;
    ret (BLE_HS_EDONE P, proc)
  else
    (* XXX: We may need to send a follow-up request to address the
       possibility of multiple characteristics with identical UUIDs. *)
    _ <- ble_gattc_read_uuid_cb proc (BLE_HS_EDONE P) 0 None ;;
    ret (BLE_HS_EDONE P, proc).

(** *** Read long *)

Definition ble_gattc_read_long_cb (proc : ble_gattc_proc) (st att_h : Z)
    (attr_p : option ble_gatt_attr) : G Z :=
  s <- as_read_long proc ;;
  match read_long.cb s with
  | None => ret 0
  | Some fn =>
      app_cb (call_attr_fn fn (conn_handle proc) (ble_gattc_error st att_h)
                attr_p (read_long.cb_arg s))
  end.

Definition ble_gattc_read_long_tmo (proc : ble_gattc_proc) : G unit :=
  _ <- ble_gattc_read_long_cb proc (BLE_HS_ETIMEOUT P) 0 None ;; ret tt.

Definition ble_gattc_read_long_tx (proc : ble_gattc_proc) : G Z :=
  s <- as_read_long proc ;;
  if read_long.offset s =? 0 then
    att_tx (tx_read (conn_handle proc) (cid proc) (read_long.handle s))
  else
    att_tx (tx_read_blob (conn_handle proc) (cid proc) (read_long.handle s)
              (read_long.offset s)).

Definition ble_gattc_read_long_resume (proc : ble_gattc_proc)
  : G (Z * ble_gattc_proc) :=
  st <- ble_gattc_read_long_tx proc ;;
  '(rc, proc) <- ble_gattc_process_resume_status proc st ;;
  if negb (rc =? 0) then
    _ <- ble_gattc_read_long_cb proc rc 0 None ;;
    ret (rc, proc)
  else ret (0, proc).

Definition ble_gattc_read_long_err (proc : ble_gattc_proc) (st att_h : Z)
  : G unit :=
  _ <- ble_gattc_read_long_cb proc st att_h None ;; ret tt.

Definition set_read_long_offset (o : Z) (s : read_long.t) : read_long.t :=
  {| read_long.handle := read_long.handle s; read_long.offset := o;
     read_long.cb := read_long.cb s; read_long.cb_arg := read_long.cb_arg s |}.

(** [ble_gattc_read_long_rx_read_rsp]; [rxom] is the mbuf [*om] of the
    response. *)
Definition ble_gattc_read_long_rx_read_rsp (proc : ble_gattc_proc)
    (st : Z) (rxom : os_mbuf) : G (Z * ble_gattc_proc) :=
  s <- as_read_long proc ;;
  let data_len := u16 (OS_MBUF_PKTLEN rxom) in
  (* Report partial payload to application. *)
  rc <- ble_gattc_read_long_cb proc st 0
          (Some {| handle := read_long.handle s;
                   offset := read_long.offset s; om := Some rxom |}) ;;
  if negb (rc =? 0) || negb (st =? 0) then ret (BLE_HS_EDONE P, proc)
  else
    (* Determine if this is the end of the attribute value. *)
    let mtu_val := u16 (ble_att_mtu_by_cid P (conn_handle proc) (cid proc)) in
    if mtu_val =? 0 then
      (* No longer connected. *)
      ret (BLE_HS_EDONE P, proc)
    else if data_len <? mtu_val - 1 then
      (* Response shorter than maximum allowed; read complete. *)
      _ <- ble_gattc_read_long_cb proc (BLE_HS_EDONE P) 0 None ;;
      ret (BLE_HS_EDONE P, proc)
    else
      (* Send follow-up request. *)
      let proc :=
        set_un (U_read_long
                  (set_read_long_offset (u16 (read_long.offset s + data_len))
                     s)) proc in
      '(rc, proc) <- ble_gattc_read_long_resume proc ;;
      if negb (rc =? 0) then ret (BLE_HS_EDONE P, proc) else ret (0, proc).

(** *** Read multiple *)

(** [ble_gattc_read_mult_cb_var] as it is called from the timeout and
    error paths, that is with [om == NULL]: every round of the loop
    takes the [continue], so that [i] ends at [num_handles] and the
    callback receives [num_handles] attributes without data.  The arm
    that splits a response is not part of this model. *)
Definition ble_gattc_read_mult_cb_var (proc : ble_gattc_proc)
    (st att_h : Z) : G Z :=
  s <- as_read_mult proc ;;
  match read_mult.cb_mult s with
  | None => ret 0
  | Some fn =>
      let n := Z.to_nat (read_mult.num_handles s) in
      let attr_v :=
        map (fun i => {| handle := nth i (read_mult.handles s) 0;
                         offset := 0; om := None |}) (seq 0 n) in
      _ <- app_cb (call_attr_mult_fn fn (conn_handle proc)
                     (ble_gattc_error st att_h) attr_v (Z.of_nat n)
                     (read_mult.cb_arg s)) ;;
      ret 0
  end.

(** [ble_gattc_read_mult_cb], likewise for [om == NULL] ([attr.om] is
    then NULL). *)
Definition ble_gattc_read_mult_cb (proc : ble_gattc_proc) (st att_h : Z)
  : G Z :=
  s <- as_read_mult proc ;;
  if read_mult.variable s then ble_gattc_read_mult_cb_var proc st att_h
  else
    match read_mult.cb s with
    | None => ret 0
    | Some fn =>
        app_cb (call_attr_fn fn (conn_handle proc) (ble_gattc_error st att_h)
                  (Some {| handle := 0; offset := 0; om := None |})
                  (read_mult.cb_arg s))
    end.

Definition ble_gattc_read_mult_tmo (proc : ble_gattc_proc) : G unit :=
  _ <- ble_gattc_read_mult_cb proc (BLE_HS_ETIMEOUT P) 0 ;; ret tt.

Definition ble_gattc_read_mult_var_tmo (proc : ble_gattc_proc) : G unit :=
  _ <- ble_gattc_read_mult_cb_var proc (BLE_HS_ETIMEOUT P) 0 ;; ret tt.

Definition ble_gattc_read_mult_err (proc : ble_gattc_proc) (st att_h : Z)
  : G unit :=
  _ <- ble_gattc_read_mult_cb proc st att_h ;; ret tt.

Definition ble_gattc_read_mult_var_err (proc : ble_gattc_proc)
    (st att_h : Z) : G unit :=
  _ <- ble_gattc_read_mult_cb_var proc st att_h ;; ret tt.

Definition ble_gattc_read_mult_tx (proc : ble_gattc_proc) : G Z :=
  s <- as_read_mult proc ;;
  att_tx (tx_read_mult (conn_handle proc) (cid proc) (read_mult.handles s)
            (read_mult.num_handles s) (read_mult.variable s)).

(** *** Write *)

Definition ble_gattc_write_cb (proc : ble_gattc_proc) (st att_h : Z)
  : G Z :=
  s <- as_write proc ;;
  match write.cb s with
  | None => ret 0
  | Some fn =>
      app_cb (call_attr_fn fn (conn_handle proc) (ble_gattc_error st att_h)
                (Some {| handle := write.att_handle s; offset := 0;
                         om := None |})
                (write.cb_arg s))
  end.

Definition ble_gattc_write_tmo (proc : ble_gattc_proc) : G unit :=
  _ <- ble_gattc_write_cb proc (BLE_HS_ETIMEOUT P) 0 ;; ret tt.

Definition ble_gattc_write_err (proc : ble_gattc_proc) (st att_h : Z)
  : G unit :=
  _ <- ble_gattc_write_cb proc st att_h ;; ret tt.

(** *** Write long *)

(** [os_mbuf_appendfrom(dst, src, src_off, len)] of os_mbuf.c: appends
    [len] bytes of [src] starting at [src_off]; a non-zero return when
    the source is too short. *)
Definition os_mbuf_appendfrom (dst src : os_mbuf) (src_off len : Z)
  : Z * os_mbuf :=
  if (0 <=? src_off) && (0 <=? len) && (src_off + len <=? OS_MBUF_PKTLEN src)
  then (0, dst ++ take (Z.to_nat len) (drop (Z.to_nat src_off) src))
  else (1, dst).

(** [os_mbuf_cmpm(om1, off1, om2, off2, len)] of os_mbuf.c: 0 when the
    two ranges hold the same bytes, non-zero otherwise, also when a
    range runs past the end of its chain. *)
Definition os_mbuf_cmpm (om1 : os_mbuf) (off1 : Z) (om2 : os_mbuf)
    (off2 len : Z) : Z :=
  if (0 <=? off1) && (0 <=? off2) && (0 <=? len) &&
     (off1 + len <=? OS_MBUF_PKTLEN om1) &&
     (off2 + len <=? OS_MBUF_PKTLEN om2) &&
     bool_decide (take (Z.to_nat len) (drop (Z.to_nat off1) om1) =
                  take (Z.to_nat len) (drop (Z.to_nat off2) om2))
  then 0 else 1.

Definition ble_gattc_write_long_cb (proc : ble_gattc_proc) (st att_h : Z)
  : G Z :=
  s <- as_write_long proc ;;
  match write_long.cb s with
  | None => ret 0
  | Some fn =>
      app_cb (call_attr_fn fn (conn_handle proc) (ble_gattc_error st att_h)
                (Some (write_long.attr s)) (write_long.cb_arg s))
  end.

Definition ble_gattc_write_long_tmo (proc : ble_gattc_proc) : G unit :=
  _ <- ble_gattc_write_long_cb proc (BLE_HS_ETIMEOUT P) 0 ;; ret tt.

Definition set_write_long_length (n : Z) (s : write_long.t) : write_long.t :=
  {| write_long.attr := write_long.attr s; write_long.length := n;
     write_long.cb := write_long.cb s;
     write_long.cb_arg := write_long.cb_arg s |}.

Definition set_write_long_offset (o : Z) (s : write_long.t) : write_long.t :=
  {| write_long.attr :=
       {| handle := handle (write_long.attr s); offset := o;
          om := om (write_long.attr s) |};
     write_long.length := write_long.length s;
     write_long.cb := write_long.cb s;
     write_long.cb_arg := write_long.cb_arg s |}.

(** The payload [proc->write_long.attr.om]; the code reads its length
    without a NULL test. *)
Definition write_long_om (s : write_long.t) : G os_mbuf :=
  match om (write_long.attr s) with
  | Some data => ret data
  | None => crash NullDeref
  end.

Definition ble_gattc_write_long_tx (proc : ble_gattc_proc)
  : G (Z * ble_gattc_proc) :=
  s <- as_write_long proc ;;
  let max_sz :=
    u16 (ble_att_mtu_by_cid P (conn_handle proc) (cid proc))
    - BLE_ATT_PREP_WRITE_CMD_BASE_SZ P in
  if max_sz <=? 0 then
    (* Not connected. *)
    ret (BLE_HS_ENOTCONN P, proc)
  else
    data <- write_long_om s ;;
    let write_len :=
      Z.min max_sz (OS_MBUF_PKTLEN data - offset (write_long.attr s)) in
    if write_len <=? 0 then
      rc <- att_tx (tx_exec_write (conn_handle proc) (cid proc)
                      (BLE_ATT_EXEC_WRITE_F_EXECUTE P)) ;;
      ret (rc, proc)
    else
      let s := set_write_long_length (u16 write_len) s in
      let proc := set_un (U_write_long s) proc in
      pkt <- ble_hs_mbuf_att_pkt ;;
      match pkt with
      | None => ret (BLE_HS_ENOMEM P, proc)
      | Some pkt =>
          let '(rc, pkt) :=
            os_mbuf_appendfrom pkt data (offset (write_long.attr s))
              (write_long.length s) in
          if negb (rc =? 0) then
            os_mbuf_free_chain (Some pkt) ;;
            ret (BLE_HS_ENOMEM P, proc)
          else
            rc <- att_tx (tx_prep_write (conn_handle proc) (cid proc)
                            (handle (write_long.attr s))
                            (offset (write_long.attr s)) pkt) ;;
            ret (rc, proc)
      end.

Definition ble_gattc_write_long_resume (proc : ble_gattc_proc)
  : G (Z * ble_gattc_proc) :=
  '(st, proc) <- ble_gattc_write_long_tx proc ;;
  '(rc, proc) <- ble_gattc_process_resume_status proc st ;;
  if negb (rc =? 0) then
    _ <- ble_gattc_write_long_cb proc rc 0 ;;
    ret (rc, proc)
  else ret (0, proc).

Definition ble_gattc_write_long_err (proc : ble_gattc_proc) (st att_h : Z)
  : G unit :=
  s <- as_write_long proc ;;
  (* If we have successfully queued any data, and the failure occurred
     before we could send the execute write command, then erase all
     queued data. *)
  (if 0 <? offset (write_long.attr s) then
     data <- write_long_om s ;;
     if offset (write_long.attr s) <? OS_MBUF_PKTLEN data then
       _ <- att_tx (tx_exec_write (conn_handle proc) (cid proc)
                      (BLE_ATT_EXEC_WRITE_F_CANCEL P)) ;;
       ret tt
     else ret tt
   else ret tt) ;;
  (* Report failure. *)
  _ <- ble_gattc_write_long_cb proc st att_h ;; ret tt.

(** [ble_gattc_write_long_rx_prep]; [rxom] is the mbuf [*rxom] of the
    response.  The first component of the inner result tells whether
    control reached the label [err]. *)
Definition ble_gattc_write_long_rx_prep (proc : ble_gattc_proc)
    (st h off : Z) (rxom : os_mbuf) : G (Z * ble_gattc_proc) :=
  s <- as_write_long proc ;;
  '(at_err, rc, proc) <-
    (if negb (st =? 0) then ret (true, st, proc)
     else
       data <- write_long_om s ;;
       (* Verify the response. *)
       if OS_MBUF_PKTLEN data <=? offset (write_long.attr s) then
         (* Expecting a prepare write response, not an execute write
            response. *)
         ret (true, BLE_HS_EBADDATA P, proc)
       else if negb (h =? handle (write_long.attr s)) then
         ret (true, BLE_HS_EBADDATA P, proc)
       else if negb (off =? offset (write_long.attr s)) then
         ret (true, BLE_HS_EBADDATA P, proc)
       else if OS_MBUF_PKTLEN data <? off + OS_MBUF_PKTLEN rxom then
         ret (true, BLE_HS_EBADDATA P, proc)
       else if negb (OS_MBUF_PKTLEN rxom =? write_long.length s) then
         ret (true, BLE_HS_EBADDATA P, proc)
       else if negb (os_mbuf_cmpm rxom 0 data off (write_long.length s) =? 0)
       then
         (* if data doesn't match up send cancel write *)
         _ <- att_tx (tx_exec_write (conn_handle proc) (cid proc)
                        (BLE_ATT_EXEC_WRITE_F_CANCEL P)) ;;
         ret (true, BLE_HS_EBADDATA P, proc)
       else
         (* Send follow-up request. *)
         let proc :=
           set_un (U_write_long
                     (set_write_long_offset
                        (u16 (offset (write_long.attr s)
                              + OS_MBUF_PKTLEN rxom)) s)) proc in
         '(rc, proc) <- ble_gattc_write_long_resume proc ;;
         if negb (rc =? 0) then ret (true, rc, proc)
         else ret (false, 0, proc)) ;;
  if at_err : bool then
    (* XXX: Might need to cancel pending writes. *)
    _ <- ble_gattc_write_long_cb proc rc 0 ;;
    ret (BLE_HS_EDONE P, proc)
  else ret (0, proc).

Definition ble_gattc_write_long_rx_exec (proc : ble_gattc_proc) (st : Z)
  : G (Z * ble_gattc_proc) :=
  s <- as_write_long proc ;;
  data <- write_long_om s ;;
  if offset (write_long.attr s) <? OS_MBUF_PKTLEN data then
    (* Expecting an execute write response, not a prepare write
       response. *)
    ret (BLE_HS_EBADDATA P, proc)
  else
    _ <- ble_gattc_write_long_cb proc st 0 ;;
    ret (BLE_HS_EDONE P, proc).

(** *** Reliable write *)

Definition ble_gattc_write_reliable_cb (proc : ble_gattc_proc)
    (st att_h : Z) : G Z :=
  s <- as_write_reliable proc ;;
  match write_reliable.cb s with
  | None => ret 0
  | Some fn =>
      app_cb (call_reliable_attr_fn fn (conn_handle proc)
                (ble_gattc_error st att_h) (write_reliable.attrs s)
                (write_reliable.num_attrs s) (write_reliable.cb_arg s))
  end.

Definition ble_gattc_write_reliable_tmo (proc : ble_gattc_proc) : G unit :=
  _ <- ble_gattc_write_reliable_cb proc (BLE_HS_ETIMEOUT P) 0 ;; ret tt.

Definition set_write_reliable_length (n : Z) (s : write_reliable.t)
  : write_reliable.t :=
  {| write_reliable.attrs := write_reliable.attrs s;
     write_reliable.num_attrs := write_reliable.num_attrs s;
     write_reliable.cur_attr := write_reliable.cur_attr s;
     write_reliable.length := n;
     write_reliable.cb := write_reliable.cb s;
     write_reliable.cb_arg := write_reliable.cb_arg s |}.

Definition ble_gattc_write_reliable_tx (proc : ble_gattc_proc)
  : G (Z * ble_gattc_proc) :=
  s <- as_write_reliable proc ;;
  let attr_idx := write_reliable.cur_attr s in
  if write_reliable.num_attrs s <=? attr_idx then
    rc <- att_tx (tx_exec_write (conn_handle proc) (cid proc)
                    (BLE_ATT_EXEC_WRITE_F_EXECUTE P)) ;;
    ret (rc, proc)
  else
    match write_reliable.attrs s !! Z.to_nat attr_idx with
    | None => crash (OutOfBounds attr_idx)
    | Some a =>
        (* uint16_t max_sz *)
        let max_sz :=
          u16 (u16 (ble_att_mtu_by_cid P (conn_handle proc) (cid proc))
               - BLE_ATT_PREP_WRITE_CMD_BASE_SZ P) in
        if max_sz <=? 0 then
          (* Not connected. *)
          ret (BLE_HS_ENOTCONN P, proc)
        else
          match om a with
          | None => crash NullDeref
          | Some data =>
              let s :=
                set_write_reliable_length
                  (u16 (Z.min max_sz (OS_MBUF_PKTLEN data - offset a))) s in
              let proc := set_un (U_write_reliable s) proc in
              pkt <- ble_hs_mbuf_att_pkt ;;
              match pkt with
              | None => ret (BLE_HS_ENOMEM P, proc)
              | Some pkt =>
                  let '(rc, pkt) :=
                    os_mbuf_appendfrom pkt data (offset a)
                      (write_reliable.length s) in
                  if negb (rc =? 0) then
                    os_mbuf_free_chain (Some pkt) ;;
                    ret (BLE_HS_ENOMEM P, proc)
                  else
                    rc <- att_tx (tx_prep_write (conn_handle proc) (cid proc)
                                    (handle a) (offset a) pkt) ;;
                    ret (rc, proc)
              end
          end
    end.

Definition ble_gattc_write_reliable_resume (proc : ble_gattc_proc)
  : G (Z * ble_gattc_proc) :=
  '(st, proc) <- ble_gattc_write_reliable_tx proc ;;
  '(rc, proc) <- ble_gattc_process_resume_status proc st ;;
  if negb (rc =? 0) then
    _ <- ble_gattc_write_reliable_cb proc rc 0 ;;
    ret (rc, proc)
  else ret (0, proc).

Definition ble_gattc_write_reliable_err (proc : ble_gattc_proc)
    (st att_h : Z) : G unit :=
  _ <- ble_gattc_write_reliable_cb proc st att_h ;;
  s <- as_write_reliable proc ;;
  (* If we have successfully queued any data, and the failure occurred
     before we could send the execute write command, then erase all
     queued data. *)
  if write_reliable.cur_attr s <? write_reliable.num_attrs s then
    _ <- att_tx (tx_exec_write (conn_handle proc) (cid proc)
                   (BLE_ATT_EXEC_WRITE_F_CANCEL P)) ;;
    ret tt
  else ret tt.

Definition set_write_reliable_attrs (l : list ble_gatt_attr) (cur : Z)
    (s : write_reliable.t) : write_reliable.t :=
  {| write_reliable.attrs := l;
     write_reliable.num_attrs := write_reliable.num_attrs s;
     write_reliable.cur_attr := cur;
     write_reliable.length := write_reliable.length s;
     write_reliable.cb := write_reliable.cb s;
     write_reliable.cb_arg := write_reliable.cb_arg s |}.

(** [ble_gattc_write_reliable_rx_prep]; the first component of the
    inner result tells whether control reached the label [err]. *)
Definition ble_gattc_write_reliable_rx_prep (proc : ble_gattc_proc)
    (st h off : Z) (rxom : os_mbuf) : G (Z * ble_gattc_proc) :=
  s <- as_write_reliable proc ;;
  '(at_err, rc, proc) <-
    (if negb (st =? 0) then ret (true, st, proc)
     else if write_reliable.num_attrs s <=? write_reliable.cur_attr s then
       (* Expecting an execute write response, not a prepare write
          response. *)
       ret (true, BLE_HS_EBADDATA P, proc)
     else
       let idx := Z.to_nat (write_reliable.cur_attr s) in
       match write_reliable.attrs s !! idx with
       | None => crash (OutOfBounds (write_reliable.cur_attr s))
       | Some a =>
           (* Verify the response. *)
           if negb (h =? handle a) then ret (true, BLE_HS_EBADDATA P, proc)
           else if negb (off =? offset a) then
             ret (true, BLE_HS_EBADDATA P, proc)
           else
             match om a with
             | None => crash NullDeref
             | Some data =>
                 if negb (os_mbuf_cmpm data off rxom 0
                            (write_reliable.length s) =? 0) then
                   ret (true, BLE_HS_EBADDATA P, proc)
                 else
                   (* Send follow-up request. *)
                   let off' := u16 (offset a + write_reliable.length s) in
                   let wrapped := OS_MBUF_PKTLEN data <=? off' in
                   let a' :=
                     {| handle := handle a;
                        offset := if wrapped then 0 else off';
                        om := om a |} in
                   let cur' :=
                     if wrapped then u8 (write_reliable.cur_attr s + 1)
                     else write_reliable.cur_attr s in
                   let proc :=
                     set_un (U_write_reliable
                               (set_write_reliable_attrs
                                  (<[idx := a']> (write_reliable.attrs s))
                                  cur' s)) proc in
                   '(rc, proc) <- ble_gattc_write_reliable_resume proc ;;
                   if negb (rc =? 0) then ret (true, rc, proc)
                   else ret (false, 0, proc)
             end
       end) ;;
  if at_err : bool then
    ble_gattc_write_reliable_err proc rc 0 ;;
    ret (BLE_HS_EDONE P, proc)
  else ret (0, proc).

Definition ble_gattc_write_reliable_rx_exec (proc : ble_gattc_proc)
    (st : Z) : G (Z * ble_gattc_proc) :=
  _ <- ble_gattc_write_reliable_cb proc st 0 ;;
  ret (BLE_HS_EDONE P, proc).

(** *** Indicate *)

Definition ble_gatts_indicate_err (proc : ble_gattc_proc) (st att_h : Z)
  : G unit :=
  s <- as_indicate proc ;;
  rc <- (if negb (st =? BLE_HS_ENOTCONN P) then
           let rc :=
             ble_gatts_rx_indicate_ack P (conn_handle proc)
               (indicate.chr_val_handle s) in
           emit (ev_gatts_rx_indicate_ack (conn_handle proc)
                   (indicate.chr_val_handle s) rc) ;;
           ret rc
         else ret 0) ;;
  if negb (rc =? 0) then ret tt
  else
    (* Tell the application about the received acknowledgment. *)
    emit (ev_gap_notify_tx st (conn_handle proc)
            (indicate.chr_val_handle s) 1) ;;
    (* Send the next indication if one is pending. *)
    emit (ev_gatts_send_next_indicate (conn_handle proc)).

Definition ble_gatts_indicate_tmo (proc : ble_gattc_proc) : G unit :=
  s <- as_indicate proc ;;
  emit (ev_gap_notify_tx (BLE_HS_ETIMEOUT P) (conn_handle proc)
          (indicate.chr_val_handle s) 1).

(** [ble_gatts_indicate_rx_rsp]: handles an incoming
    handle-value-confirmation for the indication proc. *)
Definition ble_gatts_indicate_rx_rsp (proc : ble_gattc_proc) : G unit :=
  s <- as_indicate proc ;;
  let rc :=
    ble_gatts_rx_indicate_ack P (conn_handle proc)
      (indicate.chr_val_handle s) in
  emit (ev_gatts_rx_indicate_ack (conn_handle proc)
          (indicate.chr_val_handle s) rc) ;;
  if negb (rc =? 0) then ret tt
  else
    (* Tell the application about the received acknowledgment. *)
    emit (ev_gap_notify_tx (BLE_HS_EDONE P) (conn_handle proc)
            (indicate.chr_val_handle s) 1) ;;
    (* Send the next indication if one is pending. *)
    emit (ev_gatts_send_next_indicate (conn_handle proc)).

(** *** The dispatch tables

    Indexing a table of BLE_GATT_OP_CNT entries with an operation code
    outside 0..15 is an out-of-bounds read; a NULL entry is [None]. *)

Definition err_fn := ble_gattc_proc -> Z -> Z -> G unit.
Definition resume_fn := ble_gattc_proc -> G (Z * ble_gattc_proc).
Definition tmo_fn := ble_gattc_proc -> G unit.

Definition ble_gattc_err_dispatch : list (option err_fn) :=
  [ Some ble_gattc_mtu_err; Some ble_gattc_disc_all_svcs_err;
    Some ble_gattc_disc_svc_uuid_err; Some ble_gattc_find_inc_svcs_err;
    Some ble_gattc_disc_all_chrs_err; Some ble_gattc_disc_chr_uuid_err;
    Some ble_gattc_disc_all_dscs_err; Some ble_gattc_read_err;
    Some ble_gattc_read_uuid_err; Some ble_gattc_read_long_err;
    Some ble_gattc_read_mult_err; Some ble_gattc_read_mult_var_err;
    Some ble_gattc_write_err; Some ble_gattc_write_long_err;
    Some ble_gattc_write_reliable_err; Some ble_gatts_indicate_err ].

Definition ble_gattc_resume_dispatch : list (option resume_fn) :=
  [ None; Some ble_gattc_disc_all_svcs_resume;
    Some ble_gattc_disc_svc_uuid_resume; Some ble_gattc_find_inc_svcs_resume;
    Some ble_gattc_disc_all_chrs_resume; Some ble_gattc_disc_chr_uuid_resume;
    Some ble_gattc_disc_all_dscs_resume; None; None;
    Some ble_gattc_read_long_resume; None; None; None;
    Some ble_gattc_write_long_resume; Some ble_gattc_write_reliable_resume;
    None ].

Definition ble_gattc_tmo_dispatch : list (option tmo_fn) :=
  [ Some ble_gattc_mtu_tmo; Some ble_gattc_disc_all_svcs_tmo;
    Some ble_gattc_disc_svc_uuid_tmo; Some ble_gattc_find_inc_svcs_tmo;
    Some ble_gattc_disc_all_chrs_tmo; Some ble_gattc_disc_chr_uuid_tmo;
    Some ble_gattc_disc_all_dscs_tmo; Some ble_gattc_read_tmo;
    Some ble_gattc_read_uuid_tmo; Some ble_gattc_read_long_tmo;
    Some ble_gattc_read_mult_tmo; Some ble_gattc_read_mult_var_tmo;
    Some ble_gattc_write_tmo; Some ble_gattc_write_long_tmo;
    Some ble_gattc_write_reliable_tmo; Some ble_gatts_indicate_tmo ].

Definition table_get {A} (table : list (option A)) (opcode : Z)
  : G (option A) :=
  if (0 <=? opcode) && (opcode <? BLE_GATT_OP_CNT) then
    match table !! Z.to_nat opcode with
    | Some entry => ret entry
    | None => crash (OutOfBounds opcode)
    end
  else crash (OutOfBounds opcode).

Definition ble_gattc_err_dispatch_get (opcode : Z) : G (option err_fn) :=
  table_get ble_gattc_err_dispatch opcode.

Definition ble_gattc_resume_dispatch_get (opcode : Z)
  : G (option resume_fn) :=
  table_get ble_gattc_resume_dispatch opcode.

Definition ble_gattc_tmo_dispatch_get (opcode : Z) : G (option tmo_fn) :=
  table_get ble_gattc_tmo_dispatch opcode.

(** Calling through a function pointer that is NULL. *)
Definition call_ptr {A B} (f : option (A -> G B)) (a : A) : G B :=
  match f with
  | Some fn => fn a
  | None => crash NullDeref
  end.

End Handlers.

(** ** The heap of procedure records and the tail queues

    The queue macros are those of os/queue.h (the BSD [STAILQ]).  A head
    holds [stqh_first] and [stqh_last]; the latter is a pointer to the
    [next] field that ends the list, written here as the address of the
    element owning that field, or [None] when it is the head's own
    [stqh_first]. *)

Record cell := { next : option addr; rec : ble_gattc_proc }.

Record stailq_head := { stqh_first : option addr; stqh_last : option addr }.

Record world := {
  host : genv;
  (* the allocated blocks of ble_gattc_proc_pool *)
  mem : gmap addr cell;
  (* the free list of ble_gattc_proc_pool *)
  pool_free : list addr;
  (* static struct ble_gattc_proc_list ble_gattc_procs *)
  ble_gattc_procs : stailq_head;
  (* static struct ble_gattc_proc_list ble_gattc_cached_procs *)
  ble_gattc_cached_procs : stailq_head;
}.

Definition set_host (g : genv) (w : world) : world :=
  {| host := g; mem := mem w; pool_free := pool_free w;
     ble_gattc_procs := ble_gattc_procs w;
     ble_gattc_cached_procs := ble_gattc_cached_procs w |}.

Definition set_mem (m : gmap addr cell) (w : world) : world :=
  {| host := host w; mem := m; pool_free := pool_free w;
     ble_gattc_procs := ble_gattc_procs w;
     ble_gattc_cached_procs := ble_gattc_cached_procs w |}.

Definition set_pool_free (l : list addr) (w : world) : world :=
  {| host := host w; mem := mem w; pool_free := l;
     ble_gattc_procs := ble_gattc_procs w;
     ble_gattc_cached_procs := ble_gattc_cached_procs w |}.

Definition set_procs (h : stailq_head) (w : world) : world :=
  {| host := host w; mem := mem w; pool_free := pool_free w;
     ble_gattc_procs := h;
     ble_gattc_cached_procs := ble_gattc_cached_procs w |}.

Definition set_cached_procs (h : stailq_head) (w : world) : world :=
  {| host := host w; mem := mem w; pool_free := pool_free w;
     ble_gattc_procs := ble_gattc_procs w;
     ble_gattc_cached_procs := h |}.

Definition M := St world.

(** Running a handler: it sees and changes the host state only. *)
Definition lift {A} (m : G A) : M A :=
  fun w => match m (host w) with
           | Ok (a, g) => Ok (a, set_host g w)
           | Fault f => Fault f
           end.

(** Access to the block at [a]; the block must be allocated. *)
Definition load (a : addr) : M cell :=
  fun w => match mem w !! a with
           | Some c => Ok (c, w)
           | None => Fault UseAfterFree
           end.

Definition store (a : addr) (c : cell) : M unit :=
  fun w => match mem w !! a with
           | Some _ => Ok (tt, set_mem (<[a := c]> (mem w)) w)
           | None => Fault UseAfterFree
           end.

Definition load_rec (a : addr) : M ble_gattc_proc :=
  c <- load a ;; ret (rec c).

Definition store_rec (a : addr) (r : ble_gattc_proc) : M unit :=
  c <- load a ;; store a {| next := next c; rec := r |}.

Definition STAILQ_INIT : stailq_head :=
  {| stqh_first := None; stqh_last := None |}.

Definition STAILQ_FIRST (h : stailq_head) : option addr := stqh_first h.

Definition STAILQ_NEXT (elm : addr) : M (option addr) :=
  c <- load elm ;; ret (next c).

Definition set_next (elm : addr) (n : option addr) : M unit :=
  c <- load elm ;; store elm {| next := n; rec := rec c |}.

(** [STAILQ_INSERT_TAIL(head, elm, next)]:
    [elm->next = NULL; *head->stqh_last = elm; head->stqh_last = &elm->next]. *)
Definition STAILQ_INSERT_TAIL (h : stailq_head) (elm : addr)
  : M stailq_head :=
  set_next elm None ;;
  match stqh_last h with
  | None => ret {| stqh_first := Some elm; stqh_last := Some elm |}
  | Some l =>
      set_next l (Some elm) ;;
      ret {| stqh_first := stqh_first h; stqh_last := Some elm |}
  end.

(** [STAILQ_REMOVE_HEAD(head, next)]:
    [if ((head->stqh_first = head->stqh_first->next) == NULL)
       head->stqh_last = &head->stqh_first]. *)
Definition STAILQ_REMOVE_HEAD (h : stailq_head) : M stailq_head :=
  match stqh_first h with
  | None => crash NullDeref
  | Some f =>
      n <- STAILQ_NEXT f ;;
      match n with
      | None => ret {| stqh_first := None; stqh_last := None |}
      | Some _ => ret {| stqh_first := n; stqh_last := stqh_last h |}
      end
  end.

(** [STAILQ_REMOVE_AFTER(head, elm, next)]:
    [if ((elm->next = elm->next->next) == NULL)
       head->stqh_last = &elm->next]. *)
Definition STAILQ_REMOVE_AFTER (h : stailq_head) (elm : addr)
  : M stailq_head :=
  n <- STAILQ_NEXT elm ;;
  match n with
  | None => crash NullDeref
  | Some victim =>
      n2 <- STAILQ_NEXT victim ;;
      set_next elm n2 ;;
      match n2 with
      | None => ret {| stqh_first := stqh_first h; stqh_last := Some elm |}
      | Some _ => ret h
      end
  end.

Section Engine.

Context (P : platform).

(** The record a block holds after [memset(proc, 0, sizeof *proc)]. *)
Definition zeroed_proc : ble_gattc_proc :=
  {| error := {| status := 0; att_handle := 0 |};
     exp_os_ticks := 0; conn_handle := 0; cid := 0; op := 0; flags := 0;
     un := U_mtu {| mtu.cb := None; mtu.cb_arg := 0 |} |}.

(** [ble_gattc_proc_alloc]; [os_memblock_get] takes the head of the
    pool's free list. *)
Definition ble_gattc_proc_alloc : M (option addr) :=
  w <- get ;;
  match pool_free w with
  | [] => ret None
  | a :: rest =>
      modify (fun w =>
        set_pool_free rest
          (set_mem (<[a := {| next := None; rec := zeroed_proc |}]> (mem w))
             w)) ;;
      ret (Some a)
  end.

(** [ble_gattc_proc_prepare] *)
Definition ble_gattc_proc_prepare (proc : ble_gattc_proc)
    (conn opcode : Z) : ble_gattc_proc :=
  {| error := error proc; exp_os_ticks := exp_os_ticks proc;
     conn_handle := conn;
     cid := ble_eatt_get_available_chan_cid P conn opcode;
     op := opcode; flags := flags proc; un := un proc |}.

Fixpoint free_attr_oms (l : list ble_gatt_attr) : G unit :=
  match l with
  | [] => ret tt
  | a :: l' => os_mbuf_free_chain (om a) ;; free_attr_oms l'
  end.

Fixpoint free_mbufs (l : list os_mbuf) : G unit :=
  match l with
  | [] => ret tt
  | m :: l' => os_mbuf_free_chain (Some m) ;; free_mbufs l'
  end.

(** [ble_gattc_proc_free]: no-op if passed a null pointer.
    [os_memblock_put] returns the block to the head of the free list. *)
Definition ble_gattc_proc_free (proc : option addr) : M unit :=
  match proc with
  | None => ret tt
  | Some a =>
      r <- load_rec a ;;
      lift (if (op r =? BLE_GATT_OP_WRITE) && BLE_GATTC_AUTO_PAIR P then
              s <- as_write r ;; os_mbuf_free_chain (write.om s)
            else if op r =? BLE_GATT_OP_WRITE_LONG then
              s <- as_write_long r ;;
              os_mbuf_free_chain (om (write_long.attr s))
            else if op r =? BLE_GATT_OP_WRITE_RELIABLE then
              s <- as_write_reliable r ;;
              free_attr_oms
                (take (Z.to_nat (write_reliable.num_attrs s))
                   (write_reliable.attrs s))
            else ret tt) ;;
      lift (if eatt_enabled P && negb (cid r =? BLE_L2CAP_CID_ATT P) then
              emit (ev_eatt_release_chan (conn_handle r) (op r))
            else ret tt) ;;
      modify (fun w =>
        set_pool_free (a :: pool_free w) (set_mem (delete a (mem w)) w)) ;;
      lift (emit (ev_memblock_put a))
  end.

(** [ble_gattc_proc_insert] *)
Definition ble_gattc_proc_insert (proc : addr) : M unit :=
  w <- get ;;
  h <- STAILQ_INSERT_TAIL (ble_gattc_procs w) proc ;;
  modify (set_procs h).

(** [ble_gattc_process_status] *)
Definition ble_gattc_process_status (proc : option addr) (st : Z)
  : M unit :=
  if st =? 0 then
    match proc with
    | None => crash NullDeref
    | Some a =>
        r <- load_rec a ;;
        (if Z.land (flags r) BLE_GATTC_PROC_F_STALLED =? 0 then
           r <- lift (ble_gattc_proc_set_exp_timer P r) ;;
           store_rec a r
         else ret tt) ;;
        ble_gattc_proc_insert a ;;
        lift (emit ev_hs_timer_resched)
    end
  else ble_gattc_proc_free proc.

(** *** Matching and extraction

    A match function reads the record and may update the criteria it is
    given ([next_exp_in], [matching_rx_entry]); it returns the verdict
    and the criteria. *)

Record ble_gattc_criteria_conn_op :=
  { crit_conn_handle : Z; crit_psm : Z; crit_op : Z }.

Definition ble_gattc_proc_matches_conn_op (proc : ble_gattc_proc)
    (criteria : ble_gattc_criteria_conn_op)
  : bool * ble_gattc_criteria_conn_op :=
  if negb (crit_conn_handle criteria =? conn_handle proc) then
    (false, criteria)
  else if negb (crit_op criteria =? op proc) &&
          negb (crit_op criteria =? BLE_GATT_OP_NONE) then
    (false, criteria)
  else (true, criteria).

Definition ble_gattc_proc_matches_conn_cid_op (proc : ble_gattc_proc)
    (criteria : ble_gattc_criteria_conn_op)
  : bool * ble_gattc_criteria_conn_op :=
  if negb (crit_conn_handle criteria =? conn_handle proc) then
    (false, criteria)
  else if negb (crit_psm criteria =? cid proc) then (false, criteria)
  else if negb (crit_op criteria =? op proc) &&
          negb (crit_op criteria =? BLE_GATT_OP_NONE) then
    (false, criteria)
  else (true, criteria).

Record ble_gattc_criteria_exp := { crit_now : Z; next_exp_in : Z }.

Definition ble_gattc_proc_matches_expired (proc : ble_gattc_proc)
    (criteria : ble_gattc_criteria_exp) : bool * ble_gattc_criteria_exp :=
  let time_diff := s32 (exp_os_ticks proc - crit_now criteria) in
  if time_diff <=? 0 then
    (* Procedure is expired. *)
    (true, criteria)
  else
    (* Procedure isn't expired; determine if it is the next to expire. *)
    (false,
     if time_diff <? next_exp_in criteria
     then {| crit_now := crit_now criteria; next_exp_in := time_diff |}
     else criteria).

Definition ble_gattc_proc_matches_stalled (proc : ble_gattc_proc)
    (unused : unit) : bool * unit :=
  (negb (Z.land (flags proc) BLE_GATTC_PROC_F_STALLED =? 0), unused).

(** An rx table: pairs of an operation code and a handler. *)
Record ble_gattc_criteria_conn_rx_entry (A : Type) :=
  { rx_conn_handle : Z; rx_cid : Z; rx_entries : list (Z * A);
    matching_rx_entry : option (Z * A) }.
Arguments rx_conn_handle {A} _.
Arguments rx_cid {A} _.
Arguments rx_entries {A} _.
Arguments matching_rx_entry {A} _.

(** [ble_gattc_rx_entry_find] *)
Fixpoint ble_gattc_rx_entry_find {A} (opcode : Z) (entries : list (Z * A))
  : option (Z * A) :=
  match entries with
  | [] => None
  | e :: rest =>
      if fst e =? opcode then Some e else ble_gattc_rx_entry_find opcode rest
  end.

Definition ble_gattc_proc_matches_conn_rx_entry {A} (proc : ble_gattc_proc)
    (criteria : ble_gattc_criteria_conn_rx_entry A)
  : bool * ble_gattc_criteria_conn_rx_entry A :=
  if negb (rx_conn_handle criteria =? BLE_HS_CONN_HANDLE_NONE P) &&
     (negb (rx_conn_handle criteria =? conn_handle proc) ||
      negb (rx_cid criteria =? cid proc))
  then (false, criteria)
  else
    (* Entry matches; indicate corresponding rx entry. *)
    let found := ble_gattc_rx_entry_find (op proc) (rx_entries criteria) in
    (bool_decide (is_Some found),
     {| rx_conn_handle := rx_conn_handle criteria;
        rx_cid := rx_cid criteria; rx_entries := rx_entries criteria;
        matching_rx_entry := found |}).

(** The loop of [ble_gattc_extract].  [proc], [prev] and [dst] are the
    variables of the same names; the walk is bounded by [fuel], which
    the caller sets above the number of allocated blocks. *)
Fixpoint extract_loop {C} (fuel : nat)
    (cb : ble_gattc_proc -> C -> bool * C) (arg : C) (max_procs : Z)
    (proc prev : option addr) (num_extracted : Z) (dst : stailq_head)
  : M (C * stailq_head) :=
  match fuel with
  | O => crash ListCorrupt
  | S fuel =>
      match proc with
      | None => ret (arg, dst)
      | Some a =>
          c <- load a ;;
          let nxt := next c in
          let '(hit, arg) := cb (rec c) arg in
          if hit then
            w <- get ;;
            h <- match prev with
                 | None => STAILQ_REMOVE_HEAD (ble_gattc_procs w)
                 | Some pv => STAILQ_REMOVE_AFTER (ble_gattc_procs w) pv
                 end ;;
            modify (set_procs h) ;;
            dst <- STAILQ_INSERT_TAIL dst a ;;
            if (0 <? max_procs) && (max_procs <=? num_extracted + 1) then
              ret (arg, dst)
            else
              extract_loop fuel cb arg max_procs nxt prev
                (if 0 <? max_procs then num_extracted + 1
                 else num_extracted) dst
          else
            extract_loop fuel cb arg max_procs nxt (Some a) num_extracted dst
      end
  end.

(** [ble_gattc_extract] *)
Definition ble_gattc_extract {C} (cb : ble_gattc_proc -> C -> bool * C)
    (arg : C) (max_procs : Z) : M (C * stailq_head) :=
  w <- get ;;
  extract_loop (S (size (mem w))) cb arg max_procs
    (STAILQ_FIRST (ble_gattc_procs w)) None 0 STAILQ_INIT.

Definition ble_gattc_extract_one {C} (cb : ble_gattc_proc -> C -> bool * C)
    (arg : C) : M (C * option addr) :=
  '(arg, dst_list) <- ble_gattc_extract cb arg 1 ;;
  ret (arg, STAILQ_FIRST dst_list).

Definition ble_gattc_extract_by_conn_op (conn opcode max_procs : Z)
  : M stailq_head :=
  '(_, dst_list) <-
    ble_gattc_extract ble_gattc_proc_matches_conn_op
      {| crit_conn_handle := conn; crit_psm := 0; crit_op := opcode |}
      max_procs ;;
  ret dst_list.

Definition ble_gattc_extract_by_conn_cid_op (conn psm opcode max_procs : Z)
  : M stailq_head :=
  '(_, dst_list) <-
    ble_gattc_extract ble_gattc_proc_matches_conn_cid_op
      {| crit_conn_handle := conn; crit_psm := psm; crit_op := opcode |}
      max_procs ;;
  ret dst_list.

Definition ble_gattc_extract_first_by_conn_cid_op (conn chan opcode : Z)
  : M (option addr) :=
  dst_list <- ble_gattc_extract_by_conn_cid_op conn chan opcode 1 ;;
  ret (STAILQ_FIRST dst_list).

Definition ble_gattc_extract_stalled : M stailq_head :=
  '(_, dst_list) <- ble_gattc_extract ble_gattc_proc_matches_stalled tt 0 ;;
  ret dst_list.

(** [ble_gattc_extract_expired]: the expired records, and the number of
    ticks until the next expiration occurs. *)
Definition ble_gattc_extract_expired : M (Z * stailq_head) :=
  w <- get ;;
  '(criteria, dst_list) <-
    ble_gattc_extract ble_gattc_proc_matches_expired
      {| crit_now := now (host w); next_exp_in := BLE_HS_FOREVER P |} 0 ;;
  ret (next_exp_in criteria, dst_list).

Definition ble_gattc_extract_with_rx_entry {A} (conn chan : Z)
    (entries : list (Z * A)) : M (option addr * option (Z * A)) :=
  '(criteria, proc) <-
    ble_gattc_extract_one ble_gattc_proc_matches_conn_rx_entry
      {| rx_conn_handle := conn; rx_cid := chan; rx_entries := entries;
         matching_rx_entry := None |} ;;
  ret (proc, matching_rx_entry criteria).

(** *** Failing, resuming and timing out procedures *)

(** The loop of [ble_gattc_fail_procs]:
    [while ((proc = STAILQ_FIRST(&temp_list)) != NULL)]. *)
Fixpoint fail_loop (fuel : nat) (temp_list : stailq_head) (st : Z)
  : M unit :=
  match fuel with
  | O => crash ListCorrupt
  | S fuel =>
      match STAILQ_FIRST temp_list with
      | None => ret tt
      | Some a =>
          r <- load_rec a ;;
          err_cb <- lift (ble_gattc_err_dispatch_get P (op r)) ;;
          match err_cb with
          | None => crash NullDeref
          | Some fn => lift (fn r st 0)
          end ;;
          temp_list <- STAILQ_REMOVE_HEAD temp_list ;;
          ble_gattc_proc_free (Some a) ;;
          fail_loop fuel temp_list st
      end
  end.

(** [ble_gattc_fail_procs] *)
Definition ble_gattc_fail_procs (conn opcode st : Z) : M unit :=
  (* Remove all procs with the specified conn handle-op-pair and insert
     them into the temporary list. *)
  temp_list <- ble_gattc_extract_by_conn_op conn opcode 0 ;;
  (* Notify application of failed procedures and free the corresponding
     proc entries. *)
  w <- get ;;
  fail_loop (S (size (mem w))) temp_list st.

(** The loop of [ble_gattc_resume_procs]:
    [STAILQ_FOREACH(proc, &stall_list, next)], that is
    [for (proc = STAILQ_FIRST(&stall_list); proc;
          proc = STAILQ_NEXT(proc, next))].
    The step reads [proc->next] after the body has run. *)
Fixpoint resume_loop (fuel : nat) (proc : option addr) : M unit :=
  match fuel with
  | O => crash ListCorrupt
  | S fuel =>
      match proc with
      | None => ret tt
      | Some a =>
          r <- load_rec a ;;
          resume_cb <- lift (ble_gattc_resume_dispatch_get P (op r)) ;;
          let r :=
            set_flags
              (u8 (Z.land (flags r) (Z.lnot BLE_GATTC_PROC_F_STALLED))) r in
          store_rec a r ;;
          '(rc, r) <- lift (call_ptr resume_cb r) ;;
          store_rec a r ;;
          ble_gattc_process_status (Some a) rc ;;
          nxt <- STAILQ_NEXT a ;;
          resume_loop fuel nxt
      end
  end.

(** [ble_gattc_resume_procs] *)
Definition ble_gattc_resume_procs : M unit :=
  (* Cancel resume timer since it is being serviced. *)
  lift (modify (set_resume_at 0)) ;;
  stall_list <- ble_gattc_extract_stalled ;;
  w <- get ;;
  resume_loop (S (size (mem w))) (STAILQ_FIRST stall_list).

(** [ble_gattc_ticks_until_resume] *)
Definition ble_gattc_ticks_until_resume : M Z :=
  w <- get ;;
  (* Resume timer not set. *)
  if ble_gattc_resume_at (host w) =? 0 then ret (BLE_HS_FOREVER P)
  else
    let diff := s32 (ble_gattc_resume_at (host w) - now (host w)) in
    if diff <=? 0 then
      (* Timer already expired; resume immediately. *)
      ret 0
    else ret diff.

(** [ble_gattc_proc_timeout] *)
Definition ble_gattc_proc_timeout (proc : addr) : M unit :=
  r <- load_rec proc ;;
  cb <- lift (ble_gattc_tmo_dispatch_get P (op r)) ;;
  match cb with
  | Some fn => lift (fn r)
  | None => ret tt
  end.

(** The loop of [ble_gattc_timer] over the expired records. *)
Fixpoint timeout_loop (fuel : nat) (exp_list : stailq_head) : M unit :=
  match fuel with
  | O => crash ListCorrupt
  | S fuel =>
      match STAILQ_FIRST exp_list with
      | None => ret tt
      | Some a =>
          ble_gattc_proc_timeout a ;;
          r <- load_rec a ;;
          lift (emit (ev_gap_terminate (conn_handle r)
                        (BLE_ERR_REM_USER_CONN_TERM P))) ;;
          exp_list <- STAILQ_REMOVE_HEAD exp_list ;;
          ble_gattc_proc_free (Some a) ;;
          timeout_loop fuel exp_list
      end
  end.

(** The first half of [ble_gattc_timer]: times out the expired
    procedures and yields [ticks_until_exp]. *)
Definition ble_gattc_timer_expire : M Z :=
  (* Remove timed-out procedures from the main list and insert them into
     a temporary list.  This function also calculates the number of
     ticks until the next expiration will occur. *)
  '(ticks_until_exp, exp_list) <- ble_gattc_extract_expired ;;
  (* Terminate the connection associated with each timed-out
     procedure. *)
  w <- get ;;
  timeout_loop (S (size (mem w))) exp_list ;;
  ret ticks_until_exp.

(** The second half of [ble_gattc_timer]: resumes the stalled
    procedures when their time has come. *)
Definition ble_gattc_timer_resume (ticks_until_exp : Z) : M Z :=
  ticks_until_resume <- ble_gattc_ticks_until_resume ;;
  ticks_until_resume <-
    (if ticks_until_resume =? 0 then
       ble_gattc_resume_procs ;;
       ble_gattc_ticks_until_resume
     else ret ticks_until_resume) ;;
  ret (Z.min ticks_until_exp ticks_until_resume).

(** [ble_gattc_timer]: times out expired GATT client procedures and
    returns the number of ticks until it should be called again. *)
Definition ble_gattc_timer : M Z :=
  ticks_until_exp <- ble_gattc_timer_expire ;;
  ble_gattc_timer_resume ticks_until_exp.

(** *** Receive entry points *)

(** [ble_gattc_rx_err]: dispatches an incoming ATT error-response to
    the appropriate active GATT procedure.  With BLE_GATTC_AUTO_PAIR the
    two stores to [proc->error] come before the test [proc != NULL]. *)
Definition ble_gattc_rx_err (conn chan h st : Z) : M unit :=
  proc <- ble_gattc_extract_first_by_conn_cid_op conn chan BLE_GATT_OP_NONE ;;
  (if BLE_GATTC_AUTO_PAIR P then
     match proc with
     | None => crash NullDeref
     | Some a =>
         r <- load_rec a ;;
         store_rec a (set_error {| status := st; att_handle := h |} r)
     end
   else ret tt) ;;
  match proc with
  | None => ret tt
  | Some a =>
      parked <-
        (if BLE_GATTC_AUTO_PAIR P then
           let '(found, desc) := ble_gap_conn_find P conn in
           if negb (found =? 0) then crash Uninitialized
           else if (sec_state_encrypted desc =? 0) &&
                   ((st =? BLE_ATT_ERR_INSUFFICIENT_ENC P) ||
                    (st =? BLE_ATT_ERR_INSUFFICIENT_AUTHEN P)) then
             let rc := ble_gap_security_initiate P conn in
             lift (emit (ev_gap_security_initiate conn rc)) ;;
             if rc =? 0 then
               w <- get ;;
               hd <- STAILQ_INSERT_TAIL (ble_gattc_cached_procs w) a ;;
               modify (set_cached_procs hd) ;;
               ret true
             else ret false
           else ret false
         else ret false) ;;
      if parked : bool then ret tt
      else
        r <- load_rec a ;;
        err_cb <- lift (ble_gattc_err_dispatch_get P (op r)) ;;
        match err_cb with
        | Some fn => lift (fn r (BLE_HS_ERR_ATT_BASE P + st) h)
        | None => ret tt
        end ;;
        ble_gattc_proc_free (Some a)
  end.

(** The common tail of the entry points: run the handler on the record
    that was extracted, write the record back and let
    [ble_gattc_process_status] reinsert or free it. *)
Definition rx_dispatch (proc : option addr)
    (handler : ble_gattc_proc -> G (Z * ble_gattc_proc)) : M unit :=
  match proc with
  | None => ret tt
  | Some a =>
      r <- load_rec a ;;
      '(rc, r) <- lift (handler r) ;;
      store_rec a r ;;
      ble_gattc_process_status (Some a) rc
  end.

(** [ble_gattc_rx_read_group_type_adata] *)
Definition ble_gattc_rx_read_group_type_adata (conn chan : Z)
    (adata : ble_att_read_group_type_adata) : M unit :=
  proc <- ble_gattc_extract_first_by_conn_cid_op conn chan
            BLE_GATT_OP_DISC_ALL_SVCS ;;
  rx_dispatch proc (fun r => ble_gattc_disc_all_svcs_rx_adata P r adata).

(** [ble_gattc_rx_read_group_type_complete] *)
Definition ble_gattc_rx_read_group_type_complete (conn chan st : Z)
  : M unit :=
  proc <- ble_gattc_extract_first_by_conn_cid_op conn chan
            BLE_GATT_OP_DISC_ALL_SVCS ;;
  rx_dispatch proc (fun r => ble_gattc_disc_all_svcs_rx_complete P r st).

Definition rx_attr_fn := ble_gattc_proc -> Z -> os_mbuf ->
                         G (Z * ble_gattc_proc).

Definition ble_gattc_rx_read_rsp_entries : list (Z * rx_attr_fn) :=
  [ (BLE_GATT_OP_READ, ble_gattc_read_rx_read_rsp P);
    (BLE_GATT_OP_READ_LONG, ble_gattc_read_long_rx_read_rsp P);
    (BLE_GATT_OP_FIND_INC_SVCS, ble_gattc_find_inc_svcs_rx_read_rsp P) ].

(** [ble_gattc_rx_read_rsp] *)
Definition ble_gattc_rx_read_rsp (conn chan st : Z) (rxom : os_mbuf)
  : M unit :=
  '(proc, rx_entry) <-
    ble_gattc_extract_with_rx_entry conn chan ble_gattc_rx_read_rsp_entries ;;
  match proc, rx_entry with
  | None, _ => ret tt
  | Some _, None => crash NullDeref
  | Some _, Some e => rx_dispatch proc (fun r => snd e r st rxom)
  end.

(** [ble_gattc_rx_read_blob_rsp] *)
Definition ble_gattc_rx_read_blob_rsp (conn chan st : Z) (rxom : os_mbuf)
  : M unit :=
  proc <- ble_gattc_extract_first_by_conn_cid_op conn chan
            BLE_GATT_OP_READ_LONG ;;
  rx_dispatch proc (fun r => ble_gattc_read_long_rx_read_rsp P r st rxom).

Definition rx_prep_fn := ble_gattc_proc -> Z -> Z -> Z -> os_mbuf ->
                         G (Z * ble_gattc_proc).

Definition ble_gattc_rx_prep_entries : list (Z * rx_prep_fn) :=
  [ (BLE_GATT_OP_WRITE_LONG, ble_gattc_write_long_rx_prep P);
    (BLE_GATT_OP_WRITE_RELIABLE, ble_gattc_write_reliable_rx_prep P) ].

(** [ble_gattc_rx_prep_write_rsp] *)
Definition ble_gattc_rx_prep_write_rsp (conn chan st h off : Z)
    (rxom : os_mbuf) : M unit :=
  '(proc, rx_entry) <-
    ble_gattc_extract_with_rx_entry conn chan ble_gattc_rx_prep_entries ;;
  match proc, rx_entry with
  | None, _ => ret tt
  | Some _, None => crash NullDeref
  | Some _, Some e => rx_dispatch proc (fun r => snd e r st h off rxom)
  end.

Definition rx_exec_fn := ble_gattc_proc -> Z -> G (Z * ble_gattc_proc).

Definition ble_gattc_rx_exec_entries : list (Z * rx_exec_fn) :=
  [ (BLE_GATT_OP_WRITE_LONG, ble_gattc_write_long_rx_exec P);
    (BLE_GATT_OP_WRITE_RELIABLE, ble_gattc_write_reliable_rx_exec P) ].

(** [ble_gattc_rx_exec_write_rsp] *)
Definition ble_gattc_rx_exec_write_rsp (conn chan st : Z) : M unit :=
  '(proc, rx_entry) <-
    ble_gattc_extract_with_rx_entry conn chan ble_gattc_rx_exec_entries ;;
  match proc, rx_entry with
  | None, _ => ret tt
  | Some _, None => crash NullDeref
  | Some _, Some e => rx_dispatch proc (fun r => snd e r st)
  end.

(** [ble_gattc_rx_mtu].  The C function starts with
    [assert(cid == BLE_L2CAP_CID_ATT)]; the procedure is looked up on
    the ATT channel whatever [cid] is. *)
Definition ble_gattc_rx_mtu (conn chan st chan_mtu : Z) : M unit :=
  proc <- ble_gattc_extract_first_by_conn_cid_op conn (BLE_L2CAP_CID_ATT P)
            BLE_GATT_OP_MTU ;;
  match proc with
  | None => ret tt
  | Some a =>
      r <- load_rec a ;;
      _ <- lift (ble_gattc_mtu_cb P r st 0 chan_mtu) ;;
      ble_gattc_process_status (Some a) (BLE_HS_EDONE P)
  end.

(** [ble_gattc_rx_find_info_complete] *)
Definition ble_gattc_rx_find_info_complete (conn chan st : Z) : M unit :=
  proc <- ble_gattc_extract_first_by_conn_cid_op conn chan
            BLE_GATT_OP_DISC_ALL_DSCS ;;
  rx_dispatch proc (fun r => ble_gattc_disc_all_dscs_rx_complete P r st).

(** [ble_gattc_rx_find_type_value_hinfo] *)
Definition ble_gattc_rx_find_type_value_hinfo (conn chan : Z)
    (hinfo : ble_att_find_type_value_hinfo) : M unit :=
  proc <- ble_gattc_extract_first_by_conn_cid_op conn chan
            BLE_GATT_OP_DISC_SVC_UUID ;;
  rx_dispatch proc (fun r => ble_gattc_disc_svc_uuid_rx_hinfo P r hinfo).

(** [ble_gattc_rx_find_type_value_complete] *)
Definition ble_gattc_rx_find_type_value_complete (conn chan st : Z)
  : M unit :=
  proc <- ble_gattc_extract_first_by_conn_cid_op conn chan
            BLE_GATT_OP_DISC_SVC_UUID ;;
  rx_dispatch proc (fun r => ble_gattc_disc_svc_uuid_rx_complete P r st).

Definition rx_complete_fn := ble_gattc_proc -> Z -> G (Z * ble_gattc_proc).

Definition ble_gattc_rx_read_type_complete_entries
  : list (Z * rx_complete_fn) :=
  [ (BLE_GATT_OP_FIND_INC_SVCS, ble_gattc_find_inc_svcs_rx_complete P);
    (BLE_GATT_OP_DISC_ALL_CHRS, ble_gattc_disc_all_chrs_rx_complete P);
    (BLE_GATT_OP_DISC_CHR_UUID, ble_gattc_disc_chr_uuid_rx_complete P);
    (BLE_GATT_OP_READ_UUID, ble_gattc_read_uuid_rx_complete P) ].

(** [ble_gattc_rx_read_type_complete] *)
Definition ble_gattc_rx_read_type_complete (conn chan st : Z) : M unit :=
  '(proc, rx_entry) <-
    ble_gattc_extract_with_rx_entry conn chan
      ble_gattc_rx_read_type_complete_entries ;;
  match proc, rx_entry with
  | None, _ => ret tt
  | Some _, None => crash NullDeref
  | Some _, Some e => rx_dispatch proc (fun r => snd e r st)
  end.

(** [ble_gattc_rx_write_rsp] *)
Definition ble_gattc_rx_write_rsp (conn chan : Z) : M unit :=
  proc <- ble_gattc_extract_first_by_conn_cid_op conn chan
            BLE_GATT_OP_WRITE ;;
  match proc with
  | None => ret tt
  | Some a =>
      r <- load_rec a ;;
      _ <- lift (ble_gattc_write_cb P r 0 0) ;;
      ble_gattc_process_status (Some a) (BLE_HS_EDONE P)
  end.

(** [ble_gatts_rx_indicate_rsp]: dispatches an incoming ATT
    handle-value-confirmation. *)
Definition ble_gatts_rx_indicate_rsp (conn chan : Z) : M unit :=
  proc <- ble_gattc_extract_first_by_conn_cid_op conn chan
            BLE_GATT_OP_INDICATE ;;
  match proc with
  | None => ret tt
  | Some a =>
      r <- load_rec a ;;
      lift (ble_gatts_indicate_rx_rsp P r) ;;
      ble_gattc_process_status (Some a) (BLE_HS_EDONE P)
  end.

(** *** Connection loss *)

(** [ble_gattc_connection_broken]: called when a BLE connection ends.
    Fails the procedures of the connection and drops the mbufs queued
    on [conn->att_tx_q]; [conn] is used without a NULL test. *)
Definition ble_gattc_connection_broken (conn : Z) : M unit :=
  ble_gattc_fail_procs conn BLE_GATT_OP_NONE (BLE_HS_ENOTCONN P) ;;
  w <- get ;;
  match hs_conns (host w) !! conn with
  | None => crash NullDeref
  | Some c =>
      lift (free_mbufs (att_tx_q c)) ;;
      lift (modify (fun g =>
        set_hs_conns
          (<[conn := {| att_tx_q := [];
                        peer_cl_sup_feat_0 := peer_cl_sup_feat_0 c;
                        indicate_val_handle := indicate_val_handle c |}]>
             (hs_conns g)) g))
  end.

(** [ble_gattc_any_jobs] *)
Definition ble_gattc_any_jobs (w : world) : bool :=
  bool_decide (is_Some (STAILQ_FIRST (ble_gattc_procs w))).

(** *** Initiators *)

(** The shape shared by the initiators whose body is: allocate, prepare,
    fill the union member, transmit, and at [done] hand the return
    code to [ble_gattc_process_status]. *)
Definition initiate (conn opcode : Z) (member : proc_union)
    (tx : ble_gattc_proc -> G Z) : M Z :=
  proc <- ble_gattc_proc_alloc ;;
  rc <- match proc with
        | None => ret (BLE_HS_ENOMEM P)
        | Some a =>
            r <- load_rec a ;;
            let r := set_un member (ble_gattc_proc_prepare r conn opcode) in
            store_rec a r ;;
            lift (tx r)
        end ;;
  ble_gattc_process_status proc rc ;;
  ret rc.

(** [ble_gattc_exchange_mtu] *)
Definition ble_gattc_exchange_mtu (conn : Z) (cb : fnptr) (cb_arg : Z)
  : M Z :=
  proc <- ble_gattc_proc_alloc ;;
  rc <- match proc with
        | None => ret (BLE_HS_ENOMEM P)
        | Some a =>
            r <- load_rec a ;;
            let r :=
              {| error := error r; exp_os_ticks := exp_os_ticks r;
                 conn_handle := conn; cid := BLE_L2CAP_CID_ATT P;
                 op := BLE_GATT_OP_MTU; flags := flags r;
                 un := U_mtu {| mtu.cb := cb; mtu.cb_arg := cb_arg |} |} in
            store_rec a r ;;
            lift (ble_gattc_mtu_tx P r)
        end ;;
  ble_gattc_process_status proc rc ;;
  ret rc.

(** [ble_gattc_disc_all_svcs] *)
Definition ble_gattc_disc_all_svcs (conn : Z) (cb : fnptr) (cb_arg : Z)
  : M Z :=
  initiate conn BLE_GATT_OP_DISC_ALL_SVCS
    (U_disc_all_svcs
       {| disc_all_svcs.prev_handle := 0; disc_all_svcs.cb := cb;
          disc_all_svcs.cb_arg := cb_arg |})
    (ble_gattc_disc_all_svcs_tx P).

(** [ble_gattc_disc_svc_by_uuid] *)
Definition ble_gattc_disc_svc_by_uuid (conn : Z) (id : ble_uuid_any_t)
    (cb : fnptr) (cb_arg : Z) : M Z :=
  initiate conn BLE_GATT_OP_DISC_SVC_UUID
    (U_disc_svc_uuid
       {| disc_svc_uuid.service_uuid := id; disc_svc_uuid.prev_handle := 0;
          disc_svc_uuid.cb := cb; disc_svc_uuid.cb_arg := cb_arg |})
    (ble_gattc_disc_svc_uuid_tx P).

(** [ble_gattc_find_inc_svcs] *)
Definition ble_gattc_find_inc_svcs (conn start_h end_h : Z) (cb : fnptr)
    (cb_arg : Z) : M Z :=
  initiate conn BLE_GATT_OP_FIND_INC_SVCS
    (U_find_inc_svcs
       {| find_inc_svcs.prev_handle := u16 (start_h - 1);
          find_inc_svcs.end_handle := end_h;
          find_inc_svcs.cur_start := 0; find_inc_svcs.cur_end := 0;
          find_inc_svcs.cb := cb; find_inc_svcs.cb_arg := cb_arg |})
    (ble_gattc_find_inc_svcs_tx P).

(** [ble_gattc_disc_all_chrs] *)
Definition ble_gattc_disc_all_chrs (conn start_h end_h : Z) (cb : fnptr)
    (cb_arg : Z) : M Z :=
  initiate conn BLE_GATT_OP_DISC_ALL_CHRS
    (U_disc_all_chrs
       {| disc_all_chrs.prev_handle := u16 (start_h - 1);
          disc_all_chrs.end_handle := end_h;
          disc_all_chrs.cb := cb; disc_all_chrs.cb_arg := cb_arg |})
    (ble_gattc_disc_all_chrs_tx P).

(** [ble_gattc_disc_chrs_by_uuid] *)
Definition ble_gattc_disc_chrs_by_uuid (conn start_h end_h : Z)
    (id : ble_uuid_any_t) (cb : fnptr) (cb_arg : Z) : M Z :=
  initiate conn BLE_GATT_OP_DISC_CHR_UUID
    (U_disc_chr_uuid
       {| disc_chr_uuid.chr_uuid := id;
          disc_chr_uuid.prev_handle := u16 (start_h - 1);
          disc_chr_uuid.end_handle := end_h;
          disc_chr_uuid.cb := cb; disc_chr_uuid.cb_arg := cb_arg |})
    (ble_gattc_disc_chr_uuid_tx P).

(** [ble_gattc_disc_all_dscs] *)
Definition ble_gattc_disc_all_dscs (conn start_h end_h : Z) (cb : fnptr)
    (cb_arg : Z) : M Z :=
  initiate conn BLE_GATT_OP_DISC_ALL_DSCS
    (U_disc_all_dscs
       {| disc_all_dscs.chr_val_handle := start_h;
          disc_all_dscs.prev_handle := start_h;
          disc_all_dscs.end_handle := end_h;
          disc_all_dscs.cb := cb; disc_all_dscs.cb_arg := cb_arg |})
    ble_gattc_disc_all_dscs_tx.

(** [ble_gattc_read] *)
Definition ble_gattc_read (conn attr_handle : Z) (cb : fnptr) (cb_arg : Z)
  : M Z :=
  initiate conn BLE_GATT_OP_READ
    (U_read {| read.handle := attr_handle; read.cb := cb;
               read.cb_arg := cb_arg |})
    ble_gattc_read_tx.

(** [ble_gattc_read_by_uuid] *)
Definition ble_gattc_read_by_uuid (conn start_h end_h : Z)
    (id : ble_uuid_any_t) (cb : fnptr) (cb_arg : Z) : M Z :=
  initiate conn BLE_GATT_OP_READ_UUID
    (U_read_uuid
       {| read_uuid.chr_uuid := id; read_uuid.start_handle := start_h;
          read_uuid.end_handle := end_h;
          read_uuid.cb := cb; read_uuid.cb_arg := cb_arg |})
    ble_gattc_read_uuid_tx.

(** [ble_gattc_read_long] *)
Definition ble_gattc_read_long (conn h off : Z) (cb : fnptr) (cb_arg : Z)
  : M Z :=
  initiate conn BLE_GATT_OP_READ_LONG
    (U_read_long
       {| read_long.handle := h; read_long.offset := off;
          read_long.cb := cb; read_long.cb_arg := cb_arg |})
    ble_gattc_read_long_tx.

(** [ble_gattc_read_mult_internal]; [memcpy] reads [num_handles]
    elements of the caller's array. *)
Definition ble_gattc_read_mult_internal (conn : Z) (hs : list Z)
    (num_handles : Z) (var : bool) (cb cb_mult : fnptr) (cb_arg : Z)
  : M Z :=
  if BLE_GATT_READ_MAX_ATTRS P <? num_handles then
    ble_gattc_process_status None (BLE_HS_EINVAL P) ;;
    ret (BLE_HS_EINVAL P)
  else if Z.of_nat (length hs) <? num_handles then
    crash (OutOfBounds (Z.of_nat (length hs)))
  else
    initiate conn
      (if var then BLE_GATT_OP_READ_MULT_VAR else BLE_GATT_OP_READ_MULT)
      (U_read_mult
         {| read_mult.handles := take (Z.to_nat num_handles) hs;
            read_mult.num_handles := num_handles;
            read_mult.variable := var; read_mult.cb := cb;
            read_mult.cb_mult := cb_mult; read_mult.cb_arg := cb_arg |})
      ble_gattc_read_mult_tx.

(** [ble_gattc_read_mult] *)
Definition ble_gattc_read_mult (conn : Z) (hs : list Z) (num_handles : Z)
    (cb : fnptr) (cb_arg : Z) : M Z :=
  ble_gattc_read_mult_internal conn hs num_handles false cb None cb_arg.

(** [ble_gattc_read_mult_var] *)
Definition ble_gattc_read_mult_var (conn : Z) (hs : list Z)
    (num_handles : Z) (cb : fnptr) (cb_arg : Z) : M Z :=
  ble_gattc_read_mult_internal conn hs num_handles true None cb cb_arg.

(** [ble_gattc_write]; the mbuf is consumed by the transmit, and freed
    at [done] when the transmit was never reached. *)
Definition ble_gattc_write (conn attr_handle : Z) (txom : option os_mbuf)
    (cb : fnptr) (cb_arg : Z) : M Z :=
  proc <- ble_gattc_proc_alloc ;;
  rc <- match proc with
        | None =>
            lift (os_mbuf_free_chain txom) ;;
            ret (BLE_HS_ENOMEM P)
        | Some a =>
            r <- load_rec a ;;
            let r :=
              set_un
                (U_write
                   {| write.att_handle := attr_handle; write.cb := cb;
                      write.cb_arg := cb_arg;
                      (* os_mbuf_dup(txom) *)
                      write.om :=
                        if BLE_GATTC_AUTO_PAIR P then txom else None |})
                (ble_gattc_proc_prepare r conn BLE_GATT_OP_WRITE) in
            store_rec a r ;;
            (* the argument of ble_gattc_log_write *)
            _ <- lift (mbuf_pktlen txom) ;;
            lift (att_tx (tx_write_req conn (cid r) attr_handle txom))
        end ;;
  ble_gattc_process_status proc rc ;;
  ret rc.

(** [ble_gattc_write_long]; the mbuf is consumed by the procedure. *)
Definition ble_gattc_write_long (conn attr_handle off : Z)
    (txom : option os_mbuf) (cb : fnptr) (cb_arg : Z) : M Z :=
  proc <- ble_gattc_proc_alloc ;;
  rc <- match proc with
        | None =>
            lift (os_mbuf_free_chain txom) ;;
            ret (BLE_HS_ENOMEM P)
        | Some a =>
            r <- load_rec a ;;
            let s :=
              {| write_long.attr :=
                   {| handle := attr_handle; offset := off; om := txom |};
                 write_long.length := 0;
                 write_long.cb := cb; write_long.cb_arg := cb_arg |} in
            let r :=
              set_un (U_write_long s)
                (ble_gattc_proc_prepare r conn BLE_GATT_OP_WRITE_LONG) in
            store_rec a r ;;
            data <- lift (write_long_om s) ;;
            if OS_MBUF_PKTLEN data <? off then
              ret (BLE_ATT_ERR_INVALID_OFFSET P)
            else
              '(rc, r) <- lift (ble_gattc_write_long_tx P r) ;;
              store_rec a r ;;
              ret rc
        end ;;
  ble_gattc_process_status proc rc ;;
  ret rc.

(** [ble_gattc_write_reliable]; the caller's array must hold
    [num_attrs] elements, whose mbufs the procedure takes over. *)
Definition ble_gattc_write_reliable (conn : Z) (attr_v : list ble_gatt_attr)
    (num_attrs : Z) (cb : fnptr) (cb_arg : Z) : M Z :=
  if Z.of_nat (length attr_v) <? num_attrs then
    crash (OutOfBounds (Z.of_nat (length attr_v)))
  else
    let mine := take (Z.to_nat num_attrs) attr_v in
    if BLE_GATT_WRITE_MAX_ATTRS P <? num_attrs then
      (* Free supplied mbufs in case something failed. *)
      lift (free_attr_oms mine) ;;
      ble_gattc_process_status None (BLE_HS_EINVAL P) ;;
      ret (BLE_HS_EINVAL P)
    else
      proc <- ble_gattc_proc_alloc ;;
      rc <- match proc with
            | None =>
                lift (free_attr_oms mine) ;;
                ret (BLE_HS_ENOMEM P)
            | Some a =>
                r <- load_rec a ;;
                let s :=
                  {| write_reliable.attrs :=
                       map (fun x => {| handle := handle x; offset := 0;
                                        om := om x |}) mine;
                     write_reliable.num_attrs := u8 num_attrs;
                     write_reliable.cur_attr := 0;
                     write_reliable.length := 0;
                     write_reliable.cb := cb;
                     write_reliable.cb_arg := cb_arg |} in
                let r :=
                  set_un (U_write_reliable s)
                    (ble_gattc_proc_prepare r conn
                       BLE_GATT_OP_WRITE_RELIABLE) in
                store_rec a r ;;
                '(rc, r) <- lift (ble_gattc_write_reliable_tx P r) ;;
                store_rec a r ;;
                ret rc
            end ;;
      ble_gattc_process_status proc rc ;;
      ret rc.

(** [ble_gatts_indicate_custom] *)
Definition ble_gatts_indicate_custom (conn chr_val_h : Z)
    (txom : option os_mbuf) : M Z :=
  proc <- ble_gattc_proc_alloc ;;
  '(rc, txom) <-
    match proc with
    | None => ret (BLE_HS_ENOMEM P, txom)
    | Some a =>
        r <- load_rec a ;;
        let r :=
          set_un (U_indicate {| indicate.chr_val_handle := chr_val_h |})
            (ble_gattc_proc_prepare r conn BLE_GATT_OP_INDICATE) in
        store_rec a r ;;
        '(rc, txom) <-
          match txom with
          | Some _ => ret (0, txom)
          | None =>
              (* No custom attribute data; read the value from the
                 specified attribute. *)
              pkt <- lift ble_hs_mbuf_att_pkt ;;
              match pkt with
              | None => ret (BLE_HS_ENOMEM P, None)
              | Some pkt =>
                  let '(rc, value) :=
                    ble_att_svr_read_handle P (BLE_HS_CONN_HANDLE_NONE P)
                      chr_val_h in
                  if negb (rc =? 0) then
                    (* Fatal error; application disallowed attribute
                       read. *)
                    ret (BLE_HS_EAPP P, Some pkt)
                  else ret (0, Some (pkt ++ value))
              end
          end ;;
        if negb (rc =? 0) then ret (rc, txom)
        else
          rc <- lift (att_tx (tx_indicate conn (cid r) chr_val_h txom)) ;;
          (if rc =? 0 then
             lift (modify (fun g =>
               match hs_conns g !! conn with
               | None => g
               | Some c =>
                   set_hs_conns
                     (<[conn := {| att_tx_q := att_tx_q c;
                                   peer_cl_sup_feat_0 := peer_cl_sup_feat_0 c;
                                   indicate_val_handle := chr_val_h |}]>
                        (hs_conns g)) g
               end))
           else ret tt) ;;
          ret (rc, None)
    end ;;
  (* Tell the application that an indication transmission was
     attempted. *)
  lift (emit (ev_gap_notify_tx rc conn chr_val_h 1)) ;;
  ble_gattc_process_status proc rc ;;
  lift (os_mbuf_free_chain txom) ;;
  ret rc.

(** [ble_gatts_indicate] *)
Definition ble_gatts_indicate (conn chr_val_h : Z) : M Z :=
  ble_gatts_indicate_custom conn chr_val_h None.

(** [ble_gatts_indicate_fail_notconn]: causes the indication in progress
    for the connection (if any) to fail with BLE_HS_ENOTCONN. *)
Definition ble_gatts_indicate_fail_notconn (conn : Z) : M unit :=
  ble_gattc_fail_procs conn BLE_GATT_OP_INDICATE (BLE_HS_ENOTCONN P).

(** [ble_gattc_init], on a host in state [g]. *)
Definition ble_gattc_init (g : genv) : world :=
  {| host := g; mem := ∅; pool_free := seq 0 (BLE_GATT_MAX_PROCS P);
     ble_gattc_procs := STAILQ_INIT;
     ble_gattc_cached_procs := STAILQ_INIT |}.

(** *** Signed write *)

(** [ble_gattc_signed_write]; every [goto err] frees [txom]. *)
Definition ble_gattc_signed_write (conn attr_handle : Z)
    (txom : option os_mbuf) : G Z :=
  (* the argument of ble_gattc_log_signed_write *)
  _ <- mbuf_pktlen txom ;;
  rc <-
    (let '(rc, desc) := ble_gap_conn_find P conn in
     if negb (rc =? 0) then ret rc
     else if sec_state_encrypted desc =? 1 then ret (BLE_HS_EENCRYPT P)
     else
       (* Getting the CSRK for signing *)
       let '(rc, value_sec) := ble_store_read_our_sec P (peer_id_addr desc) in
       if negb (rc =? 0) then ret rc
       else if negb (csrk_present value_sec =? 1) then ret (BLE_HS_EAUTHEN P)
       else
         (* Converting the csrk to little endian *)
         let key := rev (take 16 (csrk value_sec)) in
         att_tx (tx_signed_write_cmd conn (BLE_L2CAP_CID_ATT P) attr_handle
                   key (sign_counter value_sec) txom)) ;;
  if rc =? 0 then ret 0
  else
    os_mbuf_free_chain txom ;;
    ret rc.

(** *** Notifications *)

(** [ble_gatts_notify_custom]; the transmit consumes [txom], and what
    is left of it at [done] is freed. *)
Definition ble_gatts_notify_custom (conn chr_val_h : Z)
    (txom : option os_mbuf) : G Z :=
  '(rc, txom) <-
    match txom with
    | Some _ => ret (0, txom)
    | None =>
        (* No custom attribute data; read the value from the specified
           attribute. *)
        pkt <- ble_hs_mbuf_att_pkt ;;
        match pkt with
        | None => ret (BLE_HS_ENOMEM P, None)
        | Some pkt =>
            let '(rc, value) :=
              ble_att_svr_read_handle P (BLE_HS_CONN_HANDLE_NONE P)
                chr_val_h in
            if negb (rc =? 0) then
              (* Fatal error; application disallowed attribute read. *)
              ret (BLE_HS_EAPP P, Some pkt)
            else ret (0, Some (pkt ++ value))
        end
    end ;;
  '(rc, txom) <-
    (if negb (rc =? 0) then ret (rc, txom)
     else
       rc <- att_tx (tx_notify conn chr_val_h txom) ;;
       ret (rc, None)) ;;
  (* Tell the application that a notification transmission was
     attempted. *)
  emit (ev_gap_notify_tx rc conn chr_val_h 0) ;;
  os_mbuf_free_chain txom ;;
  ret rc.

(** [ble_gatts_notify] *)
Definition ble_gatts_notify (conn chr_val_h : Z) : G Z :=
  ble_gatts_notify_custom conn chr_val_h None.

(** *** Multiple notifications *)

(** How a loop of [ble_gatts_notify_multiple_custom] is left. *)
Inductive loop_exit (A : Type) :=
| exit_return (rc : Z)   (* [return rc] *)
| exit_done (rc : Z)     (* [goto done] with [rc] *)
| exit_end (a : A).      (* the loop ran to its end *)
Arguments exit_return {A} rc.
Arguments exit_done {A} rc.
Arguments exit_end {A} a.

(** Reading [tuples[i]]. *)
Definition tuple_at (tuples : list ble_gatt_notif) (i : nat)
  : G ble_gatt_notif :=
  match tuples !! i with
  | Some t => ret t
  | None => crash (OutOfBounds (Z.of_nat i))
  end.

(** The loop "Read missing values"; it tests [tuples->handle], the
    handle of the first tuple, in every round. *)
Fixpoint notify_read_missing (n i : nat) (tuples : list ble_gatt_notif)
  : G (loop_exit (list ble_gatt_notif)) :=
  match n with
  | O => ret (exit_end tuples)
  | S n =>
      t0 <- tuple_at tuples 0 ;;
      if notif_handle t0 =? 0 then ret (exit_done (BLE_HS_EINVAL P))
      else
        t <- tuple_at tuples i ;;
        match notif_value t with
        | Some _ => notify_read_missing n (S i) tuples
        | None =>
            (* No custom attribute data; read the value from the
               specified attribute *)
            let '(rc, value) := ble_att_svr_read_local P (notif_handle t) in
            if negb (rc =? 0) then ret (exit_done rc)
            else
              notify_read_missing n (S i)
                (<[i := {| notif_handle := notif_handle t;
                           notif_value := Some value |}]> tuples)
        end
  end.

(** The fall-back loop: one Handle Value Notification per tuple. *)
Fixpoint notify_single_each (conn : Z) (n i : nat)
    (tuples : list ble_gatt_notif) : G Z :=
  match n with
  | O => ret 0
  | S n =>
      t <- tuple_at tuples i ;;
      rc <- att_tx (tx_notify conn (notif_handle t) (notif_value t)) ;;
      if negb (rc =? 0) then ret rc
      else notify_single_each conn n (S i) tuples
  end.

Definition le16 (x : Z) : list Z := [x mod 256; (x / 256) mod 256].

(** The batching loop; [cur_chr_cnt] and [txom] are the variables of the
    same names. *)
Fixpoint notify_batch (conn mtu_val : Z) (n i : nat)
    (tuples : list ble_gatt_notif) (cur_chr_cnt : Z) (txom : os_mbuf)
  : G (loop_exit (Z * os_mbuf)) :=
  match n with
  | O => ret (exit_end (cur_chr_cnt, txom))
  | S n =>
      t <- tuple_at tuples i ;;
      match notif_value t with
      | None => crash NullDeref
      | Some value =>
          let too_long :=
            mtu_val <? OS_MBUF_PKTLEN txom + OS_MBUF_PKTLEN value in
          if too_long && (cur_chr_cnt <? 2) then
            rc <- att_tx (tx_notify conn (notif_handle t) (Some value)) ;;
            if negb (rc =? 0) then ret (exit_done rc)
            else notify_batch conn mtu_val n (S i) tuples cur_chr_cnt txom
          else
            flushed <-
              (if too_long then
                 rc <- att_tx (tx_notify_mult conn txom) ;;
                 if negb (rc =? 0) then ret (exit_done rc)
                 else
                   (* buffer was consumed, allocate new one *)
                   pkt <- ble_hs_mbuf_att_pkt ;;
                   match pkt with
                   | None => ret (exit_return (BLE_HS_ENOMEM P))
                   | Some pkt => ret (exit_end (0, pkt))
                   end
               else ret (exit_end (cur_chr_cnt, txom))) ;;
            match flushed with
            | exit_return rc => ret (exit_return rc)
            | exit_done rc => ret (exit_done rc)
            | exit_end (cur_chr_cnt, txom) =>
                notify_batch conn mtu_val n (S i) tuples
                  (u16 (cur_chr_cnt + 1))
                  (txom ++ le16 (notif_handle t)
                        ++ le16 (OS_MBUF_PKTLEN value) ++ value)
            end
      end
  end.

Fixpoint notify_tx_events (rc conn : Z) (n i : nat)
    (tuples : list ble_gatt_notif) : G unit :=
  match n with
  | O => ret tt
  | S n =>
      t <- tuple_at tuples i ;;
      emit (ev_gap_notify_tx rc conn (notif_handle t) 0) ;;
      notify_tx_events rc conn n (S i) tuples
  end.

(** [ble_gatts_notify_multiple_custom]; [tuples] is the caller's array
    and [chr_count] the number of elements the caller announces. *)
Definition ble_gatts_notify_multiple_custom (conn chr_count : Z)
    (tuples : list ble_gatt_notif) : G Z :=
  let n := Z.to_nat chr_count in
  (* mtu = MTU - 1 octet (OP code) *)
  let mtu_val := u16 (ble_att_mtu P conn - 1) in
  pkt <- ble_hs_mbuf_att_pkt ;;
  match pkt with
  | None => ret (BLE_HS_ENOMEM P)
  | Some txom =>
      g <- get ;;
      match hs_conns g !! conn with
      | None => ret (ENOTCONN P)
      | Some c =>
          filled <- notify_read_missing n 0 tuples ;;
          body <-
            match filled with
            | exit_return rc => ret (exit_return rc)
            | exit_done rc => ret (exit_done rc)
            | exit_end tuples =>
                (* If peer does not support fall back to multiple single
                   value Notifications *)
                if Z.land (peer_cl_sup_feat_0 c) 4 =? 0 then
                  rc <- notify_single_each conn n 0 tuples ;;
                  ret (exit_done rc)
                else
                  batched <- notify_batch conn mtu_val n 0 tuples 0 txom ;;
                  match batched with
                  | exit_return rc => ret (exit_return rc)
                  | exit_done rc => ret (exit_done rc)
                  | exit_end (cur_chr_cnt, txom) =>
                      if cur_chr_cnt =? 1 then
                        t <- tuple_at tuples n ;;
                        rc <- att_tx (tx_notify conn (notif_handle t)
                                        (notif_value t)) ;;
                        ret (exit_done rc)
                      else
                        rc <- att_tx (tx_notify_mult conn txom) ;;
                        ret (exit_done rc)
                  end
            end ;;
          match body with
          | exit_return rc => ret rc
          | exit_done rc | exit_end rc =>
              (* Tell the application that multiple notification
                 transmissions were attempted. *)
              notify_tx_events rc conn n 0 tuples ;;
              ret rc
          end
      end
  end.

End Engine.

Arguments exit_return {A} rc.
Arguments exit_done {A} rc.
Arguments exit_end {A} a.

(** * Vocabulary of the properties *)

(** ** List segments in the heap *)

(** [lseg m p l q]: following [next] from the pointer [p] visits the
    blocks [l], in order, and arrives at [q]. *)
Fixpoint lseg (m : gmap addr cell) (p : option addr) (l : list addr)
    (q : option addr) : Prop :=
  match l with
  | [] => p = q
  | a :: l' => p = Some a /\ exists c, m !! a = Some c /\ lseg m (next c) l' q
  end.

(** A head describes the list [l]: null-terminated, and [stqh_last]
    designates the link that ends it. *)
Definition is_queue (m : gmap addr cell) (h : stailq_head) (l : list addr)
  : Prop :=
  lseg m (stqh_first h) l None /\ stqh_last h = last l.

(** Two heaps that differ in links only. *)
Definition same_recs (m1 m2 : gmap addr cell) : Prop :=
  forall a, rec <$> (m1 !! a) = rec <$> (m2 !! a).

(** Worlds that differ in the heap and in the main list only. *)
Definition same_host (w w' : world) : Prop :=
  host w' = host w /\ pool_free w' = pool_free w /\
  ble_gattc_cached_procs w' = ble_gattc_cached_procs w.

(** [extract_spec] is what [ble_gattc_extract] computes, read off the
    list of addresses of the procedure table: the final criteria, the
    extracted records in order, and the records that stay. *)
Fixpoint extract_spec {C} (m : gmap addr cell)
    (cb : ble_gattc_proc -> C -> bool * C) (arg : C) (max_procs n : Z)
    (l : list addr) : C * list addr * list addr :=
  match l with
  | [] => (arg, [], [])
  | a :: l' =>
      match m !! a with
      | None => (arg, [], l)
      | Some c =>
          let '(hit, arg') := cb (rec c) arg in
          if hit then
            if (0 <? max_procs) && (max_procs <=? n + 1) then (arg', [a], l')
            else
              let '(c', hs, ks) :=
                extract_spec m cb arg' max_procs
                  (if 0 <? max_procs then n + 1 else n) l' in
              (c', a :: hs, ks)
          else
            let '(c', hs, ks) := extract_spec m cb arg' max_procs n l' in
            (c', hs, a :: ks)
      end
  end.

(** ** Assumptions on the platform

    What the properties need to know about the constants of the host
    headers: the host error codes are positive and below
    BLE_HS_ERR_ATT_BASE, which fits 16 bits, and the ATT error codes
    the engine tests for are not the "no error" code 0; BLE_HS_FOREVER
    is a positive number of ticks. *)

Definition hs_code (P : platform) (c : Z) : Prop :=
  0 < c < BLE_HS_ERR_ATT_BASE P.

Record platform_ok (P : platform) : Prop := {
  pok_base : BLE_HS_ERR_ATT_BASE P <= 65536;
  pok_einval : hs_code P (BLE_HS_EINVAL P);
  pok_enomem : hs_code P (BLE_HS_ENOMEM P);
  pok_enotconn : hs_code P (BLE_HS_ENOTCONN P);
  pok_ebaddata : hs_code P (BLE_HS_EBADDATA P);
  pok_etimeout : hs_code P (BLE_HS_ETIMEOUT P);
  pok_edone : hs_code P (BLE_HS_EDONE P);
  pok_eapp : hs_code P (BLE_HS_EAPP P);
  pok_eauthen : hs_code P (BLE_HS_EAUTHEN P);
  pok_eencrypt : hs_code P (BLE_HS_EENCRYPT P);
  pok_not_found : 0 < BLE_ATT_ERR_ATTR_NOT_FOUND P;
  pok_invalid_offset : 0 < BLE_ATT_ERR_INVALID_OFFSET P;
  pok_forever : 0 < BLE_HS_FOREVER P;
}.

(** A platform with the values of the NimBLE headers and of the default
    configuration; the collaborators answer alike for every
    connection: the default ATT MTU of 23, the connection descriptor
    [desc] and the stored security material [our_sec].  It serves to
    run the engine on concrete inputs. *)
Definition nimble_cfg (auto_pair : bool) (desc : ble_gap_conn_desc)
    (our_sec : Z * ble_store_value_sec) : platform := {|
  BLE_HS_EINVAL := 3;
  BLE_HS_ENOMEM := 6;
  BLE_HS_ENOTCONN := 7;
  BLE_HS_EBADDATA := 10;
  BLE_HS_ETIMEOUT := 13;
  BLE_HS_EDONE := 14;
  BLE_HS_EAPP := 9;
  BLE_HS_EAUTHEN := 23;
  BLE_HS_EENCRYPT := 25;
  BLE_HS_ERR_ATT_BASE := 256;
  BLE_HS_FOREVER := 2147483647;
  BLE_HS_CONN_HANDLE_NONE := 65535;
  ENOTCONN := 128;
  BLE_ATT_ERR_INSUFFICIENT_AUTHEN := 5;
  BLE_ATT_ERR_INVALID_OFFSET := 7;
  BLE_ATT_ERR_ATTR_NOT_FOUND := 10;
  BLE_ATT_ERR_INSUFFICIENT_ENC := 15;
  BLE_ATT_UUID_PRIMARY_SERVICE := 10240;
  BLE_ATT_UUID_INCLUDE := 10242;
  BLE_ATT_UUID_CHARACTERISTIC := 10243;
  BLE_ATT_PREP_WRITE_CMD_BASE_SZ := 5;
  BLE_ATT_EXEC_WRITE_F_CANCEL := 0;
  BLE_ATT_EXEC_WRITE_F_EXECUTE := 1;
  BLE_ERR_REM_USER_CONN_TERM := 19;
  BLE_L2CAP_CID_ATT := 4;
  BLE_GATT_RESUME_RATE := 1000;
  BLE_GATT_READ_MAX_ATTRS := 8;
  BLE_GATT_WRITE_MAX_ATTRS := 4;
  BLE_GATT_MAX_PROCS := 4;
  BLE_GATTC_AUTO_PAIR := auto_pair;
  eatt_enabled := false;
  ble_npl_time_ms_to_ticks32 := fun ms => ms;
  ble_att_mtu := fun _ => 23;
  ble_att_mtu_by_cid := fun _ _ => 23;
  ble_att_conn_chan_find := fun _ _ => (0, 23);
  ble_eatt_get_available_chan_cid := fun _ _ => 4;
  ble_uuid_init_from_att_buf := fun buf len =>
    match buf with
    | [b0; b1] => if len =? 2 then Some (uuid16 (b0 + 256 * b1)) else None
    | _ => if (len =? 16) && (Z.of_nat (length buf) =? 16)
           then Some (uuid128 buf) else None
    end;
  ble_uuid_init_from_att_mbuf := fun m off len =>
    match m with
    | Some buf =>
        if (off =? 0) && (len =? 16) && (Z.of_nat (length buf) =? 16)
        then Some (uuid128 buf) else None
    | None => None
    end;
  ble_uuid_flat := fun id =>
    match id with
    | uuid16 v => [v mod 256; v / 256]
    | uuid32 v => [v mod 256; (v / 256) mod 256; (v / 65536) mod 256;
                   v / 16777216]
    | uuid128 v => v
    end;
  ble_gap_conn_find := fun _ => (0, desc);
  ble_store_read_our_sec := fun _ => our_sec;
  ble_att_svr_read_local := fun _ => (0, []);
  ble_att_svr_read_handle := fun _ _ => (0, []);
  ble_gap_security_initiate := fun _ => 0;
  ble_gatts_rx_indicate_ack := fun _ _ => 0;
|}.

(** An unencrypted link to a peer without stored keys (the store
    read fails). *)
Definition nimble : platform :=
  nimble_cfg false {| sec_state_encrypted := 0; peer_id_addr := 0 |}
    (5, {| csrk_present := 0; csrk := []; sign_counter := 0 |}).

(** The same platform built with BLE_GATTC_AUTO_PAIR. *)
Definition nimble_auto_pair : platform :=
  nimble_cfg true {| sec_state_encrypted := 0; peer_id_addr := 0 |}
    (5, {| csrk_present := 0; csrk := []; sign_counter := 0 |}).

(** An encrypted link. *)
Definition nimble_encrypted : platform :=
  nimble_cfg false {| sec_state_encrypted := 1; peer_id_addr := 0 |}
    (5, {| csrk_present := 0; csrk := []; sign_counter := 0 |}).

(** An unencrypted link to a peer for which the store holds an entry
    without CSRK. *)
Definition nimble_no_csrk : platform :=
  nimble_cfg false {| sec_state_encrypted := 0; peer_id_addr := 0 |}
    (0, {| csrk_present := 0; csrk := []; sign_counter := 0 |}).

(** A host at time [t] with connection 1 (which supports multiple
    notifications) and the given scripts. *)
Definition host_at (t : Z) (tx cb : list Z) : genv :=
  {| now := t; ble_gattc_resume_at := 0; trace := [];
     tx_rcs := tx; cb_rcs := cb; mbuf_rcs := [];
     hs_conns := {[ 1 := {| att_tx_q := []; peer_cl_sup_feat_0 := 4;
                            indicate_val_handle := 0 |} ]} |}.

(** Running one engine call after another, on a host whose clock and
    scripts are set before the call. *)
Definition set_now (t : Z) (g : genv) : genv :=
  {| now := t; ble_gattc_resume_at := ble_gattc_resume_at g;
     trace := trace g; tx_rcs := tx_rcs g; cb_rcs := cb_rcs g;
     mbuf_rcs := mbuf_rcs g; hs_conns := hs_conns g |}.

Definition at_time {A} (t : Z) (tx cb : list Z) (m : M A) : M A :=
  fun w => m (set_host (set_cb_rcs cb (set_tx_rcs tx (set_now t (host w)))) w).

(** ** What the application is told

    The part of the trace an application observes when a procedure
    ends: callbacks, notify-tx events, connection termination, and the
    return of a record to the pool. *)

Inductive notice :=
| n_call (c : app_call)
| n_notify_tx (st conn h is_indication : Z)
| n_terminate (conn reason : Z)
| n_free (a : addr).

Definition notice_of (e : event) : list notice :=
  match e with
  | ev_cb c _ => [n_call c]
  | ev_gap_notify_tx st conn h i => [n_notify_tx st conn h i]
  | ev_gap_terminate conn reason => [n_terminate conn reason]
  | ev_memblock_put a => [n_free a]
  | _ => []
  end.

Definition notices (evs : list event) : list notice :=
  concat (map notice_of evs).

(** The error object of a callback that reports the failure [st] of
    the whole procedure: no attribute handle goes with it. *)
Definition final_error (st : Z) : ble_gatt_error :=
  {| status := st; att_handle := 0 |}.

(** The single notice by which the application learns that the
    procedure of record [r] ended with status [st]; none when the
    record carries no callback. *)
Definition terminal_notice (r : ble_gattc_proc) (st : Z) : list notice :=
  let conn := conn_handle r in
  let told (cb : fnptr) (c : Z -> app_call) : list notice :=
    match cb with Some fn => [n_call (c fn)] | None => [] end in
  match un r with
  | U_mtu s =>
      told (mtu.cb s)
        (fun fn => call_mtu_fn fn conn (final_error st) 0 (mtu.cb_arg s))
  | U_disc_all_svcs s =>
      told (disc_all_svcs.cb s)
        (fun fn => call_disc_svc_fn fn conn (final_error st) None
                     (disc_all_svcs.cb_arg s))
  | U_disc_svc_uuid s =>
      told (disc_svc_uuid.cb s)
        (fun fn => call_disc_svc_fn fn conn (final_error st) None
                     (disc_svc_uuid.cb_arg s))
  | U_find_inc_svcs s =>
      told (find_inc_svcs.cb s)
        (fun fn => call_disc_svc_fn fn conn (final_error st) None
                     (find_inc_svcs.cb_arg s))
  | U_disc_all_chrs s =>
      told (disc_all_chrs.cb s)
        (fun fn => call_chr_fn fn conn (final_error st)
                     (disc_all_chrs.cb_arg s))
  | U_disc_chr_uuid s =>
      told (disc_chr_uuid.cb s)
        (fun fn => call_chr_fn fn conn (final_error st)
                     (disc_chr_uuid.cb_arg s))
  | U_disc_all_dscs s =>
      told (disc_all_dscs.cb s)
        (fun fn => call_dsc_fn fn conn (final_error st)
                     (disc_all_dscs.chr_val_handle s)
                     (disc_all_dscs.cb_arg s))
  | U_read s =>
      told (read.cb s)
        (fun fn => call_attr_fn fn conn (final_error st) None (read.cb_arg s))
  | U_read_uuid s =>
      told (read_uuid.cb s)
        (fun fn => call_attr_fn fn conn (final_error st) None
                     (read_uuid.cb_arg s))
  | U_read_long s =>
      told (read_long.cb s)
        (fun fn => call_attr_fn fn conn (final_error st) None
                     (read_long.cb_arg s))
  | U_read_mult s =>
      if read_mult.variable s then
        told (read_mult.cb_mult s)
          (fun fn =>
             call_attr_mult_fn fn conn (final_error st)
               (map (fun i => {| handle := nth i (read_mult.handles s) 0;
                                 offset := 0; om := None |})
                  (seq 0 (Z.to_nat (read_mult.num_handles s))))
               (Z.of_nat (Z.to_nat (read_mult.num_handles s)))
               (read_mult.cb_arg s))
      else
        told (read_mult.cb s)
          (fun fn => call_attr_fn fn conn (final_error st)
                       (Some {| handle := 0; offset := 0; om := None |})
                       (read_mult.cb_arg s))
  | U_write s =>
      told (write.cb s)
        (fun fn => call_attr_fn fn conn (final_error st)
                     (Some {| handle := write.att_handle s; offset := 0;
                              om := None |})
                     (write.cb_arg s))
  | U_write_long s =>
      told (write_long.cb s)
        (fun fn => call_attr_fn fn conn (final_error st)
                     (Some (write_long.attr s)) (write_long.cb_arg s))
  | U_write_reliable s =>
      told (write_reliable.cb s)
        (fun fn => call_reliable_attr_fn fn conn (final_error st)
                     (write_reliable.attrs s) (write_reliable.num_attrs s)
                     (write_reliable.cb_arg s))
  | U_indicate s => [n_notify_tx st conn (indicate.chr_val_handle s) 1]
  end.

(** A record as the initiators leave it: the operation code agrees with
    the union member, and a write-long record owns its payload. *)
Definition proc_wf (r : ble_gattc_proc) : Prop :=
  proc_tagged r /\
  match un r with
  | U_write_long s => is_Some (om (write_long.attr s))
  | _ => True
  end.

(** The host moved from [g] to [g'] leaving the events [evs] in the
    trace, with the clock, the connections and the resume time as
    before. *)
Definition host_step (g g' : genv) (evs : list event) : Prop :=
  trace g' = trace g ++ evs /\ now g' = now g /\
  hs_conns g' = hs_conns g /\
  ble_gattc_resume_at g' = ble_gattc_resume_at g.

(** ** Payload buffers and transmissions *)

(** The trace left by [os_mbuf_free_chain txom]. *)
Definition released (txom : option os_mbuf) : list event :=
  match txom with
  | Some data => [ev_mbuf_free data]
  | None => []
  end.

(** The ATT requests handed to the transport, in order. *)
Definition transmitted (evs : list event) : list att_req :=
  concat (map (fun e => match e with ev_tx req _ => [req] | _ => [] end) evs).

(** ** Reading the table *)

(** The verdict of a test on the record at [a]; an address that holds
    no record fails it. *)
Definition holds (m : gmap addr cell) (f : ble_gattc_proc -> bool)
    (a : addr) : bool :=
  match m !! a with
  | Some c => f (rec c)
  | None => false
  end.

Definition on_conn (conn : Z) (r : ble_gattc_proc) : bool :=
  conn =? conn_handle r.

(** [ble_gattc_proc_matches_expired] says "expired" at time [t]. *)
Definition expired (t : Z) (r : ble_gattc_proc) : bool :=
  s32 (exp_os_ticks r - t) <=? 0.

(** What the application is told about the records at [l], each ended
    with status [st]; [after a r] comes between the report and the
    release of the record. *)
Definition ended (m : gmap addr cell) (st : Z)
    (after : ble_gattc_proc -> list notice) (l : list addr) : list notice :=
  flat_map (fun a =>
    match m !! a with
    | Some c => terminal_notice (rec c) st ++ after (rec c) ++ [n_free a]
    | None => []
    end) l.

(** ** A table with two procedures

    Two MTU exchanges, on connections 1 and 2, started at time 0 (their
    deadline is tick 30000), with the host at time [t]. *)

Definition mtu_proc (conn fn : Z) : ble_gattc_proc :=
  {| error := {| status := 0; att_handle := 0 |};
     exp_os_ticks := 30000; conn_handle := conn; cid := 4;
     op := BLE_GATT_OP_MTU; flags := 0;
     un := U_mtu {| mtu.cb := Some fn; mtu.cb_arg := 0 |} |}.

Definition two_procs (t : Z) : world :=
  {| host := host_at t [] [];
     mem := {[ 0%nat := {| next := Some 1%nat; rec := mtu_proc 1 7 |};
               1%nat := {| next := None; rec := mtu_proc 2 8 |} ]};
     pool_free := [2%nat; 3%nat];
     ble_gattc_procs := {| stqh_first := Some 0%nat;
                           stqh_last := Some 1%nat |};
     ble_gattc_cached_procs := STAILQ_INIT |}.

(** ** Two stalled procedures

    Two service discoveries, on connections 1 and 2, started at time 0
    on a fresh engine; at times 10 and 20 the peer completes the
    pending request of each, and the follow-up request of each finds
    the transport out of buffers (return code 6, BLE_HS_ENOMEM). *)

Definition stall_two : M unit :=
  ble_gattc_disc_all_svcs nimble 1 (Some 100) 0 ;;
  ble_gattc_disc_all_svcs nimble 2 (Some 200) 0 ;;
  at_time 10 [6] [] (ble_gattc_rx_read_group_type_complete nimble 1 4 0) ;;
  at_time 20 [6] [] (ble_gattc_rx_read_group_type_complete nimble 2 4 0).

Definition stalled (r : ble_gattc_proc) : bool :=
  negb (Z.land (flags r) BLE_GATTC_PROC_F_STALLED =? 0).

(** ** Prepare Write responses

    The echo of a Prepare Write response disagrees with the request
    that is pending for the write-long state [s] with payload [data]:
    in the handle, in the offset, or in the length. *)
Definition prep_echo_mismatch (s : write_long.t) (data : os_mbuf)
    (h off : Z) (rxom : os_mbuf) : bool :=
  negb (h =? handle (write_long.attr s)) ||
  negb (off =? offset (write_long.attr s)) ||
  (OS_MBUF_PKTLEN data <? off + OS_MBUF_PKTLEN rxom) ||
  negb (OS_MBUF_PKTLEN rxom =? write_long.length s).

(** A write-long procedure on connection 1 for the attribute 9, whose
    first request carried the first 18 of 20 bytes. *)
Definition write_long_proc : ble_gattc_proc :=
  {| error := {| status := 0; att_handle := 0 |};
     exp_os_ticks := 30000; conn_handle := 1; cid := 4;
     op := BLE_GATT_OP_WRITE_LONG; flags := 0;
     un := U_write_long
             {| write_long.attr :=
                  {| handle := 9; offset := 0;
                     om := Some (map Z.of_nat (seq 0 20)) |};
                write_long.length := 18;
                write_long.cb := Some 50; write_long.cb_arg := 0 |} |}.

(** The records that [ble_gattc_proc_matches_conn_cid_op] accepts for
    the criteria [(conn, chan, opcode)]. *)
Definition addressed (conn chan opcode : Z) (r : ble_gattc_proc) : bool :=
  (conn =? conn_handle r) && (chan =? cid r) &&
  ((opcode =? op r) || (opcode =? BLE_GATT_OP_NONE)).

(** ** Service discovery *)

(** The call of the callback of a discover-all-services record with
    status [st] and the service [svc]; none when the record carries no
    callback. *)
Definition svc_report (r : ble_gattc_proc) (s : disc_all_svcs.t) (st : Z)
    (svc : ble_gatt_svc) : list notice :=
  match disc_all_svcs.cb s with
  | Some fn =>
      [n_call (call_disc_svc_fn fn (conn_handle r) (final_error st)
                 (Some svc) (disc_all_svcs.cb_arg s))]
  | None => []
  end.

(** What the application answers to the next call of the callback
    [cb] on the host [g]; a record without callback counts as 0. *)
Definition answer (cb : fnptr) (g : genv) : Z :=
  match cb with
  | Some _ => hd 0 (cb_rcs g)
  | None => 0
  end.

(** A table with one service discovery on connection 1 that has seen
    the services up to the handle 10. *)
Definition disc_proc : ble_gattc_proc :=
  {| error := {| status := 0; att_handle := 0 |};
     exp_os_ticks := 30000; conn_handle := 1; cid := 4;
     op := BLE_GATT_OP_DISC_ALL_SVCS; flags := 0;
     un := U_disc_all_svcs
             {| disc_all_svcs.prev_handle := 10;
                disc_all_svcs.cb := Some 100; disc_all_svcs.cb_arg := 0 |} |}.

Definition one_proc (r : ble_gattc_proc) : world :=
  {| host := host_at 0 [] [];
     mem := {[ 0%nat := {| next := None; rec := r |} ]};
     pool_free := [1%nat; 2%nat; 3%nat];
     ble_gattc_procs := {| stqh_first := Some 0%nat;
                           stqh_last := Some 0%nat |};
     ble_gattc_cached_procs := STAILQ_INIT |}.

(** ** The initiators

    The calls by which an application starts a GATT client procedure,
    with their arguments. *)
Inductive initiator :=
| I_exchange_mtu (conn : Z) (cb : fnptr) (cb_arg : Z)
| I_disc_all_svcs (conn : Z) (cb : fnptr) (cb_arg : Z)
| I_disc_svc_by_uuid (conn : Z) (id : ble_uuid_any_t) (cb : fnptr)
    (cb_arg : Z)
| I_find_inc_svcs (conn start_h end_h : Z) (cb : fnptr) (cb_arg : Z)
| I_disc_all_chrs (conn start_h end_h : Z) (cb : fnptr) (cb_arg : Z)
| I_disc_chrs_by_uuid (conn start_h end_h : Z) (id : ble_uuid_any_t)
    (cb : fnptr) (cb_arg : Z)
| I_disc_all_dscs (conn start_h end_h : Z) (cb : fnptr) (cb_arg : Z)
| I_read (conn attr_handle : Z) (cb : fnptr) (cb_arg : Z)
| I_read_by_uuid (conn start_h end_h : Z) (id : ble_uuid_any_t)
    (cb : fnptr) (cb_arg : Z)
| I_read_long (conn h off : Z) (cb : fnptr) (cb_arg : Z)
| I_read_mult (conn : Z) (hs : list Z) (num_handles : Z) (cb : fnptr)
    (cb_arg : Z)
| I_read_mult_var (conn : Z) (hs : list Z) (num_handles : Z) (cb : fnptr)
    (cb_arg : Z)
| I_write (conn attr_handle : Z) (txom : option os_mbuf) (cb : fnptr)
    (cb_arg : Z)
| I_write_long (conn attr_handle off : Z) (txom : option os_mbuf)
    (cb : fnptr) (cb_arg : Z)
| I_write_reliable (conn : Z) (attr_v : list ble_gatt_attr) (num_attrs : Z)
    (cb : fnptr) (cb_arg : Z).

Definition start (P : platform) (i : initiator) : M Z :=
  match i with
  | I_exchange_mtu conn cb cb_arg => ble_gattc_exchange_mtu P conn cb cb_arg
  | I_disc_all_svcs conn cb cb_arg => ble_gattc_disc_all_svcs P conn cb cb_arg
  | I_disc_svc_by_uuid conn id cb cb_arg =>
      ble_gattc_disc_svc_by_uuid P conn id cb cb_arg
  | I_find_inc_svcs conn start_h end_h cb cb_arg =>
      ble_gattc_find_inc_svcs P conn start_h end_h cb cb_arg
  | I_disc_all_chrs conn start_h end_h cb cb_arg =>
      ble_gattc_disc_all_chrs P conn start_h end_h cb cb_arg
  | I_disc_chrs_by_uuid conn start_h end_h id cb cb_arg =>
      ble_gattc_disc_chrs_by_uuid P conn start_h end_h id cb cb_arg
  | I_disc_all_dscs conn start_h end_h cb cb_arg =>
      ble_gattc_disc_all_dscs P conn start_h end_h cb cb_arg
  | I_read conn attr_handle cb cb_arg =>
      ble_gattc_read P conn attr_handle cb cb_arg
  | I_read_by_uuid conn start_h end_h id cb cb_arg =>
      ble_gattc_read_by_uuid P conn start_h end_h id cb cb_arg
  | I_read_long conn h off cb cb_arg =>
      ble_gattc_read_long P conn h off cb cb_arg
  | I_read_mult conn hs num_handles cb cb_arg =>
      ble_gattc_read_mult P conn hs num_handles cb cb_arg
  | I_read_mult_var conn hs num_handles cb cb_arg =>
      ble_gattc_read_mult_var P conn hs num_handles cb cb_arg
  | I_write conn attr_handle txom cb cb_arg =>
      ble_gattc_write P conn attr_handle txom cb cb_arg
  | I_write_long conn attr_handle off txom cb cb_arg =>
      ble_gattc_write_long P conn attr_handle off txom cb cb_arg
  | I_write_reliable conn attr_v num_attrs cb cb_arg =>
      ble_gattc_write_reliable P conn attr_v num_attrs cb cb_arg
  end.

(** The arguments are what the C interface asks of the caller: the
    arrays hold as many elements as announced, the payloads are not
    NULL, and the counts fit their type. *)
Definition well_formed (i : initiator) : Prop :=
  match i with
  | I_read_mult _ hs num_handles _ _
  | I_read_mult_var _ hs num_handles _ _ =>
      0 <= num_handles <= Z.of_nat (length hs)
  | I_write _ _ txom _ _ | I_write_long _ _ _ txom _ _ => is_Some txom
  | I_write_reliable _ attr_v num_attrs _ _ =>
      0 <= num_attrs <= Z.of_nat (length attr_v) /\ num_attrs < 256 /\
      Forall (fun x => is_Some (om x)) attr_v
  | _ => True
  end.

(** ** Long reads *)

(** The call of the callback of a read-long record with status [st]
    and the attribute [attr]; none when the record carries no
    callback. *)
Definition attr_report (r : ble_gattc_proc) (s : read_long.t) (st : Z)
    (attr : option ble_gatt_attr) : list notice :=
  match read_long.cb s with
  | Some fn =>
      [n_call (call_attr_fn fn (conn_handle r) (final_error st) attr
                 (read_long.cb_arg s))]
  | None => []
  end.

(** A read-long procedure on connection 1 for the attribute 9, at
    offset 0, and a response that fills the default MTU: 22 bytes. *)
Definition read_long_proc : ble_gattc_proc :=
  {| error := {| status := 0; att_handle := 0 |};
     exp_os_ticks := 30000; conn_handle := 1; cid := 4;
     op := BLE_GATT_OP_READ_LONG; flags := 0;
     un := U_read_long
             {| read_long.handle := 9; read_long.offset := 0;
                read_long.cb := Some 60; read_long.cb_arg := 0 |} |}.

Definition full_chunk : os_mbuf := map Z.of_nat (seq 0 22).

(** ** Responses that a table of handlers serves *)

Arguments rx_conn_handle {A} _.
Arguments rx_cid {A} _.
Arguments rx_entries {A} _.
Arguments matching_rx_entry {A} _.

(** The records that [ble_gattc_proc_matches_conn_rx_entry] accepts for
    a response on [(conn, chan)] served by the table [entries]. *)
Definition rx_addressed {A} (P : platform) (conn chan : Z)
    (entries : list (Z * A)) (r : ble_gattc_proc) : bool :=
  ((conn =? BLE_HS_CONN_HANDLE_NONE P) ||
   ((conn =? conn_handle r) && (chan =? cid r))) &&
  bool_decide (is_Some (ble_gattc_rx_entry_find (op r) entries)).

(** ** What an initiator is given *)

(** The payload buffers an initiator takes over from its caller. *)
Definition payloads (i : initiator) : list (option os_mbuf) :=
  match i with
  | I_write _ _ txom _ _ | I_write_long _ _ _ txom _ _ => [txom]
  | I_write_reliable _ attr_v num_attrs _ _ =>
      map om (take (Z.to_nat num_attrs) attr_v)
  | _ => []
  end.

(** The counts are within the limits of the configuration. *)
Definition within_limits (P : platform) (i : initiator) : Prop :=
  match i with
  | I_read_mult _ _ num_handles _ _ | I_read_mult_var _ _ num_handles _ _ =>
      num_handles <= BLE_GATT_READ_MAX_ATTRS P
  | I_write_reliable _ _ num_attrs _ _ =>
      num_attrs <= BLE_GATT_WRITE_MAX_ATTRS P
  | _ => True
  end.

(** The world [w] after the events [evs] and nothing else. *)
Definition after_events (evs : list event) (w : world) : world :=
  set_host (set_trace (trace (host w) ++ evs) (host w)) w.

(** The connection and the operation code of the procedure that an
    initiator starts. *)
Definition conn_of (i : initiator) : Z :=
  match i with
  | I_exchange_mtu conn _ _ | I_disc_all_svcs conn _ _
  | I_disc_svc_by_uuid conn _ _ _ | I_find_inc_svcs conn _ _ _ _
  | I_disc_all_chrs conn _ _ _ _ | I_disc_chrs_by_uuid conn _ _ _ _ _
  | I_disc_all_dscs conn _ _ _ _ | I_read conn _ _ _
  | I_read_by_uuid conn _ _ _ _ _ | I_read_long conn _ _ _ _
  | I_read_mult conn _ _ _ _ | I_read_mult_var conn _ _ _ _
  | I_write conn _ _ _ _ | I_write_long conn _ _ _ _ _
  | I_write_reliable conn _ _ _ _ => conn
  end.

Definition opcode_of (i : initiator) : Z :=
  match i with
  | I_exchange_mtu _ _ _ => BLE_GATT_OP_MTU
  | I_disc_all_svcs _ _ _ => BLE_GATT_OP_DISC_ALL_SVCS
  | I_disc_svc_by_uuid _ _ _ _ => BLE_GATT_OP_DISC_SVC_UUID
  | I_find_inc_svcs _ _ _ _ _ => BLE_GATT_OP_FIND_INC_SVCS
  | I_disc_all_chrs _ _ _ _ _ => BLE_GATT_OP_DISC_ALL_CHRS
  | I_disc_chrs_by_uuid _ _ _ _ _ _ => BLE_GATT_OP_DISC_CHR_UUID
  | I_disc_all_dscs _ _ _ _ _ => BLE_GATT_OP_DISC_ALL_DSCS
  | I_read _ _ _ _ => BLE_GATT_OP_READ
  | I_read_by_uuid _ _ _ _ _ _ => BLE_GATT_OP_READ_UUID
  | I_read_long _ _ _ _ _ => BLE_GATT_OP_READ_LONG
  | I_read_mult _ _ _ _ _ => BLE_GATT_OP_READ_MULT
  | I_read_mult_var _ _ _ _ _ => BLE_GATT_OP_READ_MULT_VAR
  | I_write _ _ _ _ _ => BLE_GATT_OP_WRITE
  | I_write_long _ _ _ _ _ _ => BLE_GATT_OP_WRITE_LONG
  | I_write_reliable _ _ _ _ _ => BLE_GATT_OP_WRITE_RELIABLE
  end.

(** The initiators whose first step is one ATT request that does not
    depend on the state of the connection: all but the MTU exchange
    (which looks up the channel) and the two queued writes (which size
    their first request by the MTU). *)
Definition single_request (i : initiator) : Prop :=
  match i with
  | I_exchange_mtu _ _ _ | I_write_long _ _ _ _ _ _
  | I_write_reliable _ _ _ _ _ => False
  | _ => True
  end.

(** ** What a record owns *)

(** The payload buffers that [ble_gattc_proc_free] frees with the
    record. *)
Definition owned (P : platform) (r : ble_gattc_proc)
  : list (option os_mbuf) :=
  match un r with
  | U_write s => if BLE_GATTC_AUTO_PAIR P then [write.om s] else []
  | U_write_long s => [om (write_long.attr s)]
  | U_write_reliable s =>
      map om (take (Z.to_nat (write_reliable.num_attrs s))
                (write_reliable.attrs s))
  | _ => []
  end.

(** The release of the enhanced-ATT channel of the record, where one
    was taken. *)
Definition eatt_release (P : platform) (r : ble_gattc_proc) : list event :=
  if eatt_enabled P && negb (cid r =? BLE_L2CAP_CID_ATT P)
  then [ev_eatt_release_chan (conn_handle r) (op r)] else [].

(** The trace of freeing the record [r] at [a]. *)
Definition free_events (P : platform) (a : addr) (r : ble_gattc_proc)
  : list event :=
  flat_map released (owned P r) ++ eatt_release P r ++ [ev_memblock_put a].

(** The buffers freed, in order. *)
Definition freed (evs : list event) : list os_mbuf :=
  concat (map (fun e => match e with ev_mbuf_free d => [d] | _ => [] end)
            evs).

(** ** More tables with one procedure *)

(** A write of the attribute 9 on connection 1. *)
Definition write_proc : ble_gattc_proc :=
  {| error := {| status := 0; att_handle := 0 |};
     exp_os_ticks := 30000; conn_handle := 1; cid := 4;
     op := BLE_GATT_OP_WRITE; flags := 0;
     un := U_write {| write.att_handle := 9; write.cb := Some 40;
                      write.cb_arg := 0; write.om := None |} |}.

(** An indication of the characteristic value 12 on connection 1. *)
Definition indicate_proc : ble_gattc_proc :=
  {| error := {| status := 0; att_handle := 0 |};
     exp_os_ticks := 30000; conn_handle := 1; cid := 4;
     op := BLE_GATT_OP_INDICATE; flags := 0;
     un := U_indicate {| indicate.chr_val_handle := 12 |} |}.

(** A discovery of all characteristics of the service at the handles
    1 to 20 on connection 1 that has seen the handles up to 6. *)
Definition chrs_proc : ble_gattc_proc :=
  {| error := {| status := 0; att_handle := 0 |};
     exp_os_ticks := 30000; conn_handle := 1; cid := 4;
     op := BLE_GATT_OP_DISC_ALL_CHRS; flags := 0;
     un := U_disc_all_chrs
             {| disc_all_chrs.prev_handle := 6;
                disc_all_chrs.end_handle := 20;
                disc_all_chrs.cb := Some 30; disc_all_chrs.cb_arg := 0 |} |}.

(** ** Discoveries *)

(** The record is a discovery that walks a range of handles: one of
    the five discovery procedures, or a search for included services
    that is not reading the 128-bit UUID of a service it found. *)
Definition discovering (r : ble_gattc_proc) : bool :=
  match un r with
  | U_disc_all_svcs _ | U_disc_svc_uuid _ | U_disc_all_chrs _
  | U_disc_chr_uuid _ | U_disc_all_dscs _ => true
  | U_find_inc_svcs s => find_inc_svcs.cur_start s =? 0
  | _ => false
  end.

(** ** Indications in progress *)

(** The record is an indication on the connection [conn]. *)
Definition indication_on (conn : Z) (r : ble_gattc_proc) : bool :=
  on_conn conn r && (op r =? BLE_GATT_OP_INDICATE).

(** A table with an indication and an MTU exchange, both on
    connection 1. *)
Definition indication_and_mtu : world :=
  {| host := host_at 0 [] [];
     mem := {[ 0%nat := {| next := Some 1%nat; rec := indicate_proc |};
               1%nat := {| next := None; rec := mtu_proc 1 8 |} ]};
     pool_free := [2%nat; 3%nat];
     ble_gattc_procs := {| stqh_first := Some 0%nat;
                           stqh_last := Some 1%nat |};
     ble_gattc_cached_procs := STAILQ_INIT |}.

(** ** Service discovery over the entries of a response *)

(** The entries of Read By Group Type responses handed to the engine
    one after the other, as the ATT client hands over the attribute
    data of a response it has received. *)
Fixpoint rx_read_group_type_entries (P : platform) (conn chan : Z)
    (es : list ble_att_read_group_type_adata) : M unit :=
  match es with
  | [] => ret tt
  | e :: es' =>
      bind (ble_gattc_rx_read_group_type_adata P conn chan e)
        (fun _ => rx_read_group_type_entries P conn chan es')
  end.

(** The service that the entry [e] announces to a discovery whose last
    handle seen is [prev]: the value of the entry is a UUID of 2 or 16
    bytes that parses, and its end group handle lies above [prev]. *)
Definition announced (P : platform) (prev : Z)
    (e : ble_att_read_group_type_adata) : option ble_gatt_svc :=
  if (adata_value_len e =? 2) || (adata_value_len e =? 16) then
    match ble_uuid_init_from_att_buf P (adata_value e) (adata_value_len e)
    with
    | Some id =>
        if prev <? adata_end_group_handle e then
          Some {| start_handle := Some (adata_att_handle e);
                  end_handle := Some (adata_end_group_handle e);
                  uuid := Some id |}
        else None
    | None => None
    end
  else None.

(** The service structure that goes with the report of BLE_HS_EBADDATA
    for an entry that announces no service: its handles were not
    filled in, and its UUID only when the value is one that parses. *)
Definition refused_svc (P : platform) (e : ble_att_read_group_type_adata)
  : ble_gatt_svc :=
  {| start_handle := None; end_handle := None;
     uuid := if (adata_value_len e =? 2) || (adata_value_len e =? 16)
             then ble_uuid_init_from_att_buf P (adata_value e)
                    (adata_value_len e)
             else None |}.

(** The state of a discovery of all services whose last handle seen is
    [h], with the callback of [s]. *)
Definition seen_up_to (h : Z) (s : disc_all_svcs.t) : disc_all_svcs.t :=
  {| disc_all_svcs.prev_handle := h;
     disc_all_svcs.cb := disc_all_svcs.cb s;
     disc_all_svcs.cb_arg := disc_all_svcs.cb_arg s |}.

(** The course of a discovery: what the application is told, the
    handles stored in [prev_handle] one after the other, and whether
    the procedure is still in progress at the end. *)
Record svc_course := {
  told : list notice;
  stored : list Z;
  in_progress : bool;
}.

(** The callback [cb] lets the procedure go on: it answers 0 to the
    next call ([answers] are its return values to come); a procedure
    without callback always goes on. *)
Definition goes_on (cb : fnptr) (answers : list Z) : bool :=
  match cb with
  | Some _ => hd 0 answers =? 0
  | None => true
  end.

(** The return values left after a call of [cb]. *)
Definition answers_left (cb : fnptr) (answers : list Z) : list Z :=
  match cb with
  | Some _ => tl answers
  | None => answers
  end.

(** The course that the specification gives to the discovery at [a],
    with record [r], callback state [s] and last handle seen [prev],
    over the entries [es]: an entry that announces a service is stored
    and reported, and the procedure goes on when the callback lets it;
    any other entry is reported as BLE_HS_EBADDATA and ends the
    procedure; after the end nothing is reported. *)
Fixpoint svc_walk (P : platform) (a : addr) (r : ble_gattc_proc)
    (s : disc_all_svcs.t) (prev : Z) (answers : list Z)
    (es : list ble_att_read_group_type_adata) : svc_course :=
  match es with
  | [] => {| told := []; stored := []; in_progress := true |}
  | e :: es' =>
      match announced P prev e with
      | None =>
          {| told := svc_report r s (BLE_HS_EBADDATA P) (refused_svc P e)
                     ++ [n_free a];
             stored := []; in_progress := false |}
      | Some svc =>
          let h := adata_end_group_handle e in
          if goes_on (disc_all_svcs.cb s) answers then
            let rest := svc_walk P a r s h
                          (answers_left (disc_all_svcs.cb s) answers) es' in
            {| told := svc_report r s 0 svc ++ told rest;
               stored := h :: stored rest;
               in_progress := in_progress rest |}
          else
            {| told := svc_report r s 0 svc ++ [n_free a];
               stored := [h]; in_progress := false |}
      end
  end.

(** * Properties *)

(** ** Machine integers *)

Lemma u16_id x : 0 <= x < 65536 -> u16 x = x.
Proof. intros H. unfold u16. apply Z.mod_small. lia. Qed.

Lemma u16_range x : 0 <= u16 x < 65536.
Proof. unfold u16. apply Z.mod_pos_bound. lia. Qed.

Lemma u32_range x : 0 <= u32 x < 2 ^ 32.
Proof. unfold u32. apply Z.mod_pos_bound. lia. Qed.



(** ** The state monad *)

Lemma bind_Ok {S A B} (m : St S A) (k : A -> St S B) s a s' :
  m s = Ok (a, s') -> bind m k s = k a s'.
Proof. intros H. unfold bind. now rewrite H. Qed.

Lemma bind_Fault {S A B} (m : St S A) (k : A -> St S B) s f :
  m s = Fault f -> bind m k s = Fault f.
Proof. intros H. unfold bind. now rewrite H. Qed.

Lemma lift_Ok {A} (m : G A) w a g :
  m (host w) = Ok (a, g) -> lift m w = Ok (a, set_host g w).
Proof. intros H. unfold lift. now rewrite H. Qed.

(** ** List segments in the heap *)

Lemma lseg_app m p l1 l2 q :
  lseg m p (l1 ++ l2) q <-> exists r, lseg m p l1 r /\ lseg m r l2 q.
Proof.
  revert p. induction l1 as [|a l1 IH]; intros p; simpl.
  - split.
    + intros H. exists p. auto.
    + intros (r & -> & H). exact H.
  - split.
    + intros (-> & c & Hc & H). apply IH in H as (r & H1 & H2).
      exists r. split; [|exact H2]. split; [reflexivity|]. eauto.
    + intros (r & (-> & c & Hc & H1) & H2). split; [reflexivity|].
      exists c. split; [exact Hc|]. apply IH. eauto.
Qed.

Lemma lseg_det m p l1 l2 :
  lseg m p l1 None -> lseg m p l2 None -> l1 = l2.
Proof.
  revert p l2. induction l1 as [|a l1 IH]; intros p [|b l2]; simpl.
  - reflexivity.
  - intros -> (H & _). discriminate.
  - intros (-> & _) H. discriminate.
  - intros (-> & c & Hc & H1) (Hb & c' & Hc' & H2).
    injection Hb as <-. rewrite Hc in Hc'. injection Hc' as <-.
    f_equal. eapply IH; eassumption.
Qed.

Lemma lseg_NoDup m p l : lseg m p l None -> NoDup l.
Proof.
  revert p. induction l as [|a l IH]; intros p; simpl.
  - intros _. constructor.
  - intros (-> & c & Hc & H). constructor; [|eapply IH; eassumption].
    intros Hin. apply list_elem_of_split in Hin as (l1 & l2 & ->).
    pose proof H as H'. apply lseg_app in H' as (r & _ & Hr).
    simpl in Hr. destruct Hr as (-> & c' & Hc' & Hr).
    rewrite Hc in Hc'. injection Hc' as <-.
    pose proof (lseg_det _ _ _ _ H Hr) as Heq.
    apply (f_equal length) in Heq. rewrite length_app in Heq. simpl in Heq. lia.
Qed.

(** Only the links of the blocks of a segment matter. *)
Lemma lseg_ext m1 m2 p l q :
  (forall a, a ∈ l -> next <$> (m1 !! a) = next <$> (m2 !! a)) ->
  lseg m1 p l q -> lseg m2 p l q.
Proof.
  revert p. induction l as [|a l IH]; intros p Hext; simpl; [auto|].
  intros (-> & c & Hc & H). split; [reflexivity|].
  pose proof (Hext a (list_elem_of_here _ _)) as Ha. rewrite Hc in Ha. simpl in Ha.
  destruct (m2 !! a) as [c2|] eqn:Hc2; simpl in Ha; [|discriminate].
  injection Ha as Ha. exists c2. split; [reflexivity|]. rewrite <- Ha.
  apply IH; [|exact H]. intros b Hb. apply Hext. now apply list_elem_of_further.
Qed.

Lemma lseg_In_Some m p l q a :
  lseg m p l q -> a ∈ l -> is_Some (m !! a).
Proof.
  revert p. induction l as [|b l IH]; intros p; simpl.
  - intros _ H. inversion H.
  - intros (-> & c & Hc & H) Hin. apply elem_of_cons in Hin as [->|Hin].
    + eauto.
    + eapply IH; eassumption.
Qed.

Lemma lseg_head m p l : lseg m p l None -> p = head l.
Proof. destruct l; simpl; [auto|]. now intros (-> & _). Qed.

Lemma is_queue_NoDup m h l : is_queue m h l -> NoDup l.
Proof. intros [H _]. eapply lseg_NoDup, H. Qed.

Lemma is_queue_ext m1 m2 h l :
  (forall a, a ∈ l -> next <$> (m1 !! a) = next <$> (m2 !! a)) ->
  is_queue m1 h l -> is_queue m2 h l.
Proof. intros Hext [H1 H2]. split; [eapply lseg_ext; eassumption|exact H2]. Qed.

Lemma is_queue_first m h l : is_queue m h l -> stqh_first h = head l.
Proof. intros [H _]. eapply lseg_head, H. Qed.

Lemma is_queue_nil m : is_queue m STAILQ_INIT [].
Proof. split; reflexivity. Qed.

Lemma same_recs_refl m : same_recs m m.
Proof. intros a. reflexivity. Qed.

Lemma same_recs_trans m1 m2 m3 :
  same_recs m1 m2 -> same_recs m2 m3 -> same_recs m1 m3.
Proof. intros H1 H2 a. now rewrite H1. Qed.

Lemma same_recs_relink m a c n :
  m !! a = Some c -> same_recs m (<[a := {| next := n; rec := rec c |}]> m).
Proof.
  intros Hc b. destruct (decide (a = b)) as [<-|Hne].
  - rewrite lookup_insert_eq, Hc. reflexivity.
  - rewrite lookup_insert_ne by exact Hne. reflexivity.
Qed.

Lemma same_host_refl w : same_host w w.
Proof. repeat split. Qed.

Lemma same_host_trans w1 w2 w3 :
  same_host w1 w2 -> same_host w2 w3 -> same_host w1 w3.
Proof.
  intros (A1 & B1 & C1) (A2 & B2 & C2). repeat split; congruence.
Qed.

Lemma set_next_run w a c n :
  mem w !! a = Some c ->
  set_next a n w
  = Ok (tt, set_mem (<[a := {| next := n; rec := rec c |}]> (mem w)) w).
Proof.
  intros Hc. unfold set_next, bind, load, store, ret.
  rewrite Hc. simpl. rewrite Hc. reflexivity.
Qed.

Lemma STAILQ_NEXT_run w a c :
  mem w !! a = Some c -> STAILQ_NEXT a w = Ok (next c, w).
Proof. intros Hc. unfold STAILQ_NEXT, bind, load, ret. now rewrite Hc. Qed.

Lemma STAILQ_INSERT_TAIL_spec w h l e :
  is_queue (mem w) h l -> e ∉ l -> is_Some (mem w !! e) ->
  exists h' m',
    STAILQ_INSERT_TAIL h e w = Ok (h', set_mem m' w) /\
    is_queue m' h' (l ++ [e]) /\ same_recs (mem w) m' /\
    (forall a, a <> e -> last l <> Some a -> m' !! a = mem w !! a).
Proof.
  intros Hq Hnin [c Hc]. pose proof (is_queue_NoDup _ _ _ Hq) as Hnd.
  destruct Hq as [Hseg Hlast]. unfold STAILQ_INSERT_TAIL.
  rewrite (bind_Ok _ _ _ _ _ (set_next_run w e c None Hc)).
  destruct (last l) as [x|] eqn:Hl; rewrite Hlast.
  - apply last_Some in Hl as [l0 ->].
    apply lseg_app in Hseg as (r & H0 & Hx). simpl in Hx.
    destruct Hx as (-> & cx & Hcx & Hnx).
    assert (x <> e) as Hxe.
    { intros ->. apply Hnin. apply elem_of_app. right. apply list_elem_of_here. }
    assert (x ∉ l0) as Hx0.
    { apply NoDup_app in Hnd as (_ & Hd & _). intros Hin. apply (Hd x Hin).
      apply list_elem_of_here. }
    set (m1 := <[e := {| next := None; rec := rec c |}]> (mem w)).
    assert (mem (set_mem m1 w) !! x = Some cx) as Hcx1.
    { simpl. unfold m1. rewrite lookup_insert_ne by congruence. exact Hcx. }
    rewrite (bind_Ok _ _ _ _ _ (set_next_run _ x cx (Some e) Hcx1)).
    simpl. eexists _, _. split; [reflexivity|]. split; [|split].
    + split; [|simpl; now rewrite last_snoc].
      simpl. rewrite <- app_assoc. apply lseg_app. exists (Some x). split.
      * eapply lseg_ext; [|exact H0]. intros a Ha.
        rewrite lookup_insert_ne by (intros ->; contradiction).
        unfold m1. rewrite lookup_insert_ne; [reflexivity|].
        intros ->. apply Hnin. apply elem_of_app. now left.
      * simpl. split; [reflexivity|]. eexists. split; [apply lookup_insert_eq|].
        simpl. split; [reflexivity|]. eexists. split.
        { rewrite lookup_insert_ne by congruence. unfold m1.
          apply lookup_insert_eq. }
        reflexivity.
    + eapply same_recs_trans; [apply (same_recs_relink _ e c None Hc)|].
      fold m1. apply (same_recs_relink m1 x cx (Some e)).
      unfold m1. rewrite lookup_insert_ne by congruence. exact Hcx.
    + intros a Hae Hax. rewrite lookup_insert_ne by congruence.
      unfold m1. now rewrite lookup_insert_ne by congruence.
  - apply last_None in Hl as ->. simpl in Hseg.
    unfold ret. eexists _, _. split; [reflexivity|]. split; [|split].
    + split; [|reflexivity]. simpl. split; [reflexivity|].
      eexists. split; [apply lookup_insert_eq|]. reflexivity.
    + apply (same_recs_relink _ e c None Hc).
    + intros a Hae _. now rewrite lookup_insert_ne by congruence.
Qed.

Lemma STAILQ_REMOVE_HEAD_spec w h a l :
  is_queue (mem w) h (a :: l) ->
  exists h', STAILQ_REMOVE_HEAD h w = Ok (h', w) /\ is_queue (mem w) h' l.
Proof.
  intros [Hseg Hlast]. simpl in Hseg. destruct Hseg as (Hf & c & Hc & Hn).
  unfold STAILQ_REMOVE_HEAD. rewrite Hf.
  rewrite (bind_Ok _ _ _ _ _ (STAILQ_NEXT_run w a c Hc)).
  pose proof (lseg_head _ _ _ Hn) as Hh.
  destruct l as [|b l]; simpl in Hh; rewrite Hh.
  - eexists. split; [reflexivity|]. split; reflexivity.
  - eexists. split; [reflexivity|]. split; simpl.
    + rewrite Hh in Hn. exact Hn.
    + rewrite Hlast. reflexivity.
Qed.

Lemma STAILQ_REMOVE_AFTER_spec w h l1 pv a l2 :
  is_queue (mem w) h (l1 ++ pv :: a :: l2) ->
  exists h' m',
    STAILQ_REMOVE_AFTER h pv w = Ok (h', set_mem m' w) /\
    is_queue m' h' (l1 ++ pv :: l2) /\ same_recs (mem w) m' /\
    (forall b, b <> pv -> m' !! b = mem w !! b).
Proof.
  intros Hq. pose proof (is_queue_NoDup _ _ _ Hq) as Hnd.
  destruct Hq as [Hseg Hlast].
  apply lseg_app in Hseg as (r & H1 & Hr). simpl in Hr.
  destruct Hr as (-> & cp & Hcp & Ha). destruct Ha as (Hna & ca & Hca & H2).
  apply NoDup_app in Hnd as (_ & Hd1 & Hd2).
  assert (pv ∉ l1) as Hp1.
  { intros Hin. apply (Hd1 _ Hin). apply list_elem_of_here. }
  apply NoDup_cons in Hd2 as (Hp2 & _).
  assert (pv ∉ l2) as Hp3.
  { intros Hin. apply Hp2. now apply list_elem_of_further. }
  unfold STAILQ_REMOVE_AFTER.
  rewrite (bind_Ok _ _ _ _ _ (STAILQ_NEXT_run w pv cp Hcp)). rewrite Hna.
  rewrite (bind_Ok _ _ _ _ _ (STAILQ_NEXT_run w a ca Hca)).
  rewrite (bind_Ok _ _ _ _ _ (set_next_run w pv cp (next ca) Hcp)).
  set (m' := <[pv := {| next := next ca; rec := rec cp |}]> (mem w)).
  assert (lseg m' (stqh_first h) (l1 ++ pv :: l2) None) as Hnew.
  { apply lseg_app. exists (Some pv). split.
    - eapply lseg_ext; [|exact H1]. intros b Hb. unfold m'.
      rewrite lookup_insert_ne; [reflexivity|]. intros ->. contradiction.
    - simpl. split; [reflexivity|]. eexists. split; [apply lookup_insert_eq|].
      simpl. eapply lseg_ext; [|exact H2]. intros b Hb. unfold m'.
      rewrite lookup_insert_ne; [reflexivity|]. intros ->. contradiction. }
  pose proof (lseg_head _ _ _ H2) as Hh.
  destruct l2 as [|b l2]; simpl in Hh; rewrite Hh; unfold ret.
  - eexists _, _. split; [reflexivity|]. split; [|split].
    + split; [exact Hnew|]. simpl. now rewrite last_snoc.
    + apply same_recs_relink. exact Hcp.
    + intros b Hb. unfold m'. now rewrite lookup_insert_ne by congruence.
  - eexists _, _. split; [reflexivity|]. split; [|split].
    + split; [exact Hnew|]. rewrite Hlast.
      rewrite !last_app. simpl. reflexivity.
    + apply same_recs_relink. exact Hcp.
    + intros c Hc. unfold m'. now rewrite lookup_insert_ne by congruence.
Qed.

(** ** Extraction *)

Lemma extract_spec_ext {C} m1 m2 (cb : ble_gattc_proc -> C -> bool * C)
    arg max_procs n l :
  same_recs m1 m2 ->
  extract_spec m1 cb arg max_procs n l = extract_spec m2 cb arg max_procs n l.
Proof.
  intros Hs. revert arg n. induction l as [|a l IH]; intros arg n; simpl.
  - reflexivity.
  - pose proof (Hs a) as Ha.
    destruct (m1 !! a) as [c1|], (m2 !! a) as [c2|]; simpl in Ha;
      try discriminate; [|reflexivity].
    injection Ha as ->. destruct (cb (rec c2) arg) as [hit arg'].
    destruct hit.
    + destruct ((0 <? max_procs) && (max_procs <=? n + 1)); [reflexivity|].
      now rewrite IH.
    + now rewrite IH.
Qed.

Lemma world_eta w :
  set_procs (ble_gattc_procs w) (set_mem (mem w) w) = w.
Proof. destruct w. reflexivity. Qed.

Lemma set_mem_eta w : set_mem (mem w) w = w.
Proof. destruct w. reflexivity. Qed.

(** Unlinking the record after [prev] (or the head when [prev] is
    NULL) from the procedure table. *)
Lemma unlink_spec w kept a rest :
  is_queue (mem w) (ble_gattc_procs w) (kept ++ a :: rest) ->
  exists h' m1,
    match last kept with
    | Some pv => STAILQ_REMOVE_AFTER (ble_gattc_procs w) pv
    | None => STAILQ_REMOVE_HEAD (ble_gattc_procs w)
    end w = Ok (h', set_mem m1 w) /\
    same_recs (mem w) m1 /\ is_queue m1 h' (kept ++ rest) /\
    (forall b, b ∉ kept -> m1 !! b = mem w !! b).
Proof.
  intros Hq. destruct (last kept) as [pv|] eqn:Hlk.
  - apply last_Some in Hlk as [k0 ->]. rewrite <- app_assoc in Hq. simpl in Hq.
    destruct (STAILQ_REMOVE_AFTER_spec w _ k0 pv a rest Hq)
      as (h' & m' & Hrun & Hq' & Hs' & Hf').
    exists h', m'. split; [exact Hrun|]. split; [exact Hs'|]. split.
    + now rewrite <- app_assoc.
    + intros b Hb. apply Hf'. intros ->. apply Hb.
      apply elem_of_app. right. apply list_elem_of_here.
  - apply last_None in Hlk as ->. simpl in *.
    destruct (STAILQ_REMOVE_HEAD_spec w _ a rest Hq) as (h' & Hrun & Hq').
    exists h', (mem w). rewrite set_mem_eta. split; [exact Hrun|].
    split; [apply same_recs_refl|]. split; [exact Hq'|]. reflexivity.
Qed.

Lemma extract_loop_spec {C} (cb : ble_gattc_proc -> C -> bool * C)
    max_procs rest :
  forall fuel w arg n kept hits dst,
    (length rest < fuel)%nat ->
    is_queue (mem w) (ble_gattc_procs w) (kept ++ rest) ->
    is_queue (mem w) dst hits ->
    (forall a, a ∈ hits -> a ∉ kept ++ rest) ->
    exists w' hd,
      extract_loop fuel cb arg max_procs (head rest) (last kept) n dst w
      = Ok ((fst (fst (extract_spec (mem w) cb arg max_procs n rest)), hd),
            w') /\
      same_host w w' /\ same_recs (mem w) (mem w') /\
      is_queue (mem w') (ble_gattc_procs w')
        (kept ++ snd (extract_spec (mem w) cb arg max_procs n rest)) /\
      is_queue (mem w') hd
        (hits ++ snd (fst (extract_spec (mem w) cb arg max_procs n rest))) /\
      (forall a, a ∉ kept ++ rest ++ hits -> mem w' !! a = mem w !! a).
Proof.
  induction rest as [|a rest IH];
    intros fuel w arg n kept hits dst Hfuel Hq Hd Hdisj.
  - destruct fuel as [|fuel]; [simpl in Hfuel; lia|]. simpl.
    exists w, dst. rewrite !app_nil_r in *.
    split; [reflexivity|]. split; [apply same_host_refl|].
    split; [apply same_recs_refl|]. auto.
  - destruct fuel as [|fuel]; [simpl in Hfuel; lia|].
    assert (length rest < fuel)%nat as Hfuel' by (simpl in Hfuel; lia).
    pose proof (is_queue_NoDup _ _ _ Hq) as Hnd.
    assert ((a ∉ kept) /\ (a ∉ rest)) as [Hak Har].
    { apply NoDup_app in Hnd as (_ & Hx & Hy). split.
      - intros Hin. apply (Hx _ Hin). apply list_elem_of_here.
      - now apply NoDup_cons in Hy as (? & _). }
    assert (a ∉ hits) as Hah.
    { intros Hin. apply (Hdisj _ Hin). apply elem_of_app. right.
      apply list_elem_of_here. }
    assert (exists c, mem w !! a = Some c /\ next c = head rest)
      as (c & Hc & Hnext).
    { destruct Hq as [Hseg _]. apply lseg_app in Hseg as (r & _ & Hr).
      simpl in Hr. destruct Hr as (_ & c & Hc & Hn). exists c.
      split; [exact Hc|]. eapply lseg_head, Hn. }
    cbn [extract_loop head]. unfold bind at 1, load at 1. rewrite Hc.
    cbn [extract_spec]. rewrite Hc.
    destruct (cb (rec c) arg) as [hit arg'] eqn:Hcb. destruct hit.
    + (* the record matches: unlink it, append it to [dst] *)
      unfold bind at 1, get at 1.
      destruct (unlink_spec w kept a rest Hq) as (h' & m1 & Hrun & Hs1 & Hq1 & Hf1).
      rewrite (bind_Ok _ _ _ _ _ Hrun). unfold bind at 1, modify at 1.
      set (w1 := set_procs h' (set_mem m1 w)).
      assert (is_queue (mem w1) dst hits) as Hd1.
      { eapply is_queue_ext; [|exact Hd]. intros b Hb. simpl.
        rewrite Hf1; [reflexivity|]. intros Hbk. apply (Hdisj _ Hb).
        apply elem_of_app. now left. }
      assert (is_Some (mem w1 !! a)) as Ha1.
      { simpl. pose proof (Hs1 a) as Hsa. rewrite Hc in Hsa.
        destruct (m1 !! a); [eauto|discriminate]. }
      destruct (STAILQ_INSERT_TAIL_spec w1 dst hits a Hd1 Hah Ha1)
        as (hd1 & m2 & Hrun2 & Hq2 & Hs2 & Hf2).
      rewrite (bind_Ok _ _ _ _ _ Hrun2).
      set (w2 := set_mem m2 w1).
      assert (is_queue (mem w2) (ble_gattc_procs w2) (kept ++ rest)) as Hq3.
      { simpl. eapply is_queue_ext; [|exact Hq1]. intros b Hb.
        rewrite Hf2; [reflexivity| |].
        - intros ->. apply elem_of_app in Hb as [?|?]; contradiction.
        - intros Hl. apply last_Some in Hl as [l0 ->].
          apply (Hdisj b).
          + apply elem_of_app. right. apply list_elem_of_here.
          + apply elem_of_app in Hb as [?|?]; apply elem_of_app; [now left|].
            right. now apply list_elem_of_further. }
      assert (same_recs (mem w) m2) as Hs02
        by (eapply same_recs_trans; eassumption).
      assert (forall b, b ∉ kept ++ (a :: rest) ++ hits ->
                        m2 !! b = mem w !! b) as Hf02.
      { intros b Hb. rewrite Hf2.
        - simpl. apply Hf1. intros Hk. apply Hb. apply elem_of_app. now left.
        - intros ->. apply Hb. apply elem_of_app. right.
          apply elem_of_app. left. apply list_elem_of_here.
        - intros Hl. apply last_Some in Hl as [l0 ->]. apply Hb.
          apply elem_of_app. right. apply elem_of_app. right.
          apply elem_of_app. right. apply list_elem_of_here. }
      destruct ((0 <? max_procs) && (max_procs <=? n + 1)) eqn:Hbrk.
      * exists w2, hd1. split; [reflexivity|]. split; [repeat split|].
        split; [exact Hs02|]. split; [exact Hq3|]. split; [exact Hq2|].
        intros b Hb. apply Hf02. exact Hb.
      * destruct (IH fuel w2 arg'
                    (if 0 <? max_procs then n + 1 else n) kept (hits ++ [a])
                    hd1 Hfuel' Hq3 Hq2)
          as (w' & hd & Hrun3 & Hh3 & Hs3 & Hq4 & Hq5 & Hf3).
        { intros b Hb. apply elem_of_app in Hb as [Hb|Hb].
          - intros Hin. apply (Hdisj _ Hb). apply elem_of_app in Hin as [?|?];
              apply elem_of_app; [now left|]. right.
            now apply list_elem_of_further.
          - apply list_elem_of_singleton in Hb as ->.
            intros Hin. apply elem_of_app in Hin as [?|?]; contradiction. }
        rewrite Hnext. rewrite Hrun3.
        rewrite (extract_spec_ext (mem w2) (mem w)) in *
          by (intros b; symmetry; apply Hs02).
        destruct (extract_spec (mem w) cb arg' max_procs
                    (if 0 <? max_procs then n + 1 else n) rest)
          as [[c' hs] ks].
        simpl fst in *. simpl snd in *.
        exists w', hd. split; [reflexivity|].
        split; [eapply same_host_trans; [|exact Hh3]; repeat split|].
        split; [eapply same_recs_trans; [exact Hs02|exact Hs3]|].
        split; [exact Hq4|]. split; [now rewrite <- app_assoc in Hq5|].
        intros b Hb. rewrite Hf3.
        -- apply Hf02. exact Hb.
        -- intros Hin. apply Hb. rewrite !elem_of_app in *.
           rewrite elem_of_cons. rewrite list_elem_of_singleton in Hin.
           tauto.
    + (* no match: the record becomes [prev] *)
      destruct (IH fuel w arg' n (kept ++ [a]) hits dst Hfuel')
        as (w' & hd & Hrun3 & Hh3 & Hs3 & Hq4 & Hq5 & Hf3).
      { now rewrite <- app_assoc. }
      { exact Hd. }
      { intros b Hb. rewrite <- app_assoc. apply (Hdisj _ Hb). }
      rewrite last_snoc in Hrun3. rewrite Hnext, Hrun3.
      destruct (extract_spec (mem w) cb arg' max_procs n rest)
        as [[c' hs] ks].
      simpl fst in *. simpl snd in *.
      exists w', hd. split; [reflexivity|]. split; [exact Hh3|].
      split; [exact Hs3|]. split; [now rewrite <- app_assoc in Hq4|].
      split; [exact Hq5|].
      intros b Hb. apply Hf3. intros Hin. apply Hb.
      rewrite !elem_of_app in *. rewrite elem_of_cons.
      rewrite list_elem_of_singleton in Hin. tauto.
Qed.

(** ** Handlers that end a procedure *)

Lemma host_step_refl g : host_step g g [].
Proof. unfold host_step. rewrite app_nil_r. auto. Qed.

Lemma host_step_trans g1 g2 g3 e1 e2 :
  host_step g1 g2 e1 -> host_step g2 g3 e2 -> host_step g1 g3 (e1 ++ e2).
Proof.
  intros (A1 & B1 & C1 & D1) (A2 & B2 & C2 & D2). unfold host_step.
  rewrite A2, A1, app_assoc. repeat split; congruence.
Qed.

Lemma notices_app e1 e2 : notices (e1 ++ e2) = notices e1 ++ notices e2.
Proof. unfold notices. now rewrite map_app, concat_app. Qed.

Lemma transmitted_app e1 e2 :
  transmitted (e1 ++ e2) = transmitted e1 ++ transmitted e2.
Proof. unfold transmitted. now rewrite map_app, concat_app. Qed.

Lemma ble_gattc_error_final P st : ble_gattc_error P st 0 = final_error st.
Proof.
  unfold ble_gattc_error, final_error.
  now destruct ((st =? 0) || (st =? BLE_HS_EDONE P)).
Qed.

Lemma hs_code_u16 P c : platform_ok P -> hs_code P c -> u16 c = c.
Proof.
  intros HP Hc. apply u16_id. pose proof (pok_base P HP). unfold hs_code in Hc.
  lia.
Qed.

Lemma hs_code_not_att_err P c x :
  hs_code P c -> 0 < x -> (c =? BLE_HS_ATT_ERR P x) = false.
Proof.
  intros Hc Hx. unfold BLE_HS_ATT_ERR, hs_code in *.
  destruct (x =? 0) eqn:E; apply Z.eqb_neq; lia.
Qed.

Ltac g_run :=
  cbv beta iota zeta delta
    [bind ret get modify emit crash app_cb att_tx os_mbuf_free_chain
     ble_hs_mbuf_att_pkt table_get call_ptr
     as_mtu as_disc_all_svcs as_disc_svc_uuid as_find_inc_svcs
     as_disc_all_chrs as_disc_chr_uuid as_disc_all_dscs as_read as_read_uuid
     as_read_long as_read_mult as_write as_write_long as_write_reliable
     as_indicate write_long_om];
  cbn [un op conn_handle cid flags exp_os_ticks error
       trace now hs_conns ble_gattc_resume_at tx_rcs cb_rcs mbuf_rcs
       set_trace set_tx_rcs set_cb_rcs set_mbuf_rcs set_resume_at
       set_hs_conns].

Ltac host_step_tac :=
  first
    [ apply host_step_refl
    | unfold host_step;
      cbn [trace now hs_conns ble_gattc_resume_at
           set_trace set_tx_rcs set_cb_rcs set_mbuf_rcs];
      rewrite <- ?app_assoc; repeat split; reflexivity ].

Ltac handler_case :=
  g_run;
  repeat match goal with
         | |- context [match ?c with Some _ => _ | None => _ end] =>
             destruct c
         | |- context [if ?c then _ else _] => destruct c
         end;
  g_run;
  eexists _, _; (split; [reflexivity|]);
  (split; [host_step_tac|]); reflexivity.

Lemma err_dispatch_notconn P r g :
  platform_ok P -> proc_wf r ->
  exists fn,
    ble_gattc_err_dispatch_get P (op r) g = Ok (Some fn, g) /\
    exists g' evs,
      fn r (BLE_HS_ENOTCONN P) 0 g = Ok (tt, g') /\
      host_step g g' evs /\
      notices evs = terminal_notice r (BLE_HS_ENOTCONN P).
Proof.
  intros HP [Htag Hwf]. pose proof (pok_enotconn P HP) as Hc.
  pose proof (hs_code_not_att_err P _ _ Hc (pok_not_found P HP)) as Hnf.
  pose proof (hs_code_u16 P _ HP Hc) as Hu.
  destruct r as [e x c ci o f u]. unfold proc_tagged in Htag. simpl in Htag.
  subst o. unfold terminal_notice. cbn [un conn_handle].
  destruct u as [s|s|s|s|s|s|s|s|s|s|s|s|s|s|s]; simpl in Hwf.
  - exists (ble_gattc_mtu_err P). split; [reflexivity|].
    unfold ble_gattc_mtu_err, ble_gattc_mtu_cb. rewrite ble_gattc_error_final.
    handler_case.
  - exists (ble_gattc_disc_all_svcs_err P). split; [reflexivity|].
    unfold ble_gattc_disc_all_svcs_err, ble_gattc_disc_all_svcs_cb.
    rewrite Hnf, Hu, ble_gattc_error_final. handler_case.
  - exists (ble_gattc_disc_svc_uuid_err P). split; [reflexivity|].
    unfold ble_gattc_disc_svc_uuid_err, ble_gattc_disc_svc_uuid_cb.
    rewrite Hnf, ble_gattc_error_final. handler_case.
  - exists (ble_gattc_find_inc_svcs_err P). split; [reflexivity|].
    unfold ble_gattc_find_inc_svcs_err, ble_gattc_find_inc_svcs_cb. g_run.
    rewrite Hnf, andb_false_r, ble_gattc_error_final. handler_case.
  - exists (ble_gattc_disc_all_chrs_err P). split; [reflexivity|].
    unfold ble_gattc_disc_all_chrs_err, ble_gattc_disc_all_chrs_cb.
    rewrite Hnf, ble_gattc_error_final. handler_case.
  - exists (ble_gattc_disc_chr_uuid_err P). split; [reflexivity|].
    unfold ble_gattc_disc_chr_uuid_err, ble_gattc_disc_chr_uuid_cb.
    rewrite Hnf, ble_gattc_error_final. handler_case.
  - exists (ble_gattc_disc_all_dscs_err P). split; [reflexivity|].
    unfold ble_gattc_disc_all_dscs_err, ble_gattc_disc_all_dscs_cb.
    rewrite Hnf, ble_gattc_error_final. handler_case.
  - exists (ble_gattc_read_err P). split; [reflexivity|].
    unfold ble_gattc_read_err, ble_gattc_read_cb.
    rewrite ble_gattc_error_final. handler_case.
  - exists (ble_gattc_read_uuid_err P). split; [reflexivity|].
    unfold ble_gattc_read_uuid_err, ble_gattc_read_uuid_cb.
    rewrite ble_gattc_error_final. handler_case.
  - exists (ble_gattc_read_long_err P). split; [reflexivity|].
    unfold ble_gattc_read_long_err, ble_gattc_read_long_cb.
    rewrite ble_gattc_error_final. handler_case.
  - destruct (read_mult.variable s) eqn:Hv.
    + exists (ble_gattc_read_mult_var_err P).
      split; [cbn; rewrite Hv; reflexivity|].
    unfold ble_gattc_read_mult_var_err, ble_gattc_read_mult_cb_var.
      rewrite ble_gattc_error_final. handler_case.
    + exists (ble_gattc_read_mult_err P).
      split; [cbn; rewrite Hv; reflexivity|].
    unfold ble_gattc_read_mult_err, ble_gattc_read_mult_cb.
      rewrite ble_gattc_error_final. g_run. rewrite Hv. handler_case.
  - exists (ble_gattc_write_err P). split; [reflexivity|].
    unfold ble_gattc_write_err, ble_gattc_write_cb.
    rewrite ble_gattc_error_final. handler_case.
  - destruct Hwf as [data Hdata].
    exists (ble_gattc_write_long_err P). split; [reflexivity|].
    unfold ble_gattc_write_long_err, ble_gattc_write_long_cb.
    rewrite ble_gattc_error_final. g_run. rewrite Hdata. handler_case.
  - exists (ble_gattc_write_reliable_err P). split; [reflexivity|].
    unfold ble_gattc_write_reliable_err, ble_gattc_write_reliable_cb.
    rewrite ble_gattc_error_final. handler_case.
  - exists (ble_gatts_indicate_err P). split; [reflexivity|].
    unfold ble_gatts_indicate_err. g_run. rewrite Z.eqb_refl. cbn [negb].
    g_run. cbn [Z.eqb negb]. handler_case.
Qed.

Lemma tmo_dispatch_timeout P r g :
  platform_ok P -> proc_tagged r ->
  exists fn,
    ble_gattc_tmo_dispatch_get P (op r) g = Ok (Some fn, g) /\
    exists g' evs,
      fn r g = Ok (tt, g') /\
      host_step g g' evs /\
      notices evs = terminal_notice r (BLE_HS_ETIMEOUT P).
Proof.
  intros HP Htag. pose proof (pok_etimeout P HP) as Hc.
  pose proof (hs_code_u16 P _ HP Hc) as Hu.
  destruct r as [e x c ci o f u]. unfold proc_tagged in Htag. simpl in Htag.
  subst o. unfold terminal_notice. cbn [un conn_handle].
  destruct u as [s|s|s|s|s|s|s|s|s|s|s|s|s|s|s].
  - exists (ble_gattc_mtu_tmo P). split; [reflexivity|].
    unfold ble_gattc_mtu_tmo, ble_gattc_mtu_cb. rewrite ble_gattc_error_final.
    handler_case.
  - exists (ble_gattc_disc_all_svcs_tmo P). split; [reflexivity|].
    unfold ble_gattc_disc_all_svcs_tmo, ble_gattc_disc_all_svcs_cb.
    rewrite Hu, ble_gattc_error_final. handler_case.
  - exists (ble_gattc_disc_svc_uuid_tmo P). split; [reflexivity|].
    unfold ble_gattc_disc_svc_uuid_tmo, ble_gattc_disc_svc_uuid_cb.
    rewrite ble_gattc_error_final. handler_case.
  - exists (ble_gattc_find_inc_svcs_tmo P). split; [reflexivity|].
    unfold ble_gattc_find_inc_svcs_tmo, ble_gattc_find_inc_svcs_cb.
    rewrite ble_gattc_error_final. handler_case.
  - exists (ble_gattc_disc_all_chrs_tmo P). split; [reflexivity|].
    unfold ble_gattc_disc_all_chrs_tmo, ble_gattc_disc_all_chrs_cb.
    rewrite ble_gattc_error_final. handler_case.
  - exists (ble_gattc_disc_chr_uuid_tmo P). split; [reflexivity|].
    unfold ble_gattc_disc_chr_uuid_tmo, ble_gattc_disc_chr_uuid_cb.
    rewrite ble_gattc_error_final. handler_case.
  - exists (ble_gattc_disc_all_dscs_tmo P). split; [reflexivity|].
    unfold ble_gattc_disc_all_dscs_tmo, ble_gattc_disc_all_dscs_cb.
    rewrite ble_gattc_error_final. handler_case.
  - exists (ble_gattc_read_tmo P). split; [reflexivity|].
    unfold ble_gattc_read_tmo, ble_gattc_read_cb.
    rewrite ble_gattc_error_final. handler_case.
  - exists (ble_gattc_read_uuid_tmo P). split; [reflexivity|].
    unfold ble_gattc_read_uuid_tmo, ble_gattc_read_uuid_cb.
    rewrite ble_gattc_error_final. handler_case.
  - exists (ble_gattc_read_long_tmo P). split; [reflexivity|].
    unfold ble_gattc_read_long_tmo, ble_gattc_read_long_cb.
    rewrite ble_gattc_error_final. handler_case.
  - destruct (read_mult.variable s) eqn:Hv.
    + exists (ble_gattc_read_mult_var_tmo P).
      split; [cbn; rewrite Hv; reflexivity|].
      unfold ble_gattc_read_mult_var_tmo, ble_gattc_read_mult_cb_var.
      rewrite ble_gattc_error_final. handler_case.
    + exists (ble_gattc_read_mult_tmo P).
      split; [cbn; rewrite Hv; reflexivity|].
      unfold ble_gattc_read_mult_tmo, ble_gattc_read_mult_cb.
      rewrite ble_gattc_error_final. g_run. rewrite Hv. handler_case.
  - exists (ble_gattc_write_tmo P). split; [reflexivity|].
    unfold ble_gattc_write_tmo, ble_gattc_write_cb.
    rewrite ble_gattc_error_final. handler_case.
  - exists (ble_gattc_write_long_tmo P). split; [reflexivity|].
    unfold ble_gattc_write_long_tmo, ble_gattc_write_long_cb.
    rewrite ble_gattc_error_final. handler_case.
  - exists (ble_gattc_write_reliable_tmo P). split; [reflexivity|].
    unfold ble_gattc_write_reliable_tmo, ble_gattc_write_reliable_cb.
    rewrite ble_gattc_error_final. handler_case.
  - exists (ble_gatts_indicate_tmo P). split; [reflexivity|].
    unfold ble_gatts_indicate_tmo. handler_case.
Qed.

(** ** Returning a record to the pool *)

Lemma os_mbuf_free_chain_run data g :
  exists g' evs,
    os_mbuf_free_chain data g = Ok (tt, g') /\ host_step g g' evs /\
    notices evs = [] /\ transmitted evs = [].
Proof.
  destruct data as [d|]; g_run; eexists _, _; (split; [reflexivity|]);
    (split; [host_step_tac|]); split; reflexivity.
Qed.

Lemma free_attr_oms_run l g :
  exists g' evs,
    free_attr_oms l g = Ok (tt, g') /\ host_step g g' evs /\
    notices evs = [] /\ transmitted evs = [].
Proof.
  revert g. induction l as [|a l IH]; intros g; simpl.
  - exists g, []. split; [reflexivity|]. split; [apply host_step_refl|].
    split; reflexivity.
  - destruct (os_mbuf_free_chain_run (om a) g)
      as (g1 & e1 & H1 & S1 & N1 & T1).
    destruct (IH g1) as (g2 & e2 & H2 & S2 & N2 & T2).
    exists g2, (e1 ++ e2). rewrite (bind_Ok _ _ _ _ _ H1). split; [exact H2|].
    split; [eapply host_step_trans; eassumption|].
    rewrite notices_app, transmitted_app, N1, N2, T1, T2. split; reflexivity.
Qed.

Lemma free_mbufs_run l g :
  exists g' evs,
    free_mbufs l g = Ok (tt, g') /\ host_step g g' evs /\
    notices evs = [] /\ transmitted evs = [].
Proof.
  revert g. induction l as [|a l IH]; intros g; simpl.
  - exists g, []. split; [reflexivity|]. split; [apply host_step_refl|].
    split; reflexivity.
  - destruct (os_mbuf_free_chain_run (Some a) g)
      as (g1 & e1 & H1 & S1 & N1 & T1).
    destruct (IH g1) as (g2 & e2 & H2 & S2 & N2 & T2).
    exists g2, (e1 ++ e2). rewrite (bind_Ok _ _ _ _ _ H1). split; [exact H2|].
    split; [eapply host_step_trans; eassumption|].
    rewrite notices_app, transmitted_app, N1, N2, T1, T2. split; reflexivity.
Qed.

Lemma load_rec_run w a c :
  mem w !! a = Some c -> load_rec a w = Ok (rec c, w).
Proof. intros H. unfold load_rec, bind, load, ret. now rewrite H. Qed.

Lemma ble_gattc_proc_free_spec P w a c :
  mem w !! a = Some c -> proc_tagged (rec c) ->
  exists w' evs,
    ble_gattc_proc_free P (Some a) w = Ok (tt, w') /\
    mem w' = delete a (mem w) /\ pool_free w' = a :: pool_free w /\
    ble_gattc_procs w' = ble_gattc_procs w /\
    ble_gattc_cached_procs w' = ble_gattc_cached_procs w /\
    host_step (host w) (host w') evs /\ notices evs = [n_free a] /\
    transmitted evs = [].
Proof.
  intros Hc Htag.
  assert (exists g1 e1,
    (if (op (rec c) =? BLE_GATT_OP_WRITE) && BLE_GATTC_AUTO_PAIR P then
       bind (as_write (rec c)) (fun s => os_mbuf_free_chain (write.om s))
     else if op (rec c) =? BLE_GATT_OP_WRITE_LONG then
       bind (as_write_long (rec c))
         (fun s => os_mbuf_free_chain (om (write_long.attr s)))
     else if op (rec c) =? BLE_GATT_OP_WRITE_RELIABLE then
       bind (as_write_reliable (rec c))
         (fun s => free_attr_oms
                     (take (Z.to_nat (write_reliable.num_attrs s))
                        (write_reliable.attrs s)))
     else ret tt) (host w) = Ok (tt, g1) /\
    host_step (host w) g1 e1 /\ notices e1 = [] /\ transmitted e1 = [])
    as (g1 & e1 & H1 & S1 & N1 & T1).
  { destruct (rec c) as [e x cn ci o f u]. unfold proc_tagged in Htag.
    simpl in Htag. subst o. cbn [op un].
    destruct u as [s|s|s|s|s|s|s|s|s|s|s|s|s|s|s];
      try (exists (host w), []; split; [reflexivity|];
           split; [apply host_step_refl|split; reflexivity]).
    - cbn [op_of_union]. destruct (read_mult.variable s);
        (exists (host w), []; split; [reflexivity|];
         split; [apply host_step_refl|split; reflexivity]).
    - cbn [op_of_union]. destruct (BLE_GATTC_AUTO_PAIR P).
      + apply (os_mbuf_free_chain_run (write.om s)).
      + exists (host w), []. split; [reflexivity|].
        split; [apply host_step_refl|split; reflexivity].
    - apply (os_mbuf_free_chain_run (om (write_long.attr s))).
    - apply free_attr_oms_run. }
  assert (exists g2 e2,
    (if eatt_enabled P && negb (cid (rec c) =? BLE_L2CAP_CID_ATT P) then
       emit (ev_eatt_release_chan (conn_handle (rec c)) (op (rec c)))
     else ret tt) g1 = Ok (tt, g2) /\
    host_step g1 g2 e2 /\ notices e2 = [] /\ transmitted e2 = [])
    as (g2 & e2 & H2 & S2 & N2 & T2).
  { destruct (eatt_enabled P && negb (cid (rec c) =? BLE_L2CAP_CID_ATT P));
      g_run; eexists _, _; (split; [reflexivity|]);
      (split; [host_step_tac|]); split; reflexivity. }
  eexists _, (e1 ++ e2 ++ [ev_memblock_put a]). split.
  - unfold ble_gattc_proc_free.
    rewrite (bind_Ok _ _ _ _ _ (load_rec_run w a c Hc)). cbv beta.
    rewrite (bind_Ok _ _ _ _ _ (lift_Ok _ _ _ _ H1)). cbv beta.
    erewrite (bind_Ok _ _ (set_host g1 w)) by (apply lift_Ok; exact H2).
    unfold bind at 1, modify at 1. unfold lift, emit, modify. cbn.
    reflexivity.
  - destruct S1 as (A1 & B1 & C1 & D1), S2 as (A2 & B2 & C2 & D2).
    cbn. do 4 (split; [reflexivity|]).
    split;
      [|rewrite !notices_app, !transmitted_app, N1, N2, T1, T2;
        split; reflexivity].
    repeat split; cbn; try congruence.
    rewrite A2, A1. now rewrite <- !app_assoc.
Qed.

(** ** Signed write *)

Lemma nimble_cfg_ok b d s : platform_ok (nimble_cfg b d s).
Proof. split; unfold hs_code; cbn; lia. Qed.

Lemma os_mbuf_free_chain_released txom g :
  exists g', os_mbuf_free_chain txom g = Ok (tt, g') /\
             host_step g g' (released txom) /\ tx_rcs g' = tx_rcs g.
Proof.
  destruct txom as [d|]; g_run; eexists; (split; [reflexivity|]);
    (split; [host_step_tac|reflexivity]).
Qed.

(** C8 (as amended).  [ble_gattc_signed_write] with a payload [data]
    always returns, and what it does is settled by the first of these
    that applies.  The connection is not found: it returns the code of
    ble_gap_conn_find.  The link is encrypted: it returns
    BLE_HS_EENCRYPT.  The read of our security material fails: it
    returns the code of the store.  The material read has no CSRK
    ([csrk_present] is not 1): it returns BLE_HS_EAUTHEN.  In these
    four cases nothing is handed to the transport and the only effect
    is the release of the payload.  Otherwise one Signed Write command
    with the CSRK in reversed byte order and the sign counter is handed
    to the transport, whose code is returned, and the payload is
    released if and only if that code is not 0.  Whenever the result
    is not 0, the last thing done is the release of the payload. *)
Theorem ble_gattc_signed_write_failures P conn attr_handle data g :
  platform_ok P ->
  exists rc g' evs,
    ble_gattc_signed_write P conn attr_handle (Some data) g = Ok (rc, g') /\
    host_step g g' evs /\
    (forall desc,
       ble_gap_conn_find P conn = (0, desc) ->
       sec_state_encrypted desc = 1 ->
       rc = BLE_HS_EENCRYPT P /\ evs = released (Some data) /\
       tx_rcs g' = tx_rcs g) /\
    (forall desc value_sec,
       ble_gap_conn_find P conn = (0, desc) ->
       sec_state_encrypted desc <> 1 ->
       ble_store_read_our_sec P (peer_id_addr desc) = (0, value_sec) ->
       csrk_present value_sec <> 1 ->
       rc = BLE_HS_EAUTHEN P /\ evs = released (Some data) /\
       tx_rcs g' = tx_rcs g) /\
    (rc <> 0 -> exists pre, evs = pre ++ released (Some data)) /\
    (forall rc0 desc,
       ble_gap_conn_find P conn = (rc0, desc) -> rc0 <> 0 ->
       rc = rc0 /\ evs = released (Some data) /\ tx_rcs g' = tx_rcs g) /\
    (forall desc rc1 value_sec,
       ble_gap_conn_find P conn = (0, desc) ->
       sec_state_encrypted desc <> 1 ->
       ble_store_read_our_sec P (peer_id_addr desc) = (rc1, value_sec) ->
       rc1 <> 0 ->
       rc = rc1 /\ evs = released (Some data) /\ tx_rcs g' = tx_rcs g) /\
    (forall desc value_sec,
       ble_gap_conn_find P conn = (0, desc) ->
       sec_state_encrypted desc <> 1 ->
       ble_store_read_our_sec P (peer_id_addr desc) = (0, value_sec) ->
       csrk_present value_sec = 1 ->
       rc = hd 0 (tx_rcs g) /\
       evs = ev_tx (tx_signed_write_cmd conn (BLE_L2CAP_CID_ATT P) attr_handle
                      (rev (take 16 (csrk value_sec)))
                      (sign_counter value_sec) (Some data)) rc
             :: (if rc =? 0 then [] else released (Some data))).
Proof.
  intros HP. unfold ble_gattc_signed_write.
  unfold bind at 1, mbuf_pktlen at 1, ret at 1.
  pose proof (pok_eencrypt P HP) as He. pose proof (pok_eauthen P HP) as Ha.
  unfold hs_code in He, Ha.
  destruct (os_mbuf_free_chain_released (Some data) g) as (gf & Hf & Sf & Tf).
  destruct (ble_gap_conn_find P conn) as [rc0 desc] eqn:Hfind.
  destruct (negb (rc0 =? 0)) eqn:E0.
  { (* the connection is not known *)
    apply negb_true_iff, Z.eqb_neq in E0.
    unfold bind at 1. unfold ret at 1. rewrite (proj2 (Z.eqb_neq _ _) E0).
    unfold bind, ret. rewrite Hf.
    exists rc0, gf, (released (Some data)). split; [reflexivity|].
    split; [exact Sf|].
    split; [intros d Hd; congruence|].
    split; [intros d v Hd; congruence|].
    split; [intros _; now exists []|].
    split; [intros r0 d [= <- <-] _; auto|].
    split; [intros d r1 v Hd; congruence|].
    intros d v Hd; congruence. }
  apply negb_false_iff, Z.eqb_eq in E0. subst rc0.
  destruct (sec_state_encrypted desc =? 1) eqn:E1.
  { apply Z.eqb_eq in E1.
    unfold bind at 1. unfold ret at 1.
    rewrite (proj2 (Z.eqb_neq (BLE_HS_EENCRYPT P) 0)) by lia.
    unfold bind, ret. rewrite Hf.
    exists (BLE_HS_EENCRYPT P), gf, (released (Some data)).
    split; [reflexivity|]. split; [exact Sf|].
    split; [intros d Hd _; auto|].
    split; [intros d v Hd Hne; congruence|].
    split; [intros _; now exists []|].
    split; [intros r0 d [= <- <-] Hne; now contradict Hne|].
    split; [intros d r1 v Hd Hne; congruence|].
    intros d v Hd Hne; congruence. }
  apply Z.eqb_neq in E1.
  destruct (ble_store_read_our_sec P (peer_id_addr desc)) as [rc1 vs] eqn:Hrd.
  destruct (negb (rc1 =? 0)) eqn:E2.
  { (* the store has nothing to give *)
    apply negb_true_iff, Z.eqb_neq in E2.
    unfold bind at 1. unfold ret at 1. rewrite (proj2 (Z.eqb_neq _ _) E2).
    unfold bind, ret. rewrite Hf.
    exists rc1, gf, (released (Some data)). split; [reflexivity|].
    split; [exact Sf|].
    split; [intros d Hd; congruence|].
    split; [intros d v [= <-] _ Hv; congruence|].
    split; [intros _; now exists []|].
    split; [intros r0 d [= <- <-] Hne; now contradict Hne|].
    split; [intros d r1 v [= <-] _ Hv _; rewrite Hrd in Hv;
            injection Hv as <- <-; auto|].
    intros d v [= <-] _ Hv; congruence. }
  apply negb_false_iff, Z.eqb_eq in E2. subst rc1.
  destruct (negb (csrk_present vs =? 1)) eqn:E3.
  { apply negb_true_iff, Z.eqb_neq in E3.
    unfold bind at 1. unfold ret at 1.
    rewrite (proj2 (Z.eqb_neq (BLE_HS_EAUTHEN P) 0)) by lia.
    unfold bind, ret. rewrite Hf.
    exists (BLE_HS_EAUTHEN P), gf, (released (Some data)).
    split; [reflexivity|]. split; [exact Sf|].
    split; [intros d Hd; congruence|].
    split; [intros d v Hd _ Hv _; auto|].
    split; [intros _; now exists []|].
    split; [intros r0 d [= <- <-] Hne; now contradict Hne|].
    split; [intros d r1 v [= <-] _ Hv Hne; rewrite Hrd in Hv;
            injection Hv as <- <-; now contradict Hne|].
    intros d v [= <-] _ Hv Hc. rewrite Hrd in Hv. injection Hv as <-.
    contradiction. }
  apply negb_false_iff, Z.eqb_eq in E3.
  (* the command is signed and handed to the transport *)
  g_run. destruct (hd 0 (tx_rcs g) =? 0) eqn:E4.
  - eexists _, _, _. split; [reflexivity|]. split; [host_step_tac|].
    split; [intros d Hd; congruence|].
    split; [intros d v Hd _ Hv Hc; congruence|].
    split; [intros Hrc; apply Z.eqb_eq in E4; now contradict Hrc|].
    split; [intros r0 d [= <- <-] Hne; now contradict Hne|].
    split; [intros d r1 v [= <-] _ Hv Hne; rewrite Hrd in Hv;
            injection Hv as <- <-; now contradict Hne|].
    intros d v [= <-] _ Hv _. rewrite Hrd in Hv. injection Hv as <-.
    apply Z.eqb_eq in E4. rewrite E4. split; reflexivity.
  - g_run.
    eexists _, _, _. split; [reflexivity|]. split; [host_step_tac|].
    split; [intros d Hd; congruence|].
    split; [intros d v Hd _ Hv Hc; congruence|].
    split; [intros _; eexists [_]; reflexivity|].
    split; [intros r0 d [= <- <-] Hne; now contradict Hne|].
    split; [intros d r1 v [= <-] _ Hv Hne; rewrite Hrd in Hv;
            injection Hv as <- <-; now contradict Hne|].
    intros d v [= <-] _ Hv _. rewrite Hrd in Hv. injection Hv as <-.
    rewrite E4. split; reflexivity.
Qed.

Lemma ble_gattc_signed_write_failures_witness :
  (exists rc g' evs,
     ble_gattc_signed_write nimble_encrypted 1 3 (Some [1; 2])
       (host_at 0 [] []) = Ok (rc, g') /\
     rc = 25 /\ evs = [ev_mbuf_free [1; 2]] /\ trace g' = evs) /\
  (exists rc g' evs,
     ble_gattc_signed_write nimble_no_csrk 1 3 (Some [1; 2])
       (host_at 0 [] []) = Ok (rc, g') /\
     rc = 23 /\ evs = [ev_mbuf_free [1; 2]] /\ trace g' = evs) /\
  (exists rc g' evs,
     ble_gattc_signed_write nimble 1 3 (Some [1; 2])
       (host_at 0 [] []) = Ok (rc, g') /\
     rc = 5 /\ evs = [ev_mbuf_free [1; 2]] /\ trace g' = evs).
Proof.
  split; [|split].
  - destruct (ble_gattc_signed_write_failures nimble_encrypted 1 3
                [1; 2] (host_at 0 [] []))
      as (rc & g' & evs & Hrun & Hstep & Henc & _).
    + split; unfold hs_code; cbn; lia.
    + destruct (Henc _ eq_refl eq_refl) as (-> & -> & _).
      exists 25, g', [ev_mbuf_free [1; 2]].
      repeat split; [exact Hrun | apply Hstep].
  - destruct (ble_gattc_signed_write_failures nimble_no_csrk 1 3
                [1; 2] (host_at 0 [] []))
      as (rc & g' & evs & Hrun & Hstep & _ & Hauth & _).
    + split; unfold hs_code; cbn; lia.
    + destruct (Hauth _ _ eq_refl ltac:(cbn; lia) eq_refl ltac:(cbn; lia))
        as (-> & -> & _).
      exists 23, g', [ev_mbuf_free [1; 2]].
      repeat split; [exact Hrun | apply Hstep].
  - destruct (ble_gattc_signed_write_failures nimble 1 3
                [1; 2] (host_at 0 [] []))
      as (rc & g' & evs & Hrun & Hstep & _ & _ & _ & _ & Hstore & _).
    + split; unfold hs_code; cbn; lia.
    + destruct (Hstore _ _ _ eq_refl ltac:(cbn; lia) eq_refl ltac:(cbn; lia))
        as (-> & -> & _).
      exists 5, g', [ev_mbuf_free [1; 2]].
      repeat split; [exact Hrun | apply Hstep].
Defined.

(** C8 (as stated) fails: on an unencrypted link to a peer for which
    the store holds nothing, so that no CSRK is to be had,
    [ble_gattc_signed_write] does not return BLE_HS_EAUTHEN (23) but
    the code with which the read of the store failed (5). *)
Lemma ble_gattc_signed_write_store_error :
  ble_gap_conn_find nimble 1
  = (0, {| sec_state_encrypted := 0; peer_id_addr := 0 |}) /\
  fst (ble_store_read_our_sec nimble 0) = 5 /\
  csrk_present (snd (ble_store_read_our_sec nimble 0)) = 0 /\
  BLE_HS_EAUTHEN nimble = 23 /\
  exists g',
    ble_gattc_signed_write nimble 1 3 (Some [1; 2]) (host_at 0 [] [])
    = Ok (5, g') /\
    trace g' = [ev_mbuf_free [1; 2]].
Proof.
  repeat (split; [reflexivity|]).
  eexists. split; vm_compute; reflexivity.
Qed.

(** ** Multiple notifications *)

Lemma notify_read_missing_length P n i tuples g r g' :
  notify_read_missing P n i tuples g = Ok (exit_end r, g') ->
  length r = length tuples.
Proof.
  revert i tuples g. induction n as [|n IH]; intros i tuples g; simpl.
  - unfold ret. now intros [= <- _].
  - unfold tuple_at. destruct (tuples !! 0%nat) as [t0|]; g_run; [|discriminate].
    destruct (notif_handle t0 =? 0); [discriminate|].
    destruct (tuples !! i) as [t|]; [|discriminate].
    destruct (notif_value t) as [v|].
    + apply IH.
    + destruct (ble_att_svr_read_local P (notif_handle t)) as [rc value].
      destruct (negb (rc =? 0)); [discriminate|].
      intros H. apply IH in H. now rewrite length_insert in H.
Qed.

(** C9.  Whenever a call of [ble_gatts_notify_multiple_custom] with an
    array of exactly [chr_count] tuples leaves the batching loop with
    one tuple in the buffer ([cur_chr_cnt] is 1), the final branch
    reads [tuples[chr_count]], the element after the last one of the
    caller's array. *)
Theorem ble_gatts_notify_multiple_custom_reads_past_end
    P conn chr_count tuples g txom g1 c filled g2 txom' g3 :
  0 <= chr_count ->
  length tuples = Z.to_nat chr_count ->
  ble_hs_mbuf_att_pkt g = Ok (Some txom, g1) ->
  hs_conns g1 !! conn = Some c ->
  notify_read_missing P (Z.to_nat chr_count) 0 tuples g1 =
    Ok (exit_end filled, g2) ->
  Z.land (peer_cl_sup_feat_0 c) 4 <> 0 ->
  notify_batch P conn (u16 (ble_att_mtu P conn - 1)) (Z.to_nat chr_count) 0
    filled 0 txom g2 = Ok (exit_end (1, txom'), g3) ->
  ble_gatts_notify_multiple_custom P conn chr_count tuples g =
    Fault (OutOfBounds chr_count).
Proof.
  intros Hpos Hlen Hpkt Hconn Hfill Hfeat Hbatch.
  unfold ble_gatts_notify_multiple_custom.
  rewrite (bind_Ok _ _ _ _ _ Hpkt). cbv beta iota.
  unfold bind at 1. unfold get at 1. rewrite Hconn.
  rewrite (bind_Ok _ _ _ _ _ Hfill). cbv beta iota.
  rewrite (proj2 (Z.eqb_neq _ _) Hfeat).
  unfold bind at 1. unfold bind at 1. rewrite Hbatch. cbv beta iota.
  rewrite Z.eqb_refl. unfold bind at 1. unfold tuple_at.
  pose proof (notify_read_missing_length _ _ _ _ _ _ _ Hfill) as Hl.
  rewrite (proj2 (lookup_ge_None filled (Z.to_nat chr_count))) by lia.
  unfold crash. now rewrite Z2Nat.id.
Qed.

Lemma ble_gatts_notify_multiple_custom_reads_past_end_witness :
  ble_gatts_notify_multiple_custom nimble 1 1
    [{| notif_handle := 3; notif_value := Some [7] |}] (host_at 0 [] []) =
  Fault (OutOfBounds 1).
Proof.
  eapply (ble_gatts_notify_multiple_custom_reads_past_end nimble 1 1
            [{| notif_handle := 3; notif_value := Some [7] |}]
            (host_at 0 [] [])).
  - lia.
  - reflexivity.
  - vm_compute. reflexivity.
  - vm_compute. reflexivity.
  - vm_compute. reflexivity.
  - vm_compute. discriminate.
  - vm_compute. reflexivity.
Defined.

(** ** Extraction from the table *)

Lemma is_queue_length m h l : is_queue m h l -> (length l <= size m)%nat.
Proof.
  intros Hq. pose proof (is_queue_NoDup _ _ _ Hq) as Hnd.
  destruct Hq as [Hseg _].
  assert (l ⊆+ (map_to_list m).*1) as Hsub.
  { apply NoDup_submseteq; [exact Hnd|]. intros a Ha.
    destruct (lseg_In_Some _ _ _ _ _ Hseg Ha) as [c Hc].
    apply list_elem_of_fmap. exists (a, c). split; [reflexivity|].
    now apply elem_of_map_to_list. }
  apply submseteq_length in Hsub. rewrite length_fmap in Hsub.
  now rewrite length_map_to_list in Hsub.
Qed.

Lemma ble_gattc_extract_spec {C} (cb : ble_gattc_proc -> C -> bool * C)
    arg max_procs w l :
  is_queue (mem w) (ble_gattc_procs w) l ->
  exists w' hd,
    ble_gattc_extract cb arg max_procs w
    = Ok ((fst (fst (extract_spec (mem w) cb arg max_procs 0 l)), hd), w') /\
    same_host w w' /\ same_recs (mem w) (mem w') /\
    is_queue (mem w') (ble_gattc_procs w')
      (snd (extract_spec (mem w) cb arg max_procs 0 l)) /\
    is_queue (mem w') hd
      (snd (fst (extract_spec (mem w) cb arg max_procs 0 l))) /\
    (forall a, a ∉ l -> mem w' !! a = mem w !! a).
Proof.
  intros Hq. unfold ble_gattc_extract. unfold bind at 1, get at 1.
  pose proof (is_queue_length _ _ _ Hq) as Hlen.
  destruct (extract_loop_spec cb max_procs l (S (size (mem w))) w arg 0
              [] [] STAILQ_INIT) as (w' & hd & Hrun & Hh & Hr & Hk & Hd & Hf).
  - lia.
  - exact Hq.
  - apply is_queue_nil.
  - intros a Ha. inversion Ha.
  - exists w', hd. unfold STAILQ_FIRST. rewrite (is_queue_first _ _ _ Hq).
    cbn [last] in Hrun. rewrite Hrun. split; [reflexivity|].
    split; [exact Hh|]. split; [exact Hr|]. split; [exact Hk|].
    split; [exact Hd|]. intros a Ha. apply Hf.
    rewrite app_nil_l, app_nil_r. exact Ha.
Qed.


(** What [extract_spec] yields for a match function whose verdict is
    the test [f], as long as the criteria satisfy [I]. *)
Section ExtractSpec.

Context {C : Type} (m : gmap addr cell).
Context (cb : ble_gattc_proc -> C -> bool * C).
Context (I : C -> Prop) (f : ble_gattc_proc -> bool).
Hypothesis cb_verdict :
  forall r c, I c -> I (snd (cb r c)) /\ fst (cb r c) = f r.

Lemma extract_spec_all arg n l :
  I arg -> (forall a, a ∈ l -> is_Some (m !! a)) ->
  I (fst (fst (extract_spec m cb arg 0 n l))) /\
  snd (fst (extract_spec m cb arg 0 n l)) = List.filter (holds m f) l /\
  snd (extract_spec m cb arg 0 n l)
  = List.filter (fun a => negb (holds m f a)) l.
Proof.
  revert arg. induction l as [|a l IH]; intros arg HI Hdom.
  - simpl. auto.
  - destruct (Hdom a) as [c Hc]; [apply list_elem_of_here|].
    assert (forall b, b ∈ l -> is_Some (m !! b)) as Hdom'
      by (intros b Hb; apply Hdom; now apply list_elem_of_further).
    assert (holds m f a = f (rec c)) as Hh by (unfold holds; now rewrite Hc).
    cbn [extract_spec List.filter]. rewrite Hc, Hh.
    destruct (cb_verdict (rec c) arg HI) as [HI' Hv].
    destruct (cb (rec c) arg) as [hit arg'] eqn:Hcb. simpl in HI', Hv.
    subst hit. specialize (IH arg' HI' Hdom').
    destruct (f (rec c)); cbn [negb andb Z.ltb Z.compare];
      destruct (extract_spec m cb arg' 0 n l) as [[c' hs] ks];
      simpl in *; destruct IH as (? & -> & ->); auto.
Qed.

Lemma extract_spec_none arg max_procs n l :
  I arg -> (forall a, a ∈ l -> is_Some (m !! a)) ->
  (forall a, a ∈ l -> holds m f a = false) ->
  I (fst (fst (extract_spec m cb arg max_procs n l))) /\
  snd (fst (extract_spec m cb arg max_procs n l)) = [] /\
  snd (extract_spec m cb arg max_procs n l) = l.
Proof.
  revert arg. induction l as [|a l IH]; intros arg HI Hdom Hno.
  - simpl. auto.
  - destruct (Hdom a) as [c Hc]; [apply list_elem_of_here|].
    pose proof (Hno a (list_elem_of_here _ _)) as Ha.
    unfold holds in Ha. rewrite Hc in Ha.
    cbn [extract_spec]. rewrite Hc.
    destruct (cb_verdict (rec c) arg HI) as [HI' Hv].
    destruct (cb (rec c) arg) as [hit arg'] eqn:Hcb. simpl in HI', Hv.
    subst hit. rewrite Ha.
    destruct (IH arg' HI') as (H1 & H2 & H3).
    + intros b Hb. apply Hdom. now apply list_elem_of_further.
    + intros b Hb. apply Hno. now apply list_elem_of_further.
    + destruct (extract_spec m cb arg' max_procs n l) as [[c' hs] ks].
      simpl in *. subst. auto.
Qed.

Lemma extract_spec_first arg l1 a l2 :
  I arg -> (forall b, b ∈ l1 ++ a :: l2 -> is_Some (m !! b)) ->
  (forall b, b ∈ l1 -> holds m f b = false) -> holds m f a = true ->
  snd (fst (extract_spec m cb arg 1 0 (l1 ++ a :: l2))) = [a] /\
  snd (extract_spec m cb arg 1 0 (l1 ++ a :: l2)) = l1 ++ l2.
Proof.
  revert arg. induction l1 as [|b l1 IH]; intros arg HI Hdom Hno Ha.
  - destruct (Hdom a) as [c Hc]; [apply list_elem_of_here|].
    unfold holds in Ha. rewrite Hc in Ha.
    cbn [extract_spec app]. rewrite Hc.
    destruct (cb_verdict (rec c) arg HI) as [HI' Hv].
    destruct (cb (rec c) arg) as [hit arg'] eqn:Hcb. simpl in Hv.
    subst hit. rewrite Ha. simpl. auto.
  - destruct (Hdom b) as [c Hc]; [apply list_elem_of_here|].
    pose proof (Hno b (list_elem_of_here _ _)) as Hb.
    unfold holds in Hb. rewrite Hc in Hb.
    cbn [extract_spec app]. rewrite Hc.
    destruct (cb_verdict (rec c) arg HI) as [HI' Hv].
    destruct (cb (rec c) arg) as [hit arg'] eqn:Hcb. simpl in HI', Hv.
    subst hit. rewrite Hb.
    destruct (IH arg' HI') as (H1 & H2).
    + intros x Hx. apply Hdom. now apply list_elem_of_further.
    + intros x Hx. apply Hno. now apply list_elem_of_further.
    + exact Ha.
    + destruct (extract_spec m cb arg' 1 0 (l1 ++ a :: l2)) as [[c' hs] ks].
      simpl in *. subst. auto.
Qed.

End ExtractSpec.

Lemma matches_conn_op_verdict conn r c :
  c = {| crit_conn_handle := conn; crit_psm := 0;
         crit_op := BLE_GATT_OP_NONE |} ->
  snd (ble_gattc_proc_matches_conn_op r c)
  = {| crit_conn_handle := conn; crit_psm := 0;
       crit_op := BLE_GATT_OP_NONE |} /\
  fst (ble_gattc_proc_matches_conn_op r c) = on_conn conn r.
Proof.
  intros ->. unfold ble_gattc_proc_matches_conn_op, on_conn. simpl.
  destruct (conn =? conn_handle r); simpl; [|auto].
  rewrite andb_false_r. auto.
Qed.

Lemma matches_expired_verdict t r c :
  crit_now c = t ->
  crit_now (snd (ble_gattc_proc_matches_expired r c)) = t /\
  fst (ble_gattc_proc_matches_expired r c) = expired t r.
Proof.
  intros <-. unfold ble_gattc_proc_matches_expired, expired.
  destruct (s32 (exp_os_ticks r - crit_now c) <=? 0); simpl; [auto|].
  split; [|reflexivity].
  now destruct (s32 (exp_os_ticks r - crit_now c) <? next_exp_in c).
Qed.

(** ** Draining a list of extracted records *)

Lemma set_host_eta w : set_host (host w) w = w.
Proof. now destruct w. Qed.

Lemma ended_ext m1 m2 st after l :
  (forall a, a ∈ l -> rec <$> (m1 !! a) = rec <$> (m2 !! a)) ->
  ended m1 st after l = ended m2 st after l.
Proof.
  induction l as [|a l IH]; intros H; [reflexivity|].
  unfold ended in *. simpl. f_equal.
  - specialize (H a (list_elem_of_here _ _)).
    destruct (m1 !! a) as [c1|], (m2 !! a) as [c2|]; try discriminate;
      [|reflexivity].
    simpl in H. now inversion H.
  - apply IH. intros b Hb. apply H. now apply list_elem_of_further.
Qed.

Lemma fail_loop_spec P hits :
  platform_ok P ->
  forall fuel w temp_list,
    (length hits < fuel)%nat ->
    is_queue (mem w) temp_list hits ->
    (forall a c, a ∈ hits -> mem w !! a = Some c -> proc_wf (rec c)) ->
    exists w' evs,
      fail_loop P fuel temp_list (BLE_HS_ENOTCONN P) w = Ok (tt, w') /\
      host_step (host w) (host w') evs /\
      notices evs = ended (mem w) (BLE_HS_ENOTCONN P) (fun _ => []) hits /\
      ble_gattc_procs w' = ble_gattc_procs w /\
      ble_gattc_cached_procs w' = ble_gattc_cached_procs w /\
      (forall a, a ∈ hits -> mem w' !! a = None) /\
      (forall a, a ∉ hits -> mem w' !! a = mem w !! a).
Proof.
  intros HP. induction hits as [|a hits IH]; intros fuel w temp Hfuel Hq Hwf.
  - destruct fuel as [|fuel]; [simpl in Hfuel; lia|]. simpl.
    unfold STAILQ_FIRST. rewrite (is_queue_first _ _ _ Hq). simpl.
    exists w, []. split; [reflexivity|]. split; [apply host_step_refl|].
    split; [reflexivity|]. split; [reflexivity|]. split; [reflexivity|].
    split; [intros a Ha; inversion Ha|reflexivity].
  - destruct fuel as [|fuel]; [simpl in Hfuel; lia|].
    assert (length hits < fuel)%nat as Hfuel' by (simpl in Hfuel; lia).
    pose proof (is_queue_NoDup _ _ _ Hq) as Hnd.
    apply NoDup_cons in Hnd as [Hah Hnd].
    destruct (lseg_In_Some _ _ _ _ a (proj1 Hq)) as [c Hc];
      [apply list_elem_of_here|].
    pose proof (Hwf a c (list_elem_of_here _ _) Hc) as Hr.
    destruct (err_dispatch_notconn P (rec c) (host w) HP Hr)
      as (fn & Hget & g1 & e1 & Hfn & S1 & N1).
    cbn [fail_loop]. unfold STAILQ_FIRST.
    rewrite (is_queue_first _ _ _ Hq). cbn [head].
    rewrite (bind_Ok _ _ _ _ _ (load_rec_run w a c Hc)). cbv beta.
    rewrite (bind_Ok _ _ _ _ _ (lift_Ok _ _ _ _ Hget)). cbv beta iota.
    rewrite set_host_eta.
    rewrite (bind_Ok _ _ _ _ _ (lift_Ok _ _ _ _ Hfn)). cbv beta.
    destruct (STAILQ_REMOVE_HEAD_spec (set_host g1 w) temp a hits Hq)
      as (h' & Hrm & Hq').
    rewrite (bind_Ok _ _ _ _ _ Hrm). cbv beta.
    destruct (ble_gattc_proc_free_spec P (set_host g1 w) a c Hc (proj1 Hr))
      as (w2 & e2 & Hfree & Hm2 & _ & Hp2 & Hcp2 & S2 & N2 & _).
    rewrite (bind_Ok _ _ _ _ _ Hfree). cbv beta.
    destruct (IH fuel w2 h' Hfuel') as (w' & e3 & Hrun & S3 & N3 & Hp3 & Hcp3
                                        & Hgone & Hframe).
    { eapply is_queue_ext; [|exact Hq']. intros b Hb. rewrite Hm2.
      rewrite lookup_delete_ne; [reflexivity|]. intros ->. contradiction. }
    { intros b cb Hb Hcb. rewrite Hm2 in Hcb.
      rewrite lookup_delete_ne in Hcb by (intros ->; contradiction).
      apply (Hwf b cb); [apply list_elem_of_further, Hb|exact Hcb]. }
    exists w', (e1 ++ e2 ++ e3). split; [exact Hrun|].
    split.
    { eapply host_step_trans; [exact S1|].
      eapply host_step_trans; [exact S2|exact S3]. }
    split.
    { rewrite !notices_app, N1, N2, N3. unfold ended at 2. simpl.
      rewrite Hc. fold (ended (mem w) (BLE_HS_ENOTCONN P) (fun _ => []) hits).
      rewrite <- !app_assoc. do 2 f_equal. apply ended_ext.
      intros b Hb. rewrite Hm2. f_equal. apply lookup_delete_ne.
      intros ->. contradiction. }
    split; [now rewrite Hp3, Hp2|]. split; [now rewrite Hcp3, Hcp2|].
    split.
    + intros b Hb. apply elem_of_cons in Hb as [->|Hb].
      * rewrite Hframe by exact Hah. rewrite Hm2. apply lookup_delete_eq.
      * now apply Hgone.
    + intros b Hb. rewrite Hframe.
      * rewrite Hm2. apply lookup_delete_ne. intros ->. apply Hb.
        apply list_elem_of_here.
      * intros Hin. apply Hb. now apply list_elem_of_further.
Qed.

(** ** Connection loss *)

Lemma is_queue_lookup m h l a : is_queue m h l -> a ∈ l -> is_Some (m !! a).
Proof. intros [Hseg _]. eapply lseg_In_Some, Hseg. Qed.

Lemma filter_elem_of {A} (f : A -> bool) (l : list A) x :
  x ∈ List.filter f l <-> x ∈ l /\ f x = true.
Proof. rewrite !list_elem_of_In. apply filter_In. Qed.

Lemma ble_gattc_fail_procs_spec P conn w l :
  platform_ok P ->
  is_queue (mem w) (ble_gattc_procs w) l ->
  (forall a c, a ∈ l -> mem w !! a = Some c -> proc_wf (rec c)) ->
  exists w' evs,
    ble_gattc_fail_procs P conn BLE_GATT_OP_NONE (BLE_HS_ENOTCONN P) w
    = Ok (tt, w') /\
    host_step (host w) (host w') evs /\
    notices evs
    = ended (mem w) (BLE_HS_ENOTCONN P) (fun _ => [])
        (List.filter (holds (mem w) (on_conn conn)) l) /\
    is_queue (mem w') (ble_gattc_procs w')
      (List.filter (fun a => negb (holds (mem w) (on_conn conn) a)) l) /\
    (forall a, a ∈ l -> holds (mem w) (on_conn conn) a = true ->
               mem w' !! a = None) /\
    (forall a, a ∈ l -> holds (mem w) (on_conn conn) a = false ->
               rec <$> mem w' !! a = rec <$> mem w !! a).
Proof.
  intros HP Hq Hwf.
  set (crit := {| crit_conn_handle := conn; crit_psm := 0;
                  crit_op := BLE_GATT_OP_NONE |}).
  destruct (ble_gattc_extract_spec ble_gattc_proc_matches_conn_op crit 0 w l Hq)
    as (w1 & hd & Hex & Hh1 & Hr1 & Hk1 & Hd1 & Hf1).
  destruct (extract_spec_all (mem w) ble_gattc_proc_matches_conn_op
              (fun c => c = crit) (on_conn conn)
              (fun r c H => matches_conn_op_verdict conn r c H)
              crit 0 l eq_refl (fun a => is_queue_lookup _ _ _ a Hq))
    as (_ & Hhits & Hkept).
  rewrite Hhits in Hd1. rewrite Hkept in Hk1.
  set (hits := List.filter (holds (mem w) (on_conn conn)) l) in *.
  set (kept := List.filter (fun a => negb (holds (mem w) (on_conn conn) a)) l)
    in *.
  assert (forall a c, a ∈ hits -> mem w1 !! a = Some c ->
                      exists c0, mem w !! a = Some c0 /\ rec c0 = rec c)
    as Hback.
  { intros a c _ Hc. specialize (Hr1 a). rewrite Hc in Hr1.
    destruct (mem w !! a) as [c0|]; [|discriminate].
    exists c0. split; [reflexivity|]. now inversion Hr1. }
  destruct (fail_loop_spec P hits HP (S (size (mem w1))) w1 hd)
    as (w2 & evs & Hrun & S2 & N2 & Hp2 & _ & Hgone & Hframe).
  { pose proof (is_queue_length _ _ _ Hd1). lia. }
  { exact Hd1. }
  { intros a c Ha Hc. destruct (Hback a c Ha Hc) as (c0 & Hc0 & <-).
    apply (Hwf a c0); [|exact Hc0]. now apply filter_elem_of in Ha as [? _]. }
  exists w2, evs. split.
  { unfold ble_gattc_fail_procs, ble_gattc_extract_by_conn_op.
    subst crit. unfold bind. rewrite Hex. unfold ret, get. exact Hrun. }
  split.
  { destruct Hh1 as (Hhost & _). rewrite Hhost in S2. exact S2. }
  split.
  { rewrite N2. apply ended_ext. intros a _. symmetry. apply Hr1. }
  assert (forall a, a ∈ kept -> a ∉ hits) as Hdisj.
  { intros a Ha Hb. apply filter_elem_of in Ha as [_ Ha].
    apply filter_elem_of in Hb as [_ Hb]. rewrite Hb in Ha. discriminate. }
  split.
  { rewrite Hp2. eapply is_queue_ext; [|exact Hk1].
    intros a Ha. now rewrite Hframe by now apply Hdisj. }
  split.
  - intros a Ha Hon. apply Hgone. apply filter_elem_of. auto.
  - intros a Ha Hon. rewrite Hframe.
    + symmetry. apply Hr1.
    + apply Hdisj. apply filter_elem_of. split; [exact Ha|]. now rewrite Hon.
Qed.

(** C6.  On a table [l] of well-formed records,
    [ble_gattc_connection_broken conn] returns; what the application is
    told is, for each record of the connection in table order, the one
    report of BLE_HS_ENOTCONN that belongs to the record followed by
    the release of the record, and nothing else; afterwards the table
    holds the records of the other connections, in their order and
    with their contents, and the records of the connection are gone
    from the heap. *)
Theorem ble_gattc_connection_broken_fails_each_once P conn w l c :
  platform_ok P ->
  is_queue (mem w) (ble_gattc_procs w) l ->
  (forall a c, a ∈ l -> mem w !! a = Some c -> proc_wf (rec c)) ->
  hs_conns (host w) !! conn = Some c ->
  exists w' evs,
    ble_gattc_connection_broken P conn w = Ok (tt, w') /\
    trace (host w') = trace (host w) ++ evs /\
    notices evs
    = ended (mem w) (BLE_HS_ENOTCONN P) (fun _ => [])
        (List.filter (holds (mem w) (on_conn conn)) l) /\
    is_queue (mem w') (ble_gattc_procs w')
      (List.filter (fun a => negb (holds (mem w) (on_conn conn) a)) l) /\
    (forall a, a ∈ l -> holds (mem w) (on_conn conn) a = true ->
               mem w' !! a = None) /\
    (forall a, a ∈ l -> holds (mem w) (on_conn conn) a = false ->
               rec <$> mem w' !! a = rec <$> mem w !! a).
Proof.
  intros HP Hq Hwf Hconn.
  destruct (ble_gattc_fail_procs_spec P conn w l HP Hq Hwf)
    as (w1 & e1 & Hrun & S1 & N1 & Hk & Hgone & Hsame).
  destruct (free_mbufs_run (att_tx_q c) (host w1))
    as (g2 & e2 & Hfl & S2 & N2 & _).
  assert (hs_conns (host w1) !! conn = Some c) as Hconn1.
  { destruct S1 as (_ & _ & -> & _). exact Hconn. }
  eexists _, (e1 ++ e2). split.
  { unfold ble_gattc_connection_broken.
    rewrite (bind_Ok _ _ _ _ _ Hrun). cbv beta.
    unfold bind at 1, get at 1. rewrite Hconn1.
    rewrite (bind_Ok _ _ _ _ _ (lift_Ok _ _ _ _ Hfl)). cbv beta.
    unfold lift, modify. cbn. reflexivity. }
  cbn. split.
  { destruct S2 as (-> & _), S1 as (-> & _). now rewrite app_assoc. }
  split; [rewrite notices_app, N1, N2; apply app_nil_r|].
  split; [exact Hk|]. split; [exact Hgone|exact Hsame].
Qed.

Lemma ble_gattc_connection_broken_fails_each_once_witness :
  exists w' evs,
    ble_gattc_connection_broken nimble 1 (two_procs 0) = Ok (tt, w') /\
    trace (host w') = evs /\
    notices evs = [n_call (call_mtu_fn 7 1 (final_error 7) 0 0);
                   n_free 0%nat] /\
    is_queue (mem w') (ble_gattc_procs w') [1%nat] /\
    mem w' !! 0%nat = None /\
    rec <$> mem w' !! 1%nat = Some (mtu_proc 2 8).
Proof.
  destruct (ble_gattc_connection_broken_fails_each_once nimble 1
              (two_procs 0) [0%nat; 1%nat]
              {| att_tx_q := []; peer_cl_sup_feat_0 := 4;
                 indicate_val_handle := 0 |})
    as (w' & evs & Hrun & Htr & Hn & Hq & Hgone & Hsame).
  - split; unfold hs_code; cbn; lia.
  - split; [|reflexivity]. simpl. split; [reflexivity|].
    eexists. split; [reflexivity|]. simpl. split; [reflexivity|].
    eexists. split; [reflexivity|]. reflexivity.
  - intros a c Ha Hc. apply elem_of_cons in Ha as [->|Ha].
    + vm_compute in Hc. injection Hc as <-. vm_compute. auto.
    + apply list_elem_of_singleton in Ha as ->.
      vm_compute in Hc. injection Hc as <-. vm_compute. auto.
  - reflexivity.
  - exists w', evs. split; [exact Hrun|]. split; [exact Htr|].
    split; [exact Hn|]. split; [exact Hq|]. split.
    + apply Hgone; [apply list_elem_of_here|reflexivity].
    + rewrite Hsame; [reflexivity| |reflexivity].
      apply list_elem_of_further, list_elem_of_here.
Defined.

(** ** Timeouts *)

Lemma timeout_loop_spec P hits :
  platform_ok P ->
  forall fuel w exp_list,
    (length hits < fuel)%nat ->
    is_queue (mem w) exp_list hits ->
    (forall a c, a ∈ hits -> mem w !! a = Some c -> proc_tagged (rec c)) ->
    exists w' evs,
      timeout_loop P fuel exp_list w = Ok (tt, w') /\
      host_step (host w) (host w') evs /\
      notices evs
      = ended (mem w) (BLE_HS_ETIMEOUT P)
          (fun r => [n_terminate (conn_handle r)
                       (BLE_ERR_REM_USER_CONN_TERM P)]) hits /\
      ble_gattc_procs w' = ble_gattc_procs w /\
      ble_gattc_cached_procs w' = ble_gattc_cached_procs w /\
      (forall a, a ∈ hits -> mem w' !! a = None) /\
      (forall a, a ∉ hits -> mem w' !! a = mem w !! a).
Proof.
  intros HP. induction hits as [|a hits IH]; intros fuel w temp Hfuel Hq Hwf.
  - destruct fuel as [|fuel]; [simpl in Hfuel; lia|]. simpl.
    unfold STAILQ_FIRST. rewrite (is_queue_first _ _ _ Hq). simpl.
    exists w, []. split; [reflexivity|]. split; [apply host_step_refl|].
    split; [reflexivity|]. split; [reflexivity|]. split; [reflexivity|].
    split; [intros a Ha; inversion Ha|reflexivity].
  - destruct fuel as [|fuel]; [simpl in Hfuel; lia|].
    assert (length hits < fuel)%nat as Hfuel' by (simpl in Hfuel; lia).
    pose proof (is_queue_NoDup _ _ _ Hq) as Hnd.
    apply NoDup_cons in Hnd as [Hah Hnd].
    destruct (lseg_In_Some _ _ _ _ a (proj1 Hq)) as [c Hc];
      [apply list_elem_of_here|].
    pose proof (Hwf a c (list_elem_of_here _ _) Hc) as Hr.
    destruct (tmo_dispatch_timeout P (rec c) (host w) HP Hr)
      as (fn & Hget & g1 & e1 & Hfn & S1 & N1).
    cbn [timeout_loop]. unfold STAILQ_FIRST.
    rewrite (is_queue_first _ _ _ Hq). cbn [head].
    unfold ble_gattc_proc_timeout.
    assert (bind (load_rec a)
              (fun r => bind (lift (ble_gattc_tmo_dispatch_get P (op r)))
                 (fun cb => match cb with
                            | Some fn => lift (fn r)
                            | None => ret tt
                            end)) w = Ok (tt, set_host g1 w)) as Htmo.
    { rewrite (bind_Ok _ _ _ _ _ (load_rec_run w a c Hc)). cbv beta.
      rewrite (bind_Ok _ _ _ _ _ (lift_Ok _ _ _ _ Hget)). cbv beta iota.
      rewrite set_host_eta. apply lift_Ok, Hfn. }
    rewrite (bind_Ok _ _ _ _ _ Htmo). cbv beta.
    rewrite (bind_Ok _ _ _ _ _ (load_rec_run (set_host g1 w) a c Hc)).
    cbv beta.
    set (ev := ev_gap_terminate (conn_handle (rec c))
                 (BLE_ERR_REM_USER_CONN_TERM P)).
    set (g1' := set_trace (trace g1 ++ [ev]) g1).
    assert (host_step g1 g1' [ev]) as S1' by (subst g1'; host_step_tac).
    assert (lift (emit ev) (set_host g1 w) = Ok (tt, set_host g1' w)) as Hem
      by reflexivity.
    rewrite (bind_Ok _ _ _ _ _ Hem). cbv beta.
    destruct (STAILQ_REMOVE_HEAD_spec (set_host g1' w) temp a hits Hq)
      as (h' & Hrm & Hq').
    rewrite (bind_Ok _ _ _ _ _ Hrm). cbv beta.
    destruct (ble_gattc_proc_free_spec P (set_host g1' w) a c Hc Hr)
      as (w2 & e2 & Hfree & Hm2 & _ & Hp2 & Hcp2 & S2 & N2 & _).
    rewrite (bind_Ok _ _ _ _ _ Hfree). cbv beta.
    destruct (IH fuel w2 h' Hfuel') as (w' & e3 & Hrun & S3 & N3 & Hp3 & Hcp3
                                        & Hgone & Hframe).
    { eapply is_queue_ext; [|exact Hq']. intros b Hb. rewrite Hm2.
      rewrite lookup_delete_ne; [reflexivity|]. intros ->. contradiction. }
    { intros b cb Hb Hcb. rewrite Hm2 in Hcb.
      rewrite lookup_delete_ne in Hcb by (intros ->; contradiction).
      apply (Hwf b cb); [apply list_elem_of_further, Hb|exact Hcb]. }
    exists w', (e1 ++ [ev] ++ e2 ++ e3). split; [exact Hrun|].
    split.
    { eapply host_step_trans; [exact S1|].
      eapply host_step_trans; [exact S1'|].
      eapply host_step_trans; [exact S2|exact S3]. }
    split.
    { rewrite !notices_app, N1, N2, N3. unfold ended at 2. simpl.
      rewrite Hc.
      fold (ended (mem w) (BLE_HS_ETIMEOUT P)
              (fun r => [n_terminate (conn_handle r)
                           (BLE_ERR_REM_USER_CONN_TERM P)]) hits).
      rewrite <- !app_assoc. simpl. do 3 f_equal. apply ended_ext.
      intros b Hb. rewrite Hm2. f_equal. apply lookup_delete_ne.
      intros ->. contradiction. }
    split; [now rewrite Hp3, Hp2|]. split; [now rewrite Hcp3, Hcp2|].
    split.
    + intros b Hb. apply elem_of_cons in Hb as [->|Hb].
      * rewrite Hframe by exact Hah. rewrite Hm2. apply lookup_delete_eq.
      * now apply Hgone.
    + intros b Hb. rewrite Hframe.
      * rewrite Hm2. apply lookup_delete_ne. intros ->. apply Hb.
        apply list_elem_of_here.
      * intros Hin. apply Hb. now apply list_elem_of_further.
Qed.

(** C4.  The deadline [ble_gattc_proc_set_exp_timer] gives a record is
    the current time plus the ticks of 30000 ms.  On a table [l],
    [ble_gattc_timer] first runs [ble_gattc_timer_expire], which
    returns, and then hands over to the resume half.  For every record
    whose deadline has passed at the time of the call, in table order,
    the application gets the one report of BLE_HS_ETIMEOUT that belongs
    to the record, then the connection of the record is terminated
    with BLE_ERR_REM_USER_CONN_TERM, then the record is released;
    nothing else is told.  Afterwards the table holds the other
    records, in their order and with their contents, and the expired
    records are gone from the heap.  When no resume is pending the
    call ends there. *)
Theorem ble_gattc_timer_expires_overdue P w l :
  platform_ok P ->
  is_queue (mem w) (ble_gattc_procs w) l ->
  (forall a c, a ∈ l -> mem w !! a = Some c -> proc_tagged (rec c)) ->
  (forall r g,
     ble_gattc_proc_set_exp_timer P r g
     = Ok (set_exp_os_ticks
             (u32 (now g + ble_npl_time_ms_to_ticks32 P 30000)) r, g)) /\
  exists ticks w' evs,
    ble_gattc_timer_expire P w = Ok (ticks, w') /\
    ble_gattc_timer P w = ble_gattc_timer_resume P ticks w' /\
    (ble_gattc_resume_at (host w) = 0 ->
     ble_gattc_timer P w = Ok (Z.min ticks (BLE_HS_FOREVER P), w')) /\
    trace (host w') = trace (host w) ++ evs /\
    notices evs
    = ended (mem w) (BLE_HS_ETIMEOUT P)
        (fun r => [n_terminate (conn_handle r)
                     (BLE_ERR_REM_USER_CONN_TERM P)])
        (List.filter (holds (mem w) (expired (now (host w)))) l) /\
    is_queue (mem w') (ble_gattc_procs w')
      (List.filter
         (fun a => negb (holds (mem w) (expired (now (host w))) a)) l) /\
    (forall a, a ∈ l -> holds (mem w) (expired (now (host w))) a = true ->
               mem w' !! a = None) /\
    (forall a, a ∈ l -> holds (mem w) (expired (now (host w))) a = false ->
               rec <$> mem w' !! a = rec <$> mem w !! a).
Proof.
  intros HP Hq Hwf. split; [reflexivity|].
  set (t := now (host w)).
  set (crit := {| crit_now := t; next_exp_in := BLE_HS_FOREVER P |}).
  destruct (ble_gattc_extract_spec ble_gattc_proc_matches_expired crit 0 w l
              Hq) as (w1 & hd & Hex & Hh1 & Hr1 & Hk1 & Hd1 & Hf1).
  destruct (extract_spec_all (mem w) ble_gattc_proc_matches_expired
              (fun c => crit_now c = t) (expired t)
              (fun r c H => matches_expired_verdict t r c H)
              crit 0 l eq_refl (fun a => is_queue_lookup _ _ _ a Hq))
    as (_ & Hhits & Hkept).
  rewrite Hhits in Hd1. rewrite Hkept in Hk1.
  set (hits := List.filter (holds (mem w) (expired t)) l) in *.
  set (kept := List.filter (fun a => negb (holds (mem w) (expired t) a)) l)
    in *.
  set (ticks := next_exp_in
                  (fst (fst (extract_spec (mem w)
                               ble_gattc_proc_matches_expired crit 0 0 l))))
    in *.
  destruct (timeout_loop_spec P hits HP (S (size (mem w1))) w1 hd)
    as (w2 & evs & Hrun & S2 & N2 & Hp2 & _ & Hgone & Hframe).
  { pose proof (is_queue_length _ _ _ Hd1). lia. }
  { exact Hd1. }
  { intros a c Ha Hc. specialize (Hr1 a). rewrite Hc in Hr1.
    destruct (mem w !! a) as [c0|] eqn:Hc0; [|discriminate].
    simpl in Hr1. injection Hr1 as Hrec. rewrite <- Hrec.
    apply (Hwf a c0); [|exact Hc0]. now apply filter_elem_of in Ha as [? _]. }
  assert (ble_gattc_timer_expire P w = Ok (ticks, w2)) as Hexp.
  { unfold ble_gattc_timer_expire, ble_gattc_extract_expired.
    fold t. fold crit. unfold bind, get. fold t. fold crit. rewrite Hex.
    fold ticks. unfold ret. rewrite Hrun. reflexivity. }
  assert (ble_gattc_resume_at (host w2) = ble_gattc_resume_at (host w))
    as Hres.
  { destruct S2 as (_ & _ & _ & ->). now destruct Hh1 as (-> & _). }
  exists ticks, w2, evs. split; [exact Hexp|].
  split.
  { unfold ble_gattc_timer. now rewrite (bind_Ok _ _ _ _ _ Hexp). }
  split.
  { intros Hzero. unfold ble_gattc_timer.
    rewrite (bind_Ok _ _ _ _ _ Hexp). cbv beta.
    unfold ble_gattc_timer_resume, ble_gattc_ticks_until_resume.
    unfold bind, get, ret. rewrite Hres, Hzero. cbn [Z.eqb].
    pose proof (pok_forever P HP) as Hx.
    now rewrite (proj2 (Z.eqb_neq (BLE_HS_FOREVER P) 0)) by lia. }
  assert (forall a, a ∈ kept -> a ∉ hits) as Hdisj.
  { intros a Ha Hb. apply filter_elem_of in Ha as [_ Ha].
    apply filter_elem_of in Hb as [_ Hb]. rewrite Hb in Ha. discriminate. }
  split.
  { destruct Hh1 as (Hhost & _). rewrite Hhost in S2. apply S2. }
  split.
  { rewrite N2. apply ended_ext. intros a _. symmetry. apply Hr1. }
  split.
  { rewrite Hp2. eapply is_queue_ext; [|exact Hk1].
    intros a Ha. now rewrite Hframe by now apply Hdisj. }
  split.
  - intros a Ha Hon. apply Hgone. apply filter_elem_of. auto.
  - intros a Ha Hon. rewrite Hframe.
    + symmetry. apply Hr1.
    + apply Hdisj. apply filter_elem_of. split; [exact Ha|]. now rewrite Hon.
Qed.

Lemma ble_gattc_timer_expires_overdue_witness :
  exists ticks w',
    ble_gattc_timer nimble (two_procs 30000) = Ok (ticks, w') /\
    notices (trace (host w'))
    = [n_call (call_mtu_fn 7 1 (final_error 13) 0 0); n_terminate 1 19;
       n_free 0%nat;
       n_call (call_mtu_fn 8 2 (final_error 13) 0 0); n_terminate 2 19;
       n_free 1%nat] /\
    is_queue (mem w') (ble_gattc_procs w') [] /\
    mem w' !! 0%nat = None /\ mem w' !! 1%nat = None.
Proof.
  destruct (ble_gattc_timer_expires_overdue nimble (two_procs 30000)
              [0%nat; 1%nat])
    as (_ & ticks & w' & evs & _ & _ & Hrun & Htr & Hn & Hq & Hgone & _).
  - split; unfold hs_code; cbn; lia.
  - split; [|reflexivity]. simpl. split; [reflexivity|].
    eexists. split; [reflexivity|]. simpl. split; [reflexivity|].
    eexists. split; [reflexivity|]. reflexivity.
  - intros a c Ha Hc. apply elem_of_cons in Ha as [->|Ha].
    + vm_compute in Hc. injection Hc as <-. reflexivity.
    + apply list_elem_of_singleton in Ha as ->.
      vm_compute in Hc. injection Hc as <-. reflexivity.
  - exists (Z.min ticks (BLE_HS_FOREVER nimble)), w'.
    split; [apply Hrun; reflexivity|].
    split; [rewrite Htr; exact Hn|]. split; [exact Hq|]. split.
    + apply Hgone; [apply list_elem_of_here|reflexivity].
    + apply Hgone; [|reflexivity].
      apply list_elem_of_further, list_elem_of_here.
Defined.

(** ** Long writes *)

(** C3.  A write-long record has a Prepare Write request pending and
    the response reports success.  If the echoed handle, offset or
    length disagrees with the request, [ble_gattc_write_long_rx_prep]
    ends the procedure with the one report of BLE_HS_EBADDATA and hands
    nothing to the transport: no Execute Write (cancel) is sent.  Only
    if these agree and the echoed bytes differ from the queued ones is
    the Execute Write with BLE_ATT_EXEC_WRITE_F_CANCEL transmitted,
    before the report. *)
Theorem ble_gattc_write_long_rx_prep_mismatch P r s data h off rxom g :
  un r = U_write_long s ->
  om (write_long.attr s) = Some data ->
  offset (write_long.attr s) < OS_MBUF_PKTLEN data ->
  (prep_echo_mismatch s data h off rxom = true ->
   exists g' evs,
     ble_gattc_write_long_rx_prep P r 0 h off rxom g
     = Ok ((BLE_HS_EDONE P, r), g') /\
     host_step g g' evs /\ transmitted evs = [] /\
     notices evs = terminal_notice r (BLE_HS_EBADDATA P)) /\
  (prep_echo_mismatch s data h off rxom = false ->
   os_mbuf_cmpm rxom 0 data off (write_long.length s) <> 0 ->
   exists g' rc evs,
     ble_gattc_write_long_rx_prep P r 0 h off rxom g
     = Ok ((BLE_HS_EDONE P, r), g') /\
     host_step g g'
       (ev_tx (tx_exec_write (conn_handle r) (cid r)
                 (BLE_ATT_EXEC_WRITE_F_CANCEL P)) rc :: evs) /\
     transmitted evs = [] /\
     notices evs = terminal_notice r (BLE_HS_EBADDATA P)).
Proof.
  intros Hun Hom Hoff.
  destruct r as [e x c ci o f u]. simpl in Hun. subst u.
  unfold terminal_notice. cbn [un conn_handle cid].
  unfold prep_echo_mismatch, ble_gattc_write_long_rx_prep,
    ble_gattc_write_long_cb.
  g_run. rewrite Hom. rewrite (proj2 (Z.leb_gt _ _) Hoff).
  assert (forall g0,
            exists g' evs,
              match
                match write_long.cb s with
                | Some fn =>
                    app_cb (call_attr_fn fn c
                              (ble_gattc_error P (BLE_HS_EBADDATA P) 0)
                              (Some (write_long.attr s))
                              (write_long.cb_arg s))
                | None => ret 0
                end g0
              with
              | Ok (_, s') =>
                  Ok (BLE_HS_EDONE P,
                      {| error := e; exp_os_ticks := x; conn_handle := c;
                         cid := ci; op := o; flags := f;
                         un := U_write_long s |}, s')
              | Fault f0 => Fault f0
              end = Ok ((BLE_HS_EDONE P,
                         {| error := e; exp_os_ticks := x; conn_handle := c;
                            cid := ci; op := o; flags := f;
                            un := U_write_long s |}), g') /\
              host_step g0 g' evs /\ transmitted evs = [] /\
              notices evs
              = match write_long.cb s with
                | Some fn =>
                    [n_call (call_attr_fn fn c
                               (final_error (BLE_HS_EBADDATA P))
                               (Some (write_long.attr s))
                               (write_long.cb_arg s))]
                | None => []
                end) as Hcb.
  { intros g0. rewrite ble_gattc_error_final.
    destruct (write_long.cb s); g_run; eexists _, _;
      (split; [reflexivity|]); (split; [host_step_tac|]);
      split; reflexivity. }
  split.
  - intros Hmis.
    destruct (negb (h =? handle (write_long.attr s))); [apply Hcb|].
    destruct (negb (off =? offset (write_long.attr s))); [apply Hcb|].
    destruct (OS_MBUF_PKTLEN data <? off + OS_MBUF_PKTLEN rxom);
      [apply Hcb|].
    destruct (negb (OS_MBUF_PKTLEN rxom =? write_long.length s));
      [apply Hcb|].
    discriminate.
  - intros Hmis Hcmp.
    apply orb_false_iff in Hmis as [Hmis ->].
    apply orb_false_iff in Hmis as [Hmis ->].
    apply orb_false_iff in Hmis as [-> ->].
    rewrite (proj2 (Z.eqb_neq _ _) Hcmp).
    change (negb (0 =? 0)) with false. cbn [negb]. g_run.
    match goal with
    | |- context [set_trace (trace g ++ [ev_tx ?req ?rc]) ?g0] =>
        destruct (Hcb (set_trace (trace g ++ [ev_tx req rc]) g0))
          as (g' & evs & Hrun & Hstep & Htx & Hn)
    end.
    exists g', (hd 0 (tx_rcs g)), evs. split; [exact Hrun|].
    split; [|auto].
    destruct Hstep as (A & B & C & D). unfold host_step.
    rewrite A, B, C, D. cbn. rewrite <- app_assoc. auto.
Qed.

Lemma ble_gattc_write_long_rx_prep_mismatch_witness :
  exists g',
    ble_gattc_write_long_rx_prep nimble write_long_proc 0 8 0
      (map Z.of_nat (seq 0 18)) (host_at 0 [] [])
    = Ok ((14, write_long_proc), g') /\
    trace g'
    = [ev_cb (call_attr_fn 50 1 (final_error 10)
                (Some {| handle := 9; offset := 0;
                         om := Some (map Z.of_nat (seq 0 20)) |}) 0) 0].
Proof.
  destruct (proj1 (ble_gattc_write_long_rx_prep_mismatch nimble
                     write_long_proc _ (map Z.of_nat (seq 0 20)) 8 0
                     (map Z.of_nat (seq 0 18)) (host_at 0 [] [])
                     eq_refl eq_refl ltac:(vm_compute; reflexivity))
              eq_refl)
    as (g' & evs & Hrun & _).
  exists g'. split; [exact Hrun|].
  vm_compute in Hrun. injection Hrun as <-. reflexivity.
Defined.

(** ** Reinserting or releasing a record *)

Lemma store_rec_run w a c r :
  mem w !! a = Some c ->
  store_rec a r w
  = Ok (tt, set_mem (<[a := {| next := next c; rec := r |}]> (mem w)) w).
Proof.
  intros Hc. unfold store_rec, bind, load, store. rewrite Hc. simpl.
  now rewrite Hc.
Qed.

Lemma is_queue_store_rec m h l a c r :
  m !! a = Some c -> is_queue m h l ->
  is_queue (<[a := {| next := next c; rec := r |}]> m) h l.
Proof.
  intros Hc Hq. eapply is_queue_ext; [|exact Hq]. intros b _.
  destruct (decide (b = a)) as [->|Hne].
  - now rewrite lookup_insert_eq, Hc.
  - now rewrite lookup_insert_ne by auto.
Qed.

Lemma ble_gattc_process_status_insert P w a c l :
  mem w !! a = Some c ->
  is_queue (mem w) (ble_gattc_procs w) l -> a ∉ l ->
  exists w',
    ble_gattc_process_status P (Some a) 0 w = Ok (tt, w') /\
    is_queue (mem w') (ble_gattc_procs w') (l ++ [a]) /\
    rec <$> mem w' !! a
    = Some (if stalled (rec c) then rec c
            else set_exp_os_ticks
                   (u32 (now (host w) + ble_npl_time_ms_to_ticks32 P 30000))
                   (rec c)) /\
    (forall b, b <> a -> rec <$> mem w' !! b = rec <$> mem w !! b) /\
    host_step (host w) (host w') [ev_hs_timer_resched] /\
    pool_free w' = pool_free w /\
    ble_gattc_cached_procs w' = ble_gattc_cached_procs w.
Proof.
  intros Hc Hq Ha. unfold ble_gattc_process_status. cbn [Z.eqb].
  rewrite (bind_Ok _ _ _ _ _ (load_rec_run w a c Hc)). cbv beta.
  set (r' := if stalled (rec c) then rec c
             else set_exp_os_ticks
                    (u32 (now (host w) + ble_npl_time_ms_to_ticks32 P 30000))
                    (rec c)).
  set (m1 := <[a := {| next := next c; rec := r' |}]> (mem w)).
  assert (exists w1,
    (if Z.land (flags (rec c)) BLE_GATTC_PROC_F_STALLED =? 0
     then bind (lift (ble_gattc_proc_set_exp_timer P (rec c)))
            (fun r => store_rec a r)
     else ret tt) w = Ok (tt, w1) /\
    host w1 = host w /\ pool_free w1 = pool_free w /\
    ble_gattc_procs w1 = ble_gattc_procs w /\
    ble_gattc_cached_procs w1 = ble_gattc_cached_procs w /\
    is_queue (mem w1) (ble_gattc_procs w1) l /\
    rec <$> mem w1 !! a = Some r' /\
    (forall b, b <> a -> mem w1 !! b = mem w !! b))
    as (w1 & Hrun1 & Hh1 & Hp1 & Hq1 & Hcp1 & Hk1 & Hr1 & Hf1).
  { subst r'. unfold stalled.
    destruct (Z.land (flags (rec c)) BLE_GATTC_PROC_F_STALLED =? 0).
    - cbn [negb]. unfold bind at 1, lift at 1, ble_gattc_proc_set_exp_timer.
      unfold bind at 1, get at 1, ret at 1. rewrite set_host_eta.
      rewrite (store_rec_run _ _ _ _ Hc).
      eexists. split; [reflexivity|]. cbn.
      split; [reflexivity|]. split; [reflexivity|]. split; [reflexivity|].
      split; [reflexivity|]. split; [now apply is_queue_store_rec|].
      split; [now rewrite lookup_insert_eq|].
      intros b Hb. now rewrite lookup_insert_ne by auto.
    - cbn [negb]. exists w. split; [reflexivity|].
      repeat (split; [reflexivity|]). split; [exact Hq|].
      split; [now rewrite Hc|]. auto. }
  rewrite (bind_Ok _ _ _ _ _ Hrun1). cbv beta.
  assert (is_Some (mem w1 !! a)) as Hsome.
  { destruct (mem w1 !! a); [eauto|discriminate]. }
  destruct (STAILQ_INSERT_TAIL_spec w1 (ble_gattc_procs w1) l a Hk1 Ha Hsome)
    as (h' & m' & Hins & Hq' & Hsr & _).
  assert (ble_gattc_proc_insert a w1
          = Ok (tt, set_procs h' (set_mem m' w1))) as Hinsert.
  { unfold ble_gattc_proc_insert, bind, get. rewrite Hins. reflexivity. }
  rewrite (bind_Ok _ _ _ _ _ Hinsert). cbv beta.
  unfold lift, emit, modify. cbn.
  eexists. split; [reflexivity|]. cbn.
  split; [exact Hq'|].
  split; [rewrite <- (Hsr a); exact Hr1|].
  split.
  { intros b Hb. rewrite <- (Hsr b). now rewrite Hf1. }
  split.
  { rewrite Hh1. unfold host_step. cbn. auto. }
  auto.
Qed.

Lemma ble_gattc_process_status_free P w a c st :
  st <> 0 -> mem w !! a = Some c -> proc_tagged (rec c) ->
  exists w' evs,
    ble_gattc_process_status P (Some a) st w = Ok (tt, w') /\
    mem w' = delete a (mem w) /\ pool_free w' = a :: pool_free w /\
    ble_gattc_procs w' = ble_gattc_procs w /\
    ble_gattc_cached_procs w' = ble_gattc_cached_procs w /\
    host_step (host w) (host w') evs /\ notices evs = [n_free a] /\
    transmitted evs = [].
Proof.
  intros Hst Hc Htag. unfold ble_gattc_process_status.
  rewrite (proj2 (Z.eqb_neq _ _) Hst).
  exact (ble_gattc_proc_free_spec P w a c Hc Htag).
Qed.

(** ** Finding the record a response is meant for *)

Lemma matches_conn_cid_op_addressed conn chan opcode r c :
  c = {| crit_conn_handle := conn; crit_psm := chan; crit_op := opcode |} ->
  snd (ble_gattc_proc_matches_conn_cid_op r c)
  = {| crit_conn_handle := conn; crit_psm := chan; crit_op := opcode |} /\
  fst (ble_gattc_proc_matches_conn_cid_op r c) = addressed conn chan opcode r.
Proof.
  intros ->. unfold ble_gattc_proc_matches_conn_cid_op, addressed. simpl.
  destruct (conn =? conn_handle r); simpl; [|auto].
  destruct (chan =? cid r); simpl; [|auto].
  destruct (opcode =? op r), (opcode =? BLE_GATT_OP_NONE); simpl; auto.
Qed.

Lemma extract_first_found conn chan opcode w l1 a l2 :
  is_queue (mem w) (ble_gattc_procs w) (l1 ++ a :: l2) ->
  (forall b, b ∈ l1 -> holds (mem w) (addressed conn chan opcode) b = false) ->
  holds (mem w) (addressed conn chan opcode) a = true ->
  exists w',
    ble_gattc_extract_first_by_conn_cid_op conn chan opcode w
    = Ok (Some a, w') /\
    same_host w w' /\ same_recs (mem w) (mem w') /\
    is_queue (mem w') (ble_gattc_procs w') (l1 ++ l2) /\
    a ∉ l1 ++ l2.
Proof.
  intros Hq Hno Ha.
  set (crit := {| crit_conn_handle := conn; crit_psm := chan;
                  crit_op := opcode |}).
  destruct (ble_gattc_extract_spec ble_gattc_proc_matches_conn_cid_op crit 1
              w _ Hq) as (w1 & hd & Hex & Hh1 & Hr1 & Hk1 & Hd1 & Hf1).
  destruct (extract_spec_first (mem w) ble_gattc_proc_matches_conn_cid_op
              (fun c => c = crit) (addressed conn chan opcode)
              (fun r c H => matches_conn_cid_op_addressed conn chan opcode r c H)
              crit l1 a l2 eq_refl (fun b => is_queue_lookup _ _ _ b Hq)
              Hno Ha) as (Hhits & Hkept).
  rewrite Hhits in Hd1. rewrite Hkept in Hk1.
  exists w1. split.
  { unfold ble_gattc_extract_first_by_conn_cid_op,
      ble_gattc_extract_by_conn_cid_op. subst crit.
    unfold bind. rewrite Hex. unfold ret, STAILQ_FIRST.
    now rewrite (is_queue_first _ _ _ Hd1). }
  split; [exact Hh1|]. split; [exact Hr1|]. split; [exact Hk1|].
  pose proof (is_queue_NoDup _ _ _ Hq) as Hnd.
  apply NoDup_app in Hnd as (_ & Hx & Hy).
  apply NoDup_cons in Hy as [Hy _].
  intros Hin. apply elem_of_app in Hin as [Hin|Hin].
  - apply (Hx _ Hin). apply list_elem_of_here.
  - contradiction.
Qed.

Lemma extract_first_absent conn chan opcode w l :
  is_queue (mem w) (ble_gattc_procs w) l ->
  (forall a, a ∈ l -> holds (mem w) (addressed conn chan opcode) a = false) ->
  exists w',
    ble_gattc_extract_first_by_conn_cid_op conn chan opcode w
    = Ok (None, w') /\
    same_host w w' /\ same_recs (mem w) (mem w') /\
    is_queue (mem w') (ble_gattc_procs w') l.
Proof.
  intros Hq Hno.
  set (crit := {| crit_conn_handle := conn; crit_psm := chan;
                  crit_op := opcode |}).
  destruct (ble_gattc_extract_spec ble_gattc_proc_matches_conn_cid_op crit 1
              w l Hq) as (w1 & hd & Hex & Hh1 & Hr1 & Hk1 & Hd1 & Hf1).
  destruct (extract_spec_none (mem w) ble_gattc_proc_matches_conn_cid_op
              (fun c => c = crit) (addressed conn chan opcode)
              (fun r c H => matches_conn_cid_op_addressed conn chan opcode r c H)
              crit 1 0 l eq_refl (fun a => is_queue_lookup _ _ _ a Hq) Hno)
    as (_ & Hhits & Hkept).
  rewrite Hhits in Hd1. rewrite Hkept in Hk1.
  exists w1. split.
  { unfold ble_gattc_extract_first_by_conn_cid_op,
      ble_gattc_extract_by_conn_cid_op. subst crit.
    unfold bind. rewrite Hex. unfold ret, STAILQ_FIRST.
    now rewrite (is_queue_first _ _ _ Hd1). }
  auto.
Qed.

(** ** ATT error responses *)

(** C10.  When no record of the table [l] is on channel [chan] of
    connection [conn], [ble_gattc_rx_err] built without
    BLE_GATTC_AUTO_PAIR returns, calls nothing, and leaves the table
    and every record as they were; built with BLE_GATTC_AUTO_PAIR it
    stores to [proc->error] through the NULL pointer that the
    extraction returned. *)
Theorem ble_gattc_rx_err_no_match P conn chan h st w l :
  is_queue (mem w) (ble_gattc_procs w) l ->
  (forall a, a ∈ l ->
     holds (mem w) (addressed conn chan BLE_GATT_OP_NONE) a = false) ->
  (BLE_GATTC_AUTO_PAIR P = false ->
   exists w',
     ble_gattc_rx_err P conn chan h st w = Ok (tt, w') /\
     host w' = host w /\ same_recs (mem w) (mem w') /\
     is_queue (mem w') (ble_gattc_procs w') l) /\
  (BLE_GATTC_AUTO_PAIR P = true ->
   ble_gattc_rx_err P conn chan h st w = Fault NullDeref).
Proof.
  intros Hq Hno.
  destruct (extract_first_absent conn chan BLE_GATT_OP_NONE w l Hq Hno)
    as (w1 & Hex & Hh & Hr & Hk).
  split; intros Hap; unfold ble_gattc_rx_err;
    rewrite (bind_Ok _ _ _ _ _ Hex); cbv beta; rewrite Hap.
  - exists w1. split; [reflexivity|]. split; [apply Hh|]. auto.
  - reflexivity.
Qed.

Lemma ble_gattc_rx_err_no_match_witness :
  ble_gattc_rx_err nimble_auto_pair 3 4 0 10 (two_procs 0) = Fault NullDeref /\
  exists w',
    ble_gattc_rx_err nimble 3 4 0 10 (two_procs 0) = Ok (tt, w') /\
    host w' = host (two_procs 0).
Proof.
  assert (is_queue (mem (two_procs 0)) (ble_gattc_procs (two_procs 0))
            [0%nat; 1%nat]) as Hq.
  { split; [|reflexivity]. simpl. split; [reflexivity|].
    eexists. split; [reflexivity|]. simpl. split; [reflexivity|].
    eexists. split; [reflexivity|]. reflexivity. }
  assert (forall a, a ∈ [0%nat; 1%nat] ->
            holds (mem (two_procs 0)) (addressed 3 4 BLE_GATT_OP_NONE) a
            = false) as Hno.
  { intros a Ha. apply elem_of_cons in Ha as [->|Ha]; [reflexivity|].
    apply list_elem_of_singleton in Ha as ->. reflexivity. }
  split.
  - apply (ble_gattc_rx_err_no_match nimble_auto_pair 3 4 0 10 (two_procs 0)
             [0%nat; 1%nat] Hq Hno). reflexivity.
  - destruct (proj1 (ble_gattc_rx_err_no_match nimble 3 4 0 10 (two_procs 0)
                       [0%nat; 1%nat] Hq Hno) eq_refl)
      as (w' & Hrun & Hhost & _).
    exists w'. auto.
Defined.

(** ** Handing a response to its procedure *)

Lemma rx_dispatch_run P w a c handler rc r' g' l :
  mem w !! a = Some c ->
  is_queue (mem w) (ble_gattc_procs w) l -> a ∉ l ->
  handler (rec c) (host w) = Ok ((rc, r'), g') ->
  (rc = 0 ->
   exists w',
     rx_dispatch P (Some a) handler w = Ok (tt, w') /\
     is_queue (mem w') (ble_gattc_procs w') (l ++ [a]) /\
     rec <$> mem w' !! a
     = Some (if stalled r' then r'
             else set_exp_os_ticks
                    (u32 (now g' + ble_npl_time_ms_to_ticks32 P 30000)) r') /\
     (forall b, b <> a -> rec <$> mem w' !! b = rec <$> mem w !! b) /\
     host_step g' (host w') [ev_hs_timer_resched]) /\
  (rc <> 0 -> proc_tagged r' ->
   exists w' evs,
     rx_dispatch P (Some a) handler w = Ok (tt, w') /\
     mem w' = delete a (mem w) /\
     ble_gattc_procs w' = ble_gattc_procs w /\
     host_step g' (host w') evs /\ notices evs = [n_free a] /\
     transmitted evs = []).
Proof.
  intros Hc Hq Ha Hh.
  set (w1 := set_host g' w).
  set (c2 := {| next := next c; rec := r' |}).
  set (w2 := set_mem (<[a := c2]> (mem w1)) w1).
  assert (forall k : Z -> M unit,
            bind (load_rec a)
              (fun r => bind (lift (handler r))
                 (fun x => let '(rc, r) := x in
                           bind (store_rec a r) (fun _ => k rc))) w
            = k rc w2) as Hrun.
  { intros k. rewrite (bind_Ok _ _ _ _ _ (load_rec_run w a c Hc)). cbv beta.
    rewrite (bind_Ok _ _ _ _ _ (lift_Ok _ _ _ _ Hh)). cbv beta iota.
    fold w1. rewrite (bind_Ok _ _ _ _ _ (store_rec_run w1 a c r' Hc)).
    reflexivity. }
  assert (mem w2 !! a = Some c2) as Hc2 by (subst w2; cbn; apply lookup_insert_eq).
  unfold rx_dispatch.
  split.
  - intros ->.
    destruct (ble_gattc_process_status_insert P w2 a c2 l Hc2)
      as (w' & Hps & Hq' & Hr & Hf & Hs & _).
    { subst w2. cbn. now apply is_queue_store_rec. }
    { exact Ha. }
    exists w'. split.
    { rewrite (Hrun (fun rc => ble_gattc_process_status P (Some a) rc)).
      exact Hps. }
    split; [exact Hq'|]. split; [exact Hr|]. split; [|exact Hs].
    intros b Hb. rewrite (Hf b Hb). subst w2. cbn.
    now rewrite lookup_insert_ne by auto.
  - intros Hrc Htag.
    destruct (ble_gattc_process_status_free P w2 a c2 rc Hrc Hc2 Htag)
      as (w' & evs & Hps & Hm & _ & Hp & _ & Hs & Hn & Ht).
    exists w', evs. split.
    { rewrite (Hrun (fun rc => ble_gattc_process_status P (Some a) rc)).
      exact Hps. }
    split.
    { rewrite Hm. subst w2. cbn. apply delete_insert_eq. }
    split; [exact Hp|]. split; [exact Hs|]. split; [exact Hn|exact Ht].
Qed.

Lemma holds_same_rec m1 m2 f b :
  rec <$> (m1 !! b) = rec <$> (m2 !! b) -> holds m1 f b = holds m2 f b.
Proof.
  unfold holds. destruct (m1 !! b) as [c1|], (m2 !! b) as [c2|];
    simpl; intros H; try discriminate; [|reflexivity].
  now inversion H.
Qed.

(** ** Starting a procedure *)

Lemma ble_gattc_proc_alloc_run w a rest :
  pool_free w = a :: rest ->
  ble_gattc_proc_alloc w
  = Ok (Some a,
        set_pool_free rest
          (set_mem (<[a := {| next := None; rec := zeroed_proc |}]> (mem w))
             w)).
Proof.
  intros Hp. unfold ble_gattc_proc_alloc, bind, get. rewrite Hp. reflexivity.
Qed.

(** An initiator that obtained the block [a] and then failed with [rc]
    gives the block back: heap, pool and table are as before. *)
Lemma started_and_failed P w a rest (body : option addr -> M Z) rc w1 c1 evs :
  pool_free w = a :: rest -> mem w !! a = None ->
  body (Some a)
    (set_pool_free rest
       (set_mem (<[a := {| next := None; rec := zeroed_proc |}]> (mem w)) w))
  = Ok (rc, w1) ->
  rc <> 0 ->
  mem w1 = <[a := c1]> (mem w) -> proc_tagged (rec c1) ->
  pool_free w1 = rest ->
  ble_gattc_procs w1 = ble_gattc_procs w ->
  ble_gattc_cached_procs w1 = ble_gattc_cached_procs w ->
  host_step (host w) (host w1) evs ->
  exists w' evs',
    bind ble_gattc_proc_alloc
      (fun proc => bind (body proc)
         (fun rc => bind (ble_gattc_process_status P proc rc)
            (fun _ => ret rc))) w = Ok (rc, w') /\
    mem w' = mem w /\ pool_free w' = pool_free w /\
    ble_gattc_procs w' = ble_gattc_procs w /\
    ble_gattc_cached_procs w' = ble_gattc_cached_procs w /\
    host_step (host w) (host w') (evs ++ evs') /\
    notices evs' = [n_free a] /\ transmitted evs' = [].
Proof.
  intros Hp Hfree Hbody Hrc Hm Htag Hp1 Hq1 Hc1 Hs.
  assert (mem w1 !! a = Some c1) as Ha by (rewrite Hm; apply lookup_insert_eq).
  destruct (ble_gattc_process_status_free P w1 a c1 rc Hrc Ha Htag)
    as (w' & e2 & Hps & Hm' & Hp' & Hq' & Hc' & S2 & N2 & T2).
  exists w', e2. split.
  { rewrite (bind_Ok _ _ _ _ _ (ble_gattc_proc_alloc_run w a rest Hp)).
    cbv beta. rewrite (bind_Ok _ _ _ _ _ Hbody). cbv beta.
    rewrite (bind_Ok _ _ _ _ _ Hps). reflexivity. }
  split.
  { rewrite Hm', Hm, delete_insert_eq. now apply delete_id. }
  split; [now rewrite Hp', Hp1, Hp|].
  split; [now rewrite Hq'|]. split; [now rewrite Hc'|].
  split; [eapply host_step_trans; eassumption|]. split; [exact N2|exact T2].
Qed.

Lemma initiate_failed P conn opcode member tx w a rest rc g' evs :
  pool_free w = a :: rest -> mem w !! a = None ->
  op_of_union member = opcode ->
  tx (set_un member (ble_gattc_proc_prepare P zeroed_proc conn opcode))
    (host w) = Ok (rc, g') ->
  rc <> 0 -> host_step (host w) g' evs ->
  exists w' evs',
    initiate P conn opcode member tx w = Ok (rc, w') /\
    mem w' = mem w /\ pool_free w' = pool_free w /\
    ble_gattc_procs w' = ble_gattc_procs w /\
    ble_gattc_cached_procs w' = ble_gattc_cached_procs w /\
    host_step (host w) (host w') (evs ++ evs') /\
    notices evs' = [n_free a] /\ transmitted evs' = [].
Proof.
  intros Hp Hfree Hop Htx Hrc Hs.
  set (r := set_un member (ble_gattc_proc_prepare P zeroed_proc conn opcode)).
  set (w0 := set_pool_free rest
               (set_mem (<[a := {| next := None; rec := zeroed_proc |}]>
                           (mem w)) w)).
  assert (mem w0 !! a = Some {| next := None; rec := zeroed_proc |}) as Ha0
    by (subst w0; cbn; apply lookup_insert_eq).
  unfold initiate.
  eapply (started_and_failed P w a rest
            (fun proc =>
               match proc with
               | Some a =>
                   bind (load_rec a)
                     (fun r0 =>
                        bind (store_rec a
                                (set_un member
                                   (ble_gattc_proc_prepare P r0 conn opcode)))
                          (fun _ =>
                             lift (tx (set_un member
                                         (ble_gattc_proc_prepare P r0 conn
                                            opcode)))))
               | None => ret (BLE_HS_ENOMEM P)
               end) rc _ {| next := None; rec := r |} evs Hp Hfree).
  - fold w0.
    rewrite (bind_Ok _ _ _ _ _ (load_rec_run w0 a _ Ha0)). cbv beta.
    cbn [rec]. fold r.
    rewrite (bind_Ok _ _ _ _ _ (store_rec_run w0 a _ r Ha0)). cbv beta.
    apply lift_Ok. exact Htx.
  - exact Hrc.
  - subst w0. cbn. apply insert_insert_eq.
  - subst r. unfold proc_tagged. cbn. auto.
  - reflexivity.
  - reflexivity.
  - reflexivity.
  - exact Hs.
Qed.

Lemma att_tx_refused P req g :
  platform_ok P -> hd 0 (tx_rcs g) = BLE_HS_ENOMEM P ->
  exists rc g' evs,
    att_tx req g = Ok (rc, g') /\ rc <> 0 /\ host_step g g' evs /\
    notices evs = [] /\ (transmitted evs <> [] -> rc = BLE_HS_ENOMEM P).
Proof.
  intros HP Hhd. pose proof (pok_enomem P HP) as Hc. unfold hs_code in Hc.
  g_run. eexists _, _, _. split; [reflexivity|]. rewrite Hhd.
  split; [lia|]. split; [host_step_tac|]. split; [reflexivity|auto].
Qed.

Lemma ret_refused P rc (g : genv) :
  rc <> 0 ->
  exists rc' g' evs,
    ret rc g = Ok (rc', g') /\ rc' <> 0 /\ host_step g g' evs /\
    notices evs = [] /\ (transmitted evs <> [] -> rc' = BLE_HS_ENOMEM P).
Proof.
  intros Hrc. exists rc, g, []. split; [reflexivity|]. split; [exact Hrc|].
  split; [apply host_step_refl|]. split; [reflexivity|]. intros H. now contradict H.
Qed.

Lemma started_refused P w a rest (body : option addr -> M Z) rc w1 c1 evs :
  pool_free w = a :: rest -> mem w !! a = None ->
  body (Some a)
    (set_pool_free rest
       (set_mem (<[a := {| next := None; rec := zeroed_proc |}]> (mem w)) w))
  = Ok (rc, w1) ->
  rc <> 0 ->
  mem w1 = <[a := c1]> (mem w) -> proc_tagged (rec c1) ->
  pool_free w1 = rest ->
  ble_gattc_procs w1 = ble_gattc_procs w ->
  ble_gattc_cached_procs w1 = ble_gattc_cached_procs w ->
  host_step (host w) (host w1) evs -> notices evs = [] ->
  (transmitted evs <> [] -> rc = BLE_HS_ENOMEM P) ->
  exists rc w' evs,
    bind ble_gattc_proc_alloc
      (fun proc => bind (body proc)
         (fun rc => bind (ble_gattc_process_status P proc rc)
            (fun _ => ret rc))) w = Ok (rc, w') /\
    host_step (host w) (host w') evs /\
    rc <> 0 /\ (transmitted evs <> [] -> rc = BLE_HS_ENOMEM P) /\
    (notices evs = [] \/ notices evs = [n_free a]) /\
    mem w' = mem w /\ pool_free w' = pool_free w /\
    ble_gattc_procs w' = ble_gattc_procs w /\
    ble_gattc_cached_procs w' = ble_gattc_cached_procs w.
Proof.
  intros Hp Hfree Hbody Hrc Hm Htag Hp1 Hq1 Hc1 Hs Hn Ht.
  destruct (started_and_failed P w a rest body rc w1 c1 evs Hp Hfree Hbody Hrc
              Hm Htag Hp1 Hq1 Hc1 Hs)
    as (w' & e2 & Hrun & Hm' & Hp' & Hq' & Hc' & S & N2 & T2).
  exists rc, w', (evs ++ e2). split; [exact Hrun|]. split; [exact S|].
  split; [exact Hrc|]. split.
  { rewrite transmitted_app, T2, app_nil_r. exact Ht. }
  split; [right; now rewrite notices_app, Hn, N2|]. auto.
Qed.

Lemma initiate_refused P conn opcode member tx w a rest :
  pool_free w = a :: rest -> mem w !! a = None ->
  op_of_union member = opcode ->
  (exists rc g' evs,
     tx (set_un member (ble_gattc_proc_prepare P zeroed_proc conn opcode))
       (host w) = Ok (rc, g') /\
     rc <> 0 /\ host_step (host w) g' evs /\ notices evs = [] /\
     (transmitted evs <> [] -> rc = BLE_HS_ENOMEM P)) ->
  exists rc w' evs,
    initiate P conn opcode member tx w = Ok (rc, w') /\
    host_step (host w) (host w') evs /\
    rc <> 0 /\ (transmitted evs <> [] -> rc = BLE_HS_ENOMEM P) /\
    (notices evs = [] \/ notices evs = [n_free a]) /\
    mem w' = mem w /\ pool_free w' = pool_free w /\
    ble_gattc_procs w' = ble_gattc_procs w /\
    ble_gattc_cached_procs w' = ble_gattc_cached_procs w.
Proof.
  intros Hp Hfree Hop (rc & g' & evs & Htx & Hrc & Hs & Hn & Ht).
  destruct (initiate_failed P conn opcode member tx w a rest rc g' evs Hp Hfree
              Hop Htx Hrc Hs)
    as (w' & e2 & Hrun & Hm' & Hp' & Hq' & Hc' & S & N2 & T2).
  exists rc, w', (evs ++ e2). split; [exact Hrun|]. split; [exact S|].
  split; [exact Hrc|]. split.
  { rewrite transmitted_app, T2, app_nil_r. exact Ht. }
  split; [right; now rewrite notices_app, Hn, N2|]. auto.
Qed.

Ltac transmit_refused Hnz Htx :=
  eexists _, _, _; (split; [reflexivity|]); rewrite ?Htx;
  (split; [exact Hnz|]); (split; [host_step_tac|]);
  split; [reflexivity|auto].

Ltac simple_initiator tx Hnz Htx :=
  eapply initiate_refused; [eassumption|assumption|reflexivity|];
  unfold tx, set_un; g_run;
  repeat match goal with
         | |- context [if ?c then _ else _] => destruct c
         end;
  transmit_refused Hnz Htx.

Lemma simple_initiators_refused P i w a rest :
  platform_ok P ->
  match i with
  | I_exchange_mtu _ _ _ | I_write _ _ _ _ _ | I_write_long _ _ _ _ _ _
  | I_write_reliable _ _ _ _ _ | I_read_mult _ _ _ _ _
  | I_read_mult_var _ _ _ _ _ => False
  | _ => True
  end ->
  pool_free w = a :: rest -> mem w !! a = None ->
  hd 0 (tx_rcs (host w)) = BLE_HS_ENOMEM P ->
  exists rc w' evs,
    start P i w = Ok (rc, w') /\
    host_step (host w) (host w') evs /\
    rc <> 0 /\ (transmitted evs <> [] -> rc = BLE_HS_ENOMEM P) /\
    (notices evs = [] \/ notices evs = [n_free a]) /\
    mem w' = mem w /\ pool_free w' = pool_free w /\
    ble_gattc_procs w' = ble_gattc_procs w /\
    ble_gattc_cached_procs w' = ble_gattc_cached_procs w.
Proof.
  intros HP Hi Hp Hfree Htx.
  assert (BLE_HS_ENOMEM P <> 0) as Hnz
    by (pose proof (pok_enomem P HP) as Hc; unfold hs_code in Hc; lia).
  destruct i; try contradiction; cbn [start].
  - unfold ble_gattc_disc_all_svcs.
    simple_initiator ble_gattc_disc_all_svcs_tx Hnz Htx.
  - unfold ble_gattc_disc_svc_by_uuid.
    simple_initiator ble_gattc_disc_svc_uuid_tx Hnz Htx.
  - unfold ble_gattc_find_inc_svcs.
    simple_initiator ble_gattc_find_inc_svcs_tx Hnz Htx.
  - unfold ble_gattc_disc_all_chrs.
    simple_initiator ble_gattc_disc_all_chrs_tx Hnz Htx.
  - unfold ble_gattc_disc_chrs_by_uuid.
    simple_initiator ble_gattc_disc_chr_uuid_tx Hnz Htx.
  - unfold ble_gattc_disc_all_dscs.
    simple_initiator ble_gattc_disc_all_dscs_tx Hnz Htx.
  - unfold ble_gattc_read. simple_initiator ble_gattc_read_tx Hnz Htx.
  - unfold ble_gattc_read_by_uuid. simple_initiator ble_gattc_read_uuid_tx Hnz Htx.
  - unfold ble_gattc_read_long. simple_initiator ble_gattc_read_long_tx Hnz Htx.
Qed.

Lemma ble_gattc_write_long_tx_refused P r s data g :
  platform_ok P -> un r = U_write_long s ->
  om (write_long.attr s) = Some data ->
  hd 0 (tx_rcs g) = BLE_HS_ENOMEM P ->
  exists rc r' g' evs,
    ble_gattc_write_long_tx P r g = Ok ((rc, r'), g') /\
    rc <> 0 /\ host_step g g' evs /\ notices evs = [] /\
    (transmitted evs <> [] -> rc = BLE_HS_ENOMEM P) /\
    exists s', r' = set_un (U_write_long s') r.
Proof.
  intros HP Hun Hom Htx.
  assert (BLE_HS_ENOMEM P <> 0) as Hnz
    by (pose proof (pok_enomem P HP) as Hc; unfold hs_code in Hc; lia).
  assert (BLE_HS_ENOTCONN P <> 0) as Hnc
    by (pose proof (pok_enotconn P HP) as Hc; unfold hs_code in Hc; lia).
  assert (set_un (U_write_long s) r = r) as Hid
    by (destruct r; simpl in Hun; subst; reflexivity).
  unfold ble_gattc_write_long_tx. g_run. rewrite Hun.
  destruct (_ <=? 0).
  { eexists _, _, _, []. split; [reflexivity|]. split; [exact Hnc|].
    split; [apply host_step_refl|]. split; [reflexivity|].
    split; [intros H; now contradict H|]. exists s. now rewrite Hid. }
  rewrite Hom.
  destruct (_ <=? 0).
  { eexists _, _, _, _. split; [reflexivity|]. rewrite Htx.
    split; [exact Hnz|]. split; [host_step_tac|]. split; [reflexivity|].
    split; [auto|]. exists s. now rewrite Hid. }
  destruct (hd true (mbuf_rcs g)).
  - destruct (os_mbuf_appendfrom _ _ _ _) as [rc pkt].
    destruct (negb (rc =? 0)); g_run.
    + eexists _, _, _, _. split; [reflexivity|]. split; [exact Hnz|].
      split; [host_step_tac|]. split; [reflexivity|].
      split; [intros H; now contradict H|]. eauto.
    + eexists _, _, _, _. split; [reflexivity|]. rewrite Htx.
      split; [exact Hnz|]. split; [host_step_tac|]. split; [reflexivity|].
      split; [auto|]. eauto.
  - eexists _, _, _, []. split; [reflexivity|]. split; [exact Hnz|].
    split; [|split; [reflexivity|]].
    + unfold host_step. cbn. rewrite app_nil_r. auto.
    + split; [intros H; now contradict H|]. eauto.
Qed.

Lemma ble_gattc_write_reliable_tx_refused P r s g :
  platform_ok P -> un r = U_write_reliable s ->
  (write_reliable.num_attrs s <= write_reliable.cur_attr s \/
   exists a data,
     write_reliable.attrs s !! Z.to_nat (write_reliable.cur_attr s) = Some a /\
     om a = Some data) ->
  hd 0 (tx_rcs g) = BLE_HS_ENOMEM P ->
  exists rc r' g' evs,
    ble_gattc_write_reliable_tx P r g = Ok ((rc, r'), g') /\
    rc <> 0 /\ host_step g g' evs /\ notices evs = [] /\
    (transmitted evs <> [] -> rc = BLE_HS_ENOMEM P) /\
    exists s', r' = set_un (U_write_reliable s') r.
Proof.
  intros HP Hun Hattr Htx.
  assert (BLE_HS_ENOMEM P <> 0) as Hnz
    by (pose proof (pok_enomem P HP) as Hc; unfold hs_code in Hc; lia).
  assert (BLE_HS_ENOTCONN P <> 0) as Hnc
    by (pose proof (pok_enotconn P HP) as Hc; unfold hs_code in Hc; lia).
  assert (set_un (U_write_reliable s) r = r) as Hid
    by (destruct r; simpl in Hun; subst; reflexivity).
  unfold ble_gattc_write_reliable_tx. g_run. rewrite Hun.
  destruct (write_reliable.num_attrs s <=? write_reliable.cur_attr s) eqn:Hle.
  { eexists _, _, _, _. split; [reflexivity|]. rewrite Htx.
    split; [exact Hnz|]. split; [host_step_tac|]. split; [reflexivity|].
    split; [auto|]. exists s. now rewrite Hid. }
  apply Z.leb_gt in Hle.
  destruct Hattr as [Hattr|(a & data & Ha & Hom)]; [lia|].
  rewrite Ha.
  destruct (_ <=? 0).
  { eexists _, _, _, []. split; [reflexivity|]. split; [exact Hnc|].
    split; [apply host_step_refl|]. split; [reflexivity|].
    split; [intros H; now contradict H|]. exists s. now rewrite Hid. }
  rewrite Hom.
  destruct (hd true (mbuf_rcs g)).
  - destruct (os_mbuf_appendfrom _ _ _ _) as [rc pkt].
    destruct (negb (rc =? 0)); g_run.
    + eexists _, _, _, _. split; [reflexivity|]. split; [exact Hnz|].
      split; [host_step_tac|]. split; [reflexivity|].
      split; [intros H; now contradict H|]. eauto.
    + eexists _, _, _, _. split; [reflexivity|]. rewrite Htx.
      split; [exact Hnz|]. split; [host_step_tac|]. split; [reflexivity|].
      split; [auto|]. eauto.
  - eexists _, _, _, []. split; [reflexivity|]. split; [exact Hnz|].
    split; [|split; [reflexivity|]].
    + unfold host_step. cbn. rewrite app_nil_r. auto.
    + split; [intros H; now contradict H|]. eauto.
Qed.

(** The start of every initiator body: the fresh record is filled in
    and written to its block. *)
Lemma prepared w a rest (f : ble_gattc_proc -> ble_gattc_proc)
    (K : ble_gattc_proc -> M Z) :
  bind (load_rec a) (fun r => bind (store_rec a (f r)) (fun _ => K (f r)))
    (set_pool_free rest
       (set_mem (<[a := {| next := None; rec := zeroed_proc |}]> (mem w)) w))
  = K (f zeroed_proc)
      (set_pool_free rest
         (set_mem (<[a := {| next := None; rec := f zeroed_proc |}]> (mem w))
            w)).
Proof.
  set (w0 := set_pool_free rest
               (set_mem (<[a := {| next := None; rec := zeroed_proc |}]>
                           (mem w)) w)).
  assert (mem w0 !! a = Some {| next := None; rec := zeroed_proc |}) as Ha0
    by (subst w0; cbn; apply lookup_insert_eq).
  rewrite (bind_Ok _ _ _ _ _ (load_rec_run w0 a _ Ha0)). cbv beta.
  rewrite (bind_Ok _ _ _ _ _ (store_rec_run w0 a _ _ Ha0)). cbv beta.
  subst w0. cbn. unfold set_mem at 1. cbn. rewrite insert_insert_eq.
  reflexivity.
Qed.

Lemma exchange_mtu_refused P conn cb cb_arg w a rest :
  platform_ok P ->
  pool_free w = a :: rest -> mem w !! a = None ->
  hd 0 (tx_rcs (host w)) = BLE_HS_ENOMEM P ->
  exists rc w' evs,
    ble_gattc_exchange_mtu P conn cb cb_arg w = Ok (rc, w') /\
    host_step (host w) (host w') evs /\
    rc <> 0 /\ (transmitted evs <> [] -> rc = BLE_HS_ENOMEM P) /\
    (notices evs = [] \/ notices evs = [n_free a]) /\
    mem w' = mem w /\ pool_free w' = pool_free w /\
    ble_gattc_procs w' = ble_gattc_procs w /\
    ble_gattc_cached_procs w' = ble_gattc_cached_procs w.
Proof.
  intros HP Hp Hfree Htx.
  assert (BLE_HS_ENOMEM P <> 0) as Hnz
    by (pose proof (pok_enomem P HP) as Hc; unfold hs_code in Hc; lia).
  set (f := fun r =>
              {| error := error r; exp_os_ticks := exp_os_ticks r;
                 conn_handle := conn; cid := BLE_L2CAP_CID_ATT P;
                 op := BLE_GATT_OP_MTU; flags := flags r;
                 un := U_mtu {| mtu.cb := cb; mtu.cb_arg := cb_arg |} |}).
  assert (exists rc g' evs,
            ble_gattc_mtu_tx P (f zeroed_proc) (host w) = Ok (rc, g') /\
            rc <> 0 /\ host_step (host w) g' evs /\ notices evs = [] /\
            (transmitted evs <> [] -> rc = BLE_HS_ENOMEM P))
    as (rc & g' & evs & Hrun & Hrc & Hs & Hn & Ht).
  { unfold ble_gattc_mtu_tx.
    destruct (ble_att_conn_chan_find P _ _) as [rc my_mtu].
    destruct (rc =? 0) eqn:E.
    - apply att_tx_refused; assumption.
    - apply ret_refused. now apply Z.eqb_neq. }
  unfold ble_gattc_exchange_mtu.
  eapply (started_refused P w a rest
            (fun proc =>
               match proc with
               | Some a =>
                   bind (load_rec a)
                     (fun r => bind (store_rec a (f r))
                                 (fun _ => lift (ble_gattc_mtu_tx P (f r))))
               | None => ret (BLE_HS_ENOMEM P)
               end) rc _ {| next := None; rec := f zeroed_proc |} evs Hp Hfree).
  - cbv beta iota.
    rewrite (prepared w a rest f (fun r => lift (ble_gattc_mtu_tx P r))).
    apply lift_Ok. exact Hrun.
  - exact Hrc.
  - reflexivity.
  - reflexivity.
  - reflexivity.
  - reflexivity.
  - reflexivity.
  - exact Hs.
  - exact Hn.
  - exact Ht.
Qed.

Lemma write_refused P conn attr_handle data cb cb_arg w a rest :
  platform_ok P ->
  pool_free w = a :: rest -> mem w !! a = None ->
  hd 0 (tx_rcs (host w)) = BLE_HS_ENOMEM P ->
  exists rc w' evs,
    ble_gattc_write P conn attr_handle (Some data) cb cb_arg w
    = Ok (rc, w') /\
    host_step (host w) (host w') evs /\
    rc <> 0 /\ (transmitted evs <> [] -> rc = BLE_HS_ENOMEM P) /\
    (notices evs = [] \/ notices evs = [n_free a]) /\
    mem w' = mem w /\ pool_free w' = pool_free w /\
    ble_gattc_procs w' = ble_gattc_procs w /\
    ble_gattc_cached_procs w' = ble_gattc_cached_procs w.
Proof.
  intros HP Hp Hfree Htx.
  set (f := fun r =>
              set_un
                (U_write
                   {| write.att_handle := attr_handle; write.cb := cb;
                      write.cb_arg := cb_arg;
                      write.om :=
                        if BLE_GATTC_AUTO_PAIR P then Some data else None |})
                (ble_gattc_proc_prepare P r conn BLE_GATT_OP_WRITE)).
  set (K := fun r =>
              bind (lift (mbuf_pktlen (Some data)))
                (fun _ =>
                   lift (att_tx (tx_write_req conn (cid r) attr_handle
                                   (Some data))))).
  destruct (att_tx_refused P
              (tx_write_req conn (cid (f zeroed_proc)) attr_handle
                 (Some data))
              (host w) HP Htx)
    as (rc & g' & evs & Hrun & Hrc & Hs & Hn & Ht).
  unfold ble_gattc_write.
  eapply (started_refused P w a rest
            (fun proc =>
               match proc with
               | Some a =>
                   bind (load_rec a)
                     (fun r => bind (store_rec a (f r)) (fun _ => K (f r)))
               | None =>
                   bind (lift (os_mbuf_free_chain (Some data)))
                     (fun _ => ret (BLE_HS_ENOMEM P))
               end) rc _ {| next := None; rec := f zeroed_proc |} evs Hp Hfree).
  - cbv beta iota. rewrite (prepared w a rest f K).
    subst K. cbv beta.
    unfold bind at 1, lift at 1, mbuf_pktlen, ret at 1.
    rewrite set_host_eta. apply lift_Ok. exact Hrun.
  - exact Hrc.
  - reflexivity.
  - reflexivity.
  - reflexivity.
  - reflexivity.
  - reflexivity.
  - exact Hs.
  - exact Hn.
  - exact Ht.
Qed.

Lemma write_long_refused P conn attr_handle off data cb cb_arg w a rest :
  platform_ok P ->
  pool_free w = a :: rest -> mem w !! a = None ->
  hd 0 (tx_rcs (host w)) = BLE_HS_ENOMEM P ->
  exists rc w' evs,
    ble_gattc_write_long P conn attr_handle off (Some data) cb cb_arg w
    = Ok (rc, w') /\
    host_step (host w) (host w') evs /\
    rc <> 0 /\ (transmitted evs <> [] -> rc = BLE_HS_ENOMEM P) /\
    (notices evs = [] \/ notices evs = [n_free a]) /\
    mem w' = mem w /\ pool_free w' = pool_free w /\
    ble_gattc_procs w' = ble_gattc_procs w /\
    ble_gattc_cached_procs w' = ble_gattc_cached_procs w.
Proof.
  intros HP Hp Hfree Htx.
  set (s := {| write_long.attr :=
                 {| handle := attr_handle; offset := off; om := Some data |};
               write_long.length := 0;
               write_long.cb := cb; write_long.cb_arg := cb_arg |}).
  set (f := fun r =>
              set_un (U_write_long s)
                (ble_gattc_proc_prepare P r conn BLE_GATT_OP_WRITE_LONG)).
  set (K := fun r =>
              bind (lift (write_long_om s))
                (fun data =>
                   if OS_MBUF_PKTLEN data <? off then
                     ret (BLE_ATT_ERR_INVALID_OFFSET P)
                   else
                     bind (lift (ble_gattc_write_long_tx P r))
                       (fun x => let '(rc, r) := x in
                                 bind (store_rec a r) (fun _ => ret rc)))).
  set (w0 := set_pool_free rest
               (set_mem (<[a := {| next := None; rec := f zeroed_proc |}]>
                           (mem w)) w)).
  assert (exists rc w1 c1 evs,
            K (f zeroed_proc) w0 = Ok (rc, w1) /\ rc <> 0 /\
            mem w1 = <[a := c1]> (mem w) /\ proc_tagged (rec c1) /\
            pool_free w1 = rest /\
            ble_gattc_procs w1 = ble_gattc_procs w /\
            ble_gattc_cached_procs w1 = ble_gattc_cached_procs w /\
            host_step (host w) (host w1) evs /\ notices evs = [] /\
            (transmitted evs <> [] -> rc = BLE_HS_ENOMEM P))
    as (rc & w1 & c1 & evs & Hrun & Hrc & Hm & Htag & Hp1 & Hq1 & Hc1 & Hs
        & Hn & Ht).
  { subst K. cbv beta.
    assert (lift (write_long_om s) w0 = Ok (data, w0)) as Hom
      by (unfold lift, write_long_om, s; cbn [om write_long.attr];
          unfold ret; now rewrite set_host_eta).
    rewrite (bind_Ok _ _ _ _ _ Hom). cbv beta.
    destruct (OS_MBUF_PKTLEN data <? off).
    - exists (BLE_ATT_ERR_INVALID_OFFSET P), w0,
        {| next := None; rec := f zeroed_proc |}, [].
      split; [reflexivity|].
      split; [pose proof (pok_invalid_offset P HP); lia|].
      split; [reflexivity|]. split; [reflexivity|].
      split; [reflexivity|]. split; [reflexivity|]. split; [reflexivity|].
      split; [apply host_step_refl|]. split; [reflexivity|].
      intros H. now contradict H.
    - destruct (ble_gattc_write_long_tx_refused P (f zeroed_proc) s data
                  (host w) HP eq_refl eq_refl Htx)
        as (rc & r' & g' & evs & Hrun & Hrc & Hs & Hn & Ht & s' & Hr').
      assert (lift (ble_gattc_write_long_tx P (f zeroed_proc)) w0
              = Ok ((rc, r'), set_host g' w0)) as Hl
        by (apply lift_Ok; exact Hrun).
      rewrite (bind_Ok _ _ _ _ _ Hl). cbv beta iota.
      assert (mem (set_host g' w0) !! a
              = Some {| next := None; rec := f zeroed_proc |}) as Ha
        by (cbn; apply lookup_insert_eq).
      rewrite (bind_Ok _ _ _ _ _ (store_rec_run _ a _ r' Ha)).
      eexists rc, _, {| next := None; rec := r' |}, evs.
      split; [reflexivity|]. split; [exact Hrc|].
      split; [cbn; apply insert_insert_eq|].
      split; [rewrite Hr'; reflexivity|].
      split; [reflexivity|]. split; [reflexivity|]. split; [reflexivity|].
      split; [exact Hs|]. split; [exact Hn|exact Ht]. }
  unfold ble_gattc_write_long.
  eapply (started_refused P w a rest
            (fun proc =>
               match proc with
               | Some a0 =>
                   bind (load_rec a0)
                     (fun r => bind (store_rec a0 (f r)) (fun _ => _))
               | None =>
                   bind (lift (os_mbuf_free_chain (Some data)))
                     (fun _ => ret (BLE_HS_ENOMEM P))
               end) rc w1 c1 evs Hp Hfree); try eassumption.
  cbv beta iota. rewrite <- Hrun.
  exact (prepared w a rest f K).
Qed.

Lemma write_reliable_refused P conn attr_v num_attrs cb cb_arg w a rest :
  platform_ok P ->
  0 <= num_attrs <= Z.of_nat (length attr_v) -> num_attrs < 256 ->
  Forall (fun x => is_Some (om x)) attr_v ->
  pool_free w = a :: rest -> mem w !! a = None ->
  hd 0 (tx_rcs (host w)) = BLE_HS_ENOMEM P ->
  exists rc w' evs,
    ble_gattc_write_reliable P conn attr_v num_attrs cb cb_arg w
    = Ok (rc, w') /\
    host_step (host w) (host w') evs /\
    rc <> 0 /\ (transmitted evs <> [] -> rc = BLE_HS_ENOMEM P) /\
    (notices evs = [] \/ notices evs = [n_free a]) /\
    mem w' = mem w /\ pool_free w' = pool_free w /\
    ble_gattc_procs w' = ble_gattc_procs w /\
    ble_gattc_cached_procs w' = ble_gattc_cached_procs w.
Proof.
  intros HP Hnum H256 Hall Hp Hfree Htx.
  unfold ble_gattc_write_reliable.
  rewrite (proj2 (Z.ltb_ge _ _)) by lia.
  set (mine := take (Z.to_nat num_attrs) attr_v).
  destruct (BLE_GATT_WRITE_MAX_ATTRS P <? num_attrs).
  { destruct (free_attr_oms_run mine (host w))
      as (g1 & e1 & H1 & S1 & N1 & T1).
    rewrite (bind_Ok _ _ _ _ _ (lift_Ok _ _ _ _ H1)). cbv beta.
    pose proof (pok_einval P HP) as Hc. unfold hs_code in Hc.
    unfold ble_gattc_process_status.
    rewrite (proj2 (Z.eqb_neq (BLE_HS_EINVAL P) 0)) by lia.
    exists (BLE_HS_EINVAL P), (set_host g1 w), e1.
    split; [reflexivity|]. split; [exact S1|]. split; [lia|].
    split; [rewrite T1; intros H; now contradict H|].
    split; [now left|]. auto. }
  set (s := {| write_reliable.attrs :=
                 map (fun x => {| handle := handle x; offset := 0;
                                  om := om x |}) mine;
               write_reliable.num_attrs := u8 num_attrs;
               write_reliable.cur_attr := 0;
               write_reliable.length := 0;
               write_reliable.cb := cb;
               write_reliable.cb_arg := cb_arg |}).
  set (f := fun r =>
              set_un (U_write_reliable s)
                (ble_gattc_proc_prepare P r conn BLE_GATT_OP_WRITE_RELIABLE)).
  set (K := fun r =>
              bind (lift (ble_gattc_write_reliable_tx P r))
                (fun x => let '(rc, r) := x in
                          bind (store_rec a r) (fun _ => ret rc))).
  set (w0 := set_pool_free rest
               (set_mem (<[a := {| next := None; rec := f zeroed_proc |}]>
                           (mem w)) w)).
  assert (write_reliable.num_attrs s <= write_reliable.cur_attr s \/
          exists x data,
            write_reliable.attrs s !! Z.to_nat (write_reliable.cur_attr s)
            = Some x /\ om x = Some data) as Hattr.
  { unfold s. cbn [write_reliable.num_attrs write_reliable.cur_attr
                   write_reliable.attrs].
    unfold u8. rewrite Z.mod_small by lia.
    destruct (Z.eq_dec num_attrs 0) as [->|Hpos]; [left; lia|]. right.
    destruct attr_v as [|x attr_v]; [simpl in Hnum; lia|].
    apply Forall_cons in Hall as [[data Hx] _].
    exists {| handle := handle x; offset := 0; om := om x |}, data.
    split; [|exact Hx]. unfold mine.
    destruct (Z.to_nat num_attrs) eqn:E; [lia|]. reflexivity. }
  destruct (ble_gattc_write_reliable_tx_refused P (f zeroed_proc) s (host w)
              HP eq_refl Hattr Htx)
    as (rc & r' & g' & evs & Hrun & Hrc & Hs & Hn & Ht & s' & Hr').
  assert (K (f zeroed_proc) w0
          = Ok (rc, set_mem (<[a := {| next := None; rec := r' |}]> (mem w0))
                      (set_host g' w0))) as HK.
  { subst K. cbv beta.
    assert (lift (ble_gattc_write_reliable_tx P (f zeroed_proc)) w0
            = Ok ((rc, r'), set_host g' w0)) as Hl
      by (apply lift_Ok; exact Hrun).
    rewrite (bind_Ok _ _ _ _ _ Hl). cbv beta iota.
    assert (mem (set_host g' w0) !! a
            = Some {| next := None; rec := f zeroed_proc |}) as Ha
      by (cbn; apply lookup_insert_eq).
    rewrite (bind_Ok _ _ _ _ _ (store_rec_run _ a _ r' Ha)). reflexivity. }
  eapply (started_refused P w a rest
            (fun proc =>
               match proc with
               | Some a0 =>
                   bind (load_rec a0)
                     (fun r => bind (store_rec a0 (f r)) (fun _ => _))
               | None =>
                   bind (lift (free_attr_oms mine))
                     (fun _ => ret (BLE_HS_ENOMEM P))
               end) rc _ {| next := None; rec := r' |} evs Hp Hfree).
  - cbv beta iota. rewrite <- HK. exact (prepared w a rest f K).
  - exact Hrc.
  - cbn. apply insert_insert_eq.
  - rewrite Hr'. reflexivity.
  - reflexivity.
  - reflexivity.
  - reflexivity.
  - exact Hs.
  - exact Hn.
  - exact Ht.
Qed.

Lemma read_mult_refused P conn hs num_handles var cb cb_mult cb_arg w a rest :
  platform_ok P ->
  0 <= num_handles <= Z.of_nat (length hs) ->
  pool_free w = a :: rest -> mem w !! a = None ->
  hd 0 (tx_rcs (host w)) = BLE_HS_ENOMEM P ->
  exists rc w' evs,
    ble_gattc_read_mult_internal P conn hs num_handles var cb cb_mult cb_arg w
    = Ok (rc, w') /\
    host_step (host w) (host w') evs /\
    rc <> 0 /\ (transmitted evs <> [] -> rc = BLE_HS_ENOMEM P) /\
    (notices evs = [] \/ notices evs = [n_free a]) /\
    mem w' = mem w /\ pool_free w' = pool_free w /\
    ble_gattc_procs w' = ble_gattc_procs w /\
    ble_gattc_cached_procs w' = ble_gattc_cached_procs w.
Proof.
  intros HP Hnum Hp Hfree Htx.
  assert (BLE_HS_ENOMEM P <> 0) as Hnz
    by (pose proof (pok_enomem P HP) as Hc; unfold hs_code in Hc; lia).
  unfold ble_gattc_read_mult_internal.
  destruct (BLE_GATT_READ_MAX_ATTRS P <? num_handles).
  { pose proof (pok_einval P HP) as Hc. unfold hs_code in Hc.
    unfold ble_gattc_process_status.
    rewrite (proj2 (Z.eqb_neq (BLE_HS_EINVAL P) 0)) by lia.
    exists (BLE_HS_EINVAL P), w, []. split; [reflexivity|].
    split; [apply host_step_refl|]. split; [lia|].
    split; [intros H; now contradict H|]. split; [now left|]. auto. }
  rewrite (proj2 (Z.ltb_ge _ _)) by lia.
  eapply initiate_refused; [eassumption|assumption| |].
  - cbn. reflexivity.
  - unfold ble_gattc_read_mult_tx, set_un. g_run.
    transmit_refused Hnz Htx.
Qed.

(** C1 (as amended).  Every initiator, called with arguments as its C
    interface requires them while a free block is available and the
    transport answers the next transmit with BLE_HS_ENOMEM, returns a
    non-zero code, which is BLE_HS_ENOMEM whenever a request was handed
    to the transport; it calls no application callback, and the block
    it took is back in the pool: heap, pool and procedure table are as
    before the call. *)
Theorem ble_gattc_initiator_enomem_fails P i w a rest :
  platform_ok P -> well_formed i ->
  pool_free w = a :: rest -> mem w !! a = None ->
  hd 0 (tx_rcs (host w)) = BLE_HS_ENOMEM P ->
  exists rc w' evs,
    start P i w = Ok (rc, w') /\
    host_step (host w) (host w') evs /\
    rc <> 0 /\ (transmitted evs <> [] -> rc = BLE_HS_ENOMEM P) /\
    (notices evs = [] \/ notices evs = [n_free a]) /\
    mem w' = mem w /\ pool_free w' = pool_free w /\
    ble_gattc_procs w' = ble_gattc_procs w /\
    ble_gattc_cached_procs w' = ble_gattc_cached_procs w.
Proof.
  intros HP Hwf Hp Hfree Htx.
  destruct i;
    try (match goal with
         | |- context [start P ?i w] =>
             apply (simple_initiators_refused P i w a rest HP I Hp Hfree Htx)
         end).
  - eapply exchange_mtu_refused; eassumption.
  - eapply read_mult_refused; eassumption.
  - eapply read_mult_refused; eassumption.
  - destruct Hwf as [data ->]. eapply write_refused; eassumption.
  - destruct Hwf as [data ->]. eapply write_long_refused; eassumption.
  - destruct Hwf as (Hnum & H256 & Hall).
    eapply write_reliable_refused; eassumption.
Qed.

Lemma ble_gattc_initiator_enomem_fails_witness :
  exists w' evs,
    ble_gattc_disc_all_svcs nimble 1 (Some 100) 0
      (ble_gattc_init nimble (host_at 0 [6] [])) = Ok (6, w') /\
    trace (host w') = evs /\ notices evs = [n_free 0%nat] /\
    ble_gattc_procs w' = STAILQ_INIT /\
    pool_free w' = [0%nat; 1%nat; 2%nat; 3%nat].
Proof.
  destruct (ble_gattc_initiator_enomem_fails nimble
              (I_disc_all_svcs 1 (Some 100) 0)
              (ble_gattc_init nimble (host_at 0 [6] [])) 0%nat
              [1%nat; 2%nat; 3%nat])
    as (rc & w' & evs & Hrun & Hs & Hrc & Ht & Hn & Hm & Hp & Hq & _).
  - split; unfold hs_code; cbn; lia.
  - exact I.
  - reflexivity.
  - reflexivity.
  - reflexivity.
  - assert (rc = 6) as ->.
    { vm_compute in Hrun. now injection Hrun as <- _. }
    exists w', evs. split; [exact Hrun|]. split; [apply Hs|].
    split.
    { destruct Hn as [Hn|Hn]; [|exact Hn].
      vm_compute in Hrun. injection Hrun as <-. destruct Hs as (Htr & _).
      vm_compute in Htr. subst evs. discriminate. }
    split; [exact Hq|exact Hp].
Defined.

(** C1 (as stated) fails: [ble_gattc_disc_all_svcs], with the transport
    answering the first transmit with BLE_HS_ENOMEM (6), does not
    succeed and keeps no stalled record: it returns 6, the table stays
    empty, and the block is released. *)
Lemma ble_gattc_disc_all_svcs_enomem_not_stalled :
  exists w',
    ble_gattc_disc_all_svcs nimble 1 (Some 100) 0
      (ble_gattc_init nimble (host_at 0 [6] [])) = Ok (6, w') /\
    BLE_HS_ENOMEM nimble = 6 /\
    ble_gattc_procs w' = STAILQ_INIT /\ mem w' = ∅ /\
    trace (host w')
    = [ev_tx (tx_read_group_type 1 4 1 65535 (uuid16 10240)) 6;
       ev_memblock_put 0%nat].
Proof.
  eexists. split; [vm_compute; reflexivity|].
  repeat split; vm_compute; reflexivity.
Qed.

(** ** Long reads *)

Lemma ble_gattc_read_long_resume_run P r s g :
  platform_ok P -> un r = U_read_long s ->
  exists rc r' g' evs,
    ble_gattc_read_long_resume P r g = Ok ((rc, r'), g') /\
    trace g' = trace g ++ evs /\ un r' = un r /\
    transmitted evs
    = [if read_long.offset s =? 0
       then tx_read (conn_handle r) (cid r) (read_long.handle s)
       else tx_read_blob (conn_handle r) (cid r) (read_long.handle s)
              (read_long.offset s)] /\
    (hd 0 (tx_rcs g) = 0 \/ hd 0 (tx_rcs g) = BLE_HS_ENOMEM P ->
     rc = 0 /\ notices evs = []).
Proof.
  intros HP Hun. destruct r as [e x c ci o f u]. simpl in Hun. subst u.
  pose proof (pok_enomem P HP) as Hnomem. unfold hs_code in Hnomem.
  unfold ble_gattc_read_long_resume, ble_gattc_read_long_tx,
    ble_gattc_process_resume_status, ble_gattc_proc_set_resume_timer,
    ble_gattc_read_long_cb.
  cbn [conn_handle cid un]. g_run.
  destruct (read_long.offset s =? 0); g_run;
    (destruct (hd 0 (tx_rcs g) =? 0) eqn:E0;
     [ apply Z.eqb_eq in E0; g_run; eexists _, _, _, _;
       (split; [reflexivity|]); (split; [cbn; reflexivity|]);
       (split; [reflexivity|]); (split; [reflexivity|]); auto
     | apply Z.eqb_neq in E0;
       destruct (hd 0 (tx_rcs g) =? BLE_HS_ENOMEM P) eqn:E1;
       [ apply Z.eqb_eq in E1; g_run; unfold set_flags; g_run;
         destruct (ble_gattc_resume_at g =? 0); g_run;
         eexists _, _, _, _;
         (split; [reflexivity|]); (split; [cbn; reflexivity|]);
         (split; [reflexivity|]); (split; [reflexivity|]); auto
       | apply Z.eqb_neq in E1; g_run;
         rewrite (proj2 (Z.eqb_neq _ _) E0); cbn [negb]; g_run;
         destruct (read_long.cb s); g_run;
         eexists _, _, _, _;
         (split; [reflexivity|]);
         (split; [cbn; rewrite <- ?app_assoc; reflexivity|]);
         (split; [reflexivity|]); (split; [reflexivity|]);
         intros [H|H]; contradiction ] ]).
Qed.

Lemma ble_gattc_read_long_cb_run P r s st attr g :
  un r = U_read_long s ->
  exists g' evs,
    ble_gattc_read_long_cb P r st 0 attr g
    = Ok (answer (read_long.cb s) g, g') /\
    trace g' = trace g ++ evs /\ tx_rcs g' = tx_rcs g /\
    notices evs = attr_report r s st attr /\ transmitted evs = [].
Proof.
  intros Hun. unfold ble_gattc_read_long_cb, attr_report, answer.
  rewrite ble_gattc_error_final. g_run. rewrite Hun.
  destruct (read_long.cb s); g_run.
  - eexists _, _. split; [reflexivity|]. split; [cbn; reflexivity|].
    repeat split.
  - exists g, []. split; [reflexivity|]. rewrite app_nil_r. repeat split.
Qed.

(** C2 (as amended).  On a response with status 0 that carries
    [data_len] bytes, [ble_gattc_read_long_rx_read_rsp] returns, and
    the first thing the application is told is the chunk at the current
    offset.  If the callback answers 0 and the MTU of the channel is
    not 0: when [data_len] is below MTU - 1 the handler reports
    BLE_HS_EDONE, transmits nothing and ends the procedure; otherwise,
    the new offset being positive and within 16 bits, the handler
    stores offset + [data_len] and hands one Read Blob request at that
    offset to the transport, and when the transport accepts it or is
    out of buffers the procedure goes on and nothing but the chunk was
    reported.  If the callback answers non-zero or the MTU of the
    channel is 0, the handler ends the procedure at once: it returns
    BLE_HS_EDONE with the record as it was, nothing but the chunk was
    reported and nothing was transmitted. *)
Theorem ble_gattc_read_long_rx_read_rsp_chunk P r s rxom g :
  platform_ok P -> un r = U_read_long s ->
  let data_len := u16 (OS_MBUF_PKTLEN rxom) in
  let mtu_val := u16 (ble_att_mtu_by_cid P (conn_handle r) (cid r)) in
  let chunk := {| handle := read_long.handle s;
                  offset := read_long.offset s; om := Some rxom |} in
  exists rc r' g' evs,
    ble_gattc_read_long_rx_read_rsp P r 0 rxom g = Ok ((rc, r'), g') /\
    trace g' = trace g ++ evs /\
    (exists more, notices evs = attr_report r s 0 (Some chunk) ++ more) /\
    (answer (read_long.cb s) g = 0 -> mtu_val <> 0 ->
     (data_len < mtu_val - 1 ->
      rc = BLE_HS_EDONE P /\ r' = r /\ transmitted evs = [] /\
      notices evs
      = attr_report r s 0 (Some chunk)
        ++ attr_report r s (BLE_HS_EDONE P) None) /\
     (mtu_val - 1 <= data_len ->
      0 < read_long.offset s + data_len <= 65535 ->
      un r' = U_read_long
                (set_read_long_offset (read_long.offset s + data_len) s) /\
      transmitted evs
      = [tx_read_blob (conn_handle r) (cid r) (read_long.handle s)
           (read_long.offset s + data_len)] /\
      (hd 0 (tx_rcs g) = 0 \/ hd 0 (tx_rcs g) = BLE_HS_ENOMEM P ->
       rc = 0 /\ notices evs = attr_report r s 0 (Some chunk)))) /\
    (answer (read_long.cb s) g <> 0 \/ mtu_val = 0 ->
     rc = BLE_HS_EDONE P /\ r' = r /\ transmitted evs = [] /\
     notices evs = attr_report r s 0 (Some chunk)).
Proof.
  intros HP Hun data_len mtu_val chunk.
  pose proof (pok_edone P HP) as Hdone. unfold hs_code in Hdone.
  destruct (ble_gattc_read_long_cb_run P r s 0 (Some chunk) g Hun)
    as (g1 & e1 & Hcb1 & Htr1 & Htx1 & Hn1 & Ht1).
  unfold ble_gattc_read_long_rx_read_rsp.
  unfold bind at 1, as_read_long at 1. rewrite Hun. unfold ret at 1.
  fold data_len. fold mtu_val. fold chunk.
  rewrite (bind_Ok _ _ _ _ _ Hcb1). cbv beta.
  change (negb (0 =? 0)) with false. rewrite orb_false_r.
  destruct (answer (read_long.cb s) g =? 0) eqn:Hans; cbn [negb].
  2:{ (* the application ends the procedure *)
      exists (BLE_HS_EDONE P), r, g1, e1. split; [reflexivity|].
      split; [exact Htr1|]. split; [exists []; now rewrite app_nil_r|].
      split; [|auto].
      intros H0. apply Z.eqb_neq in Hans. contradiction. }
  apply Z.eqb_eq in Hans.
  destruct (mtu_val =? 0) eqn:Hmtu.
  { (* no longer connected *)
    exists (BLE_HS_EDONE P), r, g1, e1. split; [reflexivity|].
    split; [exact Htr1|]. split; [exists []; now rewrite app_nil_r|].
    split; [|auto].
    intros _ Hne. apply Z.eqb_eq in Hmtu. contradiction. }
  apply Z.eqb_neq in Hmtu.
  destruct (data_len <? mtu_val - 1) eqn:Hshort.
  - (* read complete *)
    apply Z.ltb_lt in Hshort.
    destruct (ble_gattc_read_long_cb_run P r s (BLE_HS_EDONE P) None g1 Hun)
      as (g2 & e2 & Hcb2 & Htr2 & Htx2 & Hn2 & Ht2).
    rewrite (bind_Ok _ _ _ _ _ Hcb2). cbv beta.
    exists (BLE_HS_EDONE P), r, g2, (e1 ++ e2). split; [reflexivity|].
    split; [now rewrite Htr2, Htr1, app_assoc|].
    split; [exists (notices e2); now rewrite notices_app, Hn1|].
    split; [|intros [Hne|Hz]; contradiction].
    intros _ _. split; [|intros Hge; lia].
    intros _. split; [reflexivity|]. split; [reflexivity|].
    split; [now rewrite transmitted_app, Ht1, Ht2|].
    now rewrite notices_app, Hn1, Hn2.
  - (* follow-up request *)
    apply Z.ltb_ge in Hshort.
    set (s2 := set_read_long_offset (u16 (read_long.offset s + data_len)) s).
    destruct (ble_gattc_read_long_resume_run P (set_un (U_read_long s2) r) s2
                g1 HP eq_refl)
      as (rc0 & r' & g2 & e2 & Hres & Htr2 & Hun2 & Ht2 & Hgo).
    rewrite (bind_Ok _ _ _ _ _ Hres). cbv beta iota.
    exists (if negb (rc0 =? 0) then BLE_HS_EDONE P else 0), r', g2, (e1 ++ e2).
    split; [now destruct (negb (rc0 =? 0))|].
    split; [now rewrite Htr2, Htr1, app_assoc|].
    split; [exists (notices e2); now rewrite notices_app, Hn1|].
    split; [|intros [Hne|Hz]; contradiction].
    intros _ _. split; [intros Hlt; lia|].
    intros _ Hoff.
    assert (u16 (read_long.offset s + data_len)
            = read_long.offset s + data_len) as Hu by (apply u16_id; lia).
    split.
    { rewrite Hun2. cbn. subst s2. now rewrite Hu. }
    split.
    { rewrite transmitted_app, Ht1, Ht2. cbn. subst s2.
      cbn [read_long.offset read_long.handle set_read_long_offset].
      rewrite Hu. rewrite (proj2 (Z.eqb_neq _ 0)) by lia. reflexivity. }
    intros Hok. rewrite Htx1 in Hgo. destruct (Hgo Hok) as (-> & Hn2).
    split; [reflexivity|]. now rewrite notices_app, Hn1, Hn2, app_nil_r.
Qed.

Lemma ble_gattc_read_long_rx_read_rsp_chunk_witness :
  exists r' g',
    ble_gattc_read_long_rx_read_rsp nimble read_long_proc 0 full_chunk
      (host_at 0 [] []) = Ok ((0, r'), g') /\
    un r' = U_read_long {| read_long.handle := 9; read_long.offset := 22;
                           read_long.cb := Some 60; read_long.cb_arg := 0 |} /\
    transmitted (trace g') = [tx_read_blob 1 4 9 22] /\
    notices (trace g')
    = [n_call (call_attr_fn 60 1 (final_error 0)
                 (Some {| handle := 9; offset := 0; om := Some full_chunk |})
                 0)].
Proof.
  destruct (ble_gattc_read_long_rx_read_rsp_chunk nimble read_long_proc
              {| read_long.handle := 9; read_long.offset := 0;
                 read_long.cb := Some 60; read_long.cb_arg := 0 |}
              full_chunk (host_at 0 [] []))
    as (rc & r' & g' & evs & Hrun & Htr & _ & Hcont & _).
  - split; unfold hs_code; cbn; lia.
  - reflexivity.
  - destruct Hcont as (_ & Hnext); [reflexivity|vm_compute; discriminate|].
    destruct Hnext as (Hun & Htx & Hgo);
      [vm_compute; discriminate|vm_compute; split; [reflexivity|discriminate]|].
    destruct Hgo as (-> & Hn); [now left|].
    exists r', g'. split; [exact Hrun|]. split; [exact Hun|].
    simpl in Htr. rewrite Htr. split; [exact Htx|exact Hn].
Defined.

(** C2 (as stated) fails: a response of 22 bytes on a channel with MTU
    23 is not shorter than MTU - 1, yet when the callback answers 1 the
    handler ends the procedure: the offset stays 0 and no Read Blob
    request is transmitted. *)
Lemma ble_gattc_read_long_ended_by_callback :
  u16 (OS_MBUF_PKTLEN full_chunk) = 22 /\
  u16 (ble_att_mtu_by_cid nimble 1 4) - 1 = 22 /\
  exists g',
    ble_gattc_read_long_rx_read_rsp nimble read_long_proc 0 full_chunk
      (host_at 0 [] [1])
    = Ok ((BLE_HS_EDONE nimble, read_long_proc), g') /\
    transmitted (trace g') = [] /\
    notices (trace g')
    = [n_call (call_attr_fn 60 1 (final_error 0)
                 (Some {| handle := 9; offset := 0; om := Some full_chunk |})
                 0)].
Proof.
  split; [reflexivity|]. split; [reflexivity|].
  eexists. split; [vm_compute; reflexivity|].
  split; vm_compute; reflexivity.
Qed.

(** ** Resuming stalled procedures *)

Lemma is_queue_last_next m h l a :
  is_queue m h (l ++ [a]) -> exists c, m !! a = Some c /\ next c = None.
Proof.
  intros [Hseg _]. apply lseg_app in Hseg as (r & _ & Hr).
  simpl in Hr. destruct Hr as (_ & c & Hc & Hn). eauto.
Qed.

(** The walk of [ble_gattc_resume_procs] reads [proc->next] after the
    body has put the record back into the table: whatever followed the
    record [a] in the stall list, a resume that succeeds ends the
    walk. *)
Lemma resume_loop_stops_after_first P fuel w a c l fn r' g' :
  mem w !! a = Some c ->
  is_queue (mem w) (ble_gattc_procs w) l -> a ∉ l ->
  ble_gattc_resume_dispatch_get P (op (rec c)) (host w) = Ok (fn, host w) ->
  call_ptr fn
    (set_flags (u8 (Z.land (flags (rec c)) (Z.lnot BLE_GATTC_PROC_F_STALLED)))
       (rec c)) (host w) = Ok ((0, r'), g') ->
  exists w',
    resume_loop P (S (S fuel)) (Some a) w = Ok (tt, w') /\
    is_queue (mem w') (ble_gattc_procs w') (l ++ [a]).
Proof.
  intros Hc Hq Ha Hget Hcall.
  set (r0 := set_flags
               (u8 (Z.land (flags (rec c)) (Z.lnot BLE_GATTC_PROC_F_STALLED)))
               (rec c)) in *.
  set (c0 := {| next := next c; rec := r0 |}).
  set (w1 := set_mem (<[a := c0]> (mem w)) w).
  set (c1 := {| next := next c0; rec := r' |}).
  set (w2 := set_mem (<[a := c1]> (mem (set_host g' w1))) (set_host g' w1)).
  assert (mem w1 !! a = Some c0) as Hc0
    by (subst w1; cbn; apply lookup_insert_eq).
  assert (mem w2 !! a = Some c1) as Hc1
    by (subst w2; cbn; apply lookup_insert_eq).
  destruct (ble_gattc_process_status_insert P w2 a c1 l Hc1)
    as (w' & Hps & Hq' & _).
  { subst w2 w1. cbn. apply is_queue_store_rec with (c := c0).
    - apply lookup_insert_eq.
    - now apply is_queue_store_rec. }
  { exact Ha. }
  destruct (is_queue_last_next _ _ _ _ Hq') as (c' & Hc' & Hnext).
  exists w'. split; [|exact Hq'].
  cbn [resume_loop].
  rewrite (bind_Ok _ _ _ _ _ (load_rec_run w a c Hc)). cbv beta.
  rewrite (bind_Ok _ _ _ _ _ (lift_Ok _ _ _ _ Hget)). cbv beta.
  rewrite set_host_eta. fold r0.
  rewrite (bind_Ok _ _ _ _ _ (store_rec_run w a c r0 Hc)). cbv beta.
  fold c0. fold w1.
  assert (lift (call_ptr fn r0) w1 = Ok ((0, r'), set_host g' w1)) as Hl
    by (apply lift_Ok; exact Hcall).
  rewrite (bind_Ok _ _ _ _ _ Hl). cbv beta iota.
  rewrite (bind_Ok _ _ _ _ _ (store_rec_run (set_host g' w1) a c0 r' Hc0)).
  cbv beta. fold c1. fold w2.
  rewrite (bind_Ok _ _ _ _ _ Hps). cbv beta.
  rewrite (bind_Ok _ _ _ _ _ (STAILQ_NEXT_run w' a c' Hc')). cbv beta.
  rewrite Hnext. reflexivity.
Qed.

(** C7.  After [stall_two] the table holds two stalled records, both
    with the deadline 30000, and the resume timer is set to 1010.  The
    call of [ble_gattc_timer] at time 1010 retransmits the request of
    the first record only: afterwards the table holds that record
    alone, now with the deadline 31010; the second record is still
    allocated and still flagged as stalled, but it is in no list, and
    the resume timer is unset.  The calls of [ble_gattc_timer] at
    times 2010 and 50000 transmit nothing; the one at 50000 times out
    the first record, and the second record is never reported to the
    application nor released. *)
Theorem ble_gattc_resume_procs_loses_stalled :
  exists w1 w2 w3 ticks2 ticks3 c1 c2,
    stall_two (ble_gattc_init nimble (host_at 0 [] [])) = Ok (tt, w1) /\
    is_queue (mem w1) (ble_gattc_procs w1) [0%nat; 1%nat] /\
    holds (mem w1) stalled 0%nat = true /\
    holds (mem w1) stalled 1%nat = true /\
    holds (mem w1) (fun r => exp_os_ticks r =? 30000) 0%nat = true /\
    holds (mem w1) (fun r => exp_os_ticks r =? 30000) 1%nat = true /\
    ble_gattc_resume_at (host w1) = 1010 /\
    at_time 1010 [] [] (ble_gattc_timer nimble) w1 = Ok (ticks2, w2) /\
    transmitted (drop (length (trace (host w1))) (trace (host w2)))
    = [tx_read_group_type 1 4 1 65535 (uuid16 10240)] /\
    is_queue (mem w2) (ble_gattc_procs w2) [0%nat] /\
    holds (mem w2) (fun r => exp_os_ticks r =? 31010) 0%nat = true /\
    mem w2 !! 1%nat = Some c1 /\ conn_handle (rec c1) = 2 /\
    stalled (rec c1) = true /\
    ble_gattc_cached_procs w2 = STAILQ_INIT /\
    ble_gattc_resume_at (host w2) = 0 /\
    (at_time 2010 [] [] (ble_gattc_timer nimble) ;;
     at_time 50000 [] [] (ble_gattc_timer nimble))%st w2 = Ok (ticks3, w3) /\
    drop (length (trace (host w2))) (trace (host w3))
    = [ev_cb (call_disc_svc_fn 100 1 (final_error 13) None 0) 0;
       ev_gap_terminate 1 19; ev_memblock_put 0%nat] /\
    is_queue (mem w3) (ble_gattc_procs w3) [] /\
    mem w3 !! 1%nat = Some c2 /\ stalled (rec c2) = true.
Proof.
  eexists _, _, _, _, _, _, _.
  split; [vm_compute; reflexivity|].
  split.
  { split; [|reflexivity]. simpl. split; [reflexivity|].
    eexists. split; [vm_compute; reflexivity|]. simpl.
    split; [reflexivity|].
    eexists. split; [vm_compute; reflexivity|]. reflexivity. }
  do 5 (split; [vm_compute; reflexivity|]).
  split; [vm_compute; reflexivity|].
  split; [vm_compute; reflexivity|].
  split.
  { split; [|reflexivity]. simpl. split; [reflexivity|].
    eexists. split; [vm_compute; reflexivity|]. reflexivity. }
  do 6 (split; [vm_compute; reflexivity|]).
  split; [vm_compute; reflexivity|].
  split; [vm_compute; reflexivity|].
  split; [split; reflexivity|].
  split; vm_compute; reflexivity.
Qed.

(** * Further properties of the engine *)

(** ** The resume timer *)

Lemma stalled_lor f : (Z.land (Z.lor f BLE_GATTC_PROC_F_STALLED)
                         BLE_GATTC_PROC_F_STALLED =? 0) = false.
Proof.
  apply Z.eqb_neq. intros H.
  assert (Z.testbit (Z.land (Z.lor f BLE_GATTC_PROC_F_STALLED)
                       BLE_GATTC_PROC_F_STALLED) 0 = false) as Hb
    by now rewrite H.
  rewrite Z.land_spec, Z.lor_spec in Hb. unfold BLE_GATTC_PROC_F_STALLED in Hb.
  cbn in Hb. rewrite orb_true_r in Hb. discriminate.
Qed.

Lemma ble_gattc_proc_set_resume_timer_arms_aux P r g :
  exists g',
    ble_gattc_proc_set_resume_timer P r g
    = Ok (set_flags (Z.lor (flags r) BLE_GATTC_PROC_F_STALLED) r, g') /\
    ble_gattc_resume_at g' <> 0 /\
    (ble_gattc_resume_at g <> 0 ->
     ble_gattc_resume_at g' = ble_gattc_resume_at g) /\
    trace g' = trace g /\ now g' = now g.
Proof.
  unfold ble_gattc_proc_set_resume_timer. g_run.
  destruct (ble_gattc_resume_at g =? 0) eqn:Hat.
  - apply Z.eqb_eq in Hat.
    eexists. split; [reflexivity|]. cbn [ble_gattc_resume_at set_resume_at
                                         trace now].
    split; [|split; [|split; reflexivity]].
    + pose proof (u32_range (now g + ble_npl_time_ms_to_ticks32 P
                                       (BLE_GATT_RESUME_RATE P))) as Hr.
      destruct (_ =? 0) eqn:Hz; [apply Z.eqb_eq in Hz|apply Z.eqb_neq in Hz];
        lia.
    + intros Hne. contradiction.
  - apply Z.eqb_neq in Hat. eexists. split; [reflexivity|]. auto.
Qed.

(** X1: ble_gattc_proc_set_resume_timer marks the record stalled and
    leaves the engine with a resume time that is set.  A resume time
    that was already set is kept as it is, and a fresh one is never 0,
    the value that stands for "no timer": ble_gattc_ticks_until_resume
    then takes the branch of a timer that is set, and answers with the
    difference between that time and the present one, taken as a
    signed 32-bit number, or with 0 when that difference is not
    positive.  Nothing else changes. *)
Theorem ble_gattc_proc_set_resume_timer_arms P r g :
  exists r' g',
    ble_gattc_proc_set_resume_timer P r g = Ok (r', g') /\
    stalled r' = true /\ set_flags (flags r) r' = r /\
    ble_gattc_resume_at g' <> 0 /\
    (ble_gattc_resume_at g <> 0 -> g' = g) /\
    set_resume_at (ble_gattc_resume_at g) g' = g /\
    forall w, host w = g' ->
      ble_gattc_ticks_until_resume P w
      = Ok (Z.max 0 (s32 (ble_gattc_resume_at g' - now g')), w).
Proof.
  assert (forall g' w, ble_gattc_resume_at g' <> 0 -> host w = g' ->
            ble_gattc_ticks_until_resume P w
            = Ok (Z.max 0 (s32 (ble_gattc_resume_at g' - now g')), w))
    as Hticks.
  { intros g' w Hne <-. unfold ble_gattc_ticks_until_resume, bind, get, ret.
    rewrite (proj2 (Z.eqb_neq _ _) Hne).
    destruct (_ <=? 0) eqn:Hle; [apply Z.leb_le in Hle|apply Z.leb_gt in Hle];
      f_equal; f_equal; lia. }
  unfold ble_gattc_proc_set_resume_timer. g_run.
  assert (stalled (set_flags (Z.lor (flags r) BLE_GATTC_PROC_F_STALLED) r)
          = true) as Hst.
  { unfold stalled. cbn [flags set_flags]. now rewrite stalled_lor. }
  assert (set_flags (flags r)
            (set_flags (Z.lor (flags r) BLE_GATTC_PROC_F_STALLED) r) = r)
    as Hfl by now destruct r.
  destruct (ble_gattc_resume_at g =? 0) eqn:Hat.
  - apply Z.eqb_eq in Hat.
    assert (ble_gattc_resume_at
              (set_resume_at
                 (let t := u32 (now g + ble_npl_time_ms_to_ticks32 P
                                          (BLE_GATT_RESUME_RATE P)) in
                  if t =? 0 then t + 1 else t) g) <> 0) as Hne.
    { cbn [ble_gattc_resume_at set_resume_at].
      pose proof (u32_range (now g + ble_npl_time_ms_to_ticks32 P
                                       (BLE_GATT_RESUME_RATE P))) as Hr.
      cbv zeta.
      destruct (_ =? 0) eqn:Hz; [apply Z.eqb_eq in Hz|apply Z.eqb_neq in Hz];
        lia. }
    eexists _, _. split; [reflexivity|].
    split; [exact Hst|]. split; [exact Hfl|]. split; [exact Hne|].
    split; [intros; contradiction|]. split.
    + destruct g. unfold set_resume_at. cbn in *. now subst.
    + intros w Hw. now apply Hticks.
  - apply Z.eqb_neq in Hat. eexists _, _. split; [reflexivity|].
    split; [exact Hst|]. split; [exact Hfl|]. split; [exact Hat|].
    split; [reflexivity|]. split; [now destruct g|].
    intros w Hw. now apply Hticks.
Qed.

(** ** Extraction from the procedure table *)

Lemma extract_spec_partition {C} m (cb : ble_gattc_proc -> C -> bool * C)
    max_procs l :
  forall arg n,
    let res := extract_spec m cb arg max_procs n l in
    sublist (snd (fst res)) l /\ sublist (snd res) l /\
    snd (fst res) ++ snd res ≡ₚ l /\
    (0 < max_procs -> 0 <= n < max_procs ->
     Z.of_nat (length (snd (fst res))) <= max_procs - n).
Proof.
  induction l as [|a l IH]; intros arg n; cbn.
  - repeat split; [constructor|constructor|reflexivity|]. cbn. lia.
  - destruct (m !! a) as [c|]; cbn.
    2:{ repeat split; [apply sublist_nil_l|reflexivity|reflexivity|].
        cbn. lia. }
    destruct (cb (rec c) arg) as [hit arg']. destruct hit.
    + destruct ((0 <? max_procs) && (max_procs <=? n + 1)) eqn:Hstop; cbn.
      * repeat split.
        -- apply sublist_skips_r with (k := [a]) || (constructor; apply sublist_nil_l).
        -- now constructor.
        -- reflexivity.
        -- cbn. lia.
      * specialize (IH arg' (if 0 <? max_procs then n + 1 else n)).
        cbv zeta in IH.
        destruct (extract_spec m cb arg' max_procs _ l) as [[c' hs] ks].
        cbn in *. destruct IH as (H1 & H2 & H3 & H4).
        repeat split.
        -- now constructor.
        -- now constructor.
        -- now constructor.
        -- intros Hm Hn. rewrite (proj2 (Z.ltb_lt _ _) Hm) in *.
           cbn in Hstop. apply Z.leb_gt in Hstop.
           specialize (H4 Hm). lia.
    + specialize (IH arg' n). cbv zeta in IH.
      destruct (extract_spec m cb arg' max_procs n l) as [[c' hs] ks].
      cbn in *. destruct IH as (H1 & H2 & H3 & H4).
      repeat split.
      * now constructor.
      * now constructor.
      * rewrite <- H3. symmetry. apply Permutation_middle.
      * exact H4.
Qed.

(** X2: ble_gattc_extract never loses or duplicates a record: the list
    it returns and the list it leaves in the table are sublists of the
    old table (so the order of the records is kept) that together hold
    exactly its records; no record is modified; and with a positive
    max_procs at most max_procs records are extracted. *)
Theorem ble_gattc_extract_partitions {C}
    (cb : ble_gattc_proc -> C -> bool * C) arg max_procs w l :
  is_queue (mem w) (ble_gattc_procs w) l ->
  exists arg' dst w' hits kept,
    ble_gattc_extract cb arg max_procs w = Ok ((arg', dst), w') /\
    is_queue (mem w') dst hits /\
    is_queue (mem w') (ble_gattc_procs w') kept /\
    sublist hits l /\ sublist kept l /\ hits ++ kept ≡ₚ l /\
    (0 < max_procs -> Z.of_nat (length hits) <= max_procs) /\
    same_recs (mem w) (mem w') /\ same_host w w'.
Proof.
  intros Hq.
  destruct (ble_gattc_extract_spec cb arg max_procs w l Hq)
    as (w' & hd & Hrun & Hh & Hr & Hk & Hd & _).
  destruct (extract_spec_partition (mem w) cb max_procs l arg 0)
    as (S1 & S2 & S3 & S4).
  eexists _, hd, w', _, _. split; [exact Hrun|].
  split; [exact Hd|]. split; [exact Hk|]. split; [exact S1|].
  split; [exact S2|]. split; [exact S3|]. split; [|auto].
  intros Hm. specialize (S4 Hm). lia.
Qed.

Lemma ble_gattc_extract_partitions_witness :
  exists arg' dst w' hits kept,
    ble_gattc_extract ble_gattc_proc_matches_conn_op
      {| crit_conn_handle := 2; crit_psm := 0; crit_op := BLE_GATT_OP_NONE |}
      1 (two_procs 0) = Ok ((arg', dst), w') /\
    is_queue (mem w') dst hits /\
    is_queue (mem w') (ble_gattc_procs w') kept /\
    sublist hits [0%nat; 1%nat] /\ sublist kept [0%nat; 1%nat] /\
    hits ++ kept ≡ₚ [0%nat; 1%nat] /\
    (0 < 1 -> Z.of_nat (length hits) <= 1) /\
    same_recs (mem (two_procs 0)) (mem w') /\ same_host (two_procs 0) w'.
Proof.
  apply (ble_gattc_extract_partitions ble_gattc_proc_matches_conn_op
           {| crit_conn_handle := 2; crit_psm := 0;
              crit_op := BLE_GATT_OP_NONE |} 1 (two_procs 0) [0%nat; 1%nat]).
  split; [|reflexivity]. simpl. split; [reflexivity|].
  eexists. split; [reflexivity|]. simpl. split; [reflexivity|].
  eexists. split; [reflexivity|]. reflexivity.
Defined.

Lemma first_split {A} (f : A -> bool) (l : list A) :
  (forall a, a ∈ l -> f a = false) \/
  exists l1 a l2, l = l1 ++ a :: l2 /\
                  (forall b, b ∈ l1 -> f b = false) /\ f a = true.
Proof.
  induction l as [|x l IH].
  - left. intros a Ha. inversion Ha.
  - destruct (f x) eqn:Hx.
    + right. exists [], x, l. split; [reflexivity|]. split; [|exact Hx].
      intros b Hb. inversion Hb.
    + destruct IH as [IH|(l1 & a & l2 & -> & Hl1 & Ha)].
      * left. intros a Ha. apply elem_of_cons in Ha as [->|Ha]; auto.
      * right. exists (x :: l1), a, l2. split; [reflexivity|].
        split; [|exact Ha]. intros b Hb.
        apply elem_of_cons in Hb as [->|Hb]; auto.
Qed.

Lemma ble_gattc_rx_entry_find_Some {A} opcode (entries : list (Z * A)) e :
  ble_gattc_rx_entry_find opcode entries = Some e ->
  e ∈ entries /\ fst e = opcode.
Proof.
  induction entries as [|x entries IH]; cbn; [discriminate|].
  destruct (fst x =? opcode) eqn:Hx.
  - intros [= <-]. split; [apply list_elem_of_here|now apply Z.eqb_eq].
  - intros H. destruct (IH H) as [H1 H2].
    split; [now apply list_elem_of_further|exact H2].
Qed.

Lemma matches_conn_rx_entry_verdict {A} P conn chan (entries : list (Z * A))
    r c :
  rx_conn_handle c = conn /\ rx_cid c = chan /\ rx_entries c = entries ->
  (rx_conn_handle (snd (ble_gattc_proc_matches_conn_rx_entry P r c)) = conn /\
   rx_cid (snd (ble_gattc_proc_matches_conn_rx_entry P r c)) = chan /\
   rx_entries (snd (ble_gattc_proc_matches_conn_rx_entry P r c)) = entries) /\
  fst (ble_gattc_proc_matches_conn_rx_entry P r c)
  = rx_addressed P conn chan entries r.
Proof.
  intros (<- & <- & <-).
  unfold ble_gattc_proc_matches_conn_rx_entry, rx_addressed.
  destruct (rx_conn_handle c =? BLE_HS_CONN_HANDLE_NONE P),
    (rx_conn_handle c =? conn_handle r), (rx_cid c =? cid r); cbn; auto.
Qed.

Lemma extract_spec_rx_first {A} P conn chan (entries : list (Z * A))
    m l1 a c l2 :
  (forall b, b ∈ l1 -> is_Some (m !! b)) ->
  (forall b, b ∈ l1 -> holds m (rx_addressed P conn chan entries) b = false) ->
  m !! a = Some c -> rx_addressed P conn chan entries (rec c) = true ->
  forall crit,
    rx_conn_handle crit = conn /\ rx_cid crit = chan /\
    rx_entries crit = entries ->
    extract_spec m (ble_gattc_proc_matches_conn_rx_entry P) crit 1 0
      (l1 ++ a :: l2)
    = ({| rx_conn_handle := conn; rx_cid := chan; rx_entries := entries;
          matching_rx_entry :=
            ble_gattc_rx_entry_find (op (rec c)) entries |},
       [a], l1 ++ l2).
Proof.
  intros Hin Hno Ha Hyes. induction l1 as [|b l1 IH]; intros crit Hc.
  - cbn. rewrite Ha.
    pose proof (matches_conn_rx_entry_verdict P conn chan entries (rec c)
                  crit Hc) as [_ Hv].
    destruct Hc as (Hc1 & Hc2 & Hc3).
    unfold ble_gattc_proc_matches_conn_rx_entry in *.
    rewrite Hyes in Hv. unfold rx_addressed in Hyes.
    apply andb_true_iff in Hyes as [Hadr _].
    rewrite Hc1, Hc2, Hc3 in *.
    destruct (negb (conn =? BLE_HS_CONN_HANDLE_NONE P) &&
              (negb (conn =? conn_handle (rec c)) ||
               negb (chan =? cid (rec c)))) eqn:Hskip.
    { cbn in Hv. discriminate. }
    cbn in Hv. rewrite Hv. reflexivity.
  - cbn. destruct (Hin b) as [cb Hcb]; [apply list_elem_of_here|].
    rewrite Hcb.
    pose proof (matches_conn_rx_entry_verdict P conn chan entries (rec cb)
                  crit Hc) as [Hc' Hv].
    pose proof (Hno b (list_elem_of_here _ _)) as Hb. unfold holds in Hb.
    rewrite Hcb in Hb. rewrite Hb in Hv.
    destruct (ble_gattc_proc_matches_conn_rx_entry P (rec cb) crit)
      as [hit crit'].
    cbn in Hv, Hc'. subst hit.
    rewrite (IH (fun x Hx => Hin x (list_elem_of_further _ _ _ Hx))
               (fun x Hx => Hno x (list_elem_of_further _ _ _ Hx))
               crit' Hc').
    reflexivity.
Qed.

Lemma extract_with_rx_entry_absent {A} P conn chan (entries : list (Z * A))
    w l :
  is_queue (mem w) (ble_gattc_procs w) l ->
  (forall a, a ∈ l ->
     holds (mem w) (rx_addressed P conn chan entries) a = false) ->
  exists rx_entry w',
    ble_gattc_extract_with_rx_entry P conn chan entries w
    = Ok ((None, rx_entry), w') /\
    same_host w w' /\ same_recs (mem w) (mem w') /\
    is_queue (mem w') (ble_gattc_procs w') l.
Proof.
  intros Hq Hnone.
  set (crit := {| rx_conn_handle := conn; rx_cid := chan;
                  rx_entries := entries; matching_rx_entry := None |}).
  destruct (ble_gattc_extract_spec (ble_gattc_proc_matches_conn_rx_entry P)
              crit 1 w l Hq) as (w' & hd & Hrun & Hh & Hr & Hk & Hd & _).
  destruct (extract_spec_none (mem w)
              (ble_gattc_proc_matches_conn_rx_entry P)
              (fun c => rx_conn_handle c = conn /\ rx_cid c = chan /\
                        rx_entries c = entries)
              (rx_addressed P conn chan entries)
              (fun r c H => matches_conn_rx_entry_verdict P conn chan
                              entries r c H)
              crit 1 0 l (conj eq_refl (conj eq_refl eq_refl))
              (fun a => is_queue_lookup _ _ _ a Hq) Hnone)
    as (_ & Hhits & Hkept).
  rewrite Hhits in Hd. rewrite Hkept in Hk.
  eexists _, w'. split; [|auto].
  unfold ble_gattc_extract_with_rx_entry, ble_gattc_extract_one.
  fold crit. unfold bind at 1 2. rewrite Hrun.
  unfold ret, STAILQ_FIRST. rewrite (is_queue_first _ _ _ Hd). reflexivity.
Qed.

Lemma extract_with_rx_entry_found {A} P conn chan (entries : list (Z * A))
    w l1 a l2 c :
  is_queue (mem w) (ble_gattc_procs w) (l1 ++ a :: l2) ->
  (forall b, b ∈ l1 ->
     holds (mem w) (rx_addressed P conn chan entries) b = false) ->
  mem w !! a = Some c -> rx_addressed P conn chan entries (rec c) = true ->
  exists w',
    ble_gattc_extract_with_rx_entry P conn chan entries w
    = Ok ((Some a, ble_gattc_rx_entry_find (op (rec c)) entries), w') /\
    same_host w w' /\ same_recs (mem w) (mem w') /\
    is_queue (mem w') (ble_gattc_procs w') (l1 ++ l2) /\
    a ∉ l1 ++ l2.
Proof.
  intros Hq Hl1 Hc Ha.
  set (crit := {| rx_conn_handle := conn; rx_cid := chan;
                  rx_entries := entries; matching_rx_entry := None |}).
  destruct (ble_gattc_extract_spec (ble_gattc_proc_matches_conn_rx_entry P)
              crit 1 w _ Hq) as (w' & hd & Hrun & Hh & Hr & Hk & Hd & _).
  assert (forall b, b ∈ l1 -> is_Some (mem w !! b)) as Hin
    by (intros b Hb; apply (is_queue_lookup _ _ _ b Hq);
        apply elem_of_app; now left).
  pose proof (extract_spec_rx_first P conn chan entries (mem w) l1 a c l2
                Hin Hl1 Hc Ha crit (conj eq_refl (conj eq_refl eq_refl)))
    as Hspec.
  rewrite Hspec in Hrun, Hk, Hd. cbn [fst snd] in Hrun, Hk, Hd.
  exists w'. split.
  { unfold ble_gattc_extract_with_rx_entry, ble_gattc_extract_one.
    fold crit. unfold bind at 1 2. rewrite Hrun.
    unfold ret, STAILQ_FIRST. rewrite (is_queue_first _ _ _ Hd). reflexivity. }
  split; [exact Hh|]. split; [exact Hr|]. split; [exact Hk|].
  pose proof (is_queue_NoDup _ _ _ Hq) as Hnd.
  apply NoDup_app in Hnd as (_ & Hdis & Hnd2).
  apply NoDup_cons in Hnd2 as [Hna _].
  intros Hx. apply elem_of_app in Hx as [Hx|Hx].
  - apply (Hdis a Hx). apply list_elem_of_here.
  - contradiction.
Qed.

(** X3: ble_gattc_extract_with_rx_entry yields either no record, and
    then the table is as it was, or the first record of the table that
    the response addresses and whose operation the handler table
    serves, together with the entry of the table for the operation of
    that record: a record never comes without its handler. *)
Theorem ble_gattc_extract_with_rx_entry_finds {A} P conn chan
    (entries : list (Z * A)) w l :
  is_queue (mem w) (ble_gattc_procs w) l ->
  exists proc rx_entry w',
    ble_gattc_extract_with_rx_entry P conn chan entries w
    = Ok ((proc, rx_entry), w') /\
    same_host w w' /\ same_recs (mem w) (mem w') /\
    match proc with
    | None =>
        is_queue (mem w') (ble_gattc_procs w') l /\
        forall a, a ∈ l ->
          holds (mem w) (rx_addressed P conn chan entries) a = false
    | Some a =>
        exists c e l1 l2,
          l = l1 ++ a :: l2 /\ mem w !! a = Some c /\
          (forall b, b ∈ l1 ->
             holds (mem w) (rx_addressed P conn chan entries) b = false) /\
          rx_addressed P conn chan entries (rec c) = true /\
          rx_entry = Some e /\ e ∈ entries /\ fst e = op (rec c) /\
          ble_gattc_rx_entry_find (op (rec c)) entries = Some e /\
          is_queue (mem w') (ble_gattc_procs w') (l1 ++ l2)
    end.
Proof.
  intros Hq.
  destruct (first_split (holds (mem w) (rx_addressed P conn chan entries)) l)
    as [Hnone|(l1 & a & l2 & -> & Hl1 & Ha)].
  - destruct (extract_with_rx_entry_absent P conn chan entries w l Hq Hnone)
      as (e & w' & Hrun & Hh & Hr & Hk).
    exists None, e, w'. auto.
  - unfold holds in Ha. destruct (mem w !! a) as [c|] eqn:Hc; [|discriminate].
    destruct (extract_with_rx_entry_found P conn chan entries w l1 a l2 c
                Hq Hl1 Hc Ha) as (w' & Hrun & Hh & Hr & Hk & _).
    pose proof Ha as Ha'. unfold rx_addressed in Ha'.
    apply andb_true_iff in Ha' as [_ Hfind].
    apply bool_decide_eq_true in Hfind as [e He].
    destruct (ble_gattc_rx_entry_find_Some _ _ _ He) as [He1 He2].
    exists (Some a), (Some e), w'. rewrite <- He. split; [exact Hrun|].
    split; [exact Hh|]. split; [exact Hr|].
    exists c, e, l1, l2. auto 10.
Qed.

Lemma one_proc_queue r :
  is_queue (mem (one_proc r)) (ble_gattc_procs (one_proc r)) [0%nat].
Proof.
  split; [|reflexivity]. simpl. split; [reflexivity|].
  eexists. split; [reflexivity|]. reflexivity.
Qed.

Lemma ble_gattc_extract_with_rx_entry_finds_witness :
  exists rx_entry w',
    ble_gattc_extract_with_rx_entry nimble 1 4
      (ble_gattc_rx_read_rsp_entries nimble) (one_proc read_long_proc)
    = Ok ((Some 0%nat, rx_entry), w') /\
    rx_entry = Some (BLE_GATT_OP_READ_LONG,
                     ble_gattc_read_long_rx_read_rsp nimble) /\
    is_queue (mem w') (ble_gattc_procs w') [].
Proof.
  destruct (ble_gattc_extract_with_rx_entry_finds nimble 1 4
              (ble_gattc_rx_read_rsp_entries nimble) (one_proc read_long_proc)
              [0%nat] (one_proc_queue _))
    as (proc & e & w' & Hrun & _ & _ & Hcase).
  destruct proc as [a|].
  - destruct Hcase as (c & e' & l1 & l2 & Hl & Hc & _ & _ & -> & _ & _ & He
                       & Hq).
    destruct l1 as [|x l1].
    + injection Hl as <- <-. exists (Some e'), w'.
      split; [exact Hrun|]. split; [|exact Hq].
      vm_compute in Hc. injection Hc as <-. rewrite <- He. reflexivity.
    + exfalso. injection Hl as _ Hl. now destruct l1.
  - exfalso. destruct Hcase as [_ Hno].
    specialize (Hno 0%nat (list_elem_of_here _ _)). discriminate.
Defined.

(** ** The next deadline *)

Lemma extract_spec_next_exp m t l :
  forall c n,
    crit_now c = t -> (forall a, a ∈ l -> is_Some (m !! a)) ->
    let c' := fst (fst (extract_spec m ble_gattc_proc_matches_expired c 0 n l))
    in
    crit_now c' = t /\ next_exp_in c' <= next_exp_in c /\
    (0 < next_exp_in c -> 0 < next_exp_in c') /\
    (forall a cell, a ∈ l -> m !! a = Some cell ->
       expired t (rec cell) = false ->
       next_exp_in c' <= s32 (exp_os_ticks (rec cell) - t)) /\
    (next_exp_in c' = next_exp_in c \/
     exists a cell, a ∈ l /\ m !! a = Some cell /\
                    expired t (rec cell) = false /\
                    next_exp_in c' = s32 (exp_os_ticks (rec cell) - t)).
Proof.
  induction l as [|a l IH]; intros c n Hc Hin; cbn.
  - split; [exact Hc|]. split; [lia|]. split; [auto|]. split; [|now left].
    intros a cell Ha. inversion Ha.
  - destruct (Hin a (list_elem_of_here _ _)) as [cell Hcell]. rewrite Hcell.
    assert (forall b, b ∈ l -> is_Some (m !! b)) as Hin'
      by (intros b Hb; apply Hin; now apply list_elem_of_further).
    destruct (s32 (exp_os_ticks (rec cell) - t) <=? 0) eqn:Hexp.
    + assert (ble_gattc_proc_matches_expired (rec cell) c = (true, c)) as ->.
      { unfold ble_gattc_proc_matches_expired. now rewrite Hc, Hexp. }
      specialize (IH c n Hc Hin'). cbv zeta in IH.
      destruct (extract_spec m ble_gattc_proc_matches_expired c 0 n l)
        as [[c' hs] ks]. cbn in *.
      destruct IH as (I1 & I2 & I3 & I4 & I5).
      split; [exact I1|]. split; [exact I2|]. split; [exact I3|]. split.
      * intros b cb Hb Hcb Hne. apply elem_of_cons in Hb as [->|Hb].
        -- rewrite Hcell in Hcb. injection Hcb as <-.
           unfold expired in Hne. rewrite Hexp in Hne. discriminate.
        -- eauto.
      * destruct I5 as [I5|(b & cb & Hb & Hcb & Hne & Heq)]; [now left|].
        right. exists b, cb. split; [now apply list_elem_of_further|auto].
    + apply Z.leb_gt in Hexp.
      set (c1 := if s32 (exp_os_ticks (rec cell) - t) <? next_exp_in c
                 then {| crit_now := crit_now c;
                         next_exp_in := s32 (exp_os_ticks (rec cell) - t) |}
                 else c).
      assert (crit_now c1 = t) as Hc1 by (unfold c1; now destruct (_ <? _)).
      assert (next_exp_in c1
              = Z.min (next_exp_in c) (s32 (exp_os_ticks (rec cell) - t)))
        as Hmin.
      { unfold c1. destruct (_ <? _) eqn:Hlt;
          [apply Z.ltb_lt in Hlt|apply Z.ltb_ge in Hlt]; cbn; lia. }
      assert (ble_gattc_proc_matches_expired (rec cell) c = (false, c1)) as ->.
      { unfold ble_gattc_proc_matches_expired, c1.
        rewrite Hc, (proj2 (Z.leb_gt _ _) Hexp). reflexivity. }
      specialize (IH c1 n Hc1 Hin'). cbv zeta in IH.
      destruct (extract_spec m ble_gattc_proc_matches_expired c1 0 n l)
        as [[c' hs] ks]. cbn in *.
      destruct IH as (I1 & I2 & I3 & I4 & I5).
      split; [exact I1|]. split; [lia|]. split; [lia|]. split.
      * intros b cb Hb Hcb Hne. apply elem_of_cons in Hb as [->|Hb].
        -- rewrite Hcell in Hcb. injection Hcb as <-. lia.
        -- eauto.
      * destruct I5 as [I5|(b & cb & Hb & Hcb & Hne & Heq)].
        -- destruct (Z.min_spec (next_exp_in c)
                       (s32 (exp_os_ticks (rec cell) - t)))
             as [[_ Hm]|[_ Hm]].
           ++ left. lia.
           ++ right. exists a, cell. split; [apply list_elem_of_here|].
              split; [exact Hcell|]. split; [|lia].
              unfold expired. now apply Z.leb_gt.
        -- right. exists b, cb.
           split; [now apply list_elem_of_further|auto].
Qed.

Lemma ble_gattc_timer_expire_run P w l :
  platform_ok P ->
  is_queue (mem w) (ble_gattc_procs w) l ->
  (forall a c, a ∈ l -> mem w !! a = Some c -> proc_tagged (rec c)) ->
  exists w',
    ble_gattc_timer_expire P w
    = Ok (next_exp_in
            (fst (fst (extract_spec (mem w) ble_gattc_proc_matches_expired
                         {| crit_now := now (host w);
                            next_exp_in := BLE_HS_FOREVER P |} 0 0 l))),
          w') /\
    ble_gattc_resume_at (host w') = ble_gattc_resume_at (host w) /\
    now (host w') = now (host w).
Proof.
  intros HP Hq Hwf.
  set (t := now (host w)).
  set (crit := {| crit_now := t; next_exp_in := BLE_HS_FOREVER P |}).
  destruct (ble_gattc_extract_spec ble_gattc_proc_matches_expired crit 0 w l
              Hq) as (w1 & hd & Hex & Hh1 & Hr1 & Hk1 & Hd1 & Hf1).
  destruct (extract_spec_all (mem w) ble_gattc_proc_matches_expired
              (fun c => crit_now c = t) (expired t)
              (fun r c H => matches_expired_verdict t r c H)
              crit 0 l eq_refl (fun a => is_queue_lookup _ _ _ a Hq))
    as (_ & Hhits & _).
  rewrite Hhits in Hd1.
  destruct (timeout_loop_spec P (List.filter (holds (mem w) (expired t)) l)
              HP (S (size (mem w1))) w1 hd)
    as (w2 & evs & Hrun & S2 & _).
  { pose proof (is_queue_length _ _ _ Hd1). lia. }
  { exact Hd1. }
  { intros a c Ha Hc. specialize (Hr1 a). rewrite Hc in Hr1.
    destruct (mem w !! a) as [c0|] eqn:Hc0; [|discriminate].
    simpl in Hr1. injection Hr1 as Hrec. rewrite <- Hrec.
    apply (Hwf a c0); [|exact Hc0]. now apply filter_elem_of in Ha as [? _]. }
  exists w2. split.
  - unfold ble_gattc_timer_expire, ble_gattc_extract_expired.
    fold t. fold crit. unfold bind, get. fold t. fold crit. rewrite Hex.
    unfold ret. rewrite Hrun. reflexivity.
  - destruct S2 as (_ & -> & _ & ->). now destruct Hh1 as (-> & _).
Qed.

(** X4: with no resume timer pending, ble_gattc_timer returns the
    number of ticks until the earliest deadline among the procedures
    that have not expired: a positive number, at most BLE_HS_FOREVER,
    not beyond the time left to any such procedure, and either
    BLE_HS_FOREVER itself or the time left to one of them. *)
Theorem ble_gattc_timer_next_deadline P w l :
  platform_ok P ->
  is_queue (mem w) (ble_gattc_procs w) l ->
  (forall a c, a ∈ l -> mem w !! a = Some c -> proc_tagged (rec c)) ->
  ble_gattc_resume_at (host w) = 0 ->
  exists ticks w',
    ble_gattc_timer P w = Ok (ticks, w') /\
    0 < ticks <= BLE_HS_FOREVER P /\
    (forall a c, a ∈ l -> mem w !! a = Some c ->
       expired (now (host w)) (rec c) = false ->
       ticks <= s32 (exp_os_ticks (rec c) - now (host w))) /\
    (ticks = BLE_HS_FOREVER P \/
     exists a c, a ∈ l /\ mem w !! a = Some c /\
                 expired (now (host w)) (rec c) = false /\
                 ticks = s32 (exp_os_ticks (rec c) - now (host w))).
Proof.
  intros HP Hq Hwf Hzero.
  destruct (ble_gattc_timer_expire_run P w l HP Hq Hwf)
    as (w' & Hexp & Hres & _).
  destruct (extract_spec_next_exp (mem w) (now (host w)) l
              {| crit_now := now (host w); next_exp_in := BLE_HS_FOREVER P |}
              0 eq_refl (fun a => is_queue_lookup _ _ _ a Hq))
    as (_ & I2 & I3 & I4 & I5).
  cbn [next_exp_in] in I2, I3, I5.
  pose proof (pok_forever P HP) as Hpos. specialize (I3 Hpos).
  eexists _, w'. split.
  - unfold ble_gattc_timer. rewrite (bind_Ok _ _ _ _ _ Hexp). cbv beta.
    unfold ble_gattc_timer_resume, ble_gattc_ticks_until_resume.
    unfold bind, get, ret. rewrite Hres, Hzero. cbn [Z.eqb].
    rewrite (proj2 (Z.eqb_neq (BLE_HS_FOREVER P) 0)) by lia.
    rewrite Z.min_l by exact I2. reflexivity.
  - split; [lia|]. split; [exact I4|exact I5].
Qed.

Lemma two_procs_queue t :
  is_queue (mem (two_procs t)) (ble_gattc_procs (two_procs t))
    [0%nat; 1%nat].
Proof.
  split; [|reflexivity]. simpl. split; [reflexivity|].
  eexists. split; [reflexivity|]. simpl. split; [reflexivity|].
  eexists. split; [reflexivity|]. reflexivity.
Qed.

Lemma two_procs_tagged t a c :
  a ∈ [0%nat; 1%nat] -> mem (two_procs t) !! a = Some c -> proc_tagged (rec c).
Proof.
  intros Ha Hc. apply elem_of_cons in Ha as [->|Ha].
  - vm_compute in Hc. injection Hc as <-. reflexivity.
  - apply list_elem_of_singleton in Ha as ->.
    vm_compute in Hc. injection Hc as <-. reflexivity.
Qed.

Lemma ble_gattc_timer_next_deadline_witness :
  exists ticks w',
    ble_gattc_timer nimble (two_procs 100) = Ok (ticks, w') /\ ticks = 29900.
Proof.
  destruct (ble_gattc_timer_next_deadline nimble (two_procs 100)
              [0%nat; 1%nat] (nimble_cfg_ok _ _ _) (two_procs_queue 100)
              (two_procs_tagged 100) eq_refl)
    as (ticks & w' & Hrun & Hpos & Hle & Hex).
  exists ticks, w'. split; [exact Hrun|].
  vm_compute in Hrun. now injection Hrun as <- _.
Defined.

(** ** Initiators on an exhausted pool *)

Lemma after_no_events w : after_events [] w = w.
Proof.
  unfold after_events. rewrite app_nil_r. destruct w as [g ? ? ? ?].
  now destruct g.
Qed.

Lemma ble_gattc_proc_alloc_exhausted w :
  pool_free w = [] -> ble_gattc_proc_alloc w = Ok (None, w).
Proof. intros H. unfold ble_gattc_proc_alloc, bind, get. now rewrite H. Qed.

Lemma ble_gattc_process_status_none P st w :
  st <> 0 -> ble_gattc_process_status P None st w = Ok (tt, w).
Proof.
  intros H. unfold ble_gattc_process_status.
  now rewrite (proj2 (Z.eqb_neq _ _) H).
Qed.

Lemma initiate_exhausted P conn opcode member tx w :
  platform_ok P -> pool_free w = [] ->
  initiate P conn opcode member tx w = Ok (BLE_HS_ENOMEM P, w).
Proof.
  intros HP Hpool. unfold initiate.
  assert (BLE_HS_ENOMEM P <> 0) as Hnz by (destruct (pok_enomem P HP); lia).
  rewrite (bind_Ok _ _ _ _ _ (ble_gattc_proc_alloc_exhausted w Hpool)).
  cbv beta iota. unfold bind at 1. unfold ret at 1.
  now rewrite (bind_Ok _ _ _ _ _
                 (ble_gattc_process_status_none P (BLE_HS_ENOMEM P) w Hnz)).
Qed.

Lemma free_attr_oms_trace l g :
  free_attr_oms l g
  = Ok (tt, set_trace (trace g ++ flat_map released (map om l)) g).
Proof.
  revert g. induction l as [|a l IH]; intros g; cbn.
  - unfold ret. rewrite app_nil_r. now destruct g.
  - unfold bind. destruct (om a) as [data|]; cbn.
    + unfold emit, modify. rewrite IH. cbn. now rewrite <- app_assoc.
    + unfold ret. apply IH.
Qed.

Lemma os_mbuf_free_chain_trace txom g :
  os_mbuf_free_chain txom g
  = Ok (tt, set_trace (trace g ++ released txom) g).
Proof.
  destruct txom; cbn; [reflexivity|].
  unfold ret. rewrite app_nil_r. now destruct g.
Qed.

(** X5: when the pool of procedure records is exhausted, every
    initiator returns BLE_HS_ENOMEM and changes nothing: no record is
    created, nothing is transmitted and no callback runs.  The only
    effect is that the payload buffers handed over by the caller are
    freed, each once and in order. *)
Theorem ble_gattc_initiator_pool_exhausted P i w :
  platform_ok P -> well_formed i -> within_limits P i ->
  pool_free w = [] ->
  start P i w
  = Ok (BLE_HS_ENOMEM P, after_events (flat_map released (payloads i)) w).
Proof.
  intros HP Hwf Hlim Hpool.
  assert (BLE_HS_ENOMEM P <> 0) as Hnz by (destruct (pok_enomem P HP); lia).
  pose proof (ble_gattc_proc_alloc_exhausted w Hpool) as Halloc.
  destruct i; cbn [start payloads flat_map]; rewrite ?after_no_events;
    try (first [ unfold ble_gattc_disc_all_svcs | unfold ble_gattc_disc_svc_by_uuid
               | unfold ble_gattc_find_inc_svcs | unfold ble_gattc_disc_all_chrs
               | unfold ble_gattc_disc_chrs_by_uuid | unfold ble_gattc_disc_all_dscs
               | unfold ble_gattc_read | unfold ble_gattc_read_by_uuid
               | unfold ble_gattc_read_long ];
         now apply initiate_exhausted).
  - (* exchange_mtu *)
    unfold ble_gattc_exchange_mtu.
    rewrite (bind_Ok _ _ _ _ _ Halloc). cbv beta iota.
    unfold bind at 1. unfold ret at 1.
    now rewrite (bind_Ok _ _ _ _ _
                   (ble_gattc_process_status_none P _ w Hnz)).
  - (* read_mult *)
    cbn in Hwf, Hlim.
    unfold ble_gattc_read_mult, ble_gattc_read_mult_internal.
    rewrite (proj2 (Z.ltb_ge _ _)) by lia.
    rewrite (proj2 (Z.ltb_ge _ _)) by lia.
    now apply initiate_exhausted.
  - (* read_mult_var *)
    cbn in Hwf, Hlim.
    unfold ble_gattc_read_mult_var, ble_gattc_read_mult_internal.
    rewrite (proj2 (Z.ltb_ge _ _)) by lia.
    rewrite (proj2 (Z.ltb_ge _ _)) by lia.
    now apply initiate_exhausted.
  - (* write *)
    unfold ble_gattc_write.
    rewrite (bind_Ok _ _ _ _ _ Halloc). cbv beta iota.
    unfold bind at 1. unfold bind at 1.
    rewrite (lift_Ok _ _ _ _ (os_mbuf_free_chain_trace txom (host w))).
    unfold ret at 1.
    rewrite (bind_Ok _ _ _ _ _
               (ble_gattc_process_status_none P _ _ Hnz)).
    unfold after_events. now rewrite app_nil_r.
  - (* write_long *)
    unfold ble_gattc_write_long.
    rewrite (bind_Ok _ _ _ _ _ Halloc). cbv beta iota.
    unfold bind at 1. unfold bind at 1.
    rewrite (lift_Ok _ _ _ _ (os_mbuf_free_chain_trace txom (host w))).
    unfold ret at 1.
    rewrite (bind_Ok _ _ _ _ _
               (ble_gattc_process_status_none P _ _ Hnz)).
    unfold after_events. now rewrite app_nil_r.
  - (* write_reliable *)
    cbn in Hwf, Hlim. destruct Hwf as (Hlen & _ & _).
    unfold ble_gattc_write_reliable.
    rewrite (proj2 (Z.ltb_ge _ _)) by lia.
    rewrite (proj2 (Z.ltb_ge _ _)) by lia.
    rewrite (bind_Ok _ _ _ _ _ Halloc). cbv beta iota.
    unfold bind at 1. unfold bind at 1.
    rewrite (lift_Ok _ _ _ _ (free_attr_oms_trace _ (host w))).
    unfold ret at 1.
    rewrite (bind_Ok _ _ _ _ _
               (ble_gattc_process_status_none P _ _ Hnz)).
    reflexivity.
Qed.

Lemma ble_gattc_initiator_pool_exhausted_witness :
  start nimble (I_write 1 9 (Some [1; 2]) (Some 50) 0)
    (set_pool_free [] (two_procs 0))
  = Ok (6, after_events [ev_mbuf_free [1; 2]] (set_pool_free [] (two_procs 0))).
Proof.
  apply (ble_gattc_initiator_pool_exhausted nimble
           (I_write 1 9 (Some [1; 2]) (Some 50) 0)
           (set_pool_free [] (two_procs 0)) (nimble_cfg_ok _ _ _)).
  - cbn. eauto.
  - exact I.
  - reflexivity.
Defined.

(** ** Initiators that succeed *)

Lemma att_tx_accepted req g :
  hd 0 (tx_rcs g) = 0 ->
  exists g', att_tx req g = Ok (0, g') /\ host_step g g' [ev_tx req 0].
Proof.
  intros Hhd. g_run. rewrite Hhd. eexists. split; [reflexivity|].
  host_step_tac.
Qed.

Lemma started_accepted P w a rest (body : option addr -> M Z) w1 r1 l evs :
  pool_free w = a :: rest -> mem w !! a = None ->
  is_queue (mem w) (ble_gattc_procs w) l ->
  body (Some a)
    (set_pool_free rest
       (set_mem (<[a := {| next := None; rec := zeroed_proc |}]> (mem w)) w))
  = Ok (0, w1) ->
  mem w1 = <[a := {| next := None; rec := r1 |}]> (mem w) ->
  pool_free w1 = rest ->
  ble_gattc_procs w1 = ble_gattc_procs w ->
  ble_gattc_cached_procs w1 = ble_gattc_cached_procs w ->
  host_step (host w) (host w1) evs ->
  exists w',
    bind ble_gattc_proc_alloc
      (fun proc => bind (body proc)
         (fun rc => bind (ble_gattc_process_status P proc rc)
            (fun _ => ret rc))) w = Ok (0, w') /\
    is_queue (mem w') (ble_gattc_procs w') (l ++ [a]) /\
    rec <$> mem w' !! a
    = Some (if stalled r1 then r1
            else set_exp_os_ticks
                   (u32 (now (host w) + ble_npl_time_ms_to_ticks32 P 30000))
                   r1) /\
    (forall b, b <> a -> rec <$> mem w' !! b = rec <$> mem w !! b) /\
    host_step (host w) (host w') (evs ++ [ev_hs_timer_resched]) /\
    pool_free w' = rest /\
    ble_gattc_cached_procs w' = ble_gattc_cached_procs w.
Proof.
  intros Hp Hfree Hq Hbody Hm Hp1 Hq1 Hc1 Hs.
  assert (a ∉ l) as Hnotin.
  { intros Hin. destruct (is_queue_lookup _ _ _ _ Hq Hin) as [c Hc].
    congruence. }
  assert (mem w1 !! a = Some {| next := None; rec := r1 |}) as Ha
    by (rewrite Hm; apply lookup_insert_eq).
  assert (is_queue (mem w1) (ble_gattc_procs w1) l) as Hq'.
  { rewrite Hq1, Hm. eapply is_queue_ext; [|exact Hq].
    intros b Hb. rewrite lookup_insert_ne; [reflexivity|].
    intros ->. contradiction. }
  destruct (ble_gattc_process_status_insert P w1 a _ l Ha Hq' Hnotin)
    as (w' & Hps & Hql & Hrec & Hoth & S2 & Hp' & Hc').
  exists w'. split.
  { rewrite (bind_Ok _ _ _ _ _ (ble_gattc_proc_alloc_run w a rest Hp)).
    cbv beta. rewrite (bind_Ok _ _ _ _ _ Hbody). cbv beta.
    rewrite (bind_Ok _ _ _ _ _ Hps). reflexivity. }
  split; [exact Hql|]. split.
  { rewrite Hrec. cbn [rec]. destruct Hs as (_ & -> & _). reflexivity. }
  split.
  { intros b Hb. rewrite Hoth by exact Hb. rewrite Hm.
    now rewrite lookup_insert_ne by auto. }
  split; [eapply host_step_trans; eassumption|].
  split; [now rewrite Hp'|now rewrite Hc'].
Qed.

Lemma initiate_accepted P conn opcode member tx w a rest l g' evs :
  pool_free w = a :: rest -> mem w !! a = None ->
  is_queue (mem w) (ble_gattc_procs w) l ->
  tx (set_un member (ble_gattc_proc_prepare P zeroed_proc conn opcode))
    (host w) = Ok (0, g') ->
  host_step (host w) g' evs ->
  exists w',
    initiate P conn opcode member tx w = Ok (0, w') /\
    is_queue (mem w') (ble_gattc_procs w') (l ++ [a]) /\
    rec <$> mem w' !! a
    = Some (set_exp_os_ticks
              (u32 (now (host w) + ble_npl_time_ms_to_ticks32 P 30000))
              (set_un member
                 (ble_gattc_proc_prepare P zeroed_proc conn opcode))) /\
    (forall b, b <> a -> rec <$> mem w' !! b = rec <$> mem w !! b) /\
    host_step (host w) (host w') (evs ++ [ev_hs_timer_resched]) /\
    pool_free w' = rest /\
    ble_gattc_cached_procs w' = ble_gattc_cached_procs w.
Proof.
  intros Hp Hfree Hq Htx Hs.
  set (r := set_un member (ble_gattc_proc_prepare P zeroed_proc conn opcode)).
  unfold initiate.
  eapply (started_accepted P w a rest
            (fun proc =>
               match proc with
               | Some a =>
                   bind (load_rec a)
                     (fun r0 =>
                        bind (store_rec a
                                (set_un member
                                   (ble_gattc_proc_prepare P r0 conn opcode)))
                          (fun _ =>
                             lift (tx (set_un member
                                         (ble_gattc_proc_prepare P r0 conn
                                            opcode)))))
               | None => ret (BLE_HS_ENOMEM P)
               end) _ r l evs Hp Hfree Hq).
  - cbv beta iota.
    rewrite (prepared w a rest
               (fun r0 => set_un member
                            (ble_gattc_proc_prepare P r0 conn opcode))
               (fun r => lift (tx r))).
    apply lift_Ok. exact Htx.
  - reflexivity.
  - reflexivity.
  - reflexivity.
  - reflexivity.
  - exact Hs.
Qed.

Lemma started_record P w a l rest conn opcode r0 evs w' (m : M Z) :
  conn_handle r0 = conn -> op r0 = opcode -> proc_tagged r0 ->
  stalled r0 = false ->
  m w = Ok (0, w') /\
  is_queue (mem w') (ble_gattc_procs w') (l ++ [a]) /\
  rec <$> mem w' !! a
  = Some (set_exp_os_ticks
            (u32 (now (host w) + ble_npl_time_ms_to_ticks32 P 30000)) r0) /\
  (forall b, b <> a -> rec <$> mem w' !! b = rec <$> mem w !! b) /\
  host_step (host w) (host w') (evs ++ [ev_hs_timer_resched]) /\
  pool_free w' = rest /\
  ble_gattc_cached_procs w' = ble_gattc_cached_procs w ->
  exists w' c,
    m w = Ok (0, w') /\
    is_queue (mem w') (ble_gattc_procs w') (l ++ [a]) /\
    pool_free w' = rest /\
    mem w' !! a = Some c /\
    conn_handle (rec c) = conn /\ op (rec c) = opcode /\
    proc_tagged (rec c) /\ stalled (rec c) = false /\
    exp_os_ticks (rec c)
    = u32 (now (host w) + ble_npl_time_ms_to_ticks32 P 30000) /\
    (forall b, b <> a -> rec <$> mem w' !! b = rec <$> mem w !! b) /\
    host_step (host w) (host w') (evs ++ [ev_hs_timer_resched]).
Proof.
  intros Hconn Hop Htag Hst (Hrun & Hq & Hrec & Hoth & Hs & Hp & _).
  destruct (mem w' !! a) as [c|] eqn:Hc; [|discriminate].
  cbn in Hrec. injection Hrec as Hrec.
  exists w', c. rewrite Hrec. cbn [conn_handle op exp_os_ticks set_exp_os_ticks].
  unfold proc_tagged, stalled in *. cbn [op un flags set_exp_os_ticks].
  auto 12.
Qed.

Lemma initiate_started P conn opcode member tx w a rest l :
  pool_free w = a :: rest -> mem w !! a = None ->
  is_queue (mem w) (ble_gattc_procs w) l ->
  op_of_union member = opcode ->
  (exists g' req,
     tx (set_un member (ble_gattc_proc_prepare P zeroed_proc conn opcode))
       (host w) = Ok (0, g') /\
     host_step (host w) g' [ev_tx req 0]) ->
  exists req w' c,
    initiate P conn opcode member tx w = Ok (0, w') /\
    is_queue (mem w') (ble_gattc_procs w') (l ++ [a]) /\
    pool_free w' = rest /\
    mem w' !! a = Some c /\
    conn_handle (rec c) = conn /\ op (rec c) = opcode /\
    proc_tagged (rec c) /\ stalled (rec c) = false /\
    exp_os_ticks (rec c)
    = u32 (now (host w) + ble_npl_time_ms_to_ticks32 P 30000) /\
    (forall b, b <> a -> rec <$> mem w' !! b = rec <$> mem w !! b) /\
    host_step (host w) (host w') [ev_tx req 0; ev_hs_timer_resched].
Proof.
  intros Hp Hfree Hq Hop (g' & req & Htx & Hs).
  destruct (initiate_accepted P conn opcode member tx w a rest l g' _
              Hp Hfree Hq Htx Hs) as (w' & H).
  exists req.
  apply (started_record P w a l rest conn opcode
           (set_un member (ble_gattc_proc_prepare P zeroed_proc conn opcode))
           [ev_tx req 0] w' (initiate P conn opcode member tx));
    [reflexivity|reflexivity| |reflexivity|exact H].
  unfold proc_tagged. cbn. auto.
Qed.

Ltac request_accepted tx Htx :=
  eapply initiate_started; [eassumption|assumption|eassumption|reflexivity|];
  unfold tx, set_un; g_run;
  repeat match goal with
         | |- context [if ?c then _ else _] => destruct c
         end;
  g_run; rewrite ?Htx;
  eexists _, _; (split; [reflexivity|host_step_tac]).

(** X6: an initiator whose first step is a single ATT request, called
    while the pool has a free block and the transport accepts the
    request, returns 0 and leaves its procedure at the tail of the
    table: the record carries the connection and the operation of the
    call, is not stalled, and its deadline is 30 seconds after the time
    of the call.  Exactly one request is transmitted, no callback runs,
    and the other records are not touched. *)
Theorem ble_gattc_initiator_accepted P i w a rest l :
  well_formed i -> within_limits P i -> single_request i ->
  pool_free w = a :: rest -> mem w !! a = None ->
  is_queue (mem w) (ble_gattc_procs w) l ->
  hd 0 (tx_rcs (host w)) = 0 ->
  exists req w' c,
    start P i w = Ok (0, w') /\
    is_queue (mem w') (ble_gattc_procs w') (l ++ [a]) /\
    pool_free w' = rest /\
    mem w' !! a = Some c /\
    conn_handle (rec c) = conn_of i /\ op (rec c) = opcode_of i /\
    proc_tagged (rec c) /\ stalled (rec c) = false /\
    exp_os_ticks (rec c)
    = u32 (now (host w) + ble_npl_time_ms_to_ticks32 P 30000) /\
    (forall b, b <> a -> rec <$> mem w' !! b = rec <$> mem w !! b) /\
    host_step (host w) (host w') [ev_tx req 0; ev_hs_timer_resched].
Proof.
  intros Hwf Hlim Hsingle Hp Hfree Hq Htx.
  destruct i; cbn [single_request] in Hsingle; try contradiction;
    cbn [start conn_of opcode_of].
  - request_accepted ble_gattc_disc_all_svcs_tx Htx.
  - request_accepted ble_gattc_disc_svc_uuid_tx Htx.
  - request_accepted ble_gattc_find_inc_svcs_tx Htx.
  - request_accepted ble_gattc_disc_all_chrs_tx Htx.
  - request_accepted ble_gattc_disc_chr_uuid_tx Htx.
  - request_accepted ble_gattc_disc_all_dscs_tx Htx.
  - request_accepted ble_gattc_read_tx Htx.
  - request_accepted ble_gattc_read_uuid_tx Htx.
  - request_accepted ble_gattc_read_long_tx Htx.
  - cbn in Hwf, Hlim.
    unfold ble_gattc_read_mult, ble_gattc_read_mult_internal.
    rewrite (proj2 (Z.ltb_ge _ _)) by lia.
    rewrite (proj2 (Z.ltb_ge _ _)) by lia.
    request_accepted ble_gattc_read_mult_tx Htx.
  - cbn in Hwf, Hlim.
    unfold ble_gattc_read_mult_var, ble_gattc_read_mult_internal.
    rewrite (proj2 (Z.ltb_ge _ _)) by lia.
    rewrite (proj2 (Z.ltb_ge _ _)) by lia.
    request_accepted ble_gattc_read_mult_tx Htx.
  - cbn in Hwf. destruct Hwf as [data ->].
    set (f := fun r =>
                set_un
                  (U_write
                     {| write.att_handle := attr_handle; write.cb := cb;
                        write.cb_arg := cb_arg;
                        write.om :=
                          if BLE_GATTC_AUTO_PAIR P then Some data else None |})
                  (ble_gattc_proc_prepare P r conn BLE_GATT_OP_WRITE)).
    set (K := fun r =>
                bind (lift (mbuf_pktlen (Some data)))
                  (fun _ =>
                     lift (att_tx (tx_write_req conn (cid r) attr_handle
                                     (Some data))))).
    destruct (att_tx_accepted
                (tx_write_req conn (cid (f zeroed_proc)) attr_handle
                   (Some data)) (host w) Htx) as (g' & Hrun & Hs).
    exists (tx_write_req conn (cid (f zeroed_proc)) attr_handle (Some data)).
    unfold ble_gattc_write.
    destruct (started_accepted P w a rest
                (fun proc =>
                   match proc with
                   | Some a =>
                       bind (load_rec a)
                         (fun r => bind (store_rec a (f r))
                                     (fun _ => K (f r)))
                   | None =>
                       bind (lift (os_mbuf_free_chain (Some data)))
                         (fun _ => ret (BLE_HS_ENOMEM P))
                   end)
                (set_host g'
                   (set_pool_free rest
                      (set_mem (<[a := {| next := None;
                                          rec := f zeroed_proc |}]> (mem w))
                         w)))
                (f zeroed_proc) l
                [ev_tx (tx_write_req conn (cid (f zeroed_proc)) attr_handle
                          (Some data)) 0] Hp Hfree Hq) as (w' & H);
      [| reflexivity | reflexivity | reflexivity | reflexivity | exact Hs |].
    + cbv beta iota. rewrite (prepared w a rest f K).
      subst K. cbv beta.
      unfold bind at 1, lift at 1, mbuf_pktlen, ret at 1.
      rewrite set_host_eta. apply lift_Ok. exact Hrun.
    + apply (started_record P w a l rest conn BLE_GATT_OP_WRITE
               (f zeroed_proc)
               [ev_tx (tx_write_req conn (cid (f zeroed_proc)) attr_handle
                         (Some data)) 0] w');
        [reflexivity|reflexivity|reflexivity|reflexivity|exact H].
Qed.

Lemma ble_gattc_initiator_accepted_witness :
  exists w' c,
    start nimble (I_read_long 1 9 0 (Some 70) 0)
      (ble_gattc_init nimble (host_at 5 [] [])) = Ok (0, w') /\
    is_queue (mem w') (ble_gattc_procs w') [0%nat] /\
    mem w' !! 0%nat = Some c /\ exp_os_ticks (rec c) = 30005 /\
    trace (host w') = [ev_tx (tx_read 1 4 9) 0; ev_hs_timer_resched].
Proof.
  destruct (ble_gattc_initiator_accepted nimble
              (I_read_long 1 9 0 (Some 70) 0)
              (ble_gattc_init nimble (host_at 5 [] [])) 0%nat
              [1%nat; 2%nat; 3%nat] [] I I I eq_refl eq_refl
              (is_queue_nil _) eq_refl)
    as (req & w' & c & Hrun & Hq & _ & Hc & _ & _ & _ & _ & Hexp & _ & Hs).
  exists w', c. split; [exact Hrun|]. split; [exact Hq|].
  split; [exact Hc|]. split; [exact Hexp|].
  vm_compute in Hrun. injection Hrun as <-. reflexivity.
Defined.

(** ** Initiators called with too many attributes *)

(** X7: a multiple read of more than BLE_GATT_READ_MAX_ATTRS handles
    and a reliable write of more than BLE_GATT_WRITE_MAX_ATTRS
    attributes return BLE_HS_EINVAL before a record is taken from the
    pool: nothing is transmitted, no callback runs, and the only effect
    is that the payload buffers of the reliable write are freed, each
    once and in order. *)
Theorem ble_gattc_initiator_over_limit P i w :
  platform_ok P -> well_formed i -> ~ within_limits P i ->
  start P i w
  = Ok (BLE_HS_EINVAL P, after_events (flat_map released (payloads i)) w).
Proof.
  intros HP Hwf Hlim.
  assert (BLE_HS_EINVAL P <> 0) as Hnz by (destruct (pok_einval P HP); lia).
  destruct i; cbn [within_limits] in Hlim; try (now contradict Hlim);
    cbn [start payloads flat_map]; rewrite ?after_no_events.
  - unfold ble_gattc_read_mult, ble_gattc_read_mult_internal.
    rewrite (proj2 (Z.ltb_lt _ _)) by lia.
    now rewrite (bind_Ok _ _ _ _ _
                   (ble_gattc_process_status_none P _ w Hnz)).
  - unfold ble_gattc_read_mult_var, ble_gattc_read_mult_internal.
    rewrite (proj2 (Z.ltb_lt _ _)) by lia.
    now rewrite (bind_Ok _ _ _ _ _
                   (ble_gattc_process_status_none P _ w Hnz)).
  - cbn in Hwf. destruct Hwf as (Hlen & _ & _).
    unfold ble_gattc_write_reliable.
    rewrite (proj2 (Z.ltb_ge _ _)) by lia.
    rewrite (proj2 (Z.ltb_lt _ _)) by lia.
    unfold bind at 1.
    rewrite (lift_Ok _ _ _ _ (free_attr_oms_trace _ (host w))).
    now rewrite (bind_Ok _ _ _ _ _
                   (ble_gattc_process_status_none P _ _ Hnz)).
Qed.

Lemma ble_gattc_initiator_over_limit_witness :
  start nimble
    (I_write_reliable 1
       (map (fun h => {| handle := h; offset := 0; om := Some [h] |})
          [1; 2; 3; 4; 5]) 5 None 0) (two_procs 0)
  = Ok (3, after_events
             [ev_mbuf_free [1]; ev_mbuf_free [2]; ev_mbuf_free [3];
              ev_mbuf_free [4]; ev_mbuf_free [5]] (two_procs 0)).
Proof.
  apply (ble_gattc_initiator_over_limit nimble
           (I_write_reliable 1
              (map (fun h => {| handle := h; offset := 0; om := Some [h] |})
                 [1; 2; 3; 4; 5]) 5 None 0) (two_procs 0)
           (nimble_cfg_ok _ _ _)).
  - cbn. split; [lia|]. split; [lia|]. repeat constructor; eauto.
  - cbn. lia.
Defined.

(** ** Freeing a record *)

Lemma set_trace_app g e1 e2 :
  set_trace (trace (set_trace (trace g ++ e1) g) ++ e2)
    (set_trace (trace g ++ e1) g)
  = set_trace (trace g ++ e1 ++ e2) g.
Proof. unfold set_trace. cbn. now rewrite <- app_assoc. Qed.

Lemma ble_gattc_proc_free_run P w a c :
  mem w !! a = Some c -> proc_tagged (rec c) ->
  ble_gattc_proc_free P (Some a) w
  = Ok (tt, {| host := set_trace (trace (host w) ++ free_events P a (rec c))
                         (host w);
               mem := delete a (mem w);
               pool_free := a :: pool_free w;
               ble_gattc_procs := ble_gattc_procs w;
               ble_gattc_cached_procs := ble_gattc_cached_procs w |}).
Proof.
  intros Hc Htag.
  assert (
    (if (op (rec c) =? BLE_GATT_OP_WRITE) && BLE_GATTC_AUTO_PAIR P then
       bind (as_write (rec c)) (fun s => os_mbuf_free_chain (write.om s))
     else if op (rec c) =? BLE_GATT_OP_WRITE_LONG then
       bind (as_write_long (rec c))
         (fun s => os_mbuf_free_chain (om (write_long.attr s)))
     else if op (rec c) =? BLE_GATT_OP_WRITE_RELIABLE then
       bind (as_write_reliable (rec c))
         (fun s => free_attr_oms
                     (take (Z.to_nat (write_reliable.num_attrs s))
                        (write_reliable.attrs s)))
     else ret tt) (host w)
    = Ok (tt, set_trace (trace (host w)
                         ++ flat_map released (owned P (rec c))) (host w)))
    as H1.
  { assert (ret tt (host w)
            = Ok (tt, set_trace (trace (host w) ++ []) (host w))) as Hnil.
    { unfold ret. rewrite app_nil_r. now destruct (host w). }
    destruct (rec c) as [e x cn ci o f u]. unfold proc_tagged in Htag.
    simpl in Htag. subst o. unfold owned. cbn [op un].
    destruct u as [s|s|s|s|s|s|s|s|s|s|s|s|s|s|s]; try exact Hnil.
    - cbn [op_of_union]. destruct (read_mult.variable s); exact Hnil.
    - cbn [op_of_union]. destruct (BLE_GATTC_AUTO_PAIR P).
      + cbn. unfold bind, as_write, ret. cbn [un].
        rewrite os_mbuf_free_chain_trace. now rewrite app_nil_r.
      + exact Hnil.
    - cbn. unfold bind, as_write_long, ret. cbn [un].
      rewrite os_mbuf_free_chain_trace. now rewrite app_nil_r.
    - cbn. unfold bind, as_write_reliable, ret. cbn [un].
      apply free_attr_oms_trace. }
  unfold ble_gattc_proc_free.
  rewrite (bind_Ok _ _ _ _ _ (load_rec_run w a c Hc)). cbv beta.
  rewrite (bind_Ok _ _ _ _ _ (lift_Ok _ _ _ _ H1)). cbv beta.
  unfold free_events, eatt_release.
  destruct (eatt_enabled P && negb (cid (rec c) =? BLE_L2CAP_CID_ATT P)).
  - unfold bind, lift, emit, modify, ret. cbn.
    rewrite <- !app_assoc. reflexivity.
  - unfold bind, lift, emit, modify, ret. cbn.
    rewrite <- !app_assoc. reflexivity.
Qed.

Lemma freed_app e1 e2 : freed (e1 ++ e2) = freed e1 ++ freed e2.
Proof. unfold freed. now rewrite map_app, concat_app. Qed.

Lemma freed_released l :
  freed (flat_map released l) = omap id l.
Proof.
  induction l as [|[d|] l IH]; [reflexivity| |exact IH].
  change (flat_map released (Some d :: l))
    with ([ev_mbuf_free d] ++ flat_map released l).
  rewrite freed_app, IH. reflexivity.
Qed.

Lemma freed_free_events P a r : freed (free_events P a r) = omap id (owned P r).
Proof.
  unfold free_events, eatt_release. rewrite !freed_app, freed_released.
  destruct (_ && _); cbn; now rewrite app_nil_r.
Qed.

(** X8: ble_gattc_proc_free frees the payload buffers the record owns
    (the copy kept by a write in the auto-pair build, the payload of a
    long write, the payloads of a reliable write), each once and in
    order, calls no application callback and transmits nothing; the
    block leaves the heap and goes to the head of the pool, so that the
    next ble_gattc_proc_alloc hands out this very block, zeroed. *)
Theorem ble_gattc_proc_free_then_alloc P w a c :
  mem w !! a = Some c -> proc_tagged (rec c) ->
  exists w1 evs w2,
    ble_gattc_proc_free P (Some a) w = Ok (tt, w1) /\
    mem w1 = delete a (mem w) /\
    ble_gattc_procs w1 = ble_gattc_procs w /\
    host_step (host w) (host w1) evs /\
    freed evs = omap id (owned P (rec c)) /\
    notices evs = [n_free a] /\ transmitted evs = [] /\
    ble_gattc_proc_alloc w1 = Ok (Some a, w2) /\
    mem w2 = <[a := {| next := None; rec := zeroed_proc |}]> (mem w) /\
    pool_free w2 = pool_free w /\ host w2 = host w1.
Proof.
  intros Hc Htag.
  destruct (ble_gattc_proc_free_spec P w a c Hc Htag)
    as (w1' & evs' & Hrun' & _ & _ & _ & _ & Hs' & Hn & Ht).
  pose proof (ble_gattc_proc_free_run P w a c Hc Htag) as Hrun.
  rewrite Hrun in Hrun'. injection Hrun' as <-.
  eexists _, (free_events P a (rec c)), _. split; [exact Hrun|].
  cbn [mem ble_gattc_procs host pool_free].
  split; [reflexivity|]. split; [reflexivity|].
  assert (evs' = free_events P a (rec c)) as ->.
  { destruct Hs' as (Htr & _). cbn in Htr. now apply app_inv_head in Htr. }
  split; [exact Hs'|]. split; [apply freed_free_events|].
  split; [exact Hn|]. split; [exact Ht|].
  split; [reflexivity|]. cbn.
  split; [|auto]. apply insert_delete_eq.
Qed.

Lemma ble_gattc_proc_free_then_alloc_witness :
  exists w1 evs w2,
    ble_gattc_proc_free nimble (Some 0%nat) (one_proc write_long_proc)
    = Ok (tt, w1) /\
    host_step (host (one_proc write_long_proc)) (host w1) evs /\
    freed evs = [map Z.of_nat (seq 0 20)] /\
    ble_gattc_proc_alloc w1 = Ok (Some 0%nat, w2) /\
    pool_free w2 = [1%nat; 2%nat; 3%nat].
Proof.
  destruct (ble_gattc_proc_free_then_alloc nimble (one_proc write_long_proc)
              0%nat {| next := None; rec := write_long_proc |}
              eq_refl eq_refl)
    as (w1 & evs & w2 & H1 & _ & _ & H2 & H3 & _ & _ & H4 & _ & H5 & _).
  exists w1, evs, w2. auto.
Defined.

(** ** Long writes *)

Lemma os_mbuf_appendfrom_chunk (data : os_mbuf) off n :
  0 <= off -> 0 <= n -> off + n <= OS_MBUF_PKTLEN data ->
  os_mbuf_appendfrom [] data off n
  = (0, take (Z.to_nat n) (drop (Z.to_nat off) data)).
Proof.
  intros H1 H2 H3. unfold os_mbuf_appendfrom.
  rewrite (proj2 (Z.leb_le 0 off) H1), (proj2 (Z.leb_le 0 n) H2),
    (proj2 (Z.leb_le _ _) H3). reflexivity.
Qed.

Lemma ble_gattc_write_long_tx_run P r s data g :
  un r = U_write_long s -> om (write_long.attr s) = Some data ->
  0 <= BLE_ATT_PREP_WRITE_CMD_BASE_SZ P
  < u16 (ble_att_mtu_by_cid P (conn_handle r) (cid r)) ->
  0 <= offset (write_long.attr s) ->
  hd true (mbuf_rcs g) = true ->
  let max_sz := u16 (ble_att_mtu_by_cid P (conn_handle r) (cid r))
                - BLE_ATT_PREP_WRITE_CMD_BASE_SZ P in
  let n := Z.min max_sz (OS_MBUF_PKTLEN data - offset (write_long.attr s)) in
  exists g',
    ble_gattc_write_long_tx P r g
    = Ok ((hd 0 (tx_rcs g),
           if offset (write_long.attr s) <? OS_MBUF_PKTLEN data
           then set_un (U_write_long (set_write_long_length n s)) r
           else r), g') /\
    host_step g g'
      [ev_tx
         (if offset (write_long.attr s) <? OS_MBUF_PKTLEN data
          then tx_prep_write (conn_handle r) (cid r)
                 (handle (write_long.attr s)) (offset (write_long.attr s))
                 (take (Z.to_nat n)
                    (drop (Z.to_nat (offset (write_long.attr s))) data))
          else tx_exec_write (conn_handle r) (cid r)
                 (BLE_ATT_EXEC_WRITE_F_EXECUTE P))
         (hd 0 (tx_rcs g))] /\
    tx_rcs g' = tl (tx_rcs g) /\ cb_rcs g' = cb_rcs g.
Proof.
  intros Hun Hom Hmtu Hoff Hmb. cbv zeta.
  pose proof (u16_range (ble_att_mtu_by_cid P (conn_handle r) (cid r))) as Hr.
  unfold ble_gattc_write_long_tx. g_run. rewrite Hun.
  remember (u16 (ble_att_mtu_by_cid P (conn_handle r) (cid r))
            - BLE_ATT_PREP_WRITE_CMD_BASE_SZ P) as max_sz eqn:Hmax.
  rewrite (proj2 (Z.leb_gt max_sz 0)) by lia.
  rewrite Hom.
  remember (Z.min max_sz (OS_MBUF_PKTLEN data - offset (write_long.attr s)))
    as n eqn:Hndef.
  destruct (offset (write_long.attr s) <? OS_MBUF_PKTLEN data) eqn:Hlt.
  - apply Z.ltb_lt in Hlt.
    rewrite (proj2 (Z.leb_gt n 0)) by lia.
    rewrite Hmb. cbn [write_long.attr set_write_long_length write_long.length].
    rewrite (u16_id n) by lia.
    rewrite os_mbuf_appendfrom_chunk by lia.
    cbn [negb Z.eqb]. eexists. split; [reflexivity|].
    split; [host_step_tac|]. split; reflexivity.
  - apply Z.ltb_ge in Hlt.
    rewrite (proj2 (Z.leb_le n 0)) by lia.
    eexists. split; [reflexivity|]. split; [host_step_tac|].
    split; reflexivity.
Qed.

(** X9: with the connection up, a packet buffer at hand and the payload
    not exhausted, ble_gattc_write_long_tx hands the transport one
    Prepare Write request for the attribute at the current offset; it
    carries the next bytes of the payload, as many as the MTU allows
    (MTU minus the request header) or as are left, and that number is
    recorded in the procedure.  With the payload exhausted it sends the
    Execute Write request instead.  The return code is the one of the
    transport. *)
Theorem ble_gattc_write_long_tx_next_chunk P r s data g :
  un r = U_write_long s -> om (write_long.attr s) = Some data ->
  0 <= BLE_ATT_PREP_WRITE_CMD_BASE_SZ P
  < u16 (ble_att_mtu_by_cid P (conn_handle r) (cid r)) ->
  0 <= offset (write_long.attr s) ->
  hd true (mbuf_rcs g) = true ->
  exists r' g' req,
    ble_gattc_write_long_tx P r g = Ok ((hd 0 (tx_rcs g), r'), g') /\
    host_step g g' [ev_tx req (hd 0 (tx_rcs g))] /\
    (offset (write_long.attr s) < OS_MBUF_PKTLEN data ->
     let n := Z.min (u16 (ble_att_mtu_by_cid P (conn_handle r) (cid r))
                     - BLE_ATT_PREP_WRITE_CMD_BASE_SZ P)
                (OS_MBUF_PKTLEN data - offset (write_long.attr s)) in
     0 < n /\
     req = tx_prep_write (conn_handle r) (cid r)
             (handle (write_long.attr s)) (offset (write_long.attr s))
             (take (Z.to_nat n)
                (drop (Z.to_nat (offset (write_long.attr s))) data)) /\
     r' = set_un (U_write_long (set_write_long_length n s)) r) /\
    (OS_MBUF_PKTLEN data <= offset (write_long.attr s) ->
     req = tx_exec_write (conn_handle r) (cid r)
             (BLE_ATT_EXEC_WRITE_F_EXECUTE P) /\
     r' = r).
Proof.
  intros Hun Hom Hmtu Hoff Hmb.
  destruct (ble_gattc_write_long_tx_run P r s data g Hun Hom Hmtu Hoff Hmb)
    as (g' & Hrun & Hs & _).
  eexists _, g', _. split; [exact Hrun|]. split; [exact Hs|]. split.
  - intros Hlt. rewrite (proj2 (Z.ltb_lt _ _) Hlt). cbv zeta.
    split; [lia|]. split; reflexivity.
  - intros Hge. rewrite (proj2 (Z.ltb_ge _ _) Hge). split; reflexivity.
Qed.

Lemma ble_gattc_write_long_tx_next_chunk_witness :
  exists r' g',
    ble_gattc_write_long_tx nimble write_long_proc (host_at 0 [] [])
    = Ok ((0, r'), g') /\
    trace g' = [ev_tx (tx_prep_write 1 4 9 0 (map Z.of_nat (seq 0 18))) 0] /\
    r' = write_long_proc.
Proof.
  destruct (ble_gattc_write_long_tx_next_chunk nimble write_long_proc
              {| write_long.attr :=
                   {| handle := 9; offset := 0;
                      om := Some (map Z.of_nat (seq 0 20)) |};
                 write_long.length := 18;
                 write_long.cb := Some 50; write_long.cb_arg := 0 |}
              (map Z.of_nat (seq 0 20)) (host_at 0 [] [])
              eq_refl eq_refl)
    as (r' & g' & req & Hrun & Hs & Hlt & _).
  - vm_compute. split; [discriminate|reflexivity].
  - vm_compute. discriminate.
  - reflexivity.
  - destruct Hlt as (_ & -> & ->); [vm_compute; reflexivity|].
    exists write_long_proc, g'. split; [exact Hrun|].
    split; [apply Hs|reflexivity].
Defined.

Lemma pktlen_chunk (data : os_mbuf) off n :
  0 <= off -> 0 <= n -> off + n <= OS_MBUF_PKTLEN data ->
  OS_MBUF_PKTLEN (take (Z.to_nat n) (drop (Z.to_nat off) data)) = n.
Proof.
  unfold OS_MBUF_PKTLEN. intros H1 H2 H3.
  rewrite length_take, length_drop. lia.
Qed.

Lemma os_mbuf_cmpm_chunk (data : os_mbuf) off n :
  0 <= off -> 0 <= n -> off + n <= OS_MBUF_PKTLEN data ->
  os_mbuf_cmpm (take (Z.to_nat n) (drop (Z.to_nat off) data)) 0 data off n
  = 0.
Proof.
  intros H1 H2 H3. unfold os_mbuf_cmpm.
  rewrite (pktlen_chunk data off n H1 H2 H3).
  rewrite (proj2 (Z.leb_le 0 off) H1), (proj2 (Z.leb_le 0 n) H2),
    (proj2 (Z.leb_le (0 + n) n)), (proj2 (Z.leb_le _ _) H3) by lia.
  change (Z.to_nat 0) with 0%nat. rewrite drop_0.
  cbn [Z.leb andb].
  rewrite take_take, Nat.min_id.
  rewrite bool_decide_eq_true_2 by reflexivity. reflexivity.
Qed.

Lemma ble_gattc_write_long_resume_accepted P r rc r' g g' :
  ble_gattc_write_long_tx P r g = Ok ((rc, r'), g') -> rc = 0 ->
  ble_gattc_write_long_resume P r g = Ok ((0, r'), g').
Proof.
  intros Htx ->. unfold ble_gattc_write_long_resume.
  rewrite (bind_Ok _ _ _ _ _ Htx). reflexivity.
Qed.

(** X10: a Prepare Write response that echoes the pending chunk
    (attribute handle, offset and the very bytes that were sent) makes
    ble_gattc_write_long_rx_prep advance the offset by the length of
    the chunk and send the follow-up request: the Prepare Write for the
    bytes that come next in the payload, or the Execute Write when the
    payload is exhausted.  The application is not called and the
    procedure goes on. *)
Theorem ble_gattc_write_long_rx_prep_echo P r s data g :
  un r = U_write_long s -> om (write_long.attr s) = Some data ->
  0 <= BLE_ATT_PREP_WRITE_CMD_BASE_SZ P
  < u16 (ble_att_mtu_by_cid P (conn_handle r) (cid r)) ->
  0 <= offset (write_long.attr s) < OS_MBUF_PKTLEN data ->
  OS_MBUF_PKTLEN data <= 65535 ->
  0 <= write_long.length s ->
  offset (write_long.attr s) + write_long.length s <= OS_MBUF_PKTLEN data ->
  hd true (mbuf_rcs g) = true -> hd 0 (tx_rcs g) = 0 ->
  let chunk := take (Z.to_nat (write_long.length s))
                 (drop (Z.to_nat (offset (write_long.attr s))) data) in
  let off' := offset (write_long.attr s) + write_long.length s in
  let n' := Z.min (u16 (ble_att_mtu_by_cid P (conn_handle r) (cid r))
                   - BLE_ATT_PREP_WRITE_CMD_BASE_SZ P)
              (OS_MBUF_PKTLEN data - off') in
  exists g',
    ble_gattc_write_long_rx_prep P r 0 (handle (write_long.attr s))
      (offset (write_long.attr s)) chunk g
    = Ok ((0,
           set_un (U_write_long
                     (if off' <? OS_MBUF_PKTLEN data
                      then set_write_long_length n'
                             (set_write_long_offset off' s)
                      else set_write_long_offset off' s)) r), g') /\
    host_step g g'
      [ev_tx (if off' <? OS_MBUF_PKTLEN data
              then tx_prep_write (conn_handle r) (cid r)
                     (handle (write_long.attr s)) off'
                     (take (Z.to_nat n') (drop (Z.to_nat off') data))
              else tx_exec_write (conn_handle r) (cid r)
                     (BLE_ATT_EXEC_WRITE_F_EXECUTE P)) 0].
Proof.
  intros Hun Hom Hmtu Hoff Hlen Hn Hfit Hmb Htx chunk off' n'.
  assert (OS_MBUF_PKTLEN chunk = write_long.length s) as Hchunk
    by (apply pktlen_chunk; lia).
  set (r1 := set_un (U_write_long (set_write_long_offset off' s)) r).
  destruct (ble_gattc_write_long_tx_run P r1 (set_write_long_offset off' s)
              data g eq_refl Hom Hmtu) as (g' & Hrun & Hs & _).
  { cbn. unfold off'. lia. }
  { exact Hmb. }
  cbn [write_long.attr set_write_long_offset offset handle conn_handle cid
       set_un r1] in Hrun, Hs.
  change (conn_handle r1) with (conn_handle r) in Hrun, Hs.
  change (cid r1) with (cid r) in Hrun, Hs.
  fold off' in Hrun, Hs. fold n' in Hrun, Hs. rewrite Htx in Hrun, Hs.
  exists g'. split.
  - unfold ble_gattc_write_long_rx_prep. g_run. rewrite Hun.
    change (negb (0 =? 0)) with false. cbv iota. rewrite Hom.
    rewrite (proj2 (Z.leb_gt _ _)) by lia.
    rewrite !Z.eqb_refl. cbn [negb]. rewrite Hchunk.
    rewrite (proj2 (Z.ltb_ge _ _)) by lia.
    rewrite Z.eqb_refl. cbn [negb].
    unfold chunk at 1. rewrite os_mbuf_cmpm_chunk by lia.
    cbn [Z.eqb negb].
    fold off'. rewrite (u16_id off') by (unfold off'; lia). fold r1.
    rewrite (ble_gattc_write_long_resume_accepted P r1 0 _ g g' Hrun eq_refl).
    cbn [negb Z.eqb]. destruct (off' <? OS_MBUF_PKTLEN data); reflexivity.
  - exact Hs.
Qed.

Lemma ble_gattc_write_long_rx_prep_echo_witness :
  exists r' g',
    ble_gattc_write_long_rx_prep nimble write_long_proc 0 9 0
      (map Z.of_nat (seq 0 18)) (host_at 0 [] [])
    = Ok ((0, r'), g') /\
    trace g' = [ev_tx (tx_prep_write 1 4 9 18 [18; 19]) 0].
Proof.
  destruct (ble_gattc_write_long_rx_prep_echo nimble write_long_proc
              {| write_long.attr :=
                   {| handle := 9; offset := 0;
                      om := Some (map Z.of_nat (seq 0 20)) |};
                 write_long.length := 18;
                 write_long.cb := Some 50; write_long.cb_arg := 0 |}
              (map Z.of_nat (seq 0 20)) (host_at 0 [] [])
              eq_refl eq_refl)
    as (g' & Hrun & Hs); try (vm_compute; intuition discriminate).
  eexists _, g'. split; [exact Hrun|]. apply Hs.
Defined.

(** ** Responses that end a procedure *)

Lemma is_queue_delete m h l a :
  is_queue m h l -> a ∉ l -> is_queue (delete a m) h l.
Proof.
  intros Hq Ha. eapply is_queue_ext; [|exact Hq]. intros b Hb.
  rewrite lookup_delete_ne; [reflexivity|]. intros ->. contradiction.
Qed.

Lemma notices_free_events P a r : notices (free_events P a r) = [n_free a].
Proof.
  unfold free_events, eatt_release. rewrite !notices_app.
  assert (forall l, notices (flat_map released l) = []) as ->.
  { induction l as [|[d|] l IH]; cbn; auto. }
  destruct (_ && _); reflexivity.
Qed.

Lemma transmitted_free_events P a r : transmitted (free_events P a r) = [].
Proof.
  unfold free_events, eatt_release. rewrite !transmitted_app.
  assert (forall l, transmitted (flat_map released l) = []) as ->.
  { induction l as [|[d|] l IH]; cbn; auto. }
  destruct (_ && _); reflexivity.
Qed.

Lemma ble_gattc_process_status_done P w a c st :
  st <> 0 -> mem w !! a = Some c -> proc_tagged (rec c) ->
  ble_gattc_process_status P (Some a) st w
  = Ok (tt, {| host := set_trace (trace (host w) ++ free_events P a (rec c))
                         (host w);
               mem := delete a (mem w);
               pool_free := a :: pool_free w;
               ble_gattc_procs := ble_gattc_procs w;
               ble_gattc_cached_procs := ble_gattc_cached_procs w |}).
Proof.
  intros Hst Hc Htag. unfold ble_gattc_process_status.
  rewrite (proj2 (Z.eqb_neq _ _) Hst). now apply ble_gattc_proc_free_run.
Qed.

Lemma rx_dispatch_done P w a c handler rc r' g' :
  mem w !! a = Some c ->
  handler (rec c) (host w) = Ok ((rc, r'), g') ->
  rc <> 0 -> proc_tagged r' ->
  rx_dispatch P (Some a) handler w
  = Ok (tt, {| host := set_trace (trace g' ++ free_events P a r') g';
               mem := delete a (mem w);
               pool_free := a :: pool_free w;
               ble_gattc_procs := ble_gattc_procs w;
               ble_gattc_cached_procs := ble_gattc_cached_procs w |}).
Proof.
  intros Hc Hh Hrc Htag. unfold rx_dispatch.
  rewrite (bind_Ok _ _ _ _ _ (load_rec_run w a c Hc)). cbv beta.
  rewrite (bind_Ok _ _ _ _ _ (lift_Ok _ _ _ _ Hh)). cbv beta iota.
  rewrite (bind_Ok _ _ _ _ _ (store_rec_run (set_host g' w) a c r' Hc)).
  cbv beta.
  rewrite (ble_gattc_process_status_done P _ a {| next := next c; rec := r' |}
             rc Hrc); [|cbn; apply lookup_insert_eq|exact Htag].
  cbn. now rewrite delete_insert_eq.
Qed.

Lemma rx_finish {X} P w a c (h : G X) x g' st :
  mem w !! a = Some c -> h (host w) = Ok (x, g') ->
  st <> 0 -> proc_tagged (rec c) ->
  bind (lift h) (fun _ => ble_gattc_process_status P (Some a) st) w
  = Ok (tt, {| host := set_trace (trace g' ++ free_events P a (rec c)) g';
               mem := delete a (mem w);
               pool_free := a :: pool_free w;
               ble_gattc_procs := ble_gattc_procs w;
               ble_gattc_cached_procs := ble_gattc_cached_procs w |}).
Proof.
  intros Hc Hh Hst Htag.
  rewrite (bind_Ok _ _ _ _ _ (lift_Ok _ _ _ _ Hh)).
  now rewrite (ble_gattc_process_status_done P _ a c st Hst).
Qed.

Lemma same_recs_lookup m1 m2 a c :
  same_recs m1 m2 -> m1 !! a = Some c ->
  exists c', m2 !! a = Some c' /\ rec c' = rec c.
Proof.
  intros Hr Hc. specialize (Hr a). rewrite Hc in Hr.
  destruct (m2 !! a) as [c'|]; [|discriminate].
  exists c'. split; [reflexivity|]. cbn in Hr. congruence.
Qed.

Lemma addressed_op conn chan opcode r :
  addressed conn chan opcode r = true -> opcode <> BLE_GATT_OP_NONE ->
  conn_handle r = conn /\ cid r = chan /\ op r = opcode.
Proof.
  unfold addressed. intros H Hne.
  apply andb_true_iff in H as [H H3]. apply andb_true_iff in H as [H1 H2].
  apply Z.eqb_eq in H1, H2. apply orb_true_iff in H3 as [H3|H3];
    apply Z.eqb_eq in H3; [auto|contradiction].
Qed.

(** The common shape of the entry points that end the procedure they
    find: [finish] runs on the record and the record is freed. *)
Lemma extracted_and_freed {X} P conn chan opcode (h : ble_gattc_proc -> G X)
    st w l1 a l2 c x g' :
  is_queue (mem w) (ble_gattc_procs w) (l1 ++ a :: l2) ->
  (forall b, b ∈ l1 -> holds (mem w) (addressed conn chan opcode) b = false) ->
  mem w !! a = Some c -> addressed conn chan opcode (rec c) = true ->
  proc_tagged (rec c) -> st <> 0 ->
  h (rec c) (host w) = Ok (x, g') ->
  exists w',
    bind (ble_gattc_extract_first_by_conn_cid_op conn chan opcode)
      (fun proc =>
         match proc with
         | None => ret tt
         | Some a =>
             bind (load_rec a)
               (fun r => bind (lift (h r))
                           (fun _ => ble_gattc_process_status P (Some a) st))
         end) w = Ok (tt, w') /\
    host w' = set_trace (trace g' ++ free_events P a (rec c)) g' /\
    is_queue (mem w') (ble_gattc_procs w') (l1 ++ l2) /\
    mem w' !! a = None /\
    (forall b, b <> a -> rec <$> mem w' !! b = rec <$> mem w !! b) /\
    pool_free w' = a :: pool_free w.
Proof.
  intros Hq Hl1 Hc Ha Htag Hst Hh.
  assert (holds (mem w) (addressed conn chan opcode) a = true) as Ha'
    by (unfold holds; now rewrite Hc).
  destruct (extract_first_found conn chan opcode w l1 a l2 Hq Hl1 Ha')
    as (w1 & Hex & (Hhost & Hpool & Hcache) & Hr & Hk & Hnotin).
  destruct (same_recs_lookup _ _ a c Hr Hc) as (c1 & Hc1 & Hrec).
  eexists. split.
  - rewrite (bind_Ok _ _ _ _ _ Hex). cbv beta iota.
    rewrite (bind_Ok _ _ _ _ _ (load_rec_run w1 a c1 Hc1)). cbv beta.
    rewrite Hrec.
    apply (rx_finish P w1 a c1 (h (rec c)) x g' st Hc1);
      [now rewrite Hhost|exact Hst|now rewrite Hrec].
  - cbn. rewrite Hrec. split; [reflexivity|].
    split; [now apply is_queue_delete|].
    split; [apply lookup_delete_eq|]. split; [|now rewrite Hpool].
    intros b Hb. rewrite lookup_delete_ne by auto. symmetry. apply Hr.
Qed.

(** X11: the Exchange MTU response for a connection ends the MTU
    exchange in progress on it: the callback of the procedure, when
    there is one, is called once with the status of the response and
    the MTU of the channel, the record is freed, nothing is
    transmitted and the other procedures stay in the table in their
    order. *)
Theorem ble_gattc_rx_mtu_ends P conn st chan_mtu w l1 a l2 c s :
  platform_ok P ->
  is_queue (mem w) (ble_gattc_procs w) (l1 ++ a :: l2) ->
  (forall b, b ∈ l1 ->
     holds (mem w) (addressed conn (BLE_L2CAP_CID_ATT P) BLE_GATT_OP_MTU) b
     = false) ->
  mem w !! a = Some c ->
  addressed conn (BLE_L2CAP_CID_ATT P) BLE_GATT_OP_MTU (rec c) = true ->
  un (rec c) = U_mtu s ->
  exists w' evs,
    ble_gattc_rx_mtu P conn (BLE_L2CAP_CID_ATT P) st chan_mtu w
    = Ok (tt, w') /\
    trace (host w') = trace (host w) ++ evs /\
    notices evs
    = match mtu.cb s with
      | Some fn => [n_call (call_mtu_fn fn conn (final_error st) chan_mtu
                              (mtu.cb_arg s))]
      | None => []
      end ++ [n_free a] /\
    transmitted evs = [] /\
    is_queue (mem w') (ble_gattc_procs w') (l1 ++ l2) /\
    mem w' !! a = None /\ pool_free w' = a :: pool_free w.
Proof.
  intros HP Hq Hl1 Hc Ha Hun.
  destruct (addressed_op _ _ _ _ Ha) as (Hconn & _ & Hop); [discriminate|].
  assert (proc_tagged (rec c)) as Htag
    by (unfold proc_tagged; now rewrite Hun, Hop).
  assert (BLE_HS_EDONE P <> 0) as Hnz by (destruct (pok_edone P HP); lia).
  assert (exists x g' evs,
            ble_gattc_mtu_cb P (rec c) st 0 chan_mtu (host w) = Ok (x, g') /\
            trace g' = trace (host w) ++ evs /\
            notices evs
            = match mtu.cb s with
              | Some fn => [n_call (call_mtu_fn fn conn (final_error st)
                                      chan_mtu (mtu.cb_arg s))]
              | None => []
              end /\ transmitted evs = [])
    as (x & g' & e1 & Hcb & Htr & Hn & Ht).
  { unfold ble_gattc_mtu_cb. g_run. rewrite Hun, Hconn.
    rewrite ble_gattc_error_final. destruct (mtu.cb s); g_run.
    - eexists _, _, _. split; [reflexivity|]. cbn. auto.
    - exists 0, (host w), []. rewrite app_nil_r. auto. }
  destruct (extracted_and_freed P conn (BLE_L2CAP_CID_ATT P) BLE_GATT_OP_MTU
              (fun r => ble_gattc_mtu_cb P r st 0 chan_mtu)
              (BLE_HS_EDONE P) w l1 a l2 c x g' Hq Hl1 Hc Ha Htag Hnz Hcb)
    as (w' & Hrun & Hhost & Hq' & Hgone & _ & Hpool).
  exists w', (e1 ++ free_events P a (rec c)). split; [exact Hrun|].
  split; [rewrite Hhost; cbn; rewrite Htr; now rewrite <- app_assoc|].
  rewrite notices_app, transmitted_app, Hn, Ht, notices_free_events,
    transmitted_free_events. auto.
Qed.

Lemma ble_gattc_rx_mtu_ends_witness :
  exists w',
    ble_gattc_rx_mtu nimble 1 4 0 185 (two_procs 0) = Ok (tt, w') /\
    notices (trace (host w'))
    = [n_call (call_mtu_fn 7 1 (final_error 0) 185 0); n_free 0%nat] /\
    is_queue (mem w') (ble_gattc_procs w') [1%nat].
Proof.
  destruct (ble_gattc_rx_mtu_ends nimble 1 0 185 (two_procs 0) [] 0%nat
              [1%nat] {| next := Some 1%nat; rec := mtu_proc 1 7 |}
              {| mtu.cb := Some 7; mtu.cb_arg := 0 |}
              (nimble_cfg_ok _ _ _) (two_procs_queue 0))
    as (w' & evs & Hrun & Htr & Hn & _ & Hq & _); try reflexivity.
  { intros b Hb. inversion Hb. }
  exists w'. split; [exact Hrun|]. split; [|exact Hq].
  cbn in Htr. rewrite Htr. exact Hn.
Defined.

(** X12: the Write response for a connection and channel ends the
    write in progress there: the callback, when there is one, is called
    once with status 0 and the attribute handle of the write, the
    record is freed, nothing is transmitted and the other procedures
    stay in the table in their order. *)
Theorem ble_gattc_rx_write_rsp_ends P conn chan w l1 a l2 c s :
  platform_ok P ->
  is_queue (mem w) (ble_gattc_procs w) (l1 ++ a :: l2) ->
  (forall b, b ∈ l1 ->
     holds (mem w) (addressed conn chan BLE_GATT_OP_WRITE) b = false) ->
  mem w !! a = Some c ->
  addressed conn chan BLE_GATT_OP_WRITE (rec c) = true ->
  un (rec c) = U_write s ->
  exists w' evs,
    ble_gattc_rx_write_rsp P conn chan w = Ok (tt, w') /\
    trace (host w') = trace (host w) ++ evs /\
    notices evs = terminal_notice (rec c) 0 ++ [n_free a] /\
    transmitted evs = [] /\
    is_queue (mem w') (ble_gattc_procs w') (l1 ++ l2) /\
    mem w' !! a = None /\ pool_free w' = a :: pool_free w.
Proof.
  intros HP Hq Hl1 Hc Ha Hun.
  destruct (addressed_op _ _ _ _ Ha) as (Hconn & _ & Hop); [discriminate|].
  assert (proc_tagged (rec c)) as Htag
    by (unfold proc_tagged; now rewrite Hun, Hop).
  assert (BLE_HS_EDONE P <> 0) as Hnz by (destruct (pok_edone P HP); lia).
  assert (exists x g' evs,
            ble_gattc_write_cb P (rec c) 0 0 (host w) = Ok (x, g') /\
            trace g' = trace (host w) ++ evs /\
            notices evs = terminal_notice (rec c) 0 /\ transmitted evs = [])
    as (x & g' & e1 & Hcb & Htr & Hn & Ht).
  { unfold ble_gattc_write_cb, terminal_notice. g_run. rewrite Hun.
    rewrite ble_gattc_error_final. destruct (write.cb s); g_run.
    - eexists _, _, _. split; [reflexivity|]. cbn. auto.
    - exists 0, (host w), []. rewrite app_nil_r. auto. }
  destruct (extracted_and_freed P conn chan BLE_GATT_OP_WRITE
              (fun r => ble_gattc_write_cb P r 0 0)
              (BLE_HS_EDONE P) w l1 a l2 c x g' Hq Hl1 Hc Ha Htag Hnz Hcb)
    as (w' & Hrun & Hhost & Hq' & Hgone & _ & Hpool).
  exists w', (e1 ++ free_events P a (rec c)). split; [exact Hrun|].
  split; [rewrite Hhost; cbn; rewrite Htr; now rewrite <- app_assoc|].
  rewrite notices_app, transmitted_app, Hn, Ht, notices_free_events,
    transmitted_free_events. auto.
Qed.

Lemma ble_gattc_rx_write_rsp_ends_witness :
  exists w',
    ble_gattc_rx_write_rsp nimble 1 4 (one_proc write_proc) = Ok (tt, w') /\
    notices (trace (host w'))
    = [n_call (call_attr_fn 40 1 (final_error 0)
                 (Some {| handle := 9; offset := 0; om := None |}) 0);
       n_free 0%nat] /\
    is_queue (mem w') (ble_gattc_procs w') [].
Proof.
  destruct (ble_gattc_rx_write_rsp_ends nimble 1 4 (one_proc write_proc) []
              0%nat [] {| next := None; rec := write_proc |}
              {| write.att_handle := 9; write.cb := Some 40;
                 write.cb_arg := 0; write.om := None |}
              (nimble_cfg_ok _ _ _) (one_proc_queue _))
    as (w' & evs & Hrun & Htr & Hn & _ & Hq & _); try reflexivity.
  { intros b Hb. inversion Hb. }
  exists w'. split; [exact Hrun|]. split; [|exact Hq].
  cbn in Htr. rewrite Htr. exact Hn.
Defined.

(** X13: the Handle Value Confirmation for a connection and channel
    ends the indication in progress there.  When the server side
    accepts the acknowledgment (ble_gatts_rx_indicate_ack returns 0)
    the application is told that the indication is done
    (BLE_HS_EDONE) and the next pending indication is asked for;
    otherwise the application is told nothing.  In both cases the
    record is freed and nothing is transmitted by the engine. *)
Theorem ble_gatts_rx_indicate_rsp_ends P conn chan w l1 a l2 c s :
  platform_ok P ->
  is_queue (mem w) (ble_gattc_procs w) (l1 ++ a :: l2) ->
  (forall b, b ∈ l1 ->
     holds (mem w) (addressed conn chan BLE_GATT_OP_INDICATE) b = false) ->
  mem w !! a = Some c ->
  addressed conn chan BLE_GATT_OP_INDICATE (rec c) = true ->
  un (rec c) = U_indicate s ->
  let ack := ble_gatts_rx_indicate_ack P conn (indicate.chr_val_handle s) in
  exists w' evs,
    ble_gatts_rx_indicate_rsp P conn chan w = Ok (tt, w') /\
    trace (host w') = trace (host w) ++ evs /\
    notices evs
    = (if ack =? 0
       then [n_notify_tx (BLE_HS_EDONE P) conn (indicate.chr_val_handle s) 1]
       else []) ++ [n_free a] /\
    (ack = 0 <-> ev_gatts_send_next_indicate conn ∈ evs) /\
    transmitted evs = [] /\
    is_queue (mem w') (ble_gattc_procs w') (l1 ++ l2) /\
    mem w' !! a = None /\ pool_free w' = a :: pool_free w.
Proof.
  intros HP Hq Hl1 Hc Ha Hun ack.
  destruct (addressed_op _ _ _ _ Ha) as (Hconn & _ & Hop); [discriminate|].
  assert (proc_tagged (rec c)) as Htag
    by (unfold proc_tagged; now rewrite Hun, Hop).
  assert (BLE_HS_EDONE P <> 0) as Hnz by (destruct (pok_edone P HP); lia).
  assert (forall e, e ∈ free_events P a (rec c) ->
                    e <> ev_gatts_send_next_indicate conn) as Hfree.
  { intros e He ->. unfold free_events, eatt_release, owned in He.
    rewrite Hun in He. cbn in He.
    destruct (_ && _); repeat (apply elem_of_cons in He as [He|He];
                               [discriminate|]); inversion He. }
  assert (exists g' evs,
            ble_gatts_indicate_rx_rsp P (rec c) (host w) = Ok (tt, g') /\
            trace g' = trace (host w) ++ evs /\
            notices evs
            = (if ack =? 0
               then [n_notify_tx (BLE_HS_EDONE P) conn
                       (indicate.chr_val_handle s) 1]
               else []) /\
            (ack = 0 <-> ev_gatts_send_next_indicate conn ∈ evs) /\
            transmitted evs = [])
    as (g' & e1 & Hcb & Htr & Hn & Hnext & Ht).
  { unfold ble_gatts_indicate_rx_rsp. g_run. rewrite Hun, Hconn. fold ack.
    destruct (ack =? 0) eqn:Hack; cbn [negb]; g_run.
    - apply Z.eqb_eq in Hack. eexists _, _. split; [reflexivity|].
      cbn. rewrite <- !app_assoc. split; [reflexivity|].
      split; [reflexivity|]. split; [|reflexivity].
      split; [intros _|auto].
      do 2 apply list_elem_of_further. apply list_elem_of_here.
    - apply Z.eqb_neq in Hack. eexists _, _. split; [reflexivity|].
      cbn. split; [reflexivity|]. split; [reflexivity|].
      split; [|reflexivity]. split; [contradiction|].
      intros He. apply list_elem_of_singleton in He. discriminate. }
  destruct (extracted_and_freed P conn chan BLE_GATT_OP_INDICATE
              (fun r => ble_gatts_indicate_rx_rsp P r)
              (BLE_HS_EDONE P) w l1 a l2 c tt g' Hq Hl1 Hc Ha Htag Hnz Hcb)
    as (w' & Hrun & Hhost & Hq' & Hgone & _ & Hpool).
  exists w', (e1 ++ free_events P a (rec c)). split; [exact Hrun|].
  split; [rewrite Hhost; cbn; rewrite Htr; now rewrite <- app_assoc|].
  rewrite notices_app, transmitted_app, Hn, Ht, notices_free_events,
    transmitted_free_events.
  split; [reflexivity|]. split; [|auto]. rewrite Hnext. split.
  - intros He. apply elem_of_app. now left.
  - intros He. apply elem_of_app in He as [He|He]; [exact He|].
    now apply Hfree in He.
Qed.

Lemma ble_gatts_rx_indicate_rsp_ends_witness :
  exists w',
    ble_gatts_rx_indicate_rsp nimble 1 4 (one_proc indicate_proc)
    = Ok (tt, w') /\
    trace (host w')
    = [ev_gatts_rx_indicate_ack 1 12 0; ev_gap_notify_tx 14 1 12 1;
       ev_gatts_send_next_indicate 1; ev_memblock_put 0%nat] /\
    is_queue (mem w') (ble_gattc_procs w') [].
Proof.
  destruct (ble_gatts_rx_indicate_rsp_ends nimble 1 4 (one_proc indicate_proc)
              [] 0%nat [] {| next := None; rec := indicate_proc |}
              {| indicate.chr_val_handle := 12 |}
              (nimble_cfg_ok _ _ _) (one_proc_queue _))
    as (w' & evs & Hrun & Htr & Hn & _ & _ & Hq & _); try reflexivity.
  { intros b Hb. inversion Hb. }
  exists w'. split; [exact Hrun|]. split; [|exact Hq].
  vm_compute in Hrun. injection Hrun as <-. reflexivity.
Defined.

(** ** Execute Write responses *)

(** X14: an Execute Write response that arrives for a long write whose
    payload has not been sent completely ends the procedure without a
    word to the application: ble_gattc_write_long_rx_exec returns
    BLE_HS_EBADDATA without calling the callback, and
    ble_gattc_rx_exec_write_rsp frees the record and its payload.
    Nothing is transmitted. *)
Theorem ble_gattc_rx_exec_write_rsp_premature
    P conn chan st w l1 a l2 c s data :
  platform_ok P ->
  is_queue (mem w) (ble_gattc_procs w) (l1 ++ a :: l2) ->
  (forall b, b ∈ l1 ->
     holds (mem w) (rx_addressed P conn chan (ble_gattc_rx_exec_entries P)) b
     = false) ->
  mem w !! a = Some c ->
  conn_handle (rec c) = conn -> cid (rec c) = chan ->
  op (rec c) = BLE_GATT_OP_WRITE_LONG ->
  un (rec c) = U_write_long s ->
  om (write_long.attr s) = Some data ->
  offset (write_long.attr s) < OS_MBUF_PKTLEN data ->
  ble_gattc_write_long_rx_exec P (rec c) st (host w)
  = Ok ((BLE_HS_EBADDATA P, rec c), host w) /\
  exists w' evs,
    ble_gattc_rx_exec_write_rsp P conn chan st w = Ok (tt, w') /\
    trace (host w') = trace (host w) ++ evs /\
    notices evs = [n_free a] /\ transmitted evs = [] /\
    freed evs = [data] /\
    is_queue (mem w') (ble_gattc_procs w') (l1 ++ l2) /\
    mem w' !! a = None.
Proof.
  intros HP Hq Hl1 Hc Hconn Hcid Hop Hun Hom Hlt.
  assert (ble_gattc_write_long_rx_exec P (rec c) st (host w)
          = Ok ((BLE_HS_EBADDATA P, rec c), host w)) as Hh.
  { unfold ble_gattc_write_long_rx_exec. g_run. rewrite Hun, Hom.
    now rewrite (proj2 (Z.ltb_lt _ _) Hlt). }
  split; [exact Hh|].
  assert (proc_tagged (rec c)) as Htag
    by (unfold proc_tagged; now rewrite Hun, Hop).
  assert (BLE_HS_EBADDATA P <> 0) as Hnz
    by (destruct (pok_ebaddata P HP); lia).
  assert (rx_addressed P conn chan (ble_gattc_rx_exec_entries P) (rec c)
          = true) as Ha.
  { unfold rx_addressed. rewrite Hconn, Hcid, Hop, !Z.eqb_refl.
    rewrite orb_true_r. reflexivity. }
  destruct (extract_with_rx_entry_found P conn chan
              (ble_gattc_rx_exec_entries P) w l1 a l2 c Hq Hl1 Hc Ha)
    as (w1 & Hex & (Hhost & Hpool & Hcache) & Hr & Hk & Hnotin).
  destruct (same_recs_lookup _ _ a c Hr Hc) as (c1 & Hc1 & Hrec).
  rewrite Hop in Hex. cbn [ble_gattc_rx_entry_find ble_gattc_rx_exec_entries
                           fst Z.eqb BLE_GATT_OP_WRITE_LONG] in Hex.
  eexists _, (free_events P a (rec c)). split.
  - unfold ble_gattc_rx_exec_write_rsp.
    rewrite (bind_Ok _ _ _ _ _ Hex). cbv beta iota. cbn [snd].
    apply (rx_dispatch_done P w1 a c1
             (fun r => ble_gattc_write_long_rx_exec P r st)
             (BLE_HS_EBADDATA P) (rec c) (host w));
      [exact Hc1|now rewrite Hrec, Hhost|exact Hnz|exact Htag].
  - cbn. split; [reflexivity|].
    split; [apply notices_free_events|].
    split; [apply transmitted_free_events|]. split.
    + rewrite freed_free_events. unfold owned. now rewrite Hun, Hom.
    + split; [now apply is_queue_delete|apply lookup_delete_eq].
Qed.

Lemma ble_gattc_rx_exec_write_rsp_premature_witness :
  exists w',
    ble_gattc_rx_exec_write_rsp nimble 1 4 0 (one_proc write_long_proc)
    = Ok (tt, w') /\
    trace (host w')
    = [ev_mbuf_free (map Z.of_nat (seq 0 20)); ev_memblock_put 0%nat] /\
    is_queue (mem w') (ble_gattc_procs w') [].
Proof.
  destruct (ble_gattc_rx_exec_write_rsp_premature nimble 1 4 0
              (one_proc write_long_proc) [] 0%nat []
              {| next := None; rec := write_long_proc |}
              {| write_long.attr :=
                   {| handle := 9; offset := 0;
                      om := Some (map Z.of_nat (seq 0 20)) |};
                 write_long.length := 18;
                 write_long.cb := Some 50; write_long.cb_arg := 0 |}
              (map Z.of_nat (seq 0 20))
              (nimble_cfg_ok _ _ _) (one_proc_queue _))
    as (_ & w' & evs & Hrun & Htr & _ & _ & _ & Hq & _); try reflexivity.
  { intros b Hb. inversion Hb. }
  exists w'. split; [exact Hrun|]. split; [|exact Hq].
  vm_compute in Hrun. injection Hrun as <-. reflexivity.
Defined.

(** ** The end of a Read By Type response *)

Lemma rx_entry_done {A} P conn chan (entries : list (Z * A))
    (run : A -> ble_gattc_proc -> G (Z * ble_gattc_proc))
    w l1 a l2 c e rc g' :
  is_queue (mem w) (ble_gattc_procs w) (l1 ++ a :: l2) ->
  (forall b, b ∈ l1 ->
     holds (mem w) (rx_addressed P conn chan entries) b = false) ->
  mem w !! a = Some c -> rx_addressed P conn chan entries (rec c) = true ->
  ble_gattc_rx_entry_find (op (rec c)) entries = Some e ->
  run (snd e) (rec c) (host w) = Ok ((rc, rec c), g') ->
  rc <> 0 -> proc_tagged (rec c) ->
  exists w1 w',
    ble_gattc_extract_with_rx_entry P conn chan entries w
    = Ok ((Some a, Some e), w1) /\
    rx_dispatch P (Some a) (fun r => run (snd e) r) w1 = Ok (tt, w') /\
    host w' = set_trace (trace g' ++ free_events P a (rec c)) g' /\
    is_queue (mem w') (ble_gattc_procs w') (l1 ++ l2) /\
    mem w' !! a = None.
Proof.
  intros Hq Hl1 Hc Ha He Hrun Hrc Htag.
  destruct (extract_with_rx_entry_found P conn chan entries w l1 a l2 c
              Hq Hl1 Hc Ha)
    as (w1 & Hex & (Hhost & Hpool & Hcache) & Hr & Hk & Hnotin).
  destruct (same_recs_lookup _ _ a c Hr Hc) as (c1 & Hc1 & Hrec).
  rewrite He in Hex. eexists w1, _. split; [exact Hex|]. split.
  - apply (rx_dispatch_done P w1 a c1 (fun r => run (snd e) r) rc (rec c) g');
      [exact Hc1|now rewrite Hrec, Hhost|exact Hrc|exact Htag].
  - cbn. split; [reflexivity|].
    split; [now apply is_queue_delete|apply lookup_delete_eq].
Qed.

(** A handler whose remaining steps are one call of the callback of
    the record, if it has one. *)
Ltac told :=
  g_run;
  match goal with
  | |- context [match ?cb with Some _ => _ | None => _ end] => destruct cb
  end;
  g_run;
  [ eexists _, _; split; [reflexivity|]; split; [reflexivity|];
    split; reflexivity
  | eexists _, []; split; [reflexivity|]; rewrite app_nil_r;
    split; [reflexivity|]; split; reflexivity ].

(** X15: the end of a Read By Type response with a non-zero status
    ends the procedure that the response addresses (find included
    services, discover all characteristics, discover characteristics
    by UUID or read by UUID): its callback is called once with that
    status, the record is freed and nothing is transmitted.  For a read
    by UUID the end of the response ends the procedure also with
    status 0, and the callback is then told BLE_HS_EDONE. *)
Theorem ble_gattc_rx_read_type_complete_ends P conn chan st w l1 a l2 c :
  platform_ok P ->
  is_queue (mem w) (ble_gattc_procs w) (l1 ++ a :: l2) ->
  (forall b, b ∈ l1 ->
     holds (mem w)
       (rx_addressed P conn chan (ble_gattc_rx_read_type_complete_entries P))
       b = false) ->
  mem w !! a = Some c ->
  conn_handle (rec c) = conn -> cid (rec c) = chan ->
  proc_tagged (rec c) ->
  op (rec c) ∈ [BLE_GATT_OP_FIND_INC_SVCS; BLE_GATT_OP_DISC_ALL_CHRS;
                BLE_GATT_OP_DISC_CHR_UUID; BLE_GATT_OP_READ_UUID] ->
  st <> 0 \/ op (rec c) = BLE_GATT_OP_READ_UUID ->
  exists w' evs,
    ble_gattc_rx_read_type_complete P conn chan st w = Ok (tt, w') /\
    trace (host w') = trace (host w) ++ evs /\
    notices evs
    = terminal_notice (rec c) (if st =? 0 then BLE_HS_EDONE P else st)
      ++ [n_free a] /\
    transmitted evs = [] /\
    is_queue (mem w') (ble_gattc_procs w') (l1 ++ l2) /\
    mem w' !! a = None.
Proof.
  intros HP Hq Hl1 Hc Hconn Hcid Htag Hop Hst.
  assert (BLE_HS_EDONE P <> 0) as Hnz by (destruct (pok_edone P HP); lia).
  assert (exists e,
            ble_gattc_rx_entry_find (op (rec c))
              (ble_gattc_rx_read_type_complete_entries P) = Some e /\
            exists g' evs,
              snd e (rec c) st (host w) = Ok ((BLE_HS_EDONE P, rec c), g') /\
              trace g' = trace (host w) ++ evs /\
              notices evs
              = terminal_notice (rec c)
                  (if st =? 0 then BLE_HS_EDONE P else st) /\
              transmitted evs = [])
    as (e & He & g' & e1 & Hrun & Htr & Hn & Ht).
  { unfold proc_tagged in Htag. unfold terminal_notice.
    destruct (rec c) as [er x cn ci o f u]. cbn [op un conn_handle] in *.
    subst o.
    destruct u as [s|s|s|s|s|s|s|s|s|s|s|s|s|s|s]; cbn [op_of_union] in *;
      try destruct (read_mult.variable s);
      try solve [exfalso;
                 repeat (apply elem_of_cons in Hop as [Hop|Hop];
                         [vm_compute in Hop; discriminate|]);
                 inversion Hop];
      (eexists; split; [reflexivity|]); cbn [snd].
    - (* find included services *)
      destruct Hst as [Hst|Hst]; [|discriminate].
      unfold ble_gattc_find_inc_svcs_rx_complete, ble_gattc_find_inc_svcs_cb.
      rewrite (proj2 (Z.eqb_neq _ _) Hst). cbn [negb].
      rewrite ble_gattc_error_final. told.
    - (* discover all characteristics *)
      destruct Hst as [Hst|Hst]; [|discriminate].
      unfold ble_gattc_disc_all_chrs_rx_complete, ble_gattc_disc_all_chrs_cb.
      rewrite (proj2 (Z.eqb_neq _ _) Hst). cbn [negb].
      rewrite ble_gattc_error_final. told.
    - (* discover characteristics by UUID *)
      destruct Hst as [Hst|Hst]; [|discriminate].
      unfold ble_gattc_disc_chr_uuid_rx_complete, ble_gattc_disc_chr_uuid_cb.
      rewrite (proj2 (Z.eqb_neq _ _) Hst). cbn [negb].
      rewrite ble_gattc_error_final. told.
    - (* read by UUID *)
      unfold ble_gattc_read_uuid_rx_complete, ble_gattc_read_uuid_cb.
      destruct (st =? 0); cbn [negb]; rewrite ble_gattc_error_final; told. }
  assert (rx_addressed P conn chan (ble_gattc_rx_read_type_complete_entries P)
            (rec c) = true) as Ha.
  { unfold rx_addressed. rewrite Hconn, Hcid, !Z.eqb_refl, orb_true_r, He.
    reflexivity. }
  destruct (rx_entry_done P conn chan
              (ble_gattc_rx_read_type_complete_entries P)
              (fun f r => f r st) w l1 a l2 c e (BLE_HS_EDONE P) g'
              Hq Hl1 Hc Ha He Hrun Hnz Htag)
    as (w1 & w' & Hex & Hw' & Hhost & Hq' & Hgone).
  exists w', (e1 ++ free_events P a (rec c)). split.
  - unfold ble_gattc_rx_read_type_complete.
    rewrite (bind_Ok _ _ _ _ _ Hex). exact Hw'.
  - split; [rewrite Hhost; cbn; rewrite Htr; now rewrite <- app_assoc|].
    rewrite notices_app, transmitted_app, Hn, Ht, notices_free_events,
      transmitted_free_events. auto.
Qed.

Lemma ble_gattc_rx_read_type_complete_ends_witness :
  exists w',
    ble_gattc_rx_read_type_complete nimble 1 4 10 (one_proc chrs_proc)
    = Ok (tt, w') /\
    notices (trace (host w'))
    = [n_call (call_chr_fn 30 1 (final_error 10) 0); n_free 0%nat] /\
    is_queue (mem w') (ble_gattc_procs w') [].
Proof.
  destruct (ble_gattc_rx_read_type_complete_ends nimble 1 4 10
              (one_proc chrs_proc) [] 0%nat []
              {| next := None; rec := chrs_proc |}
              (nimble_cfg_ok _ _ _) (one_proc_queue _))
    as (w' & evs & Hrun & Htr & Hn & _ & Hq & _); try reflexivity.
  { intros b Hb. inversion Hb. }
  { apply list_elem_of_further, list_elem_of_here. }
  { left. discriminate. }
  exists w'. split; [exact Hrun|]. split; [|exact Hq].
  cbn in Htr. rewrite Htr. exact Hn.
Defined.

(** ** Follow-up requests *)

(** X16: when a Read By Group Type response ends with status 0 and the
    discovery of all services has not reached the handle 0xffff, the
    engine asks for the services after the last handle seen.  If the
    transport accepts the request the procedure goes back to the tail
    of the table with a fresh deadline of 30 seconds.  If the transport
    is out of memory the procedure goes back to the tail of the table
    stalled, with its deadline unchanged, and the resume timer is set
    (a time already set is kept).  In both cases no callback is
    called. *)
Theorem ble_gattc_rx_read_group_type_complete_follow_up
    P conn chan w l1 a l2 c s :
  platform_ok P ->
  is_queue (mem w) (ble_gattc_procs w) (l1 ++ a :: l2) ->
  (forall b, b ∈ l1 ->
     holds (mem w) (addressed conn chan BLE_GATT_OP_DISC_ALL_SVCS) b = false) ->
  mem w !! a = Some c ->
  addressed conn chan BLE_GATT_OP_DISC_ALL_SVCS (rec c) = true ->
  un (rec c) = U_disc_all_svcs s ->
  disc_all_svcs.prev_handle s <> 65535 ->
  stalled (rec c) = false ->
  let rc := hd 0 (tx_rcs (host w)) in
  rc = 0 \/ rc = BLE_HS_ENOMEM P ->
  exists w',
    ble_gattc_rx_read_group_type_complete P conn chan 0 w = Ok (tt, w') /\
    trace (host w')
    = trace (host w)
      ++ [ev_tx (tx_read_group_type conn chan
                   (u16 (disc_all_svcs.prev_handle s + 1)) 65535
                   (uuid16 (BLE_ATT_UUID_PRIMARY_SERVICE P))) rc;
          ev_hs_timer_resched] /\
    is_queue (mem w') (ble_gattc_procs w') ((l1 ++ l2) ++ [a]) /\
    rec <$> mem w' !! a
    = Some (if rc =? 0
            then set_exp_os_ticks
                   (u32 (now (host w) + ble_npl_time_ms_to_ticks32 P 30000))
                   (rec c)
            else set_flags (Z.lor (flags (rec c)) BLE_GATTC_PROC_F_STALLED)
                   (rec c)) /\
    (if rc =? 0
     then ble_gattc_resume_at (host w') = ble_gattc_resume_at (host w)
     else ble_gattc_resume_at (host w') <> 0 /\
          (ble_gattc_resume_at (host w) <> 0 ->
           ble_gattc_resume_at (host w') = ble_gattc_resume_at (host w))).
Proof.
  intros HP Hq Hl1 Hc Ha Hun Hprev Hst rc Hrc.
  destruct (addressed_op _ _ _ _ Ha) as (Hconn & Hcid & Hop); [discriminate|].
  assert (BLE_HS_ENOMEM P <> 0) as Hnz by (destruct (pok_enomem P HP); lia).
  assert (holds (mem w) (addressed conn chan BLE_GATT_OP_DISC_ALL_SVCS) a
          = true) as Ha' by (unfold holds; now rewrite Hc).
  destruct (extract_first_found conn chan BLE_GATT_OP_DISC_ALL_SVCS w l1 a l2
              Hq Hl1 Ha')
    as (w1 & Hex & (Hhost & Hpool & Hcache) & Hr & Hk & Hnotin).
  destruct (same_recs_lookup _ _ a c Hr Hc) as (c1 & Hc1 & Hrec).
  set (req := tx_read_group_type conn chan
                (u16 (disc_all_svcs.prev_handle s + 1)) 65535
                (uuid16 (BLE_ATT_UUID_PRIMARY_SERVICE P))).
  assert (exists r' g',
            ble_gattc_disc_all_svcs_rx_complete P (rec c1) 0 (host w1)
            = Ok ((0, r'), g') /\
            trace g' = trace (host w) ++ [ev_tx req rc] /\
            now g' = now (host w) /\
            r' = (if rc =? 0 then rec c
                  else set_flags
                         (Z.lor (flags (rec c)) BLE_GATTC_PROC_F_STALLED)
                         (rec c)) /\
            (if rc =? 0
             then ble_gattc_resume_at g' = ble_gattc_resume_at (host w)
             else ble_gattc_resume_at g' <> 0 /\
                  (ble_gattc_resume_at (host w) <> 0 ->
                   ble_gattc_resume_at g' = ble_gattc_resume_at (host w))))
    as (r' & g' & Hh & Htr & Hnow & Hr' & Hat).
  { rewrite Hrec, Hhost.
    unfold ble_gattc_disc_all_svcs_rx_complete. cbn [negb Z.eqb].
    g_run. rewrite Hun.
    rewrite (proj2 (Z.eqb_neq _ _) Hprev).
    unfold ble_gattc_disc_all_svcs_resume, ble_gattc_disc_all_svcs_tx.
    g_run. rewrite Hun, Hconn, Hcid. fold req. fold rc.
    unfold ble_gattc_process_resume_status.
    destruct Hrc as [Hrc|Hrc]; rewrite Hrc.
    - cbn [Z.eqb]. g_run. cbn [negb Z.eqb]. eexists _, _.
      split; [reflexivity|]. cbn. auto.
    - rewrite (proj2 (Z.eqb_neq _ _) Hnz), Z.eqb_refl.
      destruct (ble_gattc_proc_set_resume_timer_arms_aux P (rec c)
                  (set_trace (trace (host w) ++ [ev_tx req (BLE_HS_ENOMEM P)])
                     (set_tx_rcs (tl (tx_rcs (host w))) (host w))))
        as (g2 & Hset & Hne & Hkeep & Htr2 & Hnow2).
      g_run. rewrite Hset. cbn [negb Z.eqb]. eexists _, _.
      split; [reflexivity|]. rewrite Htr2, Hnow2. cbn.
      split; [reflexivity|]. split; [reflexivity|]. split; [reflexivity|].
      split; [exact Hne|exact Hkeep]. }
  assert (is_queue (mem w1) (ble_gattc_procs w1) (l1 ++ l2)) as Hk' by exact Hk.
  destruct (rx_dispatch_run P w1 a c1
              (fun r => ble_gattc_disc_all_svcs_rx_complete P r 0) 0 r' g'
              (l1 ++ l2) Hc1 Hk' Hnotin Hh) as [Hzero _].
  destruct (Hzero eq_refl) as (w' & Hrun & Hq' & Hreca & _ & Hs).
  exists w'. split.
  { unfold ble_gattc_rx_read_group_type_complete.
    now rewrite (bind_Ok _ _ _ _ _ Hex). }
  destruct Hs as (Htr' & Hnow' & _ & Hat').
  split; [rewrite Htr', Htr; now rewrite <- app_assoc|].
  split; [exact Hq'|]. split.
  - rewrite Hreca, Hr', Hnow. destruct (rc =? 0).
    + now rewrite Hst.
    + unfold stalled. cbn [flags set_flags]. now rewrite stalled_lor.
  - rewrite Hat'. exact Hat.
Qed.

Lemma ble_gattc_rx_read_group_type_complete_follow_up_witness :
  exists w',
    ble_gattc_rx_read_group_type_complete nimble 1 4 0
      (set_host (host_at 7 [6] []) (one_proc disc_proc)) = Ok (tt, w') /\
    rec <$> mem w' !! 0%nat = Some (set_flags 1 disc_proc) /\
    ble_gattc_resume_at (host w') = 1007 /\
    trace (host w')
    = [ev_tx (tx_read_group_type 1 4 11 65535 (uuid16 10240)) 6;
       ev_hs_timer_resched].
Proof.
  destruct (ble_gattc_rx_read_group_type_complete_follow_up nimble 1 4
              (set_host (host_at 7 [6] []) (one_proc disc_proc)) [] 0%nat []
              {| next := None; rec := disc_proc |}
              {| disc_all_svcs.prev_handle := 10;
                 disc_all_svcs.cb := Some 100; disc_all_svcs.cb_arg := 0 |}
              (nimble_cfg_ok _ _ _) (one_proc_queue _))
    as (w' & Hrun & Htr & _ & Hrec & _); try reflexivity.
  { intros b Hb. inversion Hb. }
  { discriminate. }
  { now right. }
  exists w'. split; [exact Hrun|]. split; [exact Hrec|].
  split; [|exact Htr].
  vm_compute in Hrun. injection Hrun as <-. reflexivity.
Defined.

(** ** Discovery of a service by UUID *)

(** The handler of one handles-information entry: an entry beyond the
    last handle seen is reported with the UUID searched for and
    recorded; any other entry is reported as BLE_HS_EBADDATA. *)
Lemma ble_gattc_disc_svc_uuid_rx_hinfo_run P r s hinfo g :
  platform_ok P ->
  un r = U_disc_svc_uuid s ->
  let told st svc :=
    match disc_svc_uuid.cb s with
    | Some fn => [n_call (call_disc_svc_fn fn (conn_handle r)
                            (final_error st) (Some svc)
                            (disc_svc_uuid.cb_arg s))]
    | None => []
    end in
  exists rc r' g' evs,
    ble_gattc_disc_svc_uuid_rx_hinfo P r hinfo g = Ok ((rc, r'), g') /\
    host_step g g' evs /\ transmitted evs = [] /\
    (hinfo_group_end_handle hinfo <= disc_svc_uuid.prev_handle s ->
     rc = BLE_HS_EDONE P /\ r' = r /\
     notices evs
     = told (BLE_HS_EBADDATA P)
         {| start_handle := None; end_handle := None; uuid := None |}) /\
    (disc_svc_uuid.prev_handle s < hinfo_group_end_handle hinfo ->
     rc = (if answer (disc_svc_uuid.cb s) g =? 0 then 0 else BLE_HS_EDONE P) /\
     r' = set_un (U_disc_svc_uuid
                    (set_disc_svc_uuid_prev_handle
                       (hinfo_group_end_handle hinfo) s)) r /\
     notices evs
     = told 0 {| start_handle := Some (hinfo_attr_handle hinfo);
                 end_handle := Some (hinfo_group_end_handle hinfo);
                 uuid := Some (disc_svc_uuid.service_uuid s) |}).
Proof.
  intros HP Hun told.
  assert (Hnz : (BLE_HS_EBADDATA P =? 0) = false).
  { apply Z.eqb_neq. pose proof (pok_ebaddata P HP) as [? _]. lia. }
  unfold ble_gattc_disc_svc_uuid_rx_hinfo, ble_gattc_disc_svc_uuid_cb.
  g_run. rewrite Hun.
  destruct (hinfo_group_end_handle hinfo <=? disc_svc_uuid.prev_handle s)
    eqn:Hord; [apply Z.leb_le in Hord|apply Z.leb_gt in Hord].
  - cbn [un]. rewrite Hun. rewrite ble_gattc_error_final. subst told.
    destruct (disc_svc_uuid.cb s) as [fn|]; g_run.
    + eexists _, _, _, _.
      split; [rewrite Hnz; reflexivity|].
      split; [host_step_tac|].
      split; [reflexivity|]. split; [auto|]. intros; lia.
    + eexists _, _, _, [].
      split; [rewrite Hnz; reflexivity|].
      split; [host_step_tac|].
      split; [reflexivity|]. split; [auto|]. intros; lia.
  - cbn [un set_un conn_handle disc_svc_uuid.cb disc_svc_uuid.cb_arg
         set_disc_svc_uuid_prev_handle].
    rewrite ble_gattc_error_final. subst told. unfold answer.
    destruct (disc_svc_uuid.cb s) as [fn|]; g_run.
    + destruct (hd 0 (cb_rcs g) =? 0); cbn [negb orb Z.eqb];
        (eexists _, _, _, _; split; [reflexivity|];
         split; [host_step_tac|]; split; [reflexivity|];
         split; [intros; lia|auto]).
    + cbn [negb orb Z.eqb].
      eexists _, _, _, []. split; [reflexivity|].
      split; [host_step_tac|]. split; [reflexivity|].
      split; [intros; lia|auto].
Qed.

(** X17: an entry of a Find By Type Value response that lies beyond
    the last handle seen by the discovery of a service by UUID is
    reported to the callback as a service with the UUID searched for;
    if the callback returns 0 the record goes back to the tail of the
    table with the end handle of the entry as its last handle seen,
    and a fresh deadline of 30 seconds unless it is stalled.  An entry
    that does not lie beyond the last handle seen is reported as
    BLE_HS_EBADDATA, with a service whose fields are absent.  In that
    case, and when the callback returns non-zero, the record is freed.
    Nothing is transmitted. *)
Theorem ble_gattc_rx_find_type_value_hinfo_in_order
    P conn chan hinfo w l1 a l2 c s :
  platform_ok P ->
  is_queue (mem w) (ble_gattc_procs w) (l1 ++ a :: l2) ->
  (forall b, b ∈ l1 ->
     holds (mem w) (addressed conn chan BLE_GATT_OP_DISC_SVC_UUID) b = false) ->
  mem w !! a = Some c ->
  addressed conn chan BLE_GATT_OP_DISC_SVC_UUID (rec c) = true ->
  un (rec c) = U_disc_svc_uuid s ->
  let told st svc :=
    match disc_svc_uuid.cb s with
    | Some fn => [n_call (call_disc_svc_fn fn conn (final_error st) (Some svc)
                            (disc_svc_uuid.cb_arg s))]
    | None => []
    end in
  let in_order :=
    disc_svc_uuid.prev_handle s <? hinfo_group_end_handle hinfo in
  let goes_on :=
    in_order && (answer (disc_svc_uuid.cb s) (host w) =? 0) in
  let r' := set_un (U_disc_svc_uuid
                      (set_disc_svc_uuid_prev_handle
                         (hinfo_group_end_handle hinfo) s)) (rec c) in
  exists w' evs,
    ble_gattc_rx_find_type_value_hinfo P conn chan hinfo w = Ok (tt, w') /\
    trace (host w') = trace (host w) ++ evs /\
    transmitted evs = [] /\
    notices evs
    = (if in_order
       then told 0 {| start_handle := Some (hinfo_attr_handle hinfo);
                      end_handle := Some (hinfo_group_end_handle hinfo);
                      uuid := Some (disc_svc_uuid.service_uuid s) |}
       else told (BLE_HS_EBADDATA P)
              {| start_handle := None; end_handle := None; uuid := None |})
      ++ (if goes_on then [] else [n_free a]) /\
    (if goes_on
     then is_queue (mem w') (ble_gattc_procs w') ((l1 ++ l2) ++ [a]) /\
          rec <$> mem w' !! a
          = Some (if stalled (rec c) then r'
                  else set_exp_os_ticks
                         (u32 (now (host w)
                               + ble_npl_time_ms_to_ticks32 P 30000)) r')
     else is_queue (mem w') (ble_gattc_procs w') (l1 ++ l2) /\
          mem w' !! a = None).
Proof.
  intros HP Hq Hl1 Hc Ha Hun told in_order goes_on r'.
  destruct (addressed_op _ _ _ _ Ha) as (Hconn & Hcid & Hop); [discriminate|].
  assert (BLE_HS_EDONE P <> 0) as Hnz by (destruct (pok_edone P HP); lia).
  assert (holds (mem w) (addressed conn chan BLE_GATT_OP_DISC_SVC_UUID) a
          = true) as Ha' by (unfold holds; now rewrite Hc).
  destruct (extract_first_found conn chan BLE_GATT_OP_DISC_SVC_UUID w l1 a l2
              Hq Hl1 Ha')
    as (w1 & Hex & (Hhost & Hpool & Hcache) & Hr & Hk & Hnotin).
  destruct (same_recs_lookup _ _ a c Hr Hc) as (c1 & Hc1 & Hrec).
  destruct (ble_gattc_disc_svc_uuid_rx_hinfo_run P (rec c) s hinfo (host w)
              HP Hun)
    as (rc & r1 & g' & evs & Hh & (Htr & Hnow & _ & Hat) & Htx & Hbad & Hgood).
  rewrite Hconn in Hbad, Hgood. fold told in Hbad, Hgood.
  assert (ble_gattc_disc_svc_uuid_rx_hinfo P (rec c1) hinfo (host w1)
          = Ok ((rc, r1), g')) as Hh1 by (now rewrite Hrec, Hhost).
  assert (is_queue (mem w1) (ble_gattc_procs w1) (l1 ++ l2)) as Hk' by exact Hk.
  destruct (rx_dispatch_run P w1 a c1
              (fun r => ble_gattc_disc_svc_uuid_rx_hinfo P r hinfo) rc r1 g'
              (l1 ++ l2) Hc1 Hk' Hnotin Hh1) as [Hzero Hdone].
  assert (forall w', 
            rx_dispatch P (Some a)
              (fun r => ble_gattc_disc_svc_uuid_rx_hinfo P r hinfo) w1
            = Ok (tt, w') ->
            ble_gattc_rx_find_type_value_hinfo P conn chan hinfo w
            = Ok (tt, w')) as Hentry.
  { intros w' Hrun. unfold ble_gattc_rx_find_type_value_hinfo.
    now rewrite (bind_Ok _ _ _ _ _ Hex). }
  assert (proc_tagged r') as Htag'.
  { unfold proc_tagged, r'. cbn. exact Hop. }
  assert (proc_tagged (rec c)) as Htag.
  { unfold proc_tagged. rewrite Hun. exact Hop. }
  subst goes_on in_order r'.
  destruct (disc_svc_uuid.prev_handle s <? hinfo_group_end_handle hinfo)
    eqn:Hord; [apply Z.ltb_lt in Hord|apply Z.ltb_ge in Hord]; cbn [andb].
  - destruct (Hgood Hord) as (Hrc & -> & Hn).
    destruct (answer (disc_svc_uuid.cb s) (host w) =? 0) eqn:Hans.
    + subst rc. destruct (Hzero eq_refl) as (w' & Hrun & Hq' & Hreca & _ & Hs).
      destruct Hs as (Htr' & _).
      exists w', (evs ++ [ev_hs_timer_resched]).
      split; [now apply Hentry|].
      split; [rewrite Htr', Htr; now rewrite <- app_assoc|].
      split; [rewrite transmitted_app, Htx; reflexivity|].
      split; [rewrite notices_app, Hn; reflexivity|].
      split; [exact Hq'|]. rewrite Hreca, Hnow.
      unfold stalled. reflexivity.
    + subst rc.
      destruct (Hdone Hnz Htag') as (w' & evs2 & Hrun & Hm & Hp & Hs & Hn2 & Ht2).
      destruct Hs as (Htr' & _).
      exists w', (evs ++ evs2).
      split; [now apply Hentry|].
      split; [rewrite Htr', Htr; now rewrite <- app_assoc|].
      split; [rewrite transmitted_app, Htx, Ht2; reflexivity|].
      split; [rewrite notices_app, Hn, Hn2; reflexivity|].
      split; [rewrite Hm, Hp; now apply is_queue_delete|].
      rewrite Hm. apply lookup_delete_eq.
  - destruct (Hbad Hord) as (-> & -> & Hn).
    destruct (Hdone Hnz Htag) as (w' & evs2 & Hrun & Hm & Hp & Hs & Hn2 & Ht2).
    destruct Hs as (Htr' & _).
    exists w', (evs ++ evs2).
    split; [now apply Hentry|].
    split; [rewrite Htr', Htr; now rewrite <- app_assoc|].
    split; [rewrite transmitted_app, Htx, Ht2; reflexivity|].
    split; [rewrite notices_app, Hn, Hn2; reflexivity|].
    split; [rewrite Hm, Hp; now apply is_queue_delete|].
    rewrite Hm. apply lookup_delete_eq.
Qed.

Lemma ble_gattc_rx_find_type_value_hinfo_in_order_witness :
  let r := {| error := {| status := 0; att_handle := 0 |};
              exp_os_ticks := 30000; conn_handle := 1; cid := 4;
              op := BLE_GATT_OP_DISC_SVC_UUID; flags := 0;
              un := U_disc_svc_uuid
                      {| disc_svc_uuid.service_uuid := uuid16 6159;
                         disc_svc_uuid.prev_handle := 20;
                         disc_svc_uuid.cb := Some 100;
                         disc_svc_uuid.cb_arg := 0 |} |} in
  (exists w',
     ble_gattc_rx_find_type_value_hinfo nimble 1 4
       {| hinfo_attr_handle := 21; hinfo_group_end_handle := 30 |}
       (one_proc r) = Ok (tt, w') /\
     notices (trace (host w'))
     = [n_call (call_disc_svc_fn 100 1 (final_error 0)
                  (Some {| start_handle := Some 21; end_handle := Some 30;
                           uuid := Some (uuid16 6159) |}) 0)]) /\
  (exists w',
     ble_gattc_rx_find_type_value_hinfo nimble 1 4
       {| hinfo_attr_handle := 12; hinfo_group_end_handle := 20 |}
       (one_proc r) = Ok (tt, w') /\
     notices (trace (host w'))
     = [n_call (call_disc_svc_fn 100 1 (final_error 10)
                  (Some {| start_handle := None; end_handle := None;
                           uuid := None |}) 0);
        n_free 0%nat]).
Proof.
  intros r. split.
  - destruct (ble_gattc_rx_find_type_value_hinfo_in_order nimble 1 4
                {| hinfo_attr_handle := 21; hinfo_group_end_handle := 30 |}
                (one_proc r) [] 0%nat [] {| next := None; rec := r |}
                {| disc_svc_uuid.service_uuid := uuid16 6159;
                   disc_svc_uuid.prev_handle := 20;
                   disc_svc_uuid.cb := Some 100;
                   disc_svc_uuid.cb_arg := 0 |}
                (nimble_cfg_ok _ _ _) (one_proc_queue _))
      as (w' & evs & Hrun & Htr & _ & Hn & _); try reflexivity.
    { intros b Hb. inversion Hb. }
    exists w'. split; [exact Hrun|].
    cbn in Htr. rewrite Htr. exact Hn.
  - destruct (ble_gattc_rx_find_type_value_hinfo_in_order nimble 1 4
                {| hinfo_attr_handle := 12; hinfo_group_end_handle := 20 |}
                (one_proc r) [] 0%nat [] {| next := None; rec := r |}
                {| disc_svc_uuid.service_uuid := uuid16 6159;
                   disc_svc_uuid.prev_handle := 20;
                   disc_svc_uuid.cb := Some 100;
                   disc_svc_uuid.cb_arg := 0 |}
                (nimble_cfg_ok _ _ _) (one_proc_queue _))
      as (w' & evs & Hrun & Htr & _ & Hn & _); try reflexivity.
    { intros b Hb. inversion Hb. }
    exists w'. split; [exact Hrun|].
    cbn in Htr. rewrite Htr. exact Hn.
Defined.

(** ** The transmit queue of a broken connection *)

Lemma free_mbufs_trace l g :
  free_mbufs l g = Ok (tt, set_trace (trace g ++ map ev_mbuf_free l) g).
Proof.
  revert g. induction l as [|d l IH]; intros g; cbn [free_mbufs map].
  - unfold ret. rewrite app_nil_r. now destruct g.
  - rewrite (bind_Ok _ _ _ _ _ (os_mbuf_free_chain_trace (Some d) g)).
    rewrite IH. cbn. now rewrite <- app_assoc.
Qed.

(** X18: after failing the procedures of the connection,
    ble_gattc_connection_broken frees every buffer queued for
    transmission on the connection, each once and in the order of the
    queue, and leaves the queue empty; the other data of the
    connection and the other connections are as before.  The
    connection is used without a test: for a handle that
    ble_hs_conn_find does not know the call reads through a null
    pointer. *)
Theorem ble_gattc_connection_broken_drains_tx_queue P conn w l :
  platform_ok P ->
  is_queue (mem w) (ble_gattc_procs w) l ->
  (forall a c, a ∈ l -> mem w !! a = Some c -> proc_wf (rec c)) ->
  match hs_conns (host w) !! conn with
  | Some cn =>
      exists w' pre,
        ble_gattc_connection_broken P conn w = Ok (tt, w') /\
        trace (host w')
        = trace (host w) ++ pre ++ map ev_mbuf_free (att_tx_q cn) /\
        notices pre
        = ended (mem w) (BLE_HS_ENOTCONN P) (fun _ => [])
            (List.filter (holds (mem w) (on_conn conn)) l) /\
        hs_conns (host w')
        = <[conn := {| att_tx_q := [];
                       peer_cl_sup_feat_0 := peer_cl_sup_feat_0 cn;
                       indicate_val_handle := indicate_val_handle cn |}]>
            (hs_conns (host w))
  | None => ble_gattc_connection_broken P conn w = Fault NullDeref
  end.
Proof.
  intros HP Hq Hwf.
  destruct (ble_gattc_fail_procs_spec P conn w l HP Hq Hwf)
    as (w1 & e1 & Hrun & (Htr & _ & Hcn & _) & N1 & _).
  assert (ble_gattc_connection_broken P conn w
          = match hs_conns (host w) !! conn with
              | Some c =>
                  bind (lift (free_mbufs (att_tx_q c)))
                    (fun _ => lift (modify (fun g =>
                       set_hs_conns
                         (<[conn := {| att_tx_q := [];
                                       peer_cl_sup_feat_0 :=
                                         peer_cl_sup_feat_0 c;
                                       indicate_val_handle :=
                                         indicate_val_handle c |}]>
                            (hs_conns g)) g))) w1
              | None => Fault NullDeref
              end) as Hbody.
  { unfold ble_gattc_connection_broken.
    rewrite (bind_Ok _ _ _ _ _ Hrun). cbv beta.
    unfold bind at 1, get at 1. rewrite Hcn.
    now destruct (hs_conns (host w) !! conn). }
  rewrite Hbody.
  destruct (hs_conns (host w) !! conn) as [cn|]; [|reflexivity].
  rewrite (bind_Ok _ _ _ _ _ (lift_Ok _ _ _ _ (free_mbufs_trace _ _))).
  eexists _, e1. split; [reflexivity|]. cbn.
  rewrite Htr, Hcn, <- app_assoc. auto.
Qed.

Lemma ble_gattc_connection_broken_drains_tx_queue_witness :
  let q : list os_mbuf := [[1; 2]; [3]] in
  let cn := {| att_tx_q := q; peer_cl_sup_feat_0 := 4;
               indicate_val_handle := 0 |} in
  let w := set_host (set_hs_conns {[ 1 := cn ]} (host_at 0 [] []))
             (one_proc (mtu_proc 1 8)) in
  exists w',
    ble_gattc_connection_broken nimble 1 w = Ok (tt, w') /\
    freed (trace (host w')) = q /\
    (att_tx_q <$> hs_conns (host w') !! 1) = Some [].
Proof.
  intros q cn w.
  pose proof (ble_gattc_connection_broken_drains_tx_queue nimble 1 w
                [0%nat] (nimble_cfg_ok _ _ _) (one_proc_queue _)) as H.
  destruct H as (w' & pre & Hrun & Htr & _ & Hcn).
  { intros a c Ha Hc. apply list_elem_of_singleton in Ha as ->.
    vm_compute in Hc. injection Hc as <-. vm_compute. auto. }
  exists w'. split; [exact Hrun|].
  vm_compute in Hrun. injection Hrun as <-. split; reflexivity.
Defined.

(** ** ATT error responses *)

Lemma ble_gattc_error_done P h :
  ble_gattc_error P (BLE_HS_EDONE P) h = final_error (BLE_HS_EDONE P).
Proof.
  unfold ble_gattc_error, final_error. now rewrite Z.eqb_refl, orb_true_r.
Qed.

Lemma err_dispatch_not_found P r h g :
  platform_ok P -> proc_tagged r -> discovering r = true ->
  exists fn,
    ble_gattc_err_dispatch_get P (op r) g = Ok (Some fn, g) /\
    exists g' evs,
      fn r (BLE_HS_ERR_ATT_BASE P + BLE_ATT_ERR_ATTR_NOT_FOUND P) h g
      = Ok (tt, g') /\
      host_step g g' evs /\
      notices evs = terminal_notice r (BLE_HS_EDONE P) /\
      transmitted evs = [].
Proof.
  intros HP Htag Hd. pose proof (pok_edone P HP) as Hc.
  pose proof (hs_code_u16 P _ HP Hc) as Hu.
  assert ((BLE_HS_ERR_ATT_BASE P + BLE_ATT_ERR_ATTR_NOT_FOUND P
           =? BLE_HS_ATT_ERR P (BLE_ATT_ERR_ATTR_NOT_FOUND P)) = true) as Hnf.
  { unfold BLE_HS_ATT_ERR. pose proof (pok_not_found P HP).
    destruct (Z.eqb_spec (BLE_ATT_ERR_ATTR_NOT_FOUND P) 0); [lia|].
    apply Z.eqb_refl. }
  destruct r as [e x c ci o f u]. unfold proc_tagged in Htag. simpl in Htag.
  subst o. unfold terminal_notice, discovering in *. cbn [un conn_handle] in *.
  destruct u as [s|s|s|s|s|s|s|s|s|s|s|s|s|s|s]; try discriminate.
  - exists (ble_gattc_disc_all_svcs_err P). split; [reflexivity|].
    unfold ble_gattc_disc_all_svcs_err, ble_gattc_disc_all_svcs_cb.
    rewrite Hnf, Hu, ble_gattc_error_done. g_run.
    destruct (disc_all_svcs.cb s); g_run;
      eexists _, _; (split; [reflexivity|]); (split; [host_step_tac|]);
      split; reflexivity.
  - exists (ble_gattc_disc_svc_uuid_err P). split; [reflexivity|].
    unfold ble_gattc_disc_svc_uuid_err, ble_gattc_disc_svc_uuid_cb.
    rewrite Hnf, ble_gattc_error_done. g_run.
    destruct (disc_svc_uuid.cb s); g_run;
      eexists _, _; (split; [reflexivity|]); (split; [host_step_tac|]);
      split; reflexivity.
  - exists (ble_gattc_find_inc_svcs_err P). split; [reflexivity|].
    unfold ble_gattc_find_inc_svcs_err, ble_gattc_find_inc_svcs_cb. g_run.
    rewrite Hnf, Hd. cbn [andb]. rewrite ble_gattc_error_done.
    destruct (find_inc_svcs.cb s); g_run;
      eexists _, _; (split; [reflexivity|]); (split; [host_step_tac|]);
      split; reflexivity.
  - exists (ble_gattc_disc_all_chrs_err P). split; [reflexivity|].
    unfold ble_gattc_disc_all_chrs_err, ble_gattc_disc_all_chrs_cb.
    rewrite Hnf, ble_gattc_error_done. g_run.
    destruct (disc_all_chrs.cb s); g_run;
      eexists _, _; (split; [reflexivity|]); (split; [host_step_tac|]);
      split; reflexivity.
  - exists (ble_gattc_disc_chr_uuid_err P). split; [reflexivity|].
    unfold ble_gattc_disc_chr_uuid_err, ble_gattc_disc_chr_uuid_cb.
    rewrite Hnf, ble_gattc_error_done. g_run.
    destruct (disc_chr_uuid.cb s); g_run;
      eexists _, _; (split; [reflexivity|]); (split; [host_step_tac|]);
      split; reflexivity.
  - exists (ble_gattc_disc_all_dscs_err P). split; [reflexivity|].
    unfold ble_gattc_disc_all_dscs_err, ble_gattc_disc_all_dscs_cb.
    rewrite Hnf, ble_gattc_error_done. g_run.
    destruct (disc_all_dscs.cb s); g_run;
      eexists _, _; (split; [reflexivity|]); (split; [host_step_tac|]);
      split; reflexivity.
Qed.

(** X19: without BLE_GATTC_AUTO_PAIR, an ATT error response with the
    code Attribute Not Found is the regular end of a discovery: the
    first procedure of the table on the connection and channel of the
    response, when it is a discovery, has its callback called once
    with BLE_HS_EDONE and the handle 0, not with the error and the
    handle of the response; its record is freed and nothing is
    transmitted. *)
Theorem ble_gattc_rx_err_not_found_ends_discovery
    P conn chan h w l1 a l2 c :
  platform_ok P ->
  BLE_GATTC_AUTO_PAIR P = false ->
  is_queue (mem w) (ble_gattc_procs w) (l1 ++ a :: l2) ->
  (forall b, b ∈ l1 ->
     holds (mem w) (addressed conn chan BLE_GATT_OP_NONE) b = false) ->
  mem w !! a = Some c ->
  addressed conn chan BLE_GATT_OP_NONE (rec c) = true ->
  proc_tagged (rec c) ->
  discovering (rec c) = true ->
  exists w' evs,
    ble_gattc_rx_err P conn chan h (BLE_ATT_ERR_ATTR_NOT_FOUND P) w
    = Ok (tt, w') /\
    trace (host w') = trace (host w) ++ evs /\
    notices evs = terminal_notice (rec c) (BLE_HS_EDONE P) ++ [n_free a] /\
    transmitted evs = [] /\
    is_queue (mem w') (ble_gattc_procs w') (l1 ++ l2) /\
    mem w' !! a = None.
Proof.
  intros HP Hauto Hq Hl1 Hc Ha Htag Hd.
  assert (holds (mem w) (addressed conn chan BLE_GATT_OP_NONE) a = true)
    as Ha' by (unfold holds; now rewrite Hc).
  destruct (extract_first_found conn chan BLE_GATT_OP_NONE w l1 a l2
              Hq Hl1 Ha')
    as (w1 & Hex & (Hhost & Hpool & Hcache) & Hr & Hk & Hnotin).
  destruct (same_recs_lookup _ _ a c Hr Hc) as (c1 & Hc1 & Hrec).
  destruct (err_dispatch_not_found P (rec c) h (host w) HP Htag Hd)
    as (fn & Hget & g' & evs & Hfn & (Htr & _) & Hn & Htx).
  set (w2 := set_host g' w1).
  assert (mem w2 !! a = Some c1) as Hc2 by exact Hc1.
  assert (proc_tagged (rec c1)) as Htag1 by now rewrite Hrec.
  eexists _, (evs ++ free_events P a (rec c)). split.
  { unfold ble_gattc_rx_err. rewrite (bind_Ok _ _ _ _ _ Hex). cbv beta.
    rewrite Hauto. unfold bind at 1, ret at 1. unfold bind at 1, ret at 1.
    rewrite (bind_Ok _ _ _ _ _ (load_rec_run w1 a c1 Hc1)). cbv beta.
    rewrite Hrec. rewrite <- Hhost in Hget, Hfn.
    rewrite (bind_Ok _ _ _ _ _ (lift_Ok _ _ _ _ Hget)). cbv beta.
    assert (set_host (host w1) w1 = w1) as -> by now destruct w1.
    rewrite (bind_Ok _ _ _ _ _ (lift_Ok _ _ _ _ Hfn)). fold w2.
    apply (ble_gattc_proc_free_run P w2 a c1 Hc2 Htag1). }
  cbn. rewrite Hrec, Htr, <- app_assoc. split; [reflexivity|].
  rewrite notices_app, transmitted_app, Hn, Htx,
    notices_free_events, transmitted_free_events.
  split; [reflexivity|]. split; [reflexivity|].
  split; [now apply is_queue_delete|apply lookup_delete_eq].
Qed.

Lemma ble_gattc_rx_err_not_found_ends_discovery_witness :
  exists w',
    ble_gattc_rx_err nimble 1 4 11 10 (one_proc disc_proc) = Ok (tt, w') /\
    notices (trace (host w'))
    = [n_call (call_disc_svc_fn 100 1 (final_error 14) None 0);
       n_free 0%nat] /\
    ble_gattc_procs w' = STAILQ_INIT.
Proof.
  destruct (ble_gattc_rx_err_not_found_ends_discovery nimble 1 4 11
              (one_proc disc_proc) [] 0%nat []
              {| next := None; rec := disc_proc |}
              (nimble_cfg_ok _ _ _) eq_refl (one_proc_queue _))
    as (w' & evs & Hrun & Htr & Hn & _); try reflexivity.
  { intros b Hb. inversion Hb. }
  exists w'. split; [exact Hrun|]. split.
  - cbn in Htr. rewrite Htr. exact Hn.
  - vm_compute in Hrun. injection Hrun as <-. reflexivity.
Defined.

(** ** Parking a procedure until the link is secured *)

Lemma extract_first_found_frame conn chan opcode w l1 a l2 :
  is_queue (mem w) (ble_gattc_procs w) (l1 ++ a :: l2) ->
  (forall b, b ∈ l1 -> holds (mem w) (addressed conn chan opcode) b = false) ->
  holds (mem w) (addressed conn chan opcode) a = true ->
  exists w',
    ble_gattc_extract_first_by_conn_cid_op conn chan opcode w
    = Ok (Some a, w') /\
    same_host w w' /\ same_recs (mem w) (mem w') /\
    is_queue (mem w') (ble_gattc_procs w') (l1 ++ l2) /\
    (forall b, b ∉ l1 ++ a :: l2 -> mem w' !! b = mem w !! b).
Proof.
  intros Hq Hno Ha.
  set (crit := {| crit_conn_handle := conn; crit_psm := chan;
                  crit_op := opcode |}).
  destruct (ble_gattc_extract_spec ble_gattc_proc_matches_conn_cid_op crit 1
              w _ Hq) as (w1 & hd & Hex & Hh1 & Hr1 & Hk1 & Hd1 & Hf1).
  destruct (extract_spec_first (mem w) ble_gattc_proc_matches_conn_cid_op
              (fun c => c = crit) (addressed conn chan opcode)
              (fun r c H => matches_conn_cid_op_addressed conn chan opcode r c H)
              crit l1 a l2 eq_refl (fun b => is_queue_lookup _ _ _ b Hq)
              Hno Ha) as (Hhits & Hkept).
  rewrite Hhits in Hd1. rewrite Hkept in Hk1.
  exists w1. split.
  { unfold ble_gattc_extract_first_by_conn_cid_op,
      ble_gattc_extract_by_conn_cid_op. subst crit.
    unfold bind. rewrite Hex. unfold ret, STAILQ_FIRST.
    now rewrite (is_queue_first _ _ _ Hd1). }
  split; [exact Hh1|]. split; [exact Hr1|]. split; [exact Hk1|exact Hf1].
Qed.

Lemma last_elem_of {A} (l : list A) x : last l = Some x -> x ∈ l.
Proof.
  intros H. apply last_Some in H as [l0 ->].
  apply elem_of_app. right. apply list_elem_of_here.
Qed.

(** X20: with BLE_GATTC_AUTO_PAIR, an ATT error response that reports
    insufficient encryption or insufficient authentication on a link
    that is not encrypted, and for which the pairing could be started,
    does not end the procedure it addresses: the record leaves the
    table for the tail of the list of parked procedures with the
    status and the handle of the response stored in it; no callback is
    called, nothing is transmitted and nothing is freed. *)
Theorem ble_gattc_rx_err_parks P conn chan h st w l1 a l2 c lc desc :
  BLE_GATTC_AUTO_PAIR P = true ->
  is_queue (mem w) (ble_gattc_procs w) (l1 ++ a :: l2) ->
  is_queue (mem w) (ble_gattc_cached_procs w) lc ->
  (forall b, b ∈ lc -> b ∉ l1 ++ a :: l2) ->
  (forall b, b ∈ l1 ->
     holds (mem w) (addressed conn chan BLE_GATT_OP_NONE) b = false) ->
  mem w !! a = Some c ->
  addressed conn chan BLE_GATT_OP_NONE (rec c) = true ->
  ble_gap_conn_find P conn = (0, desc) ->
  sec_state_encrypted desc = 0 ->
  st = BLE_ATT_ERR_INSUFFICIENT_ENC P \/
  st = BLE_ATT_ERR_INSUFFICIENT_AUTHEN P ->
  ble_gap_security_initiate P conn = 0 ->
  exists w',
    ble_gattc_rx_err P conn chan h st w = Ok (tt, w') /\
    trace (host w')
    = trace (host w) ++ [ev_gap_security_initiate conn 0] /\
    is_queue (mem w') (ble_gattc_procs w') (l1 ++ l2) /\
    is_queue (mem w') (ble_gattc_cached_procs w') (lc ++ [a]) /\
    rec <$> mem w' !! a
    = Some (set_error {| status := st; att_handle := h |} (rec c)) /\
    (forall b, b <> a -> rec <$> mem w' !! b = rec <$> mem w !! b) /\
    pool_free w' = pool_free w.
Proof.
  intros Hauto Hq Hqc Hdisj Hl1 Hc Ha Hfind Henc Hst Hsec.
  assert (holds (mem w) (addressed conn chan BLE_GATT_OP_NONE) a = true)
    as Ha' by (unfold holds; now rewrite Hc).
  destruct (extract_first_found_frame conn chan BLE_GATT_OP_NONE w l1 a l2
              Hq Hl1 Ha')
    as (w1 & Hex & (Hhost & Hpool & Hcache) & Hr & Hk & Hframe).
  destruct (same_recs_lookup _ _ a c Hr Hc) as (c1 & Hc1 & Hrec).
  pose proof (is_queue_NoDup _ _ _ Hq) as Hnd.
  assert (a ∉ l1 ++ l2) as Hnotin.
  { apply NoDup_app in Hnd as (_ & Hx & Hy).
    apply NoDup_cons in Hy as [Hy _].
    intros Hin. apply elem_of_app in Hin as [Hin|Hin]; [|contradiction].
    apply (Hx _ Hin). apply list_elem_of_here. }
  assert (forall b, b ∈ l1 ++ l2 -> b ∈ l1 ++ a :: l2) as Hsub.
  { intros b Hb. apply elem_of_app in Hb as [Hb|Hb]; apply elem_of_app;
      [now left|right; now apply list_elem_of_further]. }
  assert (a ∉ lc) as Hac.
  { intros Hin. apply (Hdisj a Hin). apply elem_of_app. right.
    apply list_elem_of_here. }
  set (r' := set_error {| status := st; att_handle := h |} (rec c)).
  set (c2 := {| next := next c1; rec := r' |}).
  set (w2 := set_mem (<[a := c2]> (mem w1)) w1).
  set (w3 := set_host (set_trace (trace (host w2)
                                  ++ [ev_gap_security_initiate conn 0])
                         (host w2)) w2).
  assert (is_queue (mem w3) (ble_gattc_cached_procs w3) lc) as Hqc3.
  { cbn. rewrite Hcache. eapply is_queue_ext; [|exact Hqc].
    intros b Hb. rewrite lookup_insert_ne by (intros ->; contradiction).
    now rewrite Hframe by auto. }
  destruct (STAILQ_INSERT_TAIL_spec w3 (ble_gattc_cached_procs w3) lc a
              Hqc3 Hac)
    as (hd' & m' & Hins & Hqc' & Hr' & Hf').
  { cbn. rewrite lookup_insert_eq. eauto. }
  exists (set_cached_procs hd' (set_mem m' w3)). split.
  { unfold ble_gattc_rx_err. rewrite (bind_Ok _ _ _ _ _ Hex). cbv beta.
    rewrite Hauto. cbv iota.
    assert (bind (load_rec a)
              (fun r => store_rec a
                          (set_error {| status := st; att_handle := h |} r))
              w1 = Ok (tt, w2)) as Hstore.
    { rewrite (bind_Ok _ _ _ _ _ (load_rec_run w1 a c1 Hc1)). rewrite Hrec.
      apply (store_rec_run w1 a c1 r' Hc1). }
    rewrite (bind_Ok _ _ _ _ _ Hstore). cbv beta. rewrite Hfind. cbn [negb Z.eqb].
    rewrite Henc. cbn [Z.eqb andb].
    assert ((st =? BLE_ATT_ERR_INSUFFICIENT_ENC P)
            || (st =? BLE_ATT_ERR_INSUFFICIENT_AUTHEN P) = true) as ->.
    { apply orb_true_iff. destruct Hst as [->| ->];
        [left|right]; apply Z.eqb_refl. }
    rewrite Hsec. cbn [Z.eqb].
    unfold bind at 1. unfold bind at 1. unfold lift at 1, emit, modify.
    fold w3. unfold bind at 1, get at 1. unfold bind at 1.
    rewrite Hins. reflexivity. }
  cbn [host mem ble_gattc_procs ble_gattc_cached_procs pool_free
       set_cached_procs set_mem set_host w3 w2 set_trace trace].
  rewrite Hhost. split; [reflexivity|]. split.
  { eapply is_queue_ext; [|exact Hk]. intros b Hb.
    rewrite Hf'.
    - cbn. rewrite lookup_insert_ne; [reflexivity|].
      intros ->. contradiction.
    - intros ->. contradiction.
    - intros Hl. apply last_elem_of in Hl.
      apply (Hdisj b Hl). now apply Hsub. }
  split; [exact Hqc'|]. split.
  { rewrite <- (Hr' a). cbn. now rewrite lookup_insert_eq. }
  split; [|exact Hpool].
  intros b Hb. rewrite <- (Hr' b). cbn.
  rewrite lookup_insert_ne by auto. symmetry. apply Hr.
Qed.

Lemma ble_gattc_rx_err_parks_witness :
  exists w',
    ble_gattc_rx_err nimble_auto_pair 1 4 9 15 (one_proc write_proc)
    = Ok (tt, w') /\
    trace (host w') = [ev_gap_security_initiate 1 0] /\
    ble_gattc_procs w' = STAILQ_INIT /\
    is_queue (mem w') (ble_gattc_cached_procs w') [0%nat] /\
    rec <$> mem w' !! 0%nat
    = Some (set_error {| status := 15; att_handle := 9 |} write_proc).
Proof.
  destruct (ble_gattc_rx_err_parks nimble_auto_pair 1 4 9 15
              (one_proc write_proc) [] 0%nat []
              {| next := None; rec := write_proc |} []
              {| sec_state_encrypted := 0; peer_id_addr := 0 |}
              eq_refl (one_proc_queue _) (is_queue_nil _))
    as (w' & Hrun & Htr & _ & Hqc & Hrec & _); try reflexivity.
  { intros b Hb. inversion Hb. }
  { intros b Hb. inversion Hb. }
  { now left. }
  exists w'. split; [exact Hrun|]. split; [exact Htr|].
  split; [|split; [exact Hqc|exact Hrec]].
  vm_compute in Hrun. injection Hrun as <-. reflexivity.
Defined.

(** ** Notifications *)

(** X21: ble_gatts_notify_custom tells the application exactly once
    that a notification was attempted, with the code it returns.  A
    buffer given by the caller is handed to the transport and never
    freed, whatever the transport answers.  Without a buffer the value
    of the attribute is read into a fresh one: if none can be had the
    call returns BLE_HS_ENOMEM, and if the read is refused it returns
    BLE_HS_EAPP and frees the fresh buffer; nothing is transmitted in
    these two cases. *)
Theorem ble_gatts_notify_custom_reports P conn chr_val_h txom g :
  platform_ok P ->
  exists rc g' evs,
    ble_gatts_notify_custom P conn chr_val_h txom g = Ok (rc, g') /\
    host_step g g' evs /\
    notices evs = [n_notify_tx rc conn chr_val_h 0] /\
    match txom with
    | Some d =>
        rc = hd 0 (tx_rcs g) /\
        transmitted evs = [tx_notify conn chr_val_h (Some d)] /\
        freed evs = []
    | None =>
        if hd true (mbuf_rcs g) then
          let read := ble_att_svr_read_handle P (BLE_HS_CONN_HANDLE_NONE P)
                        chr_val_h in
          if fst read =? 0 then
            rc = hd 0 (tx_rcs g) /\
            transmitted evs = [tx_notify conn chr_val_h (Some (snd read))] /\
            freed evs = []
          else
            rc = BLE_HS_EAPP P /\ transmitted evs = [] /\ freed evs = [[]]
        else rc = BLE_HS_ENOMEM P /\ transmitted evs = [] /\ freed evs = []
    end.
Proof.
  intros HP.
  assert ((BLE_HS_EAPP P =? 0) = false) as Happ
    by (apply Z.eqb_neq; destruct (pok_eapp P HP); lia).
  assert ((BLE_HS_ENOMEM P =? 0) = false) as Hmem
    by (apply Z.eqb_neq; destruct (pok_enomem P HP); lia).
  unfold ble_gatts_notify_custom.
  destruct txom as [d|]; g_run.
  - cbn [negb Z.eqb]. g_run.
    eexists _, _, _. split; [reflexivity|]. split; [host_step_tac|].
    split; [reflexivity|]. split; [reflexivity|]. split; reflexivity.
  - destruct (hd true (mbuf_rcs g)).
    + destruct (ble_att_svr_read_handle P (BLE_HS_CONN_HANDLE_NONE P)
                  chr_val_h) as [rrc value].
      cbn [fst snd]. destruct (rrc =? 0); cbn [negb]; g_run.
      * cbn [negb Z.eqb]. g_run.
        eexists _, _, _. split; [reflexivity|]. split; [host_step_tac|].
        split; [reflexivity|]. split; [reflexivity|]. split; reflexivity.
      * rewrite Happ. cbn [negb]. g_run.
        eexists _, _, _. split; [reflexivity|]. split; [host_step_tac|].
        split; [reflexivity|]. split; [reflexivity|]. split; reflexivity.
    + rewrite Hmem. cbn [negb]. g_run.
      eexists _, _, _. split; [reflexivity|]. split; [host_step_tac|].
      split; [reflexivity|]. split; [reflexivity|]. split; reflexivity.
Qed.

Lemma ble_gatts_notify_custom_reports_witness :
  exists g',
    ble_gatts_notify_custom nimble 1 12 (Some [7; 8]) (host_at 0 [6] [])
    = Ok (6, g') /\
    notices (trace g') = [n_notify_tx 6 1 12 0] /\
    transmitted (trace g') = [tx_notify 1 12 (Some [7; 8])] /\
    freed (trace g') = [].
Proof.
  destruct (ble_gatts_notify_custom_reports nimble 1 12 (Some [7; 8])
              (host_at 0 [6] []) (nimble_cfg_ok _ _ _))
    as (rc & g' & evs & Hrun & (Htr & _) & Hn & -> & Htx & Hfr).
  exists g'. split; [exact Hrun|].
  cbn in Htr. rewrite Htr. auto.
Defined.

(** ** Indications *)

Lemma bind_assoc {S A B C} (m : St S A) (f : A -> St S B)
    (k : B -> St S C) s :
  bind (bind m f) k s = bind m (fun x => bind (f x) k) s.
Proof. unfold bind. now destruct (m s) as [[a s']|]. Qed.

(** X22: ble_gatts_indicate_custom with a buffer of the caller.  When
    the pool of records is exhausted it returns BLE_HS_ENOMEM, tells
    the application so and frees the buffer; nothing is transmitted.
    Otherwise it transmits one indication that carries the buffer,
    returns the answer of the transport and tells the application that
    answer; the buffer is not freed.  If the transport accepted, the
    record joins the tail of the table with a deadline of 30 seconds
    and the connection, when it is known, remembers the handle as the
    indication awaiting confirmation.  If the transport refused, also
    for lack of memory, the record goes back to the pool: an
    indication is never kept for a later retry. *)
Theorem ble_gatts_indicate_custom_starts P conn chr_val_h d w l :
  platform_ok P ->
  is_queue (mem w) (ble_gattc_procs w) l ->
  let rc := hd 0 (tx_rcs (host w)) in
  let r := set_un (U_indicate {| indicate.chr_val_handle := chr_val_h |})
             (ble_gattc_proc_prepare P zeroed_proc conn
                BLE_GATT_OP_INDICATE) in
  (pool_free w = [] ->
   ble_gatts_indicate_custom P conn chr_val_h (Some d) w
   = Ok (BLE_HS_ENOMEM P,
         after_events
           [ev_gap_notify_tx (BLE_HS_ENOMEM P) conn chr_val_h 1;
            ev_mbuf_free d] w)) /\
  (forall a rest,
     pool_free w = a :: rest -> mem w !! a = None ->
     exists w' evs,
       ble_gatts_indicate_custom P conn chr_val_h (Some d) w = Ok (rc, w') /\
       trace (host w') = trace (host w) ++ evs /\
       transmitted evs = [tx_indicate conn (cid r) chr_val_h (Some d)] /\
       notices evs
       = n_notify_tx rc conn chr_val_h 1
         :: (if rc =? 0 then [] else [n_free a]) /\
       freed evs = [] /\
       if rc =? 0 then
         is_queue (mem w') (ble_gattc_procs w') (l ++ [a]) /\
         rec <$> mem w' !! a
         = Some (set_exp_os_ticks
                   (u32 (now (host w) + ble_npl_time_ms_to_ticks32 P 30000))
                   r) /\
         pool_free w' = rest /\
         hs_conns (host w')
         = match hs_conns (host w) !! conn with
           | Some c =>
               <[conn := {| att_tx_q := att_tx_q c;
                            peer_cl_sup_feat_0 := peer_cl_sup_feat_0 c;
                            indicate_val_handle := chr_val_h |}]>
                 (hs_conns (host w))
           | None => hs_conns (host w)
           end
       else
         is_queue (mem w') (ble_gattc_procs w') l /\
         mem w' !! a = None /\
         pool_free w' = pool_free w /\
         hs_conns (host w') = hs_conns (host w)).
Proof.
  intros HP Hq rc r.
  assert (BLE_HS_ENOMEM P <> 0) as Hnz by (destruct (pok_enomem P HP); lia).
  split.
  - intros Hp. unfold ble_gatts_indicate_custom.
    rewrite (bind_Ok _ _ _ _ _ (ble_gattc_proc_alloc_exhausted w Hp)).
    cbv beta iota. unfold bind at 1, ret at 1. cbv beta iota.
    unfold bind at 1, lift at 1, emit, modify.
    rewrite (bind_Ok _ _ _ _ _
               (ble_gattc_process_status_none P _ _ Hnz)).
    unfold bind, lift, os_mbuf_free_chain, emit, modify, ret, after_events.
    cbn. now rewrite <- app_assoc.
  - intros a rest Hp Hfree.
    assert (a ∉ l) as Hnotin.
    { intros Hin. destruct (is_queue_lookup _ _ _ _ Hq Hin) as [c Hc].
      congruence. }
    set (req := tx_indicate conn (cid r) chr_val_h (Some d)).
    set (w0 := set_pool_free rest
                 (set_mem (<[a := {| next := None; rec := zeroed_proc |}]>
                             (mem w)) w)).
    set (c1 := {| next := None; rec := r |}).
    set (g1 := set_trace (trace (host w) ++ [ev_tx req rc])
                 (set_tx_rcs (tl (tx_rcs (host w))) (host w))).
    set (g2 := if rc =? 0 then
                 match hs_conns g1 !! conn with
                 | None => g1
                 | Some c =>
                     set_hs_conns
                       (<[conn := {| att_tx_q := att_tx_q c;
                                     peer_cl_sup_feat_0 :=
                                       peer_cl_sup_feat_0 c;
                                     indicate_val_handle := chr_val_h |}]>
                          (hs_conns g1)) g1
                 end
               else g1).
    set (g3 := set_trace (trace g2 ++ [ev_gap_notify_tx rc conn chr_val_h 1])
                 g2).
    set (w3 := {| host := g3; mem := <[a := c1]> (mem w);
                  pool_free := rest;
                  ble_gattc_procs := ble_gattc_procs w;
                  ble_gattc_cached_procs := ble_gattc_cached_procs w |}).
    assert (ble_gatts_indicate_custom P conn chr_val_h (Some d) w
            = bind (ble_gattc_process_status P (Some a) rc)
                (fun _ => bind (lift (os_mbuf_free_chain None))
                            (fun _ => ret rc)) w3) as Hrun.
    { unfold ble_gatts_indicate_custom.
      rewrite (bind_Ok _ _ _ _ _ (ble_gattc_proc_alloc_run w a rest Hp)).
      fold w0. cbv beta iota.
      assert (mem w0 !! a = Some {| next := None; rec := zeroed_proc |})
        as Ha0 by apply lookup_insert_eq.
      rewrite bind_assoc.
      rewrite (bind_Ok _ _ _ _ _ (load_rec_run w0 a _ Ha0)).
      cbv beta zeta. cbn [rec]. fold r.
      rewrite bind_assoc.
      rewrite (bind_Ok _ _ _ _ _ (store_rec_run w0 a _ r Ha0)). cbv beta.
      rewrite bind_assoc. unfold bind at 1, ret at 1. cbv beta iota.
      cbn [negb Z.eqb]. rewrite bind_assoc.
      assert (forall w1, host w1 = host w ->
                lift (att_tx (tx_indicate conn (cid r) chr_val_h (Some d))) w1
                = Ok (rc, set_host g1 w1)) as Htx.
      { intros w1 Hh. unfold lift, att_tx, bind, get, modify, ret.
        rewrite Hh. reflexivity. }
      erewrite bind_Ok; [|apply Htx; reflexivity]. cbv beta.
      rewrite bind_assoc.
      subst w3 g3 g2 c1 w0.
      destruct (rc =? 0) eqn:Hrc;
        unfold bind, lift, modify, emit, ret; cbn;
        rewrite insert_insert_eq; reflexivity. }
    rewrite Hrun. clear Hrun.
    assert (mem w3 !! a = Some c1) as Hc3 by apply lookup_insert_eq.
    assert (is_queue (mem w3) (ble_gattc_procs w3) l) as Hq3.
    { cbn. eapply is_queue_ext; [|exact Hq]. intros b Hb.
      rewrite lookup_insert_ne; [reflexivity|]. intros ->. contradiction. }
    assert (proc_tagged (rec c1)) as Htag by reflexivity.
    destruct (rc =? 0) eqn:Hrc.
    + apply Z.eqb_eq in Hrc.
      destruct (ble_gattc_process_status_insert P w3 a c1 l Hc3 Hq3 Hnotin)
        as (w' & Hps & Hql & Hrec & _ & (Htr & _ & Hcn & _) & Hp' & _).
      assert (ble_gattc_process_status P (Some a) rc w3 = Ok (tt, w'))
        as Hps' by (rewrite Hrc; exact Hps).
      rewrite (bind_Ok _ _ _ _ _ Hps').
      eexists _, ([ev_tx req rc; ev_gap_notify_tx rc conn chr_val_h 1]
                  ++ [ev_hs_timer_resched]).
      split; [reflexivity|].
      cbn [host set_host mem pool_free ble_gattc_procs].
      split.
      { rewrite Htr. subst w3 g3 g2 g1. cbn.
        destruct (hs_conns (host w) !! conn); cbn;
          now rewrite <- !app_assoc. }
      split; [reflexivity|]. split; [reflexivity|].
      split; [reflexivity|]. split; [exact Hql|].
      split.
      { rewrite Hrec.
        assert (now (host w3) = now (host w)) as ->.
        { subst w3 g3 g2 g1. cbn.
          destruct (hs_conns (host w) !! conn); reflexivity. }
        reflexivity. }
      split; [exact Hp'|].
      rewrite Hcn. subst w3 g3 g2 g1. cbn.
      destruct (hs_conns (host w) !! conn); reflexivity.
    + apply Z.eqb_neq in Hrc.
      rewrite (bind_Ok _ _ _ _ _
                 (ble_gattc_process_status_done P w3 a c1 rc Hrc Hc3 Htag)).
      eexists _, ([ev_tx req rc; ev_gap_notify_tx rc conn chr_val_h 1]
                  ++ free_events P a r).
      split; [reflexivity|].
      unfold bind, lift, ret, os_mbuf_free_chain.
      cbn [host set_host mem pool_free ble_gattc_procs trace set_trace
           w3 g3 hs_conns].
      subst g2.
      split; [subst g1; cbn; now rewrite <- !app_assoc|].
      rewrite transmitted_app, notices_app, transmitted_free_events,
        notices_free_events.
      split; [reflexivity|]. split; [reflexivity|].
      split.
      { unfold freed. rewrite map_app, concat_app. cbn.
        unfold free_events, eatt_release, owned. cbn.
        destruct (eatt_enabled P && _); reflexivity. }
      split.
      { eapply is_queue_ext; [|exact Hq]. intros b Hb.
        rewrite lookup_delete_ne by (intros ->; contradiction).
        rewrite lookup_insert_ne; [reflexivity|]. intros ->. contradiction. }
      split; [apply lookup_delete_eq|]. split; [now rewrite Hp|reflexivity].
Qed.

Lemma ble_gatts_indicate_custom_starts_witness :
  let w := set_host (host_at 0 [6] []) (one_proc (mtu_proc 1 8)) in
  exists w',
    ble_gatts_indicate_custom nimble 1 12 (Some [7]) w = Ok (6, w') /\
    notices (trace (host w')) = [n_notify_tx 6 1 12 1; n_free 1%nat] /\
    transmitted (trace (host w')) = [tx_indicate 1 4 12 (Some [7])] /\
    is_queue (mem w') (ble_gattc_procs w') [0%nat] /\
    mem w' !! 1%nat = None.
Proof.
  intros w.
  destruct (ble_gatts_indicate_custom_starts nimble 1 12 [7] w [0%nat]
              (nimble_cfg_ok _ _ _) (one_proc_queue _)) as [_ H].
  destruct (H 1%nat [2%nat; 3%nat] eq_refl eq_refl)
    as (w' & evs & Hrun & Htr & Htx & Hn & _ & Hq & Hgone & _).
  exists w'. split; [exact Hrun|].
  cbn in Htr. rewrite Htr. auto.
Defined.

(** ** Failing the indication of a connection *)

Lemma matches_conn_op_indicate conn r c :
  c = {| crit_conn_handle := conn; crit_psm := 0;
         crit_op := BLE_GATT_OP_INDICATE |} ->
  snd (ble_gattc_proc_matches_conn_op r c)
  = {| crit_conn_handle := conn; crit_psm := 0;
       crit_op := BLE_GATT_OP_INDICATE |} /\
  fst (ble_gattc_proc_matches_conn_op r c) = indication_on conn r.
Proof.
  intros ->. unfold ble_gattc_proc_matches_conn_op, indication_on, on_conn.
  cbn [crit_conn_handle crit_op].
  destruct (conn =? conn_handle r); cbn [negb andb]; [|auto].
  rewrite Z.eqb_sym.
  change (BLE_GATT_OP_INDICATE =? BLE_GATT_OP_NONE) with false.
  cbn [negb]. rewrite andb_true_r.
  destruct (op r =? BLE_GATT_OP_INDICATE); auto.
Qed.

(** X23: ble_gatts_indicate_fail_notconn ends the indications in
    progress on the connection and nothing else: each of them is
    reported once as failed with BLE_HS_ENOTCONN and freed, in the
    order of the table, while the other procedures, also those of the
    same connection, stay in the table in their order and with their
    contents. *)
Theorem ble_gatts_indicate_fail_notconn_only_indications P conn w l :
  platform_ok P ->
  is_queue (mem w) (ble_gattc_procs w) l ->
  (forall a c, a ∈ l -> mem w !! a = Some c -> proc_wf (rec c)) ->
  exists w' evs,
    ble_gatts_indicate_fail_notconn P conn w = Ok (tt, w') /\
    trace (host w') = trace (host w) ++ evs /\
    notices evs
    = ended (mem w) (BLE_HS_ENOTCONN P) (fun _ => [])
        (List.filter (holds (mem w) (indication_on conn)) l) /\
    is_queue (mem w') (ble_gattc_procs w')
      (List.filter (fun a => negb (holds (mem w) (indication_on conn) a)) l) /\
    (forall a, a ∈ l -> holds (mem w) (indication_on conn) a = true ->
               mem w' !! a = None) /\
    (forall a, a ∈ l -> holds (mem w) (indication_on conn) a = false ->
               rec <$> mem w' !! a = rec <$> mem w !! a).
Proof.
  intros HP Hq Hwf.
  set (crit := {| crit_conn_handle := conn; crit_psm := 0;
                  crit_op := BLE_GATT_OP_INDICATE |}).
  destruct (ble_gattc_extract_spec ble_gattc_proc_matches_conn_op crit 0 w l Hq)
    as (w1 & hd & Hex & Hh1 & Hr1 & Hk1 & Hd1 & Hf1).
  destruct (extract_spec_all (mem w) ble_gattc_proc_matches_conn_op
              (fun c => c = crit) (indication_on conn)
              (fun r c H => matches_conn_op_indicate conn r c H)
              crit 0 l eq_refl (fun a => is_queue_lookup _ _ _ a Hq))
    as (_ & Hhits & Hkept).
  rewrite Hhits in Hd1. rewrite Hkept in Hk1.
  set (hits := List.filter (holds (mem w) (indication_on conn)) l) in *.
  set (kept := List.filter
                 (fun a => negb (holds (mem w) (indication_on conn) a)) l)
    in *.
  assert (forall a c, a ∈ hits -> mem w1 !! a = Some c ->
                      exists c0, mem w !! a = Some c0 /\ rec c0 = rec c)
    as Hback.
  { intros a c _ Hc. specialize (Hr1 a). rewrite Hc in Hr1.
    destruct (mem w !! a) as [c0|]; [|discriminate].
    exists c0. split; [reflexivity|]. now inversion Hr1. }
  destruct (fail_loop_spec P hits HP (S (size (mem w1))) w1 hd)
    as (w2 & evs & Hrun & S2 & N2 & Hp2 & _ & Hgone & Hframe).
  { pose proof (is_queue_length _ _ _ Hd1). lia. }
  { exact Hd1. }
  { intros a c Ha Hc. destruct (Hback a c Ha Hc) as (c0 & Hc0 & <-).
    apply (Hwf a c0); [|exact Hc0]. now apply filter_elem_of in Ha as [? _]. }
  exists w2, evs. split.
  { unfold ble_gatts_indicate_fail_notconn, ble_gattc_fail_procs,
      ble_gattc_extract_by_conn_op.
    subst crit. unfold bind. rewrite Hex. unfold ret, get. exact Hrun. }
  split.
  { destruct Hh1 as (Hhost & _). rewrite Hhost in S2. apply S2. }
  split.
  { rewrite N2. apply ended_ext. intros a _. symmetry. apply Hr1. }
  assert (forall a, a ∈ kept -> a ∉ hits) as Hdisj.
  { intros a Ha Hb. apply filter_elem_of in Ha as [_ Ha].
    apply filter_elem_of in Hb as [_ Hb]. rewrite Hb in Ha. discriminate. }
  split.
  { rewrite Hp2. eapply is_queue_ext; [|exact Hk1].
    intros a Ha. now rewrite Hframe by now apply Hdisj. }
  split.
  - intros a Ha Hon. apply Hgone. apply filter_elem_of. auto.
  - intros a Ha Hon. rewrite Hframe.
    + symmetry. apply Hr1.
    + apply Hdisj. apply filter_elem_of. split; [exact Ha|]. now rewrite Hon.
Qed.

Lemma ble_gatts_indicate_fail_notconn_only_indications_witness :
  exists w',
    ble_gatts_indicate_fail_notconn nimble 1 indication_and_mtu
    = Ok (tt, w') /\
    notices (trace (host w')) = [n_notify_tx 7 1 12 1; n_free 0%nat] /\
    is_queue (mem w') (ble_gattc_procs w') [1%nat] /\
    rec <$> mem w' !! 1%nat = Some (mtu_proc 1 8).
Proof.
  destruct (ble_gatts_indicate_fail_notconn_only_indications nimble 1
              indication_and_mtu [0%nat; 1%nat] (nimble_cfg_ok _ _ _))
    as (w' & evs & Hrun & Htr & Hn & Hq & _ & Hsame).
  - split; [|reflexivity]. simpl. split; [reflexivity|].
    eexists. split; [reflexivity|]. simpl. split; [reflexivity|].
    eexists. split; [reflexivity|]. reflexivity.
  - intros a c Ha Hc. apply elem_of_cons in Ha as [->|Ha].
    + vm_compute in Hc. injection Hc as <-. vm_compute. auto.
    + apply list_elem_of_singleton in Ha as ->.
      vm_compute in Hc. injection Hc as <-. vm_compute. auto.
  - exists w'. split; [exact Hrun|]. split.
    + cbn in Htr. rewrite Htr. exact Hn.
    + split; [exact Hq|]. rewrite Hsame; [reflexivity| |reflexivity].
      apply list_elem_of_further, list_elem_of_here.
Defined.

(** ** A long write that starts beyond its data *)

(** X24: ble_gattc_write_long with an offset beyond the end of the
    data returns the ATT code BLE_ATT_ERR_INVALID_OFFSET as it is, not
    a host code.  Nothing is transmitted and no callback is called;
    the record goes back to the pool and the data of the caller is
    freed once; heap, pool and table are as before the call. *)
Theorem ble_gattc_write_long_invalid_offset
    P conn attr_handle off d cb cb_arg w a rest :
  platform_ok P ->
  pool_free w = a :: rest -> mem w !! a = None ->
  OS_MBUF_PKTLEN d < off ->
  exists w' evs,
    ble_gattc_write_long P conn attr_handle off (Some d) cb cb_arg w
    = Ok (BLE_ATT_ERR_INVALID_OFFSET P, w') /\
    trace (host w') = trace (host w) ++ evs /\
    transmitted evs = [] /\ notices evs = [n_free a] /\ freed evs = [d] /\
    mem w' = mem w /\ pool_free w' = pool_free w /\
    ble_gattc_procs w' = ble_gattc_procs w.
Proof.
  intros HP Hp Hfree Hoff.
  assert (BLE_ATT_ERR_INVALID_OFFSET P <> 0) as Hnz
    by (pose proof (pok_invalid_offset P HP); lia).
  set (s := {| write_long.attr :=
                 {| handle := attr_handle; offset := off; om := Some d |};
               write_long.length := 0;
               write_long.cb := cb; write_long.cb_arg := cb_arg |}).
  set (r := set_un (U_write_long s)
              (ble_gattc_proc_prepare P zeroed_proc conn
                 BLE_GATT_OP_WRITE_LONG)).
  set (w0 := set_pool_free rest
               (set_mem (<[a := {| next := None; rec := zeroed_proc |}]>
                           (mem w)) w)).
  set (c1 := {| next := None; rec := r |}).
  set (w1 := set_mem (<[a := c1]> (mem w0)) w0).
  assert (mem w0 !! a = Some {| next := None; rec := zeroed_proc |})
    as Ha0 by apply lookup_insert_eq.
  assert (mem w1 !! a = Some c1) as Ha1 by apply lookup_insert_eq.
  assert (proc_tagged (rec c1)) as Htag by reflexivity.
  eexists _, (free_events P a r). split.
  { unfold ble_gattc_write_long.
    rewrite (bind_Ok _ _ _ _ _ (ble_gattc_proc_alloc_run w a rest Hp)).
    fold w0. cbv beta iota. rewrite bind_assoc.
    rewrite (bind_Ok _ _ _ _ _ (load_rec_run w0 a _ Ha0)).
    cbv beta zeta. cbn [rec]. fold s. fold r.
    rewrite bind_assoc.
    rewrite (bind_Ok _ _ _ _ _ (store_rec_run w0 a _ r Ha0)). cbv beta.
    change (set_mem _ w0) with w1.
    rewrite bind_assoc.
    assert (lift (write_long_om s) w1 = Ok (d, w1)) as Hom.
    { reflexivity. }
    rewrite (bind_Ok _ _ _ _ _ Hom). cbv beta.
    rewrite (proj2 (Z.ltb_lt _ _) Hoff).
    unfold bind at 1, ret at 1.
    rewrite (bind_Ok _ _ _ _ _
               (ble_gattc_process_status_done P w1 a c1 _ Hnz Ha1 Htag)).
    reflexivity. }
  cbn [host mem pool_free ble_gattc_procs trace set_trace w1 w0
       set_mem set_pool_free rec c1].
  split; [reflexivity|].
  rewrite transmitted_free_events, notices_free_events.
  split; [reflexivity|]. split; [reflexivity|]. split.
  { now rewrite freed_free_events. }
  split.
  { rewrite insert_insert_eq, delete_insert_eq. now apply delete_id. }
  split; [now rewrite Hp|reflexivity].
Qed.

Lemma ble_gattc_write_long_invalid_offset_witness :
  exists w',
    ble_gattc_write_long nimble 1 9 3 (Some [1; 2]) (Some 40) 0
      (one_proc (mtu_proc 1 8)) = Ok (7, w') /\
    trace (host w') = [ev_mbuf_free [1; 2]; ev_memblock_put 1%nat] /\
    pool_free w' = [1%nat; 2%nat; 3%nat].
Proof.
  destruct (ble_gattc_write_long_invalid_offset nimble 1 9 3 [1; 2]
              (Some 40) 0 (one_proc (mtu_proc 1 8)) 1%nat [2%nat; 3%nat]
              (nimble_cfg_ok _ _ _) eq_refl eq_refl)
    as (w' & evs & Hrun & _ & _ & _ & _ & _ & Hpool & _).
  { reflexivity. }
  exists w'. split; [exact Hrun|]. split; [|exact Hpool].
  vm_compute in Hrun. injection Hrun as <-. reflexivity.
Defined.

(** ** An ATT error during a long write *)

Lemma ble_gattc_write_long_err_run P r s d st h g :
  un r = U_write_long s -> om (write_long.attr s) = Some d ->
  let pending :=
    (0 <? offset (write_long.attr s)) &&
    (offset (write_long.attr s) <? OS_MBUF_PKTLEN d) in
  let cancel :=
    tx_exec_write (conn_handle r) (cid r) (BLE_ATT_EXEC_WRITE_F_CANCEL P) in
  exists g' evs,
    ble_gattc_write_long_err P r st h g = Ok (tt, g') /\
    host_step g g' evs /\
    transmitted evs = (if pending then [cancel] else []) /\
    notices evs
    = match write_long.cb s with
      | Some fn =>
          [n_call (call_attr_fn fn (conn_handle r) (ble_gattc_error P st h)
                     (Some (write_long.attr s)) (write_long.cb_arg s))]
      | None => []
      end /\
    freed evs = [] /\
    (pending = true -> exists rc evs', evs = ev_tx cancel rc :: evs').
Proof.
  intros Hun Hom pending cancel. subst pending cancel.
  unfold ble_gattc_write_long_err, ble_gattc_write_long_cb. g_run.
  rewrite Hun, Hom.
  destruct (0 <? offset (write_long.attr s)); cbn [andb];
    [destruct (offset (write_long.attr s) <? OS_MBUF_PKTLEN d)|];
    g_run; rewrite ?Hun; destruct (write_long.cb s); g_run;
    (eexists _, _; split; [reflexivity|]; split; [host_step_tac|];
     split; [reflexivity|]; split; [reflexivity|]; split; [reflexivity|];
     first [discriminate | intros _; eexists _, _; reflexivity]).
Qed.

(** X25: without BLE_GATTC_AUTO_PAIR, an ATT error response for a
    long write ends the procedure.  If part of the data is queued at
    the peer (the offset is past 0 and before the end of the data) an
    Execute Write request with the cancel flag is transmitted first;
    otherwise nothing is transmitted.  Then the callback is called
    once with the error of the response, offset by
    BLE_HS_ERR_ATT_BASE, and its handle; the record is freed and with
    it the data, once. *)
Theorem ble_gattc_rx_err_cancels_long_write
    P conn chan h st w l1 a l2 c s d :
  BLE_GATTC_AUTO_PAIR P = false ->
  is_queue (mem w) (ble_gattc_procs w) (l1 ++ a :: l2) ->
  (forall b, b ∈ l1 ->
     holds (mem w) (addressed conn chan BLE_GATT_OP_NONE) b = false) ->
  mem w !! a = Some c ->
  addressed conn chan BLE_GATT_OP_NONE (rec c) = true ->
  op (rec c) = BLE_GATT_OP_WRITE_LONG ->
  un (rec c) = U_write_long s ->
  om (write_long.attr s) = Some d ->
  let pending :=
    (0 <? offset (write_long.attr s)) &&
    (offset (write_long.attr s) <? OS_MBUF_PKTLEN d) in
  let cancel := tx_exec_write conn chan (BLE_ATT_EXEC_WRITE_F_CANCEL P) in
  exists w' evs,
    ble_gattc_rx_err P conn chan h st w = Ok (tt, w') /\
    trace (host w') = trace (host w) ++ evs /\
    transmitted evs = (if pending then [cancel] else []) /\
    (pending = true -> exists rc evs', evs = ev_tx cancel rc :: evs') /\
    notices evs
    = match write_long.cb s with
      | Some fn =>
          [n_call (call_attr_fn fn conn
                     (ble_gattc_error P (BLE_HS_ERR_ATT_BASE P + st) h)
                     (Some (write_long.attr s)) (write_long.cb_arg s))]
      | None => []
      end ++ [n_free a] /\
    freed evs = [d] /\
    is_queue (mem w') (ble_gattc_procs w') (l1 ++ l2) /\
    mem w' !! a = None.
Proof.
  intros Hauto Hq Hl1 Hc Ha Hop Hun Hom pending cancel.
  assert (conn_handle (rec c) = conn /\ cid (rec c) = chan) as [Hconn Hcid].
  { unfold addressed in Ha. apply andb_true_iff in Ha as [Ha _].
    apply andb_true_iff in Ha as [H1 H2].
    apply Z.eqb_eq in H1, H2. auto. }
  assert (holds (mem w) (addressed conn chan BLE_GATT_OP_NONE) a = true)
    as Ha' by (unfold holds; now rewrite Hc).
  destruct (extract_first_found conn chan BLE_GATT_OP_NONE w l1 a l2
              Hq Hl1 Ha')
    as (w1 & Hex & (Hhost & Hpool & Hcache) & Hr & Hk & Hnotin).
  destruct (same_recs_lookup _ _ a c Hr Hc) as (c1 & Hc1 & Hrec).
  destruct (ble_gattc_write_long_err_run P (rec c) s d
              (BLE_HS_ERR_ATT_BASE P + st) h (host w) Hun Hom)
    as (g' & evs & Hfn & (Htr & _) & Htx & Hn & Hfr & Hfirst).
  rewrite Hconn in Hn. rewrite Hconn, Hcid in Htx, Hfirst.
  fold pending cancel in Htx, Hfirst.
  assert (proc_tagged (rec c)) as Htag.
  { unfold proc_tagged. now rewrite Hun. }
  set (w2 := set_host g' w1).
  assert (mem w2 !! a = Some c1) as Hc2 by exact Hc1.
  assert (proc_tagged (rec c1)) as Htag1 by now rewrite Hrec.
  assert (ble_gattc_err_dispatch_get P (op (rec c)) (host w1)
          = Ok (Some (ble_gattc_write_long_err P), host w1)) as Hget
    by (rewrite Hop; reflexivity).
  eexists _, (evs ++ free_events P a (rec c)). split.
  { unfold ble_gattc_rx_err. rewrite (bind_Ok _ _ _ _ _ Hex). cbv beta.
    rewrite Hauto. unfold bind at 1, ret at 1. unfold bind at 1, ret at 1.
    rewrite (bind_Ok _ _ _ _ _ (load_rec_run w1 a c1 Hc1)). cbv beta.
    rewrite Hrec. rewrite <- Hhost in Hfn.
    rewrite (bind_Ok _ _ _ _ _ (lift_Ok _ _ _ _ Hget)). cbv beta.
    assert (set_host (host w1) w1 = w1) as -> by now destruct w1.
    rewrite (bind_Ok _ _ _ _ _ (lift_Ok _ _ _ _ Hfn)). fold w2.
    apply (ble_gattc_proc_free_run P w2 a c1 Hc2 Htag1). }
  cbn. rewrite Hrec, Htr, <- app_assoc. split; [reflexivity|].
  rewrite notices_app, transmitted_app, freed_app, Hn, Htx, Hfr,
    notices_free_events, transmitted_free_events, freed_free_events.
  split; [now rewrite app_nil_r|]. split.
  { intros Hp. destruct (Hfirst Hp) as (rc & evs' & ->).
    eexists _, _. reflexivity. }
  split; [reflexivity|]. split.
  { unfold owned. rewrite Hun, Hom. reflexivity. }
  split; [now apply is_queue_delete|apply lookup_delete_eq].
Qed.

Lemma ble_gattc_rx_err_cancels_long_write_witness :
  let s := {| write_long.attr :=
                {| handle := 9; offset := 18;
                   om := Some (map Z.of_nat (seq 0 20)) |};
              write_long.length := 2;
              write_long.cb := Some 50; write_long.cb_arg := 0 |} in
  let r := {| error := {| status := 0; att_handle := 0 |};
              exp_os_ticks := 30000; conn_handle := 1; cid := 4;
              op := BLE_GATT_OP_WRITE_LONG; flags := 0;
              un := U_write_long s |} in
  exists w',
    ble_gattc_rx_err nimble 1 4 9 3 (one_proc r) = Ok (tt, w') /\
    transmitted (trace (host w')) = [tx_exec_write 1 4 0] /\
    notices (trace (host w'))
    = [n_call (call_attr_fn 50 1 {| status := 259; att_handle := 9 |}
                 (Some (write_long.attr s)) 0);
       n_free 0%nat] /\
    ble_gattc_procs w' = STAILQ_INIT.
Proof.
  intros s r.
  destruct (ble_gattc_rx_err_cancels_long_write nimble 1 4 9 3
              (one_proc r) [] 0%nat [] {| next := None; rec := r |} s
              (map Z.of_nat (seq 0 20)) eq_refl (one_proc_queue _))
    as (w' & evs & Hrun & Htr & Htx & _ & Hn & _); try reflexivity.
  { intros b Hb. inversion Hb. }
  exists w'. split; [exact Hrun|].
  cbn in Htr. rewrite Htr. split; [exact Htx|]. split; [exact Hn|].
  vm_compute in Hrun. injection Hrun as <-. reflexivity.
Defined.

(** * Service discovery over the entries of a response *)

Lemma ble_gattc_process_status_insert_host P w a c l :
  mem w !! a = Some c ->
  is_queue (mem w) (ble_gattc_procs w) l -> a ∉ l ->
  exists w',
    ble_gattc_process_status P (Some a) 0 w = Ok (tt, w') /\
    is_queue (mem w') (ble_gattc_procs w') (l ++ [a]) /\
    rec <$> mem w' !! a
    = Some (if stalled (rec c) then rec c
            else set_exp_os_ticks
                   (u32 (now (host w) + ble_npl_time_ms_to_ticks32 P 30000))
                   (rec c)) /\
    (forall b, b <> a -> rec <$> mem w' !! b = rec <$> mem w !! b) /\
    host w' = set_trace (trace (host w) ++ [ev_hs_timer_resched]) (host w).
Proof.
  intros Hc Hq Ha. unfold ble_gattc_process_status. cbn [Z.eqb].
  rewrite (bind_Ok _ _ _ _ _ (load_rec_run w a c Hc)). cbv beta.
  set (r' := if stalled (rec c) then rec c
             else set_exp_os_ticks
                    (u32 (now (host w) + ble_npl_time_ms_to_ticks32 P 30000))
                    (rec c)).
  assert (exists w1,
    (if Z.land (flags (rec c)) BLE_GATTC_PROC_F_STALLED =? 0
     then bind (lift (ble_gattc_proc_set_exp_timer P (rec c)))
            (fun r => store_rec a r)
     else ret tt) w = Ok (tt, w1) /\
    host w1 = host w /\
    is_queue (mem w1) (ble_gattc_procs w1) l /\
    rec <$> mem w1 !! a = Some r' /\
    (forall b, b <> a -> mem w1 !! b = mem w !! b))
    as (w1 & Hrun1 & Hh1 & Hk1 & Hr1 & Hf1).
  { subst r'. unfold stalled.
    destruct (Z.land (flags (rec c)) BLE_GATTC_PROC_F_STALLED =? 0).
    - cbn [negb]. unfold bind at 1, lift at 1, ble_gattc_proc_set_exp_timer.
      unfold bind at 1, get at 1, ret at 1. rewrite set_host_eta.
      rewrite (store_rec_run _ _ _ _ Hc).
      eexists. split; [reflexivity|]. cbn.
      split; [reflexivity|]. split; [now apply is_queue_store_rec|].
      split; [now rewrite lookup_insert_eq|].
      intros b Hb. now rewrite lookup_insert_ne by auto.
    - cbn [negb]. exists w. split; [reflexivity|].
      split; [reflexivity|]. split; [exact Hq|].
      split; [now rewrite Hc|]. auto. }
  rewrite (bind_Ok _ _ _ _ _ Hrun1). cbv beta.
  assert (is_Some (mem w1 !! a)) as Hsome.
  { destruct (mem w1 !! a); [eauto|discriminate]. }
  destruct (STAILQ_INSERT_TAIL_spec w1 (ble_gattc_procs w1) l a Hk1 Ha Hsome)
    as (h' & m' & Hins & Hq' & Hsr & _).
  assert (ble_gattc_proc_insert a w1
          = Ok (tt, set_procs h' (set_mem m' w1))) as Hinsert.
  { unfold ble_gattc_proc_insert, bind, get. rewrite Hins. reflexivity. }
  rewrite (bind_Ok _ _ _ _ _ Hinsert). cbv beta.
  unfold lift, emit, modify. cbn.
  eexists. split; [reflexivity|]. cbn.
  split; [exact Hq'|].
  split; [rewrite <- (Hsr a); exact Hr1|].
  split.
  { intros b Hb. rewrite <- (Hsr b). now rewrite Hf1. }
  now rewrite Hh1.
Qed.

(** The record that the handler kept goes back to the tail of the
    table; the host only learns that the timer is to be rescheduled. *)
Lemma rx_dispatch_kept P w a c handler r' g' l :
  mem w !! a = Some c ->
  is_queue (mem w) (ble_gattc_procs w) l -> a ∉ l ->
  handler (rec c) (host w) = Ok ((0, r'), g') ->
  exists w',
    rx_dispatch P (Some a) handler w = Ok (tt, w') /\
    is_queue (mem w') (ble_gattc_procs w') (l ++ [a]) /\
    rec <$> mem w' !! a
    = Some (if stalled r' then r'
            else set_exp_os_ticks
                   (u32 (now g' + ble_npl_time_ms_to_ticks32 P 30000)) r') /\
    (forall b, b <> a -> rec <$> mem w' !! b = rec <$> mem w !! b) /\
    host w' = set_trace (trace g' ++ [ev_hs_timer_resched]) g'.
Proof.
  intros Hc Hq Ha Hh.
  set (w1 := set_host g' w).
  set (c2 := {| next := next c; rec := r' |}).
  set (w2 := set_mem (<[a := c2]> (mem w1)) w1).
  assert (mem w2 !! a = Some c2) as Hc2 by apply lookup_insert_eq.
  destruct (ble_gattc_process_status_insert_host P w2 a c2 l Hc2)
    as (w' & Hps & Hq' & Hr & Hf & Hhost).
  { subst w2. cbn. now apply is_queue_store_rec. }
  { exact Ha. }
  exists w'. split.
  { unfold rx_dispatch.
    rewrite (bind_Ok _ _ _ _ _ (load_rec_run w a c Hc)). cbv beta.
    rewrite (bind_Ok _ _ _ _ _ (lift_Ok _ _ _ _ Hh)). cbv beta iota.
    fold w1. rewrite (bind_Ok _ _ _ _ _ (store_rec_run w1 a c r' Hc)).
    exact Hps. }
  split; [exact Hq'|]. split; [exact Hr|]. split; [|exact Hhost].
  intros b Hb. rewrite (Hf b Hb). subst w2. cbn.
  now rewrite lookup_insert_ne by auto.
Qed.

(** The handler of one entry: an entry that announces a service is
    stored and reported with status 0; any other entry is reported as
    BLE_HS_EBADDATA and leaves the record as it was. *)
Lemma ble_gattc_disc_all_svcs_rx_adata_exact P r s e g :
  platform_ok P -> un r = U_disc_all_svcs s ->
  let st := match announced P (disc_all_svcs.prev_handle s) e with
            | Some _ => 0
            | None => BLE_HS_EBADDATA P
            end in
  let svc := match announced P (disc_all_svcs.prev_handle s) e with
             | Some svc => svc
             | None => refused_svc P e
             end in
  exists g' evs,
    ble_gattc_disc_all_svcs_rx_adata P r e g
    = Ok ((if match announced P (disc_all_svcs.prev_handle s) e with
              | Some _ => goes_on (disc_all_svcs.cb s) (cb_rcs g)
              | None => false
              end
           then 0 else BLE_HS_EDONE P,
           match announced P (disc_all_svcs.prev_handle s) e with
           | Some _ =>
               set_un (U_disc_all_svcs
                         (seen_up_to (adata_end_group_handle e) s)) r
           | None => r
           end), g') /\
    trace g' = trace g ++ evs /\ now g' = now g /\
    cb_rcs g' = answers_left (disc_all_svcs.cb s) (cb_rcs g) /\
    notices evs = svc_report r s st svc /\ transmitted evs = [].
Proof.
  intros HP Hun st svc. subst st svc.
  destruct r as [er x c ci o f u]. simpl in Hun. subst u.
  pose proof (pok_ebaddata P HP) as Hbad.
  pose proof (hs_code_u16 P _ HP Hbad) as Hu.
  assert ((BLE_HS_EBADDATA P =? 0) = false) as Hnz
    by (apply Z.eqb_neq; unfold hs_code in Hbad; lia).
  unfold announced, refused_svc, svc_report, goes_on, answers_left,
    seen_up_to, ble_gattc_disc_all_svcs_rx_adata.
  unfold bind at 1, as_disc_all_svcs at 1. cbn [un conn_handle].
  unfold ret at 1.
  assert (forall v,
    exists g' evs,
      bind (ble_gattc_disc_all_svcs_cb P
              {| error := er; exp_os_ticks := x; conn_handle := c; cid := ci;
                 op := o; flags := f; un := U_disc_all_svcs s |}
              (BLE_HS_EBADDATA P) 0 (Some v))
        (fun cbrc =>
           if negb (BLE_HS_EBADDATA P =? 0) || negb (cbrc =? 0)
           then ret (BLE_HS_EDONE P,
                     {| error := er; exp_os_ticks := x; conn_handle := c;
                        cid := ci; op := o; flags := f;
                        un := U_disc_all_svcs s |})
           else ret (0,
                     {| error := er; exp_os_ticks := x; conn_handle := c;
                        cid := ci; op := o; flags := f;
                        un := U_disc_all_svcs s |})) g
      = Ok ((BLE_HS_EDONE P,
             {| error := er; exp_os_ticks := x; conn_handle := c; cid := ci;
                op := o; flags := f; un := U_disc_all_svcs s |}), g') /\
      trace g' = trace g ++ evs /\ now g' = now g /\
      cb_rcs g'
      = match disc_all_svcs.cb s with
        | Some _ => tl (cb_rcs g)
        | None => cb_rcs g
        end /\
      notices evs
      = match disc_all_svcs.cb s with
        | Some fn =>
            [n_call (call_disc_svc_fn fn c (final_error (BLE_HS_EBADDATA P))
                       (Some v) (disc_all_svcs.cb_arg s))]
        | None => []
        end /\ transmitted evs = []) as Hrej.
  { intros v. unfold ble_gattc_disc_all_svcs_cb.
    rewrite Hu, Hnz, ble_gattc_error_final. cbn [negb orb]. g_run.
    destruct (disc_all_svcs.cb s); g_run.
    - eexists _, _. split; [reflexivity|]. cbn. auto.
    - exists g, []. split; [reflexivity|]. rewrite app_nil_r. auto. }
  destruct ((adata_value_len e =? 2) || (adata_value_len e =? 16)).
  - destruct (ble_uuid_init_from_att_buf P (adata_value e)
                (adata_value_len e)) as [id|].
    + rewrite Z.leb_antisym.
      destruct (disc_all_svcs.prev_handle s <? adata_end_group_handle e);
        cbn [negb].
      * unfold ble_gattc_disc_all_svcs_cb. cbn [Z.eqb negb orb].
        change (u16 0) with 0. rewrite ble_gattc_error_final.
        unfold set_un, set_disc_all_svcs_prev_handle. g_run.
        cbn [disc_all_svcs.cb disc_all_svcs.cb_arg].
        destruct (disc_all_svcs.cb s) as [fn|]; g_run.
        -- destruct (hd 0 (cb_rcs g) =? 0); cbn [negb];
             (eexists _, _; split; [reflexivity|]; cbn; auto).
        -- exists g, []. split; [reflexivity|]. rewrite app_nil_r. auto.
      * apply Hrej.
    + apply Hrej.
  - apply Hrej.
Qed.


Lemma svc_report_ext r1 s1 r2 s2 st svc :
  conn_handle r1 = conn_handle r2 ->
  disc_all_svcs.cb s1 = disc_all_svcs.cb s2 ->
  disc_all_svcs.cb_arg s1 = disc_all_svcs.cb_arg s2 ->
  svc_report r1 s1 st svc = svc_report r2 s2 st svc.
Proof. unfold svc_report. now intros -> -> ->. Qed.

Lemma svc_walk_ext P a r1 s1 r2 s2 prev answers es :
  conn_handle r1 = conn_handle r2 ->
  disc_all_svcs.cb s1 = disc_all_svcs.cb s2 ->
  disc_all_svcs.cb_arg s1 = disc_all_svcs.cb_arg s2 ->
  svc_walk P a r1 s1 prev answers es = svc_walk P a r2 s2 prev answers es.
Proof.
  intros Hc Hcb Harg. revert prev answers.
  induction es as [|e es IH]; intros prev answers; cbn [svc_walk];
    [reflexivity|].
  rewrite Hcb. destruct (announced P prev e) as [svc|].
  - rewrite (svc_report_ext r1 s1 r2 s2 0 svc) by assumption.
    destruct (goes_on _ _); [|reflexivity]. now rewrite IH.
  - now rewrite (svc_report_ext r1 s1 r2 s2) by assumption.
Qed.

Lemma announced_above P prev e svc :
  announced P prev e = Some svc -> prev < adata_end_group_handle e.
Proof.
  unfold announced. destruct (_ || _); [|discriminate].
  destruct (ble_uuid_init_from_att_buf _ _ _); [|discriminate].
  destruct (prev <? adata_end_group_handle e) eqn:H; [|discriminate].
  intros _. now apply Z.ltb_lt.
Qed.

(** The handles that the course stores rise strictly, from the last
    handle seen at the start. *)
Lemma svc_walk_sorted P a r s prev answers es :
  StronglySorted Z.lt (prev :: stored (svc_walk P a r s prev answers es)).
Proof.
  revert prev answers. induction es as [|e es IH]; intros prev answers;
    cbn [svc_walk].
  - cbn. repeat constructor.
  - destruct (announced P prev e) as [svc|] eqn:Han;
      [|cbn; repeat constructor].
    apply announced_above in Han.
    destruct (goes_on _ _); cbn [stored]; [|repeat constructor; exact Han].
    specialize (IH (adata_end_group_handle e)
                  (answers_left (disc_all_svcs.cb s) answers)).
    constructor; [exact IH|].
    apply StronglySorted_inv in IH as [_ Hall].
    constructor; [exact Han|].
    eapply Forall_impl; [exact Hall|]. cbn. intros x Hx. lia.
Qed.

(** With no discovery of the connection in the table the entries change
    nothing. *)
Lemma rx_read_group_type_entries_absent P conn chan es w l :
  is_queue (mem w) (ble_gattc_procs w) l ->
  (forall b, b ∈ l ->
     holds (mem w) (addressed conn chan BLE_GATT_OP_DISC_ALL_SVCS) b = false) ->
  exists w',
    rx_read_group_type_entries P conn chan es w = Ok (tt, w') /\
    host w' = host w /\ is_queue (mem w') (ble_gattc_procs w') l /\
    same_recs (mem w) (mem w').
Proof.
  revert w. induction es as [|e es IH]; intros w Hq Hno.
  - exists w. split; [reflexivity|]. split; [reflexivity|].
    split; [exact Hq|]. intros b. reflexivity.
  - destruct (extract_first_absent conn chan BLE_GATT_OP_DISC_ALL_SVCS w l
                Hq Hno) as (w1 & Hex & (Hh & _) & Hr & Hk).
    destruct (IH w1 Hk) as (w' & Hrun & Hh' & Hq' & Hr').
    { intros b Hb. rewrite <- (Hno b Hb). apply holds_same_rec.
      symmetry. apply Hr. }
    exists w'. split.
    { cbn [rx_read_group_type_entries].
      unfold ble_gattc_rx_read_group_type_adata.
      rewrite bind_assoc. rewrite (bind_Ok _ _ _ _ _ Hex). exact Hrun. }
    split; [now rewrite Hh', Hh|]. split; [exact Hq'|].
    intros b. now rewrite (Hr b), (Hr' b).
Qed.

(** One entry for the only discovery of the connection in the table. *)
Lemma rx_read_group_type_adata_step P conn chan e w l1 a l2 c s :
  platform_ok P ->
  is_queue (mem w) (ble_gattc_procs w) (l1 ++ a :: l2) ->
  (forall b, b ∈ l1 ++ l2 ->
     holds (mem w) (addressed conn chan BLE_GATT_OP_DISC_ALL_SVCS) b = false) ->
  mem w !! a = Some c ->
  addressed conn chan BLE_GATT_OP_DISC_ALL_SVCS (rec c) = true ->
  un (rec c) = U_disc_all_svcs s ->
  exists w' evs,
    ble_gattc_rx_read_group_type_adata P conn chan e w = Ok (tt, w') /\
    trace (host w') = trace (host w) ++ evs /\
    transmitted evs = [] /\
    (forall b, b ∈ l1 ++ l2 ->
       holds (mem w') (addressed conn chan BLE_GATT_OP_DISC_ALL_SVCS) b
       = false) /\
    match announced P (disc_all_svcs.prev_handle s) e with
    | Some svc =>
        if goes_on (disc_all_svcs.cb s) (cb_rcs (host w)) then
          notices evs = svc_report (rec c) s 0 svc /\
          is_queue (mem w') (ble_gattc_procs w') ((l1 ++ l2) ++ [a]) /\
          cb_rcs (host w')
          = answers_left (disc_all_svcs.cb s) (cb_rcs (host w)) /\
          exists c',
            mem w' !! a = Some c' /\
            addressed conn chan BLE_GATT_OP_DISC_ALL_SVCS (rec c') = true /\
            conn_handle (rec c') = conn_handle (rec c) /\
            un (rec c')
            = U_disc_all_svcs (seen_up_to (adata_end_group_handle e) s)
        else
          notices evs = svc_report (rec c) s 0 svc ++ [n_free a] /\
          is_queue (mem w') (ble_gattc_procs w') (l1 ++ l2) /\
          mem w' !! a = None
    | None =>
        notices evs
        = svc_report (rec c) s (BLE_HS_EBADDATA P) (refused_svc P e)
          ++ [n_free a] /\
        is_queue (mem w') (ble_gattc_procs w') (l1 ++ l2) /\
        mem w' !! a = None
    end.
Proof.
  intros HP Hq Hothers Hc Haddr Hun.
  assert (BLE_HS_EDONE P <> 0) as Hdone
    by (destruct (pok_edone P HP); lia).
  destruct (addressed_op _ _ _ _ Haddr) as (Hconn & Hcid & Hop);
    [discriminate|].
  assert (holds (mem w) (addressed conn chan BLE_GATT_OP_DISC_ALL_SVCS) a
          = true) as Ha' by (unfold holds; now rewrite Hc).
  destruct (extract_first_found conn chan BLE_GATT_OP_DISC_ALL_SVCS w l1 a l2
              Hq) as (w1 & Hex & (Hhost & _) & Hr & Hk & Hnotin);
    [intros b Hb; apply Hothers, elem_of_app; now left|exact Ha'|].
  destruct (same_recs_lookup _ _ a c Hr Hc) as (c1 & Hc1 & Hrec).
  destruct (ble_gattc_disc_all_svcs_rx_adata_exact P (rec c) s e (host w)
              HP Hun) as (g' & e1 & Hh & Htr & Hnow & Hcb & Hn & Htx).
  assert ((fun r => ble_gattc_disc_all_svcs_rx_adata P r e) (rec c1) (host w1)
          = ble_gattc_disc_all_svcs_rx_adata P (rec c) e (host w)) as Hsame
    by (cbv beta; now rewrite Hrec, Hhost).
  rewrite Hh in Hsame.
  assert (forall w',
            ble_gattc_rx_read_group_type_adata P conn chan e w = Ok (tt, w')
            <-> rx_dispatch P (Some a)
                  (fun r => ble_gattc_disc_all_svcs_rx_adata P r e) w1
                = Ok (tt, w')) as Hentry.
  { intros w'. unfold ble_gattc_rx_read_group_type_adata.
    now rewrite (bind_Ok _ _ _ _ _ Hex). }
  assert (forall m' : gmap addr cell,
            (forall b, b <> a -> rec <$> m' !! b = rec <$> mem w1 !! b) ->
            forall b, b ∈ l1 ++ l2 ->
              holds m' (addressed conn chan BLE_GATT_OP_DISC_ALL_SVCS) b
              = false) as Hstill.
  { intros m' Hoth b Hb. rewrite <- (Hothers b Hb). apply holds_same_rec.
    rewrite Hoth by (intros ->; contradiction). symmetry. apply Hr. }
  assert (proc_tagged (rec c)) as Htag.
  { unfold proc_tagged. now rewrite Hun. }
  assert (forall r' evs2,
            proc_tagged r' ->
            rx_dispatch P (Some a)
              (fun r => ble_gattc_disc_all_svcs_rx_adata P r e) w1
            = Ok (tt, {| host := set_trace (trace g' ++ free_events P a r') g';
                         mem := delete a (mem w1);
                         pool_free := a :: pool_free w1;
                         ble_gattc_procs := ble_gattc_procs w1;
                         ble_gattc_cached_procs :=
                           ble_gattc_cached_procs w1 |}) ->
            notices e1 = evs2 ->
            exists w' evs,
              ble_gattc_rx_read_group_type_adata P conn chan e w
              = Ok (tt, w') /\
              trace (host w') = trace (host w) ++ evs /\
              transmitted evs = [] /\
              (forall b, b ∈ l1 ++ l2 ->
                 holds (mem w')
                   (addressed conn chan BLE_GATT_OP_DISC_ALL_SVCS) b = false) /\
              notices evs = evs2 ++ [n_free a] /\
              is_queue (mem w') (ble_gattc_procs w') (l1 ++ l2) /\
              mem w' !! a = None) as Hended.
  { intros r' evs2 Htag' Hrun Hn2.
    eexists _, (e1 ++ free_events P a r').
    split; [apply Hentry; exact Hrun|]. cbn.
    split; [rewrite Htr; now rewrite <- app_assoc|].
    rewrite transmitted_app, notices_app, Htx, Hn2,
      transmitted_free_events, notices_free_events.
    split; [reflexivity|]. split.
    { apply Hstill. intros b Hb. now rewrite lookup_delete_ne by auto. }
    split; [reflexivity|].
    split; [now apply is_queue_delete|apply lookup_delete_eq]. }
  destruct (announced P (disc_all_svcs.prev_handle s) e) as [svc|] eqn:Han.
  - destruct (goes_on (disc_all_svcs.cb s) (cb_rcs (host w))) eqn:Hgo.
    + destruct (rx_dispatch_kept P w1 a c1
                  (fun r => ble_gattc_disc_all_svcs_rx_adata P r e) _ g'
                  (l1 ++ l2) Hc1 Hk Hnotin Hsame)
        as (w' & Hrun & Hq' & Hra & Hoth & Hhost').
      exists w', (e1 ++ [ev_hs_timer_resched]).
      split; [apply Hentry; exact Hrun|].
      split; [rewrite Hhost'; cbn; rewrite Htr; now rewrite <- app_assoc|].
      split; [rewrite transmitted_app, Htx; reflexivity|].
      split; [apply Hstill; exact Hoth|].
      split; [rewrite notices_app, Hn; cbn; now rewrite app_nil_r|].
      split; [exact Hq'|].
      split; [rewrite Hhost'; exact Hcb|].
      destruct (mem w' !! a) as [c'|]; [|discriminate].
      exists c'. split; [reflexivity|]. cbn in Hra. injection Hra as ->.
      assert (forall r0 : ble_gattc_proc,
                addressed conn chan BLE_GATT_OP_DISC_ALL_SVCS
                  (if stalled r0 then r0
                   else set_exp_os_ticks
                          (u32 (now g' + ble_npl_time_ms_to_ticks32 P 30000))
                          r0)
                = addressed conn chan BLE_GATT_OP_DISC_ALL_SVCS r0 /\
                conn_handle
                  (if stalled r0 then r0
                   else set_exp_os_ticks
                          (u32 (now g' + ble_npl_time_ms_to_ticks32 P 30000))
                          r0) = conn_handle r0 /\
                un (if stalled r0 then r0
                    else set_exp_os_ticks
                           (u32 (now g' + ble_npl_time_ms_to_ticks32 P 30000))
                           r0) = un r0) as Hexp
        by (intros r0; destruct (stalled r0); auto).
      destruct (Hexp (set_un (U_disc_all_svcs
                                (seen_up_to (adata_end_group_handle e) s))
                        (rec c))) as (-> & -> & ->).
      split; [exact Haddr|]. split; reflexivity.
    + apply (Hended (set_un (U_disc_all_svcs
                               (seen_up_to (adata_end_group_handle e) s))
                       (rec c)) (svc_report (rec c) s 0 svc));
        [exact Hop| |exact Hn].
      apply (rx_dispatch_done P w1 a c1
               (fun r => ble_gattc_disc_all_svcs_rx_adata P r e)
               (BLE_HS_EDONE P) _ g' Hc1 Hsame Hdone). exact Hop.
  - apply (Hended (rec c)
             (svc_report (rec c) s (BLE_HS_EBADDATA P) (refused_svc P e)));
      [exact Htag| |exact Hn].
    apply (rx_dispatch_done P w1 a c1
             (fun r => ble_gattc_disc_all_svcs_rx_adata P r e)
             (BLE_HS_EDONE P) _ g' Hc1 Hsame Hdone Htag).
Qed.


Lemma last_cons_default {A} (x h : A) (l : list A) :
  default x (last (h :: l)) = default h (last l).
Proof. rewrite last_cons. now destruct (last l). Qed.

(** The engine follows the course over every sequence of entries. *)
Lemma rx_read_group_type_entries_course P conn chan es :
  platform_ok P ->
  forall w l1 a l2 c s,
    is_queue (mem w) (ble_gattc_procs w) (l1 ++ a :: l2) ->
    (forall b, b ∈ l1 ++ l2 ->
       holds (mem w) (addressed conn chan BLE_GATT_OP_DISC_ALL_SVCS) b
       = false) ->
    mem w !! a = Some c ->
    addressed conn chan BLE_GATT_OP_DISC_ALL_SVCS (rec c) = true ->
    un (rec c) = U_disc_all_svcs s ->
    let course := svc_walk P a (rec c) s (disc_all_svcs.prev_handle s)
                    (cb_rcs (host w)) es in
    exists w' evs,
      rx_read_group_type_entries P conn chan es w = Ok (tt, w') /\
      trace (host w') = trace (host w) ++ evs /\
      notices evs = told course /\ transmitted evs = [] /\
      (forall b, b ∈ l1 ++ l2 ->
         holds (mem w') (addressed conn chan BLE_GATT_OP_DISC_ALL_SVCS) b
         = false) /\
      if in_progress course then
        is_queue (mem w') (ble_gattc_procs w')
          (match es with [] => l1 ++ a :: l2 | _ => (l1 ++ l2) ++ [a] end) /\
        exists c' s',
          mem w' !! a = Some c' /\ un (rec c') = U_disc_all_svcs s' /\
          disc_all_svcs.prev_handle s'
          = default (disc_all_svcs.prev_handle s) (last (stored course)) /\
          disc_all_svcs.cb s' = disc_all_svcs.cb s /\
          disc_all_svcs.cb_arg s' = disc_all_svcs.cb_arg s
      else
        is_queue (mem w') (ble_gattc_procs w') (l1 ++ l2) /\
        mem w' !! a = None.
Proof.
  intros HP. induction es as [|e es IH];
    intros w l1 a l2 c s Hq Hothers Hc Haddr Hun course; subst course.
  - exists w, []. split; [reflexivity|]. rewrite app_nil_r.
    split; [reflexivity|]. split; [reflexivity|]. split; [reflexivity|].
    split; [exact Hothers|]. cbn. split; [exact Hq|].
    exists c, s. auto.
  - destruct (rx_read_group_type_adata_step P conn chan e w l1 a l2 c s
                HP Hq Hothers Hc Haddr Hun)
      as (w1 & e1 & Hrun1 & Htr1 & Htx1 & Hoth1 & Hstep).
    cbn [svc_walk rx_read_group_type_entries].
    rewrite (bind_Ok _ _ _ _ _ Hrun1).
    assert (forall ns,
              notices e1 = ns ->
              is_queue (mem w1) (ble_gattc_procs w1) (l1 ++ l2) ->
              mem w1 !! a = None ->
              exists w' evs,
                rx_read_group_type_entries P conn chan es w1 = Ok (tt, w') /\
                trace (host w') = trace (host w) ++ evs /\
                notices evs = ns /\ transmitted evs = [] /\
                (forall b, b ∈ l1 ++ l2 ->
                   holds (mem w')
                     (addressed conn chan BLE_GATT_OP_DISC_ALL_SVCS) b
                   = false) /\
                is_queue (mem w') (ble_gattc_procs w') (l1 ++ l2) /\
                mem w' !! a = None) as Hover.
    { intros ns Hn1 Hq1 Hgone.
      destruct (rx_read_group_type_entries_absent P conn chan es w1
                  (l1 ++ l2) Hq1 Hoth1) as (w' & Hrun' & Hh' & Hq' & Hr').
      exists w', e1. split; [exact Hrun'|].
      split; [now rewrite Hh'|]. split; [exact Hn1|]. split; [exact Htx1|].
      split.
      { intros b Hb. rewrite <- (Hoth1 b Hb). apply holds_same_rec.
        symmetry. apply Hr'. }
      split; [exact Hq'|].
      specialize (Hr' a). rewrite Hgone in Hr'.
      destruct (mem w' !! a); [discriminate|reflexivity]. }
    destruct (announced P (disc_all_svcs.prev_handle s) e) as [svc|] eqn:Han.
    + destruct (goes_on (disc_all_svcs.cb s) (cb_rcs (host w))) eqn:Hgo.
      * destruct Hstep as (Hn1 & Hq1 & Hcb1 & c1 & Hc1 & Haddr1 & Hconn1 & Hun1).
        assert (forall b, b ∈ (l1 ++ l2) ++ [] ->
                  holds (mem w1)
                    (addressed conn chan BLE_GATT_OP_DISC_ALL_SVCS) b = false)
          as Hoth1' by (intros b Hb; rewrite app_nil_r in Hb; auto).
        destruct (IH w1 (l1 ++ l2) a [] c1
                    (seen_up_to (adata_end_group_handle e) s)
                    Hq1 Hoth1' Hc1 Haddr1 Hun1)
          as (w' & e2 & Hrun2 & Htr2 & Hn2 & Htx2 & Hoth2 & Hfin).
        cbn [seen_up_to disc_all_svcs.prev_handle disc_all_svcs.cb
             disc_all_svcs.cb_arg] in Hn2, Hfin.
        rewrite Hcb1 in Hn2, Hfin.
        rewrite (svc_walk_ext P a (rec c1)
                   (seen_up_to (adata_end_group_handle e) s) (rec c) s)
          in Hn2, Hfin by auto.
        exists w', (e1 ++ e2). split; [exact Hrun2|].
        split; [rewrite Htr2, Htr1; now rewrite <- app_assoc|].
        cbn [told stored in_progress].
        split; [now rewrite notices_app, Hn1, Hn2|].
        split; [now rewrite transmitted_app, Htx1, Htx2|].
        split; [intros b Hb; apply Hoth2; now rewrite app_nil_r|].
        destruct (in_progress _).
        -- destruct Hfin as (Hq2 & c2 & s2 & Hc2 & Hun2 & Hp2 & Hcb2 & Harg2).
           split.
           { destruct es; rewrite ?app_nil_r in Hq2; exact Hq2. }
           exists c2, s2. split; [exact Hc2|]. split; [exact Hun2|].
           split; [now rewrite last_cons_default|]. auto.
        -- destruct Hfin as (Hq2 & Hgone). rewrite app_nil_r in Hq2. auto.
      * destruct Hstep as (Hn1 & Hq1 & Hgone).
        now apply Hover.
    + destruct Hstep as (Hn1 & Hq1 & Hgone).
      now apply Hover.
Qed.

(** C5 (as amended).  The table holds one record [a] that the Read By
    Group Type responses on channel [chan] of connection [conn] are
    meant for, a discovery of all services with state [s].  Handing
    the engine any sequence [es] of attribute data entries returns,
    transmits nothing, and tells the application what the course
    [svc_walk] says, where an entry announces a service when its value
    is a UUID of 2 or 16 bytes that parses and its end group handle is
    above [prev_handle]:
    - such an entry has its end group handle stored in [prev_handle]
      before the callback is called with status 0 and the service, and
      the procedure goes on when the callback answers 0;
    - any other entry, be it out of order or malformed, is reported
      once as BLE_HS_EBADDATA with [prev_handle] as it was, the record
      is freed, and no later entry causes any call;
    - the handles stored in [prev_handle] rise strictly, and while the
      procedure is in progress the record in the table holds the last
      of them. *)
Theorem ble_gattc_rx_read_group_type_adata_in_order
    P conn chan es w l1 a l2 c s :
  platform_ok P ->
  is_queue (mem w) (ble_gattc_procs w) (l1 ++ a :: l2) ->
  (forall b, b ∈ l1 ++ l2 ->
     holds (mem w) (addressed conn chan BLE_GATT_OP_DISC_ALL_SVCS) b = false) ->
  mem w !! a = Some c ->
  addressed conn chan BLE_GATT_OP_DISC_ALL_SVCS (rec c) = true ->
  un (rec c) = U_disc_all_svcs s ->
  let prev := disc_all_svcs.prev_handle s in
  let course := svc_walk P a (rec c) s prev (cb_rcs (host w)) es in
  let bad e := svc_report (rec c) s (BLE_HS_EBADDATA P) (refused_svc P e)
               ++ [n_free a] in
  (exists w' evs,
     rx_read_group_type_entries P conn chan es w = Ok (tt, w') /\
     trace (host w') = trace (host w) ++ evs /\
     notices evs = told course /\ transmitted evs = [] /\
     if in_progress course then
       is_queue (mem w') (ble_gattc_procs w')
         (match es with [] => l1 ++ a :: l2 | _ => (l1 ++ l2) ++ [a] end) /\
       exists c' s',
         mem w' !! a = Some c' /\ un (rec c') = U_disc_all_svcs s' /\
         disc_all_svcs.prev_handle s' = default prev (last (stored course)) /\
         disc_all_svcs.cb s' = disc_all_svcs.cb s /\
         disc_all_svcs.cb_arg s' = disc_all_svcs.cb_arg s
     else
       is_queue (mem w') (ble_gattc_procs w') (l1 ++ l2) /\
       mem w' !! a = None /\
       forall es',
       exists w'',
         rx_read_group_type_entries P conn chan es' w' = Ok (tt, w'') /\
         host w'' = host w' /\ mem w'' !! a = None /\
         is_queue (mem w'') (ble_gattc_procs w'') (l1 ++ l2)) /\
  StronglySorted Z.lt (prev :: stored course) /\
  (forall e es', es = e :: es' ->
     (adata_end_group_handle e <= prev \/
      (adata_value_len e <> 2 /\ adata_value_len e <> 16) \/
      ble_uuid_init_from_att_buf P (adata_value e) (adata_value_len e) = None ->
      told course = bad e /\ stored course = [] /\
      in_progress course = false) /\
     (forall id,
        prev < adata_end_group_handle e ->
        adata_value_len e = 2 \/ adata_value_len e = 16 ->
        ble_uuid_init_from_att_buf P (adata_value e) (adata_value_len e)
        = Some id ->
        let svc := {| start_handle := Some (adata_att_handle e);
                      end_handle := Some (adata_end_group_handle e);
                      uuid := Some id |} in
        let r' := set_un (U_disc_all_svcs
                            (seen_up_to (adata_end_group_handle e) s))
                    (rec c) in
        ble_gattc_disc_all_svcs_rx_adata P (rec c) e
        = bind (ble_gattc_disc_all_svcs_cb P r' 0 0 (Some svc))
            (fun cbrc => if negb (cbrc =? 0) then ret (BLE_HS_EDONE P, r')
                         else ret (0, r')) /\
        head (stored course) = Some (adata_end_group_handle e) /\
        if answer (disc_all_svcs.cb s) (host w) =? 0 then
          let rest := svc_walk P a (rec c) s (adata_end_group_handle e)
                        (answers_left (disc_all_svcs.cb s) (cb_rcs (host w)))
                        es' in
          told course = svc_report (rec c) s 0 svc ++ told rest /\
          stored course = adata_end_group_handle e :: stored rest /\
          in_progress course = in_progress rest
        else
          told course = svc_report (rec c) s 0 svc ++ [n_free a] /\
          in_progress course = false)).
Proof.
  intros HP Hq Hothers Hc Haddr Hun prev course bad.
  split; [|split].
  - destruct (rx_read_group_type_entries_course P conn chan es HP w l1 a l2
                c s Hq Hothers Hc Haddr Hun)
      as (w' & evs & Hrun & Htr & Hn & Htx & Hoth & Hfin).
    fold prev in Hn, Hfin. fold course in Hn, Hfin.
    exists w', evs. split; [exact Hrun|]. split; [exact Htr|].
    split; [exact Hn|]. split; [exact Htx|].
    destruct (in_progress course); [exact Hfin|].
    destruct Hfin as (Hq' & Hgone). split; [exact Hq'|].
    split; [exact Hgone|]. intros es'.
    destruct (rx_read_group_type_entries_absent P conn chan es' w' (l1 ++ l2)
                Hq' Hoth) as (w'' & Hrun' & Hh' & Hq'' & Hr').
    exists w''. split; [exact Hrun'|]. split; [exact Hh'|].
    split; [|exact Hq''].
    specialize (Hr' a). rewrite Hgone in Hr'.
    destruct (mem w'' !! a); [discriminate|reflexivity].
  - apply svc_walk_sorted.
  - intros e es' ->. subst course. cbn [svc_walk]. split.
    + intros Hbad.
      assert (announced P prev e = None) as ->; [|auto].
      unfold announced.
      destruct ((adata_value_len e =? 2) || (adata_value_len e =? 16))
        eqn:Hlen; [|reflexivity].
      destruct (ble_uuid_init_from_att_buf P (adata_value e)
                  (adata_value_len e)) as [id|] eqn:Hid; [|reflexivity].
      destruct Hbad as [Hle|[[H2 H16]|Hnone]]; [| |discriminate].
      * now rewrite (proj2 (Z.ltb_ge _ _) Hle).
      * apply orb_true_iff in Hlen as [H|H]; apply Z.eqb_eq in H;
          contradiction.
    + intros id Hlt Hlen Hid.
      set (svc := {| start_handle := Some (adata_att_handle e);
                     end_handle := Some (adata_end_group_handle e);
                     uuid := Some id |}).
      assert (announced P prev e = Some svc) as Han.
      { unfold announced.
        replace ((adata_value_len e =? 2) || (adata_value_len e =? 16))
          with true
          by (symmetry; apply orb_true_iff; rewrite !Z.eqb_eq; exact Hlen).
        rewrite Hid. now rewrite (proj2 (Z.ltb_lt _ _) Hlt). }
      rewrite Han. split.
      { unfold ble_gattc_disc_all_svcs_rx_adata, as_disc_all_svcs.
        rewrite Hun. unfold bind at 1, ret at 1.
        replace ((adata_value_len e =? 2) || (adata_value_len e =? 16))
          with true
          by (symmetry; apply orb_true_iff; rewrite !Z.eqb_eq; exact Hlen).
        rewrite Hid. fold prev. rewrite (proj2 (Z.leb_gt _ _) Hlt).
        reflexivity. }
      unfold goes_on, answer.
      destruct (disc_all_svcs.cb s) as [fn|].
      * destruct (hd 0 (cb_rcs (host w)) =? 0); cbn [stored told in_progress];
          auto.
      * cbn [Z.eqb stored told in_progress]. auto.
Qed.

Lemma ble_gattc_rx_read_group_type_adata_in_order_witness :
  let entry h1 h2 := {| adata_att_handle := h1; adata_end_group_handle := h2;
                        adata_value_len := 2; adata_value := [0; 24] |} in
  let report st svc := n_call (call_disc_svc_fn 100 1 (final_error st)
                                 (Some svc) 0) in
  let svc h1 h2 := {| start_handle := Some h1; end_handle := Some h2;
                      uuid := Some (uuid16 6144) |} in
  (exists w' c',
     rx_read_group_type_entries nimble 1 4 [entry 11 20; entry 21 30]
       (one_proc disc_proc) = Ok (tt, w') /\
     notices (trace (host w'))
     = [report 0 (svc 11 20); report 0 (svc 21 30)] /\
     mem w' !! 0%nat = Some c' /\
     un (rec c')
     = U_disc_all_svcs {| disc_all_svcs.prev_handle := 30;
                          disc_all_svcs.cb := Some 100;
                          disc_all_svcs.cb_arg := 0 |}) /\
  (exists w',
     rx_read_group_type_entries nimble 1 4
       [entry 11 20; entry 5 8; entry 21 30] (one_proc disc_proc)
     = Ok (tt, w') /\
     notices (trace (host w'))
     = [report 0 (svc 11 20);
        report 10 {| start_handle := None; end_handle := None;
                     uuid := Some (uuid16 6144) |};
        n_free 0%nat] /\
     mem w' !! 0%nat = None).
Proof.
  intros entry report svc.
  set (s := {| disc_all_svcs.prev_handle := 10;
               disc_all_svcs.cb := Some 100; disc_all_svcs.cb_arg := 0 |}).
  assert (forall b : addr, b ∈ @nil addr ++ [] ->
            holds (mem (one_proc disc_proc))
              (addressed 1 4 BLE_GATT_OP_DISC_ALL_SVCS) b = false) as Hnone
    by (intros b Hb; inversion Hb).
  split.
  - destruct (ble_gattc_rx_read_group_type_adata_in_order nimble 1 4
                [entry 11 20; entry 21 30] (one_proc disc_proc) [] 0%nat []
                {| next := None; rec := disc_proc |} s
                (nimble_cfg_ok _ _ _) (one_proc_queue _) Hnone
                eq_refl eq_refl eq_refl)
      as ((w' & evs & Hrun & Htr & Hn & _ & Hfin) & _).
    destruct Hfin as (_ & c' & s' & Hc' & Hun' & Hp & Hcb & Harg).
    exists w', c'. split; [exact Hrun|].
    split; [cbn in Htr; rewrite Htr; exact Hn|]. split; [exact Hc'|].
    rewrite Hun'. destruct s' as [p f x]. cbn in Hp, Hcb, Harg.
    now subst p f x.
  - destruct (ble_gattc_rx_read_group_type_adata_in_order nimble 1 4
                [entry 11 20; entry 5 8; entry 21 30] (one_proc disc_proc)
                [] 0%nat [] {| next := None; rec := disc_proc |} s
                (nimble_cfg_ok _ _ _) (one_proc_queue _) Hnone
                eq_refl eq_refl eq_refl)
      as ((w' & evs & Hrun & Htr & Hn & _ & Hfin) & _).
    destruct Hfin as (_ & Hgone & _).
    exists w'. split; [exact Hrun|].
    split; [cbn in Htr; rewrite Htr; exact Hn|exact Hgone].
Defined.

(** C5 (as stated) fails: an entry whose end group handle (20) is
    above [prev_handle] (10) but whose value is not a UUID (3 bytes)
    does not have its end group handle stored and its service
    reported: the handler leaves the record as it was and returns
    BLE_HS_EDONE, the callback is told BLE_HS_EBADDATA, and the record
    is freed. *)
Lemma ble_gattc_rx_read_group_type_adata_malformed :
  let e := {| adata_att_handle := 11; adata_end_group_handle := 20;
              adata_value_len := 3; adata_value := [0; 24; 1] |} in
  un disc_proc
  = U_disc_all_svcs {| disc_all_svcs.prev_handle := 10;
                       disc_all_svcs.cb := Some 100;
                       disc_all_svcs.cb_arg := 0 |} /\
  10 < adata_end_group_handle e /\
  (exists g',
     ble_gattc_disc_all_svcs_rx_adata nimble disc_proc e (host_at 0 [] [])
     = Ok ((BLE_HS_EDONE nimble, disc_proc), g')) /\
  exists w',
    ble_gattc_rx_read_group_type_adata nimble 1 4 e (one_proc disc_proc)
    = Ok (tt, w') /\
    notices (trace (host w'))
    = [n_call (call_disc_svc_fn 100 1 (final_error (BLE_HS_EBADDATA nimble))
                 (Some {| start_handle := None; end_handle := None;
                          uuid := None |}) 0);
       n_free 0%nat] /\
    mem w' !! 0%nat = None.
Proof.
  intros e. split; [reflexivity|]. split; [reflexivity|]. split.
  - eexists. vm_compute. reflexivity.
  - eexists. split; [vm_compute; reflexivity|].
    split; vm_compute; reflexivity.
Qed.
